(** * zkRTOS kernel: a shallow embedding and its properties

    The development follows the C sources of the kernel:

    - [zk_def.h]      types, error codes, the intrusive list, time comparison
    - [zk_time.c]     the tick counter
    - [zk_scheduler.c] ready/delay/blocked lists, [schedule], the tick handler
    - [zk_task.c]     [get_highest_priority_task], [task_delay], priority changes
    - [zk_sem.c]      counting semaphores
    - [zk_mutex.c]    recursive mutexes with chained priority inheritance
    - [zk_queue.c]    bounded message queues
    - [zk_mem.c]      the first-fit heap
    - [zk_cpu_cm3.h], [context_rvds.s]  critical sections, PendSV, RBIT+CLZ

    Conventions.  A [zk_uint32] is a [Z] with the wrap-around written out
    ([uint32]); a [zk_uint8] likewise ([uint8]).  A pointer to a task control
    block is a [tcb_ptr]; a handle is an index into a pool.  The kernel's
    global variables are the fields of one record, [kernel], threaded through
    every function.  Behaviour that C leaves undefined (a store through the
    null pointer, an array index past the end, reading a list head as if it
    were a task control block) is an explicit [Fault]. *)

From Stdlib Require Import ZArith Lia.
From Stdlib.Strings Require Import Byte.
From stdpp Require Import prelude functions.
Local Open Scope Z_scope.

(** ** Machine arithmetic *)

Definition ZK_UINT32_MAX : Z := 0xFFFFFFFF.

(** Conversion to [zk_uint32]: reduction modulo 2^32. *)
Definition uint32 (x : Z) : Z := x mod 2 ^ 32.

(** Conversion to [zk_uint8]. *)
Definition uint8 (x : Z) : Z := x mod 2 ^ 8.

(** Conversion of a 32-bit pattern to the signed type of the same width
    (two's complement; [long] and [zk_int32] are 32 bits wide on the
    Cortex-M3 target). *)
Definition int32 (x : Z) : Z :=
  let u := uint32 x in if decide (u < 2 ^ 31) then u else u - 2 ^ 32.

(** ** Outcomes of kernel code *)

Inductive fault :=
| NULL_DEREFERENCE   (* a load or store through a null list pointer *)
| LIST_CORRUPTED     (* a node is linked while it is still a member of a list *)
| NOT_A_TCB          (* ZK_LIST_GET_FIRST_ENTRY on an empty list: the head read as a TCB *)
| OUT_OF_BOUNDS      (* an array indexed past its end *)
| ASSERT_FAILED.     (* ZK_ASSERT in a DEBUG_ASSERT build: prints and spins for ever *)

Inductive result (A : Type) :=
| Ok (a : A)
| Fault (f : fault).
Arguments Ok {A} a.
Arguments Fault {A} f.

#[global] Instance result_ret : MRet result := @Ok.
#[global] Instance result_bind : MBind result :=
  λ A B f m, match m with Ok a => f a | Fault e => Fault e end.

#[global] Instance result_fmap : FMap result :=
  λ A B f m, match m with Ok a => Ok (f a) | Fault e => Fault e end.

(** ** Enumerations of [zk_def.h] *)

Inductive zk_error_code_t :=
| ZK_SUCCESS
| ZK_ERR_FAILED
| ZK_ERR_STATE
| ZK_ERR_NOT_SUPPORTED
| ZK_ERR_INVALID_PARAM
| ZK_ERR_INVALID_HANDLE
| ZK_ERR_OUT_OF_RANGE
| ZK_ERR_NOT_ENOUGH_MEMORY
| ZK_ERR_RESOURCE_UNAVAILABLE
| ZK_ERR_TIMEOUT
| ZK_ERR_TASK_INVALID
| ZK_ERR_TASK_NOT_FOUND
| ZK_ERR_TASK_PRIORITY_CONFLICT
| ZK_ERR_SYNC_INVALID
| ZK_ERR_SYNC_NOT_OWNER
| ZK_ERR_SYNC_DEADLOCK
| ZK_ERR_QUEUE_SIZE_MISMATCH
| ZK_ERR_MEMORY_CORRUPTION
| ZK_ERR_IN_INTERRUPT.

Inductive task_state_t :=
| TASK_READY
| TASK_DELAY
| TASK_SUSPEND
| TASK_ENDLESS_BLOCKED
| TASK_TIMEOUT_BLOCKED
| TASK_UNKNOWN.

Inductive block_sort_type_t := BLOCK_SORT_FIFO | BLOCK_SORT_PRIO.

Inductive block_type_t := BLOCK_TYPE_ENDLESS | BLOCK_TYPE_TIMEOUT.

Inductive scheduler_state_list_t :=
| READY_LIST | DELAY_LIST | SUSPEND_LIST | BLOCKED_TIMEOUT_LIST.

Inductive event_timeout_wakeup_t := EVENT_NO_TIMEOUT | EVENT_WAIT_TIMEOUT.

#[global] Instance zk_error_code_eq_dec : EqDecision zk_error_code_t.
Proof. solve_decision. Defined.
#[global] Instance task_state_eq_dec : EqDecision task_state_t.
Proof. solve_decision. Defined.
#[global] Instance block_type_eq_dec : EqDecision block_type_t.
Proof. solve_decision. Defined.
#[global] Instance event_timeout_wakeup_eq_dec : EqDecision event_timeout_wakeup_t.
Proof. solve_decision. Defined.

(** ** Configuration ([zk_def.h]) *)

Definition ZK_BYTE_ALIGNMENT : Z := 8.
Definition ZK_BYTE_ALIGNMENT_MASK : Z := ZK_BYTE_ALIGNMENT - 1.
Definition ZK_PRIORITY_NUM : Z := 32.
Definition ZK_MIN_PRIORITY : Z := ZK_PRIORITY_NUM - 1.
Definition SCHEDULE_TIME_SLICE_INIT_VALUE : Z := 5.
Definition CONFIG_TOTAL_MEM_SIZE : Z := 10 * 1024.
Definition SEM_COUNT_MAX : Z := 0xFFFE.
Definition ZK_TIMEOUT_INFINITE : Z := 0xFFFFFFFF.
Definition ZK_TIMEOUT_NONE : Z := 0.
Definition ZK_BIT_MASK_0 : Z := 1.
Definition ZK_TIME_MAX : Z := ZK_UINT32_MAX.
Definition ZK_TSK_DLY_MAX : Z := ZK_TIME_MAX / 2.

(** [zk_time_is_reached(now, target)]: [((long)(now) - (long)(target)) >= 0],
    with [long] 32 bits wide and the subtraction wrapping. *)
Definition zk_time_is_reached (now target : Z) : bool :=
  bool_decide (0 <= int32 (int32 now - int32 target)).

(** ** The intrusive list of [zk_def.h]

    [zk_list_node_t] is a pair of pointers [pre], [next]; a list is circular,
    doubly linked, with a sentinel head.  The nodes of the kernel are known
    statically: the heads are fields of [g_scheduler] and of the pool
    entries, the members are the two nodes embedded in every task control
    block.  A list is represented by the sequence of its members in [next]
    order starting after the head; [link n] records the list node [n] is
    currently a member of ([None]: [n->pre] and [n->next] are null, as
    [zk_list_delete] leaves them). *)

Definition tcb_ptr := nat.
Bind Scope nat_scope with tcb_ptr.

Inductive list_head :=
| ready_list (priority : Z)           (* g_scheduler.ready_list[priority] *)
| delay_list                          (* g_scheduler.delay_list *)
| suspend_list                        (* g_scheduler.suspend_list *)
| block_timeout_list                  (* g_scheduler.block_timeout_list *)
| wait_list (sem_handle : nat)        (* g_sem_pool[h].wait_list *)
| sleep_list (mutex_handle : nat)     (* g_mutex_pool[h].sleep_list *)
| reader_sleep_list (queue_handle : nat)
| writer_sleep_list (queue_handle : nat).

Inductive list_member :=
| state_node (tcb : tcb_ptr)          (* &tcb->state_node *)
| event_sleep_list (tcb : tcb_ptr).   (* &tcb->event_sleep_list *)

(** A value of type [zk_list_node_t *] that is not null. *)
Inductive node_ptr :=
| HEAD (h : list_head)
| NODE (n : list_member).

#[global] Instance list_head_eq_dec : EqDecision list_head.
Proof. solve_decision. Defined.
#[global] Instance list_member_eq_dec : EqDecision list_member.
Proof. solve_decision. Defined.
#[global] Instance node_ptr_eq_dec : EqDecision node_ptr.
Proof. solve_decision. Defined.

(** [ZK_LIST_GET_OWNER(ptr, task_control_block_t, member)] *)
Definition ZK_LIST_GET_OWNER (n : list_member) : tcb_ptr :=
  match n with state_node t => t | event_sleep_list t => t end.

Record zk_lists := mk_lists {
  members : list_head -> list list_member;
  link : list_member -> option list_head
}.

Fixpoint remove_node (n : list_member) (l : list list_member) : list list_member :=
  match l with
  | [] => []
  | x :: r => if decide (x = n) then r else x :: remove_node n r
  end.

Fixpoint insert_before (new old : list_member) (l : list list_member)
  : list list_member :=
  match l with
  | [] => [new]
  | x :: r => if decide (x = old) then new :: x :: r else x :: insert_before new old r
  end.

Fixpoint insert_after (new old : list_member) (l : list list_member)
  : list list_member :=
  match l with
  | [] => [new]
  | x :: r => if decide (x = old) then x :: new :: r else x :: insert_after new old r
  end.

(** [n->next] for a member [n] of the list [h] with members [l]. *)
Fixpoint next_of (h : list_head) (n : list_member) (l : list list_member) : node_ptr :=
  match l with
  | [] => HEAD h
  | x :: r =>
      if decide (x = n) then match r with [] => HEAD h | y :: _ => NODE y end
      else next_of h n r
  end.

(** [n->pre], with [prev] the node before the first element of [l]. *)
Fixpoint pre_of (prev : node_ptr) (n : list_member) (l : list list_member) : node_ptr :=
  match l with
  | [] => prev
  | x :: r => if decide (x = n) then prev else pre_of (NODE x) n r
  end.

Definition node_next (n : list_member) (ls : zk_lists) : option node_ptr :=
  h ← link ls n; Some (next_of h n (members ls h)).

Definition node_pre (n : list_member) (ls : zk_lists) : option node_ptr :=
  h ← link ls n; Some (pre_of (HEAD h) n (members ls h)).

Definition head_next (h : list_head) (ls : zk_lists) : node_ptr :=
  match members ls h with [] => HEAD h | n :: _ => NODE n end.

Definition head_pre (h : list_head) (ls : zk_lists) : node_ptr :=
  match rev (members ls h) with [] => HEAD h | n :: _ => NODE n end.

Definition zk_list_init (list : list_head) (ls : zk_lists) : zk_lists :=
  mk_lists (<[list := []]> (members ls)) (link ls).

Definition zk_list_is_empty (list : list_head) (ls : zk_lists) : bool :=
  bool_decide (head_next list ls = HEAD list).

Definition zk_list_add_after (new : list_member) (old : node_ptr) (ls : zk_lists)
  : result zk_lists :=
  match link ls new with
  | Some _ => Fault LIST_CORRUPTED
  | None =>
      match old with
      | HEAD h =>
          Ok (mk_lists (<[h := new :: members ls h]> (members ls))
                       (<[new := Some h]> (link ls)))
      | NODE o =>
          match link ls o with
          | None => Fault NULL_DEREFERENCE
          | Some h =>
              Ok (mk_lists (<[h := insert_after new o (members ls h)]> (members ls))
                           (<[new := Some h]> (link ls)))
          end
      end
  end.

Definition zk_list_add_before (new : list_member) (old : node_ptr) (ls : zk_lists)
  : result zk_lists :=
  match link ls new with
  | Some _ => Fault LIST_CORRUPTED
  | None =>
      match old with
      | HEAD h =>
          Ok (mk_lists (<[h := members ls h ++ [new]]> (members ls))
                       (<[new := Some h]> (link ls)))
      | NODE o =>
          match link ls o with
          | None => Fault NULL_DEREFERENCE
          | Some h =>
              Ok (mk_lists (<[h := insert_before new o (members ls h)]> (members ls))
                           (<[new := Some h]> (link ls)))
          end
      end
  end.

Definition zk_list_delete (node : list_member) (ls : zk_lists) : result zk_lists :=
  match link ls node with
  | None => Fault NULL_DEREFERENCE
  | Some h =>
      Ok (mk_lists (<[h := remove_node node (members ls h)]> (members ls))
                   (<[node := None]> (link ls)))
  end.

Definition zk_list_move_to_tail (list : list_member) (head : list_head) (ls : zk_lists)
  : result zk_lists :=
  ls1 ← zk_list_delete list ls;
  zk_list_add_before list (HEAD head) ls1.

(** [ZK_LIST_GET_FIRST_ENTRY(ptr, task_control_block_t, member)]: the owner of
    [ptr->next].  On an empty list [ptr->next] is the head itself. *)
Definition ZK_LIST_GET_FIRST_ENTRY (list : list_head) (ls : zk_lists) : result tcb_ptr :=
  match head_next list ls with
  | HEAD _ => Fault NOT_A_TCB
  | NODE n => Ok (ZK_LIST_GET_OWNER n)
  end.

(** ** Kernel objects ([zk_def.h])

    Fields that no kernel decision reads (saved stack pointer, name, stack
    bounds, run-time statistics) are left out.  The two list nodes of a task
    control block live in [lists]; a [struct mutex *] is an index into the
    mutex pool. *)

Record task_control_block_t := mk_tcb {
  priority : Z;
  base_priority : Z;
  state : task_state_t;
  event_timeout_wakeup : event_timeout_wakeup_t;
  wake_up_time : Z;
  holding_mutex : option nat
}.

Inductive sem_status_t := SEM_UNUSED | SEM_USED.

Record semaphore_t := mk_sem {
  count : Z;
  sem_is_used : sem_status_t
}.

Inductive mutex_status_t := MUTEX_UNUSED | MUTEX_USED.

Record mutex_t := mk_mutex {
  owner : option tcb_ptr;
  owner_hold_count : Z;
  owner_priority : Z;
  mutex_is_used : mutex_status_t;
  next_mutex : option nat
}.

Inductive queue_state_t := QUEUE_UNUSED | QUEUE_USED.

Record queue_t := mk_queue {
  data_buffer : Z;
  read_pos : Z;
  write_pos : Z;
  element_single_size : Z;
  element_num : Z;
  queue_is_used : queue_state_t
}.

(** A heap block: the address of its header and the [size] stored there. *)
Record mem_block_t := mk_block {
  block_addr : Z;
  block_size : Z
}.

Record mem_manager_t := mk_mem {
  free_list : list mem_block_t;
  used_list : list mem_block_t;
  base_address : Z;
  total_size : Z;
  available_size : Z;
  is_initialized : bool;
  peak_used_size : Z;
  alloc_count : Z;
  free_count : Z;
  alloc_fail_count : Z;
  free_block_count : Z;
  used_block_count : Z
}.

(** The global variables of the kernel. *)
Record kernel := mk_kernel {
  tcbs : tcb_ptr -> task_control_block_t   (* the task control blocks, by address *);
  lists : zk_lists   (* every zk_list_node_t of the kernel *);
  priority_active : Z   (* g_scheduler.priority_active *);
  scheduler_suspend_nesting : Z   (* g_scheduler.scheduler_suspend_nesting *);
  re_schedule_pending : Z   (* g_scheduler.re_schedule_pending *);
  g_schedule_time_slice : Z;
  g_current_tcb : tcb_ptr;
  g_switch_next_tcb : tcb_ptr;
  g_current_time : Z;
  zk_critical_nesting : Z;
  pendsv_pending : bool   (* PENDSVSET, written by zk_cpu_trigger_pendsv *);
  g_sem_pool : list semaphore_t;
  g_mutex_pool : list mutex_t;
  g_queue_pool : list queue_t;
  g_mem_manager : mem_manager_t;
  memory : Z -> byte   (* the bytes of the address space *)
}.

#[global] Instance sem_status_eq_dec : EqDecision sem_status_t.
Proof. solve_decision. Defined.
#[global] Instance mutex_status_eq_dec : EqDecision mutex_status_t.
Proof. solve_decision. Defined.
#[global] Instance queue_state_eq_dec : EqDecision queue_state_t.
Proof. solve_decision. Defined.
#[global] Instance mem_block_eq_dec : EqDecision mem_block_t.
Proof. solve_decision. Defined.
#[global] Instance mem_manager_eq_dec : EqDecision mem_manager_t.
Proof. solve_decision. Defined.

(** Field updates. *)

Definition with_priority (v : Z) (t : task_control_block_t) : task_control_block_t :=
  mk_tcb v (base_priority t) (state t) (event_timeout_wakeup t) (wake_up_time t) (holding_mutex t).
Definition with_base_priority (v : Z) (t : task_control_block_t) : task_control_block_t :=
  mk_tcb (priority t) v (state t) (event_timeout_wakeup t) (wake_up_time t) (holding_mutex t).
Definition with_state (v : task_state_t) (t : task_control_block_t) : task_control_block_t :=
  mk_tcb (priority t) (base_priority t) v (event_timeout_wakeup t) (wake_up_time t) (holding_mutex t).
Definition with_event_timeout_wakeup (v : event_timeout_wakeup_t) (t : task_control_block_t) : task_control_block_t :=
  mk_tcb (priority t) (base_priority t) (state t) v (wake_up_time t) (holding_mutex t).
Definition with_wake_up_time (v : Z) (t : task_control_block_t) : task_control_block_t :=
  mk_tcb (priority t) (base_priority t) (state t) (event_timeout_wakeup t) v (holding_mutex t).
Definition with_holding_mutex (v : option nat) (t : task_control_block_t) : task_control_block_t :=
  mk_tcb (priority t) (base_priority t) (state t) (event_timeout_wakeup t) (wake_up_time t) v.
Definition with_count (v : Z) (s : semaphore_t) : semaphore_t :=
  mk_sem v (sem_is_used s).
Definition with_sem_is_used (v : sem_status_t) (s : semaphore_t) : semaphore_t :=
  mk_sem (count s) v.
Definition with_owner (v : option tcb_ptr) (m : mutex_t) : mutex_t :=
  mk_mutex v (owner_hold_count m) (owner_priority m) (mutex_is_used m) (next_mutex m).
Definition with_owner_hold_count (v : Z) (m : mutex_t) : mutex_t :=
  mk_mutex (owner m) v (owner_priority m) (mutex_is_used m) (next_mutex m).
Definition with_owner_priority (v : Z) (m : mutex_t) : mutex_t :=
  mk_mutex (owner m) (owner_hold_count m) v (mutex_is_used m) (next_mutex m).
Definition with_mutex_is_used (v : mutex_status_t) (m : mutex_t) : mutex_t :=
  mk_mutex (owner m) (owner_hold_count m) (owner_priority m) v (next_mutex m).
Definition with_next_mutex (v : option nat) (m : mutex_t) : mutex_t :=
  mk_mutex (owner m) (owner_hold_count m) (owner_priority m) (mutex_is_used m) v.
Definition with_data_buffer (v : Z) (q : queue_t) : queue_t :=
  mk_queue v (read_pos q) (write_pos q) (element_single_size q) (element_num q) (queue_is_used q).
Definition with_read_pos (v : Z) (q : queue_t) : queue_t :=
  mk_queue (data_buffer q) v (write_pos q) (element_single_size q) (element_num q) (queue_is_used q).
Definition with_write_pos (v : Z) (q : queue_t) : queue_t :=
  mk_queue (data_buffer q) (read_pos q) v (element_single_size q) (element_num q) (queue_is_used q).
Definition with_element_single_size (v : Z) (q : queue_t) : queue_t :=
  mk_queue (data_buffer q) (read_pos q) (write_pos q) v (element_num q) (queue_is_used q).
Definition with_element_num (v : Z) (q : queue_t) : queue_t :=
  mk_queue (data_buffer q) (read_pos q) (write_pos q) (element_single_size q) v (queue_is_used q).
Definition with_queue_is_used (v : queue_state_t) (q : queue_t) : queue_t :=
  mk_queue (data_buffer q) (read_pos q) (write_pos q) (element_single_size q) (element_num q) v.
Definition with_free_list (v : list mem_block_t) (m : mem_manager_t) : mem_manager_t :=
  mk_mem v (used_list m) (base_address m) (total_size m) (available_size m) (is_initialized m) (peak_used_size m) (alloc_count m) (free_count m) (alloc_fail_count m) (free_block_count m) (used_block_count m).
Definition with_used_list (v : list mem_block_t) (m : mem_manager_t) : mem_manager_t :=
  mk_mem (free_list m) v (base_address m) (total_size m) (available_size m) (is_initialized m) (peak_used_size m) (alloc_count m) (free_count m) (alloc_fail_count m) (free_block_count m) (used_block_count m).
Definition with_base_address (v : Z) (m : mem_manager_t) : mem_manager_t :=
  mk_mem (free_list m) (used_list m) v (total_size m) (available_size m) (is_initialized m) (peak_used_size m) (alloc_count m) (free_count m) (alloc_fail_count m) (free_block_count m) (used_block_count m).
Definition with_total_size (v : Z) (m : mem_manager_t) : mem_manager_t :=
  mk_mem (free_list m) (used_list m) (base_address m) v (available_size m) (is_initialized m) (peak_used_size m) (alloc_count m) (free_count m) (alloc_fail_count m) (free_block_count m) (used_block_count m).
Definition with_available_size (v : Z) (m : mem_manager_t) : mem_manager_t :=
  mk_mem (free_list m) (used_list m) (base_address m) (total_size m) v (is_initialized m) (peak_used_size m) (alloc_count m) (free_count m) (alloc_fail_count m) (free_block_count m) (used_block_count m).
Definition with_is_initialized (v : bool) (m : mem_manager_t) : mem_manager_t :=
  mk_mem (free_list m) (used_list m) (base_address m) (total_size m) (available_size m) v (peak_used_size m) (alloc_count m) (free_count m) (alloc_fail_count m) (free_block_count m) (used_block_count m).
Definition with_peak_used_size (v : Z) (m : mem_manager_t) : mem_manager_t :=
  mk_mem (free_list m) (used_list m) (base_address m) (total_size m) (available_size m) (is_initialized m) v (alloc_count m) (free_count m) (alloc_fail_count m) (free_block_count m) (used_block_count m).
Definition with_alloc_count (v : Z) (m : mem_manager_t) : mem_manager_t :=
  mk_mem (free_list m) (used_list m) (base_address m) (total_size m) (available_size m) (is_initialized m) (peak_used_size m) v (free_count m) (alloc_fail_count m) (free_block_count m) (used_block_count m).
Definition with_free_count (v : Z) (m : mem_manager_t) : mem_manager_t :=
  mk_mem (free_list m) (used_list m) (base_address m) (total_size m) (available_size m) (is_initialized m) (peak_used_size m) (alloc_count m) v (alloc_fail_count m) (free_block_count m) (used_block_count m).
Definition with_alloc_fail_count (v : Z) (m : mem_manager_t) : mem_manager_t :=
  mk_mem (free_list m) (used_list m) (base_address m) (total_size m) (available_size m) (is_initialized m) (peak_used_size m) (alloc_count m) (free_count m) v (free_block_count m) (used_block_count m).
Definition with_free_block_count (v : Z) (m : mem_manager_t) : mem_manager_t :=
  mk_mem (free_list m) (used_list m) (base_address m) (total_size m) (available_size m) (is_initialized m) (peak_used_size m) (alloc_count m) (free_count m) (alloc_fail_count m) v (used_block_count m).
Definition with_used_block_count (v : Z) (m : mem_manager_t) : mem_manager_t :=
  mk_mem (free_list m) (used_list m) (base_address m) (total_size m) (available_size m) (is_initialized m) (peak_used_size m) (alloc_count m) (free_count m) (alloc_fail_count m) (free_block_count m) v.
Definition with_tcbs (v : tcb_ptr -> task_control_block_t) (k : kernel) : kernel :=
  mk_kernel v (lists k) (priority_active k) (scheduler_suspend_nesting k) (re_schedule_pending k) (g_schedule_time_slice k) (g_current_tcb k) (g_switch_next_tcb k) (g_current_time k) (zk_critical_nesting k) (pendsv_pending k) (g_sem_pool k) (g_mutex_pool k) (g_queue_pool k) (g_mem_manager k) (memory k).
Definition with_lists (v : zk_lists) (k : kernel) : kernel :=
  mk_kernel (tcbs k) v (priority_active k) (scheduler_suspend_nesting k) (re_schedule_pending k) (g_schedule_time_slice k) (g_current_tcb k) (g_switch_next_tcb k) (g_current_time k) (zk_critical_nesting k) (pendsv_pending k) (g_sem_pool k) (g_mutex_pool k) (g_queue_pool k) (g_mem_manager k) (memory k).
Definition with_priority_active (v : Z) (k : kernel) : kernel :=
  mk_kernel (tcbs k) (lists k) v (scheduler_suspend_nesting k) (re_schedule_pending k) (g_schedule_time_slice k) (g_current_tcb k) (g_switch_next_tcb k) (g_current_time k) (zk_critical_nesting k) (pendsv_pending k) (g_sem_pool k) (g_mutex_pool k) (g_queue_pool k) (g_mem_manager k) (memory k).
Definition with_scheduler_suspend_nesting (v : Z) (k : kernel) : kernel :=
  mk_kernel (tcbs k) (lists k) (priority_active k) v (re_schedule_pending k) (g_schedule_time_slice k) (g_current_tcb k) (g_switch_next_tcb k) (g_current_time k) (zk_critical_nesting k) (pendsv_pending k) (g_sem_pool k) (g_mutex_pool k) (g_queue_pool k) (g_mem_manager k) (memory k).
Definition with_re_schedule_pending (v : Z) (k : kernel) : kernel :=
  mk_kernel (tcbs k) (lists k) (priority_active k) (scheduler_suspend_nesting k) v (g_schedule_time_slice k) (g_current_tcb k) (g_switch_next_tcb k) (g_current_time k) (zk_critical_nesting k) (pendsv_pending k) (g_sem_pool k) (g_mutex_pool k) (g_queue_pool k) (g_mem_manager k) (memory k).
Definition with_g_schedule_time_slice (v : Z) (k : kernel) : kernel :=
  mk_kernel (tcbs k) (lists k) (priority_active k) (scheduler_suspend_nesting k) (re_schedule_pending k) v (g_current_tcb k) (g_switch_next_tcb k) (g_current_time k) (zk_critical_nesting k) (pendsv_pending k) (g_sem_pool k) (g_mutex_pool k) (g_queue_pool k) (g_mem_manager k) (memory k).
Definition with_g_current_tcb (v : tcb_ptr) (k : kernel) : kernel :=
  mk_kernel (tcbs k) (lists k) (priority_active k) (scheduler_suspend_nesting k) (re_schedule_pending k) (g_schedule_time_slice k) v (g_switch_next_tcb k) (g_current_time k) (zk_critical_nesting k) (pendsv_pending k) (g_sem_pool k) (g_mutex_pool k) (g_queue_pool k) (g_mem_manager k) (memory k).
Definition with_g_switch_next_tcb (v : tcb_ptr) (k : kernel) : kernel :=
  mk_kernel (tcbs k) (lists k) (priority_active k) (scheduler_suspend_nesting k) (re_schedule_pending k) (g_schedule_time_slice k) (g_current_tcb k) v (g_current_time k) (zk_critical_nesting k) (pendsv_pending k) (g_sem_pool k) (g_mutex_pool k) (g_queue_pool k) (g_mem_manager k) (memory k).
Definition with_g_current_time (v : Z) (k : kernel) : kernel :=
  mk_kernel (tcbs k) (lists k) (priority_active k) (scheduler_suspend_nesting k) (re_schedule_pending k) (g_schedule_time_slice k) (g_current_tcb k) (g_switch_next_tcb k) v (zk_critical_nesting k) (pendsv_pending k) (g_sem_pool k) (g_mutex_pool k) (g_queue_pool k) (g_mem_manager k) (memory k).
Definition with_zk_critical_nesting (v : Z) (k : kernel) : kernel :=
  mk_kernel (tcbs k) (lists k) (priority_active k) (scheduler_suspend_nesting k) (re_schedule_pending k) (g_schedule_time_slice k) (g_current_tcb k) (g_switch_next_tcb k) (g_current_time k) v (pendsv_pending k) (g_sem_pool k) (g_mutex_pool k) (g_queue_pool k) (g_mem_manager k) (memory k).
Definition with_pendsv_pending (v : bool) (k : kernel) : kernel :=
  mk_kernel (tcbs k) (lists k) (priority_active k) (scheduler_suspend_nesting k) (re_schedule_pending k) (g_schedule_time_slice k) (g_current_tcb k) (g_switch_next_tcb k) (g_current_time k) (zk_critical_nesting k) v (g_sem_pool k) (g_mutex_pool k) (g_queue_pool k) (g_mem_manager k) (memory k).
Definition with_g_sem_pool (v : list semaphore_t) (k : kernel) : kernel :=
  mk_kernel (tcbs k) (lists k) (priority_active k) (scheduler_suspend_nesting k) (re_schedule_pending k) (g_schedule_time_slice k) (g_current_tcb k) (g_switch_next_tcb k) (g_current_time k) (zk_critical_nesting k) (pendsv_pending k) v (g_mutex_pool k) (g_queue_pool k) (g_mem_manager k) (memory k).
Definition with_g_mutex_pool (v : list mutex_t) (k : kernel) : kernel :=
  mk_kernel (tcbs k) (lists k) (priority_active k) (scheduler_suspend_nesting k) (re_schedule_pending k) (g_schedule_time_slice k) (g_current_tcb k) (g_switch_next_tcb k) (g_current_time k) (zk_critical_nesting k) (pendsv_pending k) (g_sem_pool k) v (g_queue_pool k) (g_mem_manager k) (memory k).
Definition with_g_queue_pool (v : list queue_t) (k : kernel) : kernel :=
  mk_kernel (tcbs k) (lists k) (priority_active k) (scheduler_suspend_nesting k) (re_schedule_pending k) (g_schedule_time_slice k) (g_current_tcb k) (g_switch_next_tcb k) (g_current_time k) (zk_critical_nesting k) (pendsv_pending k) (g_sem_pool k) (g_mutex_pool k) v (g_mem_manager k) (memory k).
Definition with_g_mem_manager (v : mem_manager_t) (k : kernel) : kernel :=
  mk_kernel (tcbs k) (lists k) (priority_active k) (scheduler_suspend_nesting k) (re_schedule_pending k) (g_schedule_time_slice k) (g_current_tcb k) (g_switch_next_tcb k) (g_current_time k) (zk_critical_nesting k) (pendsv_pending k) (g_sem_pool k) (g_mutex_pool k) (g_queue_pool k) v (memory k).
Definition with_memory (v : Z -> byte) (k : kernel) : kernel :=
  mk_kernel (tcbs k) (lists k) (priority_active k) (scheduler_suspend_nesting k) (re_schedule_pending k) (g_schedule_time_slice k) (g_current_tcb k) (g_switch_next_tcb k) (g_current_time k) (zk_critical_nesting k) (pendsv_pending k) (g_sem_pool k) (g_mutex_pool k) (g_queue_pool k) (g_mem_manager k) v.

Definition update_tcb (tcb : tcb_ptr) (f : task_control_block_t -> task_control_block_t)
  (k : kernel) : kernel :=
  with_tcbs (<[tcb := f (tcbs k tcb)]> (tcbs k)) k.

(** ** Time ([zk_time.c]) *)

Definition get_current_time (k : kernel) : Z := g_current_time k.

Definition increment_time (k : kernel) : kernel :=
  with_g_current_time (uint32 (g_current_time k + 1)) k.

(** ** Critical sections and the deferred switch ([zk_cpu_cm3.h], [context_rvds.s])

    [zk_cpu_trigger_pendsv] sets PENDSVSET.  PendSV has the lowest priority
    and is masked by BASEPRI inside a critical section, so the handler runs
    when the outermost [ZK_EXIT_CRITICAL] clears BASEPRI (from the tick
    interrupt: when that interrupt returns, nothing of the kernel running in
    between).  The handler saves the outgoing context and stores
    [g_switch_next_tcb] into [g_current_tcb]. *)

Definition zk_cpu_trigger_pendsv (k : kernel) : kernel := with_pendsv_pending true k.

Definition zk_asm_pendsv_handler (k : kernel) : kernel :=
  with_pendsv_pending false (with_g_current_tcb (g_switch_next_tcb k) k).

Definition ZK_ENTER_CRITICAL (k : kernel) : kernel :=
  with_zk_critical_nesting (uint32 (zk_critical_nesting k + 1)) k.

Definition ZK_EXIT_CRITICAL (k : kernel) : kernel :=
  let k1 := with_zk_critical_nesting (uint32 (zk_critical_nesting k - 1)) k in
  if decide (zk_critical_nesting k1 = 0) then
    if pendsv_pending k1 then zk_asm_pendsv_handler k1 else k1
  else k1.

(** What a kernel call gives its caller: a return value, or nothing yet when
    the caller was switched out in the middle of the call. *)
Inductive api_outcome :=
| Return (ret : zk_error_code_t)
| Suspended.

#[global] Instance api_outcome_eq_dec : EqDecision api_outcome.
Proof. solve_decision. Defined.

(** [zk_cpu_clz]: the instructions RBIT then CLZ on a 32-bit register. *)

Fixpoint bits_of (n : nat) (value : Z) : list bool :=      (* least significant first *)
  match n with
  | O => []
  | S n' => Z.testbit value 0 :: bits_of n' (Z.shiftr value 1)
  end.

Fixpoint of_bits (bits : list bool) : Z :=                 (* least significant first *)
  match bits with
  | [] => 0
  | b :: r => Z.b2z b + 2 * of_bits r
  end.

Fixpoint count_leading_false (bits : list bool) : Z :=
  match bits with
  | false :: r => 1 + count_leading_false r
  | _ => 0
  end.

Definition RBIT (r0 : Z) : Z := of_bits (rev (bits_of 32 r0)).

Definition CLZ (r0 : Z) : Z := count_leading_false (rev (bits_of 32 r0)).

Definition zk_cpu_clz (value : Z) : Z := uint8 (CLZ (RBIT value)).

(** ** The scheduler ([zk_scheduler.c], [zk_task.c]) *)

(** [&g_scheduler.ready_list[priority]], where the array is dereferenced. *)
Definition ready_list_at (priority : Z) : result list_head :=
  if decide (0 <= priority < ZK_PRIORITY_NUM) then Ok (ready_list priority)
  else Fault OUT_OF_BOUNDS.

(** The function brackets one read with a critical section and returns the
    counter narrowed to [zk_uint8]. *)
Definition is_scheduler_suspending (k : kernel) : Z :=
  uint8 (scheduler_suspend_nesting k).

Definition get_highest_priority_task (k : kernel) : result tcb_ptr :=
  let leading_zeros := zk_cpu_clz (priority_active k) in
  let highest_priority := leading_zeros in
  h ← ready_list_at highest_priority;
  ZK_LIST_GET_FIRST_ENTRY h (lists k).

Definition schedule (k : kernel) : result kernel :=
  if decide (is_scheduler_suspending k <> 0) then
    Ok (with_re_schedule_pending 1 k)
  else
    next ← get_highest_priority_task k;
    let k := with_g_switch_next_tcb next k in
    let current := g_current_tcb k in
    if decide (priority (tcbs k next) <> priority (tcbs k current)) then
      Ok (zk_cpu_trigger_pendsv k)
    else
      let ready_list_head := ready_list (priority (tcbs k current)) in
      if decide (node_next (state_node current) (lists k) = Some (HEAD ready_list_head)
                 /\ node_pre (state_node current) (lists k) = Some (HEAD ready_list_head))
      then Ok k
      else
        _ ← ready_list_at (priority (tcbs k current));
        ls ← zk_list_move_to_tail (state_node current) ready_list_head (lists k);
        first ← ZK_LIST_GET_FIRST_ENTRY ready_list_head ls;
        Ok (zk_cpu_trigger_pendsv (with_g_switch_next_tcb first (with_lists ls k))).

Definition clear_priority_active (priority : Z) (k : kernel) : kernel :=
  with_priority_active
    (Z.land (priority_active k) (uint32 (Z.lnot (Z.shiftl ZK_BIT_MASK_0 priority)))) k.

Definition set_priority_active (priority : Z) (k : kernel) : kernel :=
  with_priority_active
    (Z.lor (priority_active k) (uint32 (Z.shiftl ZK_BIT_MASK_0 priority))) k.

(** The loop of [add_task_to_endless_block_list]: the value of [iterator]
    and of [tcb_iterator] when the loop is left. *)
Fixpoint endless_block_scan (k : kernel) (tcb : tcb_ptr) (sleep_head : list_head)
  (tcb_iterator : option tcb_ptr) (l : list list_member) : node_ptr * option tcb_ptr :=
  match l with
  | [] => (HEAD sleep_head, tcb_iterator)
  | iterator :: r =>
      let tcb_iterator := ZK_LIST_GET_OWNER iterator in
      if decide (priority (tcbs k tcb_iterator) < priority (tcbs k tcb))
      then (NODE iterator, Some tcb_iterator)
      else endless_block_scan k tcb sleep_head (Some tcb_iterator) r
  end.

Definition add_task_to_endless_block_list (tcb : tcb_ptr) (sleep_head : list_head)
  (sort_type : block_sort_type_t) (k : kernel) : result kernel :=
  ls ← match sort_type with
       | BLOCK_SORT_FIFO =>
           zk_list_add_after (event_sleep_list tcb) (HEAD sleep_head) (lists k)
       | BLOCK_SORT_PRIO =>
           if zk_list_is_empty sleep_head (lists k) then
             zk_list_add_after (event_sleep_list tcb) (HEAD sleep_head) (lists k)
           else
             match endless_block_scan k tcb sleep_head None
                     (members (lists k) sleep_head) with
             | (_, None) => Fault NULL_DEREFERENCE
             | (HEAD _, Some tcb_iterator) =>
                 zk_list_add_after (event_sleep_list tcb)
                   (NODE (event_sleep_list tcb_iterator)) (lists k)
             | (NODE _, Some tcb_iterator) =>
                 zk_list_add_before (event_sleep_list tcb)
                   (NODE (event_sleep_list tcb_iterator)) (lists k)
             end
       end;
  Ok (update_tcb tcb (with_state TASK_ENDLESS_BLOCKED) (with_lists ls k)).

(** The loop of [add_task_to_time_sort_list]. *)
Fixpoint time_sort_scan (k : kernel) (tcb : tcb_ptr) (target_list_head : list_head)
  (tcb_iterator : option tcb_ptr) (l : list list_member) : node_ptr * option tcb_ptr :=
  match l with
  | [] => (HEAD target_list_head, tcb_iterator)
  | iterator :: r =>
      let tcb_iterator := ZK_LIST_GET_OWNER iterator in
      if zk_time_is_reached (wake_up_time (tcbs k tcb_iterator)) (wake_up_time (tcbs k tcb))
      then (NODE iterator, Some tcb_iterator)
      else time_sort_scan k tcb target_list_head (Some tcb_iterator) r
  end.

Definition add_task_to_time_sort_list (tcb : tcb_ptr) (target_list : scheduler_state_list_t)
  (k : kernel) : result kernel :=
  let target_list_head :=
    match target_list with
    | DELAY_LIST => delay_list
    | BLOCKED_TIMEOUT_LIST => block_timeout_list
    | _ => delay_list
    end in
  ls ← (if zk_list_is_empty target_list_head (lists k) then
          zk_list_add_after (state_node tcb) (HEAD target_list_head) (lists k)
        else
          match time_sort_scan k tcb target_list_head None
                  (members (lists k) target_list_head) with
          | (HEAD _, _) =>
              zk_list_add_before (state_node tcb) (HEAD target_list_head) (lists k)
          | (NODE _, Some tcb_iterator) =>
              zk_list_add_before (state_node tcb) (NODE (state_node tcb_iterator)) (lists k)
          | (NODE _, None) => Fault NULL_DEREFERENCE
          end);
  Ok (with_lists ls k).

Definition add_task_to_ready_list (tcb : tcb_ptr) (k : kernel) : result kernel :=
  h ← ready_list_at (priority (tcbs k tcb));
  ls ← zk_list_add_after (state_node tcb) (HEAD h) (lists k);
  let k := with_lists ls k in
  let k := set_priority_active (priority (tcbs k tcb)) k in
  Ok (update_tcb tcb (with_state TASK_READY) k).

Definition add_task_to_timeout_blocked_list (tcb : tcb_ptr) (k : kernel) : result kernel :=
  k ← add_task_to_time_sort_list tcb BLOCKED_TIMEOUT_LIST k;
  Ok (update_tcb tcb (with_state TASK_TIMEOUT_BLOCKED) k).

Definition add_task_to_delay_list (tcb : tcb_ptr) (k : kernel) : result kernel :=
  k ← add_task_to_time_sort_list tcb DELAY_LIST k;
  Ok (update_tcb tcb (with_state TASK_DELAY) k).

Definition remove_task_from_ready_list (tcb : tcb_ptr) (k : kernel) : result kernel :=
  ls ← zk_list_delete (state_node tcb) (lists k);
  let k := with_lists ls k in
  h ← ready_list_at (priority (tcbs k tcb));
  let k := if zk_list_is_empty h (lists k)
           then clear_priority_active (priority (tcbs k tcb)) k else k in
  Ok (update_tcb tcb (with_state TASK_UNKNOWN) k).

Definition remove_task_from_delay_list (tcb : tcb_ptr) (k : kernel) : result kernel :=
  ls ← zk_list_delete (state_node tcb) (lists k);
  Ok (update_tcb tcb (with_state TASK_UNKNOWN) (with_lists ls k)).

Definition remove_task_from_blocked_list (tcb : tcb_ptr) (k : kernel) : result kernel :=
  ls ← (if decide (state (tcbs k tcb) = TASK_TIMEOUT_BLOCKED)
        then zk_list_delete (state_node tcb) (lists k) else Ok (lists k));
  ls ← zk_list_delete (event_sleep_list tcb) ls;
  Ok (update_tcb tcb (with_state TASK_UNKNOWN) (with_lists ls k)).

Definition task_ready_to_delay (tcb : tcb_ptr) (k : kernel) : result kernel :=
  k ← remove_task_from_ready_list tcb k;
  add_task_to_delay_list tcb k.

Definition task_delay_to_ready (tcb : tcb_ptr) (k : kernel) : result kernel :=
  k ← remove_task_from_delay_list tcb k;
  add_task_to_ready_list tcb k.

Definition task_ready_to_block (tcb : tcb_ptr) (sleep_head : list_head)
  (block_type : block_type_t) (sort_type : block_sort_type_t) (k : kernel) : result kernel :=
  k ← remove_task_from_ready_list tcb k;
  k ← add_task_to_endless_block_list tcb sleep_head sort_type k;
  if decide (block_type = BLOCK_TYPE_TIMEOUT)
  then add_task_to_timeout_blocked_list tcb k
  else Ok k.

Definition task_block_to_ready (tcb : tcb_ptr) (k : kernel) : result kernel :=
  k ← remove_task_from_blocked_list tcb k;
  add_task_to_ready_list tcb k.

(** The loop of [check_delay_task_wakeup], over the members the list has when
    the loop starts: a woken task is unlinked, and the iteration goes on from
    the node that followed it. *)
Fixpoint delay_wakeup_scan (time : Z) (l : list list_member) (k : kernel) : result kernel :=
  match l with
  | [] => Ok k
  | iterator :: r =>
      let tcb_iterator := ZK_LIST_GET_OWNER iterator in
      if zk_time_is_reached time (wake_up_time (tcbs k tcb_iterator)) then
        k ← task_delay_to_ready tcb_iterator k;
        delay_wakeup_scan time r k
      else Ok k
  end.

Definition check_delay_task_wakeup (time : Z) (k : kernel) : result kernel :=
  if zk_list_is_empty delay_list (lists k) then Ok k
  else delay_wakeup_scan time (members (lists k) delay_list) k.

(** The loop of [check_task_block_wakeup]. *)
Fixpoint block_wakeup_scan (time : Z) (l : list list_member) (k : kernel) : result kernel :=
  match l with
  | [] => Ok k
  | iterator :: r =>
      let tcb_iterator := ZK_LIST_GET_OWNER iterator in
      if zk_time_is_reached time (wake_up_time (tcbs k tcb_iterator)) then
        let k := update_tcb tcb_iterator (with_event_timeout_wakeup EVENT_WAIT_TIMEOUT) k in
        k ← task_block_to_ready tcb_iterator k;
        block_wakeup_scan time r k
      else Ok k
  end.

Definition check_task_block_wakeup (time : Z) (k : kernel) : result kernel :=
  if zk_list_is_empty block_timeout_list (lists k) then Ok k
  else block_wakeup_scan time (members (lists k) block_timeout_list) k.

Definition check_task_wakeup (time : Z) (k : kernel) : result kernel :=
  k ← check_delay_task_wakeup time k;
  check_task_block_wakeup time k.

(** [scheduler_increment_tick], up to the end of its critical section; the
    timer service and the tick hook that follow run user callbacks.  The
    second component is [need_schedule]. *)
Definition scheduler_increment_tick (k : kernel) : result (kernel * bool) :=
  let current_time := get_current_time k in
  let k := ZK_ENTER_CRITICAL k in
  if decide (is_scheduler_suspending k <> 0) then Ok (ZK_EXIT_CRITICAL k, false)
  else
    let k := increment_time k in
    k ← check_task_wakeup current_time k;
    next ← get_highest_priority_task k;
    let k := with_g_switch_next_tcb next k in
    let current := g_current_tcb k in
    if decide (priority (tcbs k next) < priority (tcbs k current)) then
      k ← schedule k;
      Ok (ZK_EXIT_CRITICAL k, true)
    else if decide (priority (tcbs k next) = priority (tcbs k current)) then
      rl ← ready_list_at (priority (tcbs k current));
      if negb (zk_list_is_empty rl (lists k))
         && negb (bool_decide (head_next rl (lists k) = head_pre rl (lists k)))
      then
        let k := with_g_schedule_time_slice (uint32 (g_schedule_time_slice k - 1)) k in
        if decide (g_schedule_time_slice k <= 0) then
          let k := with_g_schedule_time_slice SCHEDULE_TIME_SLICE_INIT_VALUE k in
          ls ← zk_list_move_to_tail (state_node current) rl (lists k);
          let k := with_lists ls k in
          first ← ZK_LIST_GET_FIRST_ENTRY rl (lists k);
          let k := with_g_switch_next_tcb first k in
          k ← schedule k;
          Ok (ZK_EXIT_CRITICAL k, true)
        else Ok (ZK_EXIT_CRITICAL k, false)
      else
        Ok (ZK_EXIT_CRITICAL (with_g_schedule_time_slice SCHEDULE_TIME_SLICE_INIT_VALUE k),
            false)
    else Ok (ZK_EXIT_CRITICAL k, false).

(** [zk_asm_systick_handler]: raise BASEPRI, call the C handler, clear BASEPRI. *)
Definition zk_asm_systick_handler (k : kernel) : result kernel :=
  '(k, _) ← scheduler_increment_tick k;
  Ok k.

Definition task_change_priority_temp (tcb : tcb_ptr) (new_priority : Z) (k : kernel)
  : result kernel :=
  let k := update_tcb tcb (with_priority new_priority) k in
  if decide (state (tcbs k tcb) = TASK_READY) then
    k ← remove_task_from_ready_list tcb k;
    add_task_to_ready_list tcb k
  else Ok k.

Definition task_resume_priority (tcb : tcb_ptr) (k : kernel) : result kernel :=
  let k := update_tcb tcb (with_priority (base_priority (tcbs k tcb))) k in
  if decide (state (tcbs k tcb) = TASK_READY) then
    k ← remove_task_from_ready_list tcb k;
    add_task_to_ready_list tcb k
  else Ok k.

Definition scheduler_init (k : kernel) : kernel :=
  let ls := foldr (fun i ls => zk_list_init (ready_list (Z.of_nat i)) ls) (lists k)
              (seq 0 (Z.to_nat ZK_PRIORITY_NUM)) in
  let ls := zk_list_init delay_list ls in
  let ls := zk_list_init suspend_list ls in
  let ls := zk_list_init block_timeout_list ls in
  with_g_schedule_time_slice SCHEDULE_TIME_SLICE_INIT_VALUE
    (with_re_schedule_pending 0
       (with_priority_active 0
          (with_scheduler_suspend_nesting 0 (with_lists ls k)))).

(** [start_scheduler], with [zk_cpu_cm3_start_scheduler] clearing the
    nesting counter before the first task runs. *)
Definition start_scheduler (k : kernel) : result kernel :=
  first ← get_highest_priority_task k;
  Ok (with_zk_critical_nesting 0 (with_g_current_tcb first k)).

(** ** Build configuration

    [zk_config.h] is not part of the sources: the pool sizes and whether
    [DEBUG_ASSERT] is defined are parameters, and so is the address of the
    heap array. *)

Class zk_config := {
  SEM_MAX_NUM : nat;
  MUTEX_MAX_NUM : nat;
  QUEUE_MAX_NUM : nat;
  DEBUG_ASSERT : bool;
  g_heap : Z                (* the address the linker gives the array g_heap *)
}.

Section config.

Context `{!zk_config}.

(** [ZK_ASSERT(expr)]: nothing in a release build; in a [DEBUG_ASSERT] build a
    failed assertion prints and spins. *)
Definition ZK_ASSERT (expr : bool) : result unit :=
  if DEBUG_ASSERT && negb expr then Fault ASSERT_FAILED else Ok tt.

(** [task_create] from the point where the control block [tcb] and its stack
    have been obtained from [mem_alloc]: the fields are filled in and the
    task is put on its ready list.  [event_timeout_wakeup] is not written. *)
Definition task_create (tcb : tcb_ptr) (parameter_priority : Z) (k : kernel)
  : result (kernel * zk_error_code_t) :=
  _ ← ZK_ASSERT (bool_decide (parameter_priority <= ZK_MIN_PRIORITY));
  let k := update_tcb tcb
             (fun t => mk_tcb parameter_priority parameter_priority TASK_UNKNOWN
                         (event_timeout_wakeup t) ZK_TIME_MAX None) k in
  let k := ZK_ENTER_CRITICAL k in
  k ← add_task_to_ready_list tcb k;
  Ok (ZK_EXIT_CRITICAL k, ZK_SUCCESS).

Definition task_delay (delay_time : Z) (k : kernel) : result (kernel * api_outcome) :=
  let k := ZK_ENTER_CRITICAL k in
  if decide (is_scheduler_suspending k <> 0) then Ok (ZK_EXIT_CRITICAL k, Return ZK_ERR_STATE)
  else
    _ ← ZK_ASSERT (bool_decide (delay_time > 0) && bool_decide (delay_time < ZK_TSK_DLY_MAX));
    let current := g_current_tcb k in
    let k := update_tcb current
               (with_wake_up_time (uint32 (get_current_time k + delay_time))) k in
    k ← task_ready_to_delay current k;
    k ← schedule k;
    Ok (ZK_EXIT_CRITICAL k, Return ZK_SUCCESS).

(** ** Semaphores ([zk_sem.c]) *)

Definition sem_at (handle : nat) (k : kernel) : result semaphore_t :=
  match g_sem_pool k !! handle with
  | Some sem => Ok sem
  | None => Fault OUT_OF_BOUNDS
  end.

Definition update_sem (handle : nat) (f : semaphore_t -> semaphore_t) (k : kernel) : kernel :=
  with_g_sem_pool (alter f handle (g_sem_pool k)) k.

Definition sem_init (k : kernel) : kernel :=
  let ls := foldr (fun i ls => zk_list_init (wait_list i) ls) (lists k) (seq 0 SEM_MAX_NUM) in
  with_g_sem_pool (replicate SEM_MAX_NUM (mk_sem 0 SEM_UNUSED)) (with_lists ls k).

(** [get_sem_resource]: the first unused entry, searching [0 .. SEM_MAX_NUM). *)
Definition get_sem_resource (k : kernel) : option nat :=
  (list_find (fun sem => sem_is_used sem = SEM_UNUSED) (take SEM_MAX_NUM (g_sem_pool k)))
    ≫= (fun p => Some (fst p)).

Definition sem_create (initial_count : Z) (k : kernel) : kernel * (zk_error_code_t * nat) :=
  if decide (initial_count > SEM_COUNT_MAX) then (k, (ZK_ERR_SYNC_INVALID, O))
  else
    let k := ZK_ENTER_CRITICAL k in
    match get_sem_resource k with
    | None => (ZK_EXIT_CRITICAL k, (ZK_ERR_RESOURCE_UNAVAILABLE, O))
    | Some sem_handle =>
        let k := update_sem sem_handle (fun _ => mk_sem initial_count SEM_USED) k in
        let k := with_lists (zk_list_init (wait_list sem_handle) (lists k)) k in
        (ZK_EXIT_CRITICAL k, (ZK_SUCCESS, sem_handle))
    end.

(** The part of [sem_get_internal] a blocked caller runs when it is switched
    back in. *)
Definition sem_get_internal_resume (current_task : tcb_ptr) (k : kernel)
  : kernel * zk_error_code_t :=
  let k := ZK_ENTER_CRITICAL k in
  let ret := if decide (event_timeout_wakeup (tcbs k current_task) = EVENT_WAIT_TIMEOUT)
             then ZK_ERR_TIMEOUT else ZK_SUCCESS in
  (ZK_EXIT_CRITICAL k, ret).

Definition sem_get_internal (sem_handle : nat) (block_type : block_type_t) (timeout : Z)
  (k : kernel) : result (kernel * api_outcome) :=
  let current_task := g_current_tcb k in
  if decide (SEM_MAX_NUM <= sem_handle)%nat then Ok (k, Return ZK_ERR_INVALID_HANDLE)
  else
    sem ← sem_at sem_handle k;
    if decide (sem_is_used sem = SEM_UNUSED) then Ok (k, Return ZK_ERR_STATE)
    else
      let k := ZK_ENTER_CRITICAL k in
      if decide (is_scheduler_suspending k <> 0)
      then Ok (ZK_EXIT_CRITICAL k, Return ZK_ERR_STATE)
      else if decide (count sem > 0) then
        Ok (ZK_EXIT_CRITICAL (update_sem sem_handle (with_count (count sem - 1)) k),
            Return ZK_SUCCESS)
      else if decide (timeout = 0) then Ok (ZK_EXIT_CRITICAL k, Return ZK_ERR_FAILED)
      else
        let k := update_tcb current_task (with_event_timeout_wakeup EVENT_NO_TIMEOUT) k in
        let k := update_tcb current_task
                   (with_wake_up_time (uint32 (get_current_time k + timeout))) k in
        k ← task_ready_to_block current_task (wait_list sem_handle) block_type
              BLOCK_SORT_PRIO k;
        k ← schedule k;
        let k := ZK_EXIT_CRITICAL k in
        if decide (g_current_tcb k = current_task) then
          let '(k, ret) := sem_get_internal_resume current_task k in Ok (k, Return ret)
        else Ok (k, Suspended).

Definition sem_get (sem_handle : nat) := sem_get_internal sem_handle BLOCK_TYPE_ENDLESS 0xFF.

Definition sem_try_get (sem_handle : nat) := sem_get_internal sem_handle BLOCK_TYPE_TIMEOUT 0.

Definition sem_get_timeout (sem_handle : nat) (timeout : Z) :=
  sem_get_internal sem_handle BLOCK_TYPE_TIMEOUT timeout.

Definition sem_release (sem_handle : nat) (k : kernel) : result (kernel * zk_error_code_t) :=
  if decide (SEM_MAX_NUM <= sem_handle)%nat then Ok (k, ZK_ERR_INVALID_HANDLE)
  else
    sem ← sem_at sem_handle k;
    if decide (sem_is_used sem = SEM_UNUSED) then Ok (k, ZK_ERR_STATE)
    else
      let k := ZK_ENTER_CRITICAL k in
      if decide (count sem = SEM_COUNT_MAX) then Ok (ZK_EXIT_CRITICAL k, ZK_ERR_SYNC_INVALID)
      else if negb (zk_list_is_empty (wait_list sem_handle) (lists k)) then
        wakeup_task ← ZK_LIST_GET_FIRST_ENTRY (wait_list sem_handle) (lists k);
        k ← task_block_to_ready wakeup_task k;
        k ← schedule k;
        Ok (ZK_EXIT_CRITICAL k, ZK_SUCCESS)
      else
        Ok (ZK_EXIT_CRITICAL (update_sem sem_handle (with_count (uint32 (count sem + 1))) k),
            ZK_SUCCESS).

(** The [while] loop of [sem_destroy]; every round unlinks the first waiter,
    so the number of rounds is the number of waiters at the start. *)
Fixpoint sem_destroy_loop (rounds : nat) (sem_handle : nat) (k : kernel) : result kernel :=
  match rounds with
  | O => Ok k
  | S rounds =>
      if negb (zk_list_is_empty (wait_list sem_handle) (lists k)) then
        wakeup_task ← ZK_LIST_GET_FIRST_ENTRY (wait_list sem_handle) (lists k);
        k ← task_block_to_ready wakeup_task k;
        sem_destroy_loop rounds sem_handle k
      else Ok k
  end.

Definition sem_destroy (sem_handle : nat) (k : kernel) : result (kernel * zk_error_code_t) :=
  if decide (SEM_MAX_NUM <= sem_handle)%nat then Ok (k, ZK_ERR_INVALID_HANDLE)
  else
    sem ← sem_at sem_handle k;
    if decide (sem_is_used sem = SEM_UNUSED) then Ok (k, ZK_ERR_STATE)
    else
      let k := ZK_ENTER_CRITICAL k in
      k ← sem_destroy_loop (length (members (lists k) (wait_list sem_handle))) sem_handle k;
      let k := update_sem sem_handle (fun s => with_sem_is_used SEM_UNUSED (with_count 0 s)) k in
      k ← schedule k;
      Ok (ZK_EXIT_CRITICAL k, ZK_SUCCESS).

(** ** The heap ([zk_mem.c])

    The free list and the used list are the sequences of their blocks in
    list order.  [mem_alloc] and [mem_free] bracket their list work with a
    critical section of their own; only [g_mem_manager] is touched inside. *)

Definition ZK_NULL : Z := 0.

(** [sizeof(mem_block_t)]: two pointers and a [zk_uint32] on the 32-bit target. *)
Definition sizeof_mem_block_t : Z := 12.

Definition MEM_BLOCK_ALIGNMENT : Z :=
  Z.land (uint32 (sizeof_mem_block_t + uint32 (ZK_BYTE_ALIGNMENT - 1)))
         (uint32 (Z.lnot (uint32 (ZK_BYTE_ALIGNMENT - 1)))).

Definition MEM_BLOCK_MIN_SIZE : Z := uint32 (Z.shiftl MEM_BLOCK_ALIGNMENT 1).

Definition zk_addr_align (addr align mask : Z) : Z :=
  if decide (Z.land addr mask <> 0)
  then uint32 (Z.land addr (uint32 (Z.lnot mask)) + align)
  else addr.

(** [zk_add_overflow(a, b, &res)]: the flag and [res]. *)
Definition zk_add_overflow (a b : Z) : bool * Z :=
  let res := uint32 (a + b) in
  (bool_decide (res < a) || bool_decide (res < b), res).

Definition mem_init (m : mem_manager_t) : mem_manager_t :=
  let base_address := zk_addr_align g_heap ZK_BYTE_ALIGNMENT ZK_BYTE_ALIGNMENT_MASK in
  let total_size := uint32 (CONFIG_TOTAL_MEM_SIZE - uint32 (base_address - g_heap)) in
  mk_mem [mk_block base_address total_size] [] base_address total_size total_size true
         0 0 0 0 1 0.

Fixpoint mem_free_list_insert_by_addr (block_to_insert : mem_block_t)
  (free : list mem_block_t) : list mem_block_t :=
  match free with
  | [] => [block_to_insert]
  | iterator :: r =>
      if decide (block_addr iterator > block_addr block_to_insert)
      then block_to_insert :: iterator :: r
      else iterator :: mem_free_list_insert_by_addr block_to_insert r
  end.

Fixpoint remove_block (addr : Z) (l : list mem_block_t) : list mem_block_t :=
  match l with
  | [] => []
  | b :: r => if decide (block_addr b = addr) then r else b :: remove_block addr r
  end.

(** The loop of [mem_alloc] up to its [break]: whether a block was taken, and
    the value [allocated_block] has when the loop is left. *)
Fixpoint mem_alloc_scan (final_size : Z) (allocated_block : option mem_block_t)
  (free : list mem_block_t) : bool * option mem_block_t :=
  match free with
  | [] => (false, allocated_block)
  | current_node :: r =>
      if decide (block_size current_node >= final_size)
      then (true, Some current_node)
      else mem_alloc_scan final_size (Some current_node) r
  end.

Definition mem_alloc_final_size (request_size : Z) : Z :=
  let final_size := zk_addr_align (uint32 (request_size + MEM_BLOCK_ALIGNMENT))
                      ZK_BYTE_ALIGNMENT ZK_BYTE_ALIGNMENT_MASK in
  if decide (final_size < MEM_BLOCK_MIN_SIZE) then MEM_BLOCK_MIN_SIZE else final_size.

Definition mem_alloc (request_size : Z) (m : mem_manager_t) : result (mem_manager_t * Z) :=
  _ ← ZK_ASSERT (is_initialized m);
  if decide (request_size = 0) then Ok (m, ZK_NULL)
  else
    _ ← ZK_ASSERT (bool_decide (request_size <= ZK_UINT32_MAX - MEM_BLOCK_ALIGNMENT));
    if fst (zk_add_overflow request_size MEM_BLOCK_ALIGNMENT) then Ok (m, ZK_NULL)
    else
      let final_size := mem_alloc_final_size request_size in
      if decide (final_size > available_size m) then
        Ok (with_alloc_fail_count (uint32 (alloc_fail_count m + 1)) m, ZK_NULL)
      else
        match mem_alloc_scan final_size None (free_list m) with
        | (true, Some allocated_block) =>
            let free := remove_block (block_addr allocated_block) (free_list m) in
            let m :=
              if decide (uint32 (block_size allocated_block - final_size) >= MEM_BLOCK_MIN_SIZE)
              then
                let new_free_block :=
                  mk_block (uint32 (block_addr allocated_block + final_size))
                           (uint32 (block_size allocated_block - final_size)) in
                with_free_list (mem_free_list_insert_by_addr new_free_block free)
                  (with_used_list
                     (mk_block (block_addr allocated_block) final_size :: used_list m) m)
              else
                with_free_block_count (uint32 (free_block_count m - 1))
                  (with_free_list free
                     (with_used_list (allocated_block :: used_list m) m)) in
            let m := with_available_size (uint32 (available_size m - final_size)) m in
            let m := with_used_block_count (uint32 (used_block_count m + 1)) m in
            let current_used := uint32 (total_size m - available_size m) in
            let m := if decide (current_used > peak_used_size m)
                     then with_peak_used_size current_used m else m in
            let m := with_alloc_count (uint32 (alloc_count m + 1)) m in
            Ok (m, uint32 (block_addr allocated_block + MEM_BLOCK_ALIGNMENT))
        | (_, Some allocated_block) =>
            (* the loop ran off the end: [allocated_block] is the last block visited *)
            Ok (m, uint32 (block_addr allocated_block + MEM_BLOCK_ALIGNMENT))
        | (_, None) =>
            Ok (with_alloc_fail_count (uint32 (alloc_fail_count m + 1)) m, ZK_NULL)
        end.

(** [mem_merge_free_blocks] on the free list [free]; [before] are the blocks
    the search loop passed, [after] starts with the block it stopped at. *)
Fixpoint split_by_addr (addr : Z) (before free : list mem_block_t)
  : list mem_block_t * list mem_block_t :=
  match free with
  | [] => (before, [])
  | current_node :: r =>
      if decide (block_addr current_node > addr) then (before, free)
      else split_by_addr addr (before ++ [current_node]) r
  end.

Definition mem_merge_free_blocks (block_to_merge : mem_block_t) (free : list mem_block_t)
  : list mem_block_t :=
  if decide (free = []) then [block_to_merge]
  else
    let '(before, after) := split_by_addr (block_addr block_to_merge) [] free in
    let next_block := head after in
    let prev_block := match next_block with Some _ => head (rev before) | None => None end in
    (* merge with the block above *)
    let '(block, linked, after) :=
      match next_block with
      | Some nb =>
          if decide (uint32 (block_addr block_to_merge + block_size block_to_merge)
                     = block_addr nb)
          then (mk_block (block_addr block_to_merge)
                         (uint32 (block_size block_to_merge + block_size nb)),
                true, tail after)
          else (block_to_merge, false, after)
      | None => (block_to_merge, false, after)
      end in
    match prev_block with
    | Some pb =>
        if decide (uint32 (block_addr pb + block_size pb) = block_addr block)
        then
          rev (tail (rev before))
          ++ [mk_block (block_addr pb) (uint32 (block_size pb + block_size block))]
          ++ after
        else before ++ [block] ++ after
    | None => before ++ [block] ++ after
    end.

Definition mem_free (user_addr : Z) (m : mem_manager_t) : result mem_manager_t :=
  if decide (user_addr = ZK_NULL) then Ok m
  else
    _ ← ZK_ASSERT (is_initialized m);
    let mem_block := uint32 (user_addr - MEM_BLOCK_ALIGNMENT) in
    _ ← ZK_ASSERT (bool_decide (mem_block >= base_address m));
    _ ← ZK_ASSERT (bool_decide (mem_block < uint32 (base_address m + total_size m)));
    match list_find (fun b => block_addr b = mem_block) (used_list m) with
    | None =>
        (* not a used block: ZK_ASSERT(block_found) stops a debug build.  A
           release build goes on with the header before [user_addr]: a block
           of the free list is counted as freed once more, unlinked from the
           free list and merged into it again; anywhere else the list
           surgery works on whatever those bytes hold *)
        _ ← ZK_ASSERT false;
        match list_find (fun b => block_addr b = mem_block) (free_list m) with
        | None => Fault LIST_CORRUPTED
        | Some (_, b) =>
            let m := with_available_size (uint32 (available_size m + block_size b)) m in
            let m := with_used_block_count (uint32 (used_block_count m - 1)) m in
            let m := with_free_list
                       (mem_merge_free_blocks b (remove_block mem_block (free_list m))) m in
            let m := with_free_block_count (Z.of_nat (length (free_list m))) m in
            Ok (with_free_count (uint32 (free_count m + 1)) m)
        end
    | Some (_, b) =>
        _ ← ZK_ASSERT (bool_decide (block_size b >= MEM_BLOCK_MIN_SIZE));
        _ ← ZK_ASSERT (bool_decide (block_size b <= total_size m));
        let m := with_available_size (uint32 (available_size m + block_size b)) m in
        let m := with_used_block_count (uint32 (used_block_count m - 1)) m in
        let m := with_used_list (remove_block mem_block (used_list m)) m in
        let m := with_free_list (mem_merge_free_blocks b (free_list m)) m in
        let m := with_free_block_count (Z.of_nat (length (free_list m))) m in
        Ok (with_free_count (uint32 (free_count m + 1)) m)
    end.

(** ** Message queues ([zk_queue.c]) *)

Definition queue_at (handle : nat) (k : kernel) : result queue_t :=
  match g_queue_pool k !! handle with
  | Some queue => Ok queue
  | None => Fault OUT_OF_BOUNDS
  end.

Definition update_queue (handle : nat) (f : queue_t -> queue_t) (k : kernel) : kernel :=
  with_g_queue_pool (alter f handle (g_queue_pool k)) k.

(** [zk_memcpy] into and out of the address space, a byte at a time. *)
Fixpoint store_bytes (dest : Z) (src : list byte) (mem : Z -> byte) : Z -> byte :=
  match src with
  | [] => mem
  | b :: r => store_bytes (uint32 (dest + 1)) r (<[dest := b]> mem)
  end.

Fixpoint load_bytes (src : Z) (size : nat) (mem : Z -> byte) : list byte :=
  match size with
  | O => []
  | S n => mem src :: load_bytes (uint32 (src + 1)) n mem
  end.

Definition queue_init (k : kernel) : kernel :=
  let ls := foldr (fun i ls => zk_list_init (writer_sleep_list i)
                                 (zk_list_init (reader_sleep_list i) ls))
              (lists k) (seq 0 QUEUE_MAX_NUM) in
  with_g_queue_pool (replicate QUEUE_MAX_NUM (mk_queue ZK_NULL 0 0 0 0 QUEUE_UNUSED))
    (with_lists ls k).

Definition get_queue_resource (k : kernel) : option nat :=
  (list_find (fun q => queue_is_used q = QUEUE_UNUSED) (take QUEUE_MAX_NUM (g_queue_pool k)))
    ≫= (fun p => Some (fst p)).

Definition queue_create (element_single_size element_num : Z) (k : kernel)
  : result (kernel * (zk_error_code_t * nat)) :=
  if decide (element_single_size = 0 \/ element_num = 0) then Ok (k, (ZK_ERR_INVALID_PARAM, O))
  else
    '(m, data_buffer) ← mem_alloc (uint32 (element_num * element_single_size))
                          (g_mem_manager k);
    let k := with_g_mem_manager m k in
    if decide (data_buffer = ZK_NULL) then Ok (k, (ZK_ERR_NOT_ENOUGH_MEMORY, O))
    else
      let k := ZK_ENTER_CRITICAL k in
      match get_queue_resource k with
      | None =>
          let k := ZK_EXIT_CRITICAL k in
          m ← mem_free data_buffer (g_mem_manager k);
          Ok (with_g_mem_manager m k, (ZK_ERR_RESOURCE_UNAVAILABLE, O))
      | Some temp_handle =>
          let k := update_queue temp_handle
                     (fun q => mk_queue data_buffer 0 0 element_single_size element_num
                                 QUEUE_USED) k in
          Ok (ZK_EXIT_CRITICAL k, (ZK_SUCCESS, temp_handle))
      end.

Definition queue_sleep (tcb : tcb_ptr) (sleep_list_head : list_head)
  (block_type : block_type_t) (k : kernel) : result kernel :=
  task_ready_to_block tcb sleep_list_head block_type BLOCK_SORT_PRIO k.

Definition queue_wakeup (sleep_list_head : list_head) (k : kernel) : result kernel :=
  wake_up_tcb ← ZK_LIST_GET_FIRST_ENTRY sleep_list_head (lists k);
  task_block_to_ready wake_up_tcb k.

Definition queue_write_pos_increase (queue : queue_t) : queue_t :=
  let queue := with_write_pos (uint32 (write_pos queue + 1)) queue in
  if decide (write_pos queue = element_num queue) then with_write_pos 0 queue else queue.

Definition queue_read_pos_increase (queue : queue_t) : queue_t :=
  let queue := with_read_pos (uint32 (read_pos queue + 1)) queue in
  if decide (read_pos queue = element_num queue) then with_read_pos 0 queue else queue.

Definition queue_remaining_space (queue : queue_t) : Z :=
  let used_size :=
    if decide (read_pos queue > write_pos queue)
    then uint32 (element_num queue - uint32 (read_pos queue - write_pos queue))
    else uint32 (write_pos queue - read_pos queue) in
  uint32 (element_num queue - used_size).

Definition queue_full (queue : queue_t) : bool :=
  bool_decide (queue_remaining_space queue = 0).

Definition queue_empty (queue : queue_t) : bool :=
  bool_decide (read_pos queue = write_pos queue).

Definition QUEUE_INDEX_TO_BUFFERADDR (queue : queue_t) (index : Z) : Z :=
  uint32 (data_buffer queue + uint32 (element_single_size queue * index)).

(** The [while] loop of [queue_write_internal] and what follows it, entered
    inside the critical section.  A caller that blocks leaves at the
    [ZK_EXIT_CRITICAL] after [schedule]. *)
Definition queue_write_attempt (queue_handle : nat) (buffer : list byte) (size : Z)
  (block_type : block_type_t) (timeout : Z) (current_tcb : tcb_ptr) (k : kernel)
  : result (kernel * api_outcome) :=
  queue ← queue_at queue_handle k;
  if queue_full queue then
    if decide (timeout = 0) then Ok (ZK_EXIT_CRITICAL k, Return ZK_ERR_FAILED)
    else if decide (is_scheduler_suspending k <> 0)
    then Ok (ZK_EXIT_CRITICAL k, Return ZK_ERR_STATE)
    else
      let k := update_tcb current_tcb
                 (with_wake_up_time (uint32 (get_current_time k + timeout))) k in
      let k := update_tcb current_tcb (with_event_timeout_wakeup EVENT_NO_TIMEOUT) k in
      k ← queue_sleep current_tcb (writer_sleep_list queue_handle) block_type k;
      k ← schedule k;
      Ok (ZK_EXIT_CRITICAL k, Suspended)
  else
    let index := write_pos queue in
    let buffer_addr := QUEUE_INDEX_TO_BUFFERADDR queue index in
    let k := if decide (buffer_addr = ZK_NULL) then k
             else with_memory (store_bytes buffer_addr (take (Z.to_nat size) buffer)
                                 (memory k)) k in
    let k := update_queue queue_handle queue_write_pos_increase k in
    k ← (if negb (zk_list_is_empty (reader_sleep_list queue_handle) (lists k)) then
           k ← queue_wakeup (reader_sleep_list queue_handle) k;
           schedule k
         else Ok k);
    Ok (ZK_EXIT_CRITICAL k, Return ZK_SUCCESS).

Definition queue_write_internal (queue_handle : nat) (buffer : list byte) (size : Z)
  (block_type : block_type_t) (timeout : Z) (k : kernel) : result (kernel * api_outcome) :=
  let current_tcb := g_current_tcb k in
  if decide (QUEUE_MAX_NUM < queue_handle)%nat then Ok (k, Return ZK_ERR_INVALID_HANDLE)
  else
    queue ← queue_at queue_handle k;
    if decide (queue_is_used queue = QUEUE_UNUSED) then Ok (k, Return ZK_ERR_STATE)
    else
      let k := ZK_ENTER_CRITICAL k in
      if decide (size > element_single_size queue)
      then Ok (ZK_EXIT_CRITICAL k, Return ZK_ERR_QUEUE_SIZE_MISMATCH)
      else queue_write_attempt queue_handle buffer size block_type timeout current_tcb k.

(** What a writer that blocked runs when it is switched back in. *)
Definition queue_write_internal_resume (queue_handle : nat) (buffer : list byte)
  (size : Z) (block_type : block_type_t) (timeout : Z) (current_tcb : tcb_ptr)
  (k : kernel) : result (kernel * api_outcome) :=
  let k := ZK_ENTER_CRITICAL k in
  if decide (event_timeout_wakeup (tcbs k current_tcb) = EVENT_WAIT_TIMEOUT)
  then Ok (ZK_EXIT_CRITICAL k, Return ZK_ERR_TIMEOUT)
  else queue_write_attempt queue_handle buffer size block_type timeout current_tcb k.

Definition queue_write (queue_handle : nat) (buffer : list byte) (size : Z) (k : kernel)
  : result (kernel * api_outcome) :=
  if decide (QUEUE_MAX_NUM <= queue_handle)%nat then Ok (k, Return ZK_ERR_INVALID_HANDLE)
  else if decide (size = 0) then Ok (k, Return ZK_ERR_INVALID_PARAM)
  else queue_write_internal queue_handle buffer size BLOCK_TYPE_ENDLESS
         ZK_TIMEOUT_INFINITE k.

Definition queue_try_write (queue_handle : nat) (buffer : list byte) (size : Z) :=
  queue_write_internal queue_handle buffer size BLOCK_TYPE_ENDLESS ZK_TIMEOUT_NONE.

Definition queue_write_timeout (queue_handle : nat) (buffer : list byte) (size timeout : Z) :=
  queue_write_internal queue_handle buffer size BLOCK_TYPE_TIMEOUT timeout.

(** The reading side; the third component is what [zk_memcpy] put into the
    caller's buffer. *)
Definition queue_read_attempt (queue_handle : nat) (size : Z)
  (block_type : block_type_t) (timeout : Z) (current_tcb : tcb_ptr) (k : kernel)
  : result (kernel * (api_outcome * list byte)) :=
  queue ← queue_at queue_handle k;
  if queue_empty queue then
    if decide (timeout = 0) then Ok (ZK_EXIT_CRITICAL k, (Return ZK_ERR_FAILED, []))
    else if decide (is_scheduler_suspending k <> 0)
    then Ok (ZK_EXIT_CRITICAL k, (Return ZK_ERR_STATE, []))
    else
      let k := update_tcb current_tcb (with_event_timeout_wakeup EVENT_NO_TIMEOUT) k in
      let k := update_tcb current_tcb
                 (with_wake_up_time (uint32 (get_current_time k + timeout))) k in
      k ← queue_sleep current_tcb (reader_sleep_list queue_handle) block_type k;
      k ← schedule k;
      Ok (ZK_EXIT_CRITICAL k, (Suspended, []))
  else
    let index := read_pos queue in
    let buffer_addr := QUEUE_INDEX_TO_BUFFERADDR queue index in
    let buffer := if decide (buffer_addr = ZK_NULL) then []
                  else load_bytes buffer_addr (Z.to_nat size) (memory k) in
    let k := update_queue queue_handle queue_read_pos_increase k in
    k ← (if negb (zk_list_is_empty (writer_sleep_list queue_handle) (lists k)) then
           k ← queue_wakeup (writer_sleep_list queue_handle) k;
           schedule k
         else Ok k);
    Ok (ZK_EXIT_CRITICAL k, (Return ZK_SUCCESS, buffer)).

Definition queue_read_internal (queue_handle : nat) (size : Z)
  (block_type : block_type_t) (timeout : Z) (k : kernel)
  : result (kernel * (api_outcome * list byte)) :=
  let current_tcb := g_current_tcb k in
  if decide (QUEUE_MAX_NUM < queue_handle)%nat then Ok (k, (Return ZK_ERR_INVALID_HANDLE, []))
  else
    queue ← queue_at queue_handle k;
    if decide (queue_is_used queue = QUEUE_UNUSED) then Ok (k, (Return ZK_ERR_STATE, []))
    else
      let k := ZK_ENTER_CRITICAL k in
      if decide (size > element_single_size queue)
      then Ok (ZK_EXIT_CRITICAL k, (Return ZK_ERR_QUEUE_SIZE_MISMATCH, []))
      else queue_read_attempt queue_handle size block_type timeout current_tcb k.

Definition queue_read_internal_resume (queue_handle : nat) (size : Z)
  (block_type : block_type_t) (timeout : Z) (current_tcb : tcb_ptr) (k : kernel)
  : result (kernel * (api_outcome * list byte)) :=
  let k := ZK_ENTER_CRITICAL k in
  if decide (event_timeout_wakeup (tcbs k current_tcb) = EVENT_WAIT_TIMEOUT)
  then Ok (ZK_EXIT_CRITICAL k, (Return ZK_ERR_TIMEOUT, []))
  else queue_read_attempt queue_handle size block_type timeout current_tcb k.

Definition queue_read (queue_handle : nat) (size : Z) :=
  queue_read_internal queue_handle size BLOCK_TYPE_ENDLESS ZK_TIMEOUT_INFINITE.

Definition queue_try_read (queue_handle : nat) (size : Z) :=
  queue_read_internal queue_handle size BLOCK_TYPE_ENDLESS ZK_TIMEOUT_NONE.

Definition queue_read_timeout (queue_handle : nat) (size timeout : Z) :=
  queue_read_internal queue_handle size BLOCK_TYPE_TIMEOUT timeout.

Definition queue_destroy (queue_handle : nat) (k : kernel)
  : result (kernel * zk_error_code_t) :=
  queue ← queue_at queue_handle k;
  if decide (queue_is_used queue = QUEUE_UNUSED) then Ok (k, ZK_ERR_STATE)
  else if decide (QUEUE_MAX_NUM < queue_handle)%nat then Ok (k, ZK_ERR_INVALID_HANDLE)
  else
    let k := ZK_ENTER_CRITICAL k in
    if negb (zk_list_is_empty (reader_sleep_list queue_handle) (lists k))
    then Ok (ZK_EXIT_CRITICAL k, ZK_ERR_STATE)
    else if negb (zk_list_is_empty (writer_sleep_list queue_handle) (lists k))
    then Ok (ZK_EXIT_CRITICAL k, ZK_ERR_STATE)
    else if negb (queue_empty queue) then Ok (ZK_EXIT_CRITICAL k, ZK_ERR_STATE)
    else
      m ← mem_free (data_buffer queue) (g_mem_manager k);
      let k := with_g_mem_manager m k in
      let k := update_queue queue_handle (with_queue_is_used QUEUE_UNUSED) k in
      Ok (ZK_EXIT_CRITICAL k, ZK_SUCCESS).

(** ** Mutexes ([zk_mutex.c]) *)

Definition mutex_at (handle : nat) (k : kernel) : result mutex_t :=
  match g_mutex_pool k !! handle with
  | Some mutex => Ok mutex
  | None => Fault OUT_OF_BOUNDS
  end.

Definition update_mutex (handle : nat) (f : mutex_t -> mutex_t) (k : kernel) : kernel :=
  with_g_mutex_pool (alter f handle (g_mutex_pool k)) k.

Definition mutex_init (k : kernel) : kernel :=
  let ls := foldr (fun i ls => zk_list_init (sleep_list i) ls) (lists k)
              (seq 0 MUTEX_MAX_NUM) in
  with_g_mutex_pool
    (replicate MUTEX_MAX_NUM (mk_mutex None 0 ZK_MIN_PRIORITY MUTEX_UNUSED None))
    (with_lists ls k).

Definition get_mutex_resource (k : kernel) : option nat :=
  (list_find (fun m => mutex_is_used m = MUTEX_UNUSED) (take MUTEX_MAX_NUM (g_mutex_pool k)))
    ≫= (fun p => Some (fst p)).

Definition mutex_create (k : kernel) : kernel * (zk_error_code_t * nat) :=
  let k := ZK_ENTER_CRITICAL k in
  match get_mutex_resource k with
  | None => (ZK_EXIT_CRITICAL k, (ZK_ERR_RESOURCE_UNAVAILABLE, O))
  | Some mutex_handle =>
      let k := update_mutex mutex_handle
                 (fun _ => mk_mutex None 0 ZK_MIN_PRIORITY MUTEX_USED None) k in
      let k := with_lists (zk_list_init (sleep_list mutex_handle) (lists k)) k in
      (ZK_EXIT_CRITICAL k, (ZK_SUCCESS, mutex_handle))
  end.

(** The loop of [mutex_priority_inheritance_chain]; [rounds] is what is left
    of [MAX_CHAIN_DEPTH]. *)
Fixpoint mutex_priority_inheritance_chain_loop (rounds : nat) (owner_tcb : option tcb_ptr)
  (required_priority : Z) (current_mutex : nat) (k : kernel) : result kernel :=
  match rounds, owner_tcb with
  | S rounds, Some owner_tcb =>
      if decide (priority (tcbs k owner_tcb) <= required_priority) then Ok k
      else
        k ← task_change_priority_temp owner_tcb required_priority k;
        let k := update_mutex current_mutex (with_owner_priority required_priority) k in
        match holding_mutex (tcbs k owner_tcb) with
        | Some current_mutex =>
            mutex ← mutex_at current_mutex k;
            mutex_priority_inheritance_chain_loop rounds (owner mutex)
              required_priority current_mutex k
        | None => Ok k
        end
  | _, _ => Ok k
  end.

Definition mutex_priority_inheritance_chain (task : tcb_ptr) (mutex : nat) (k : kernel)
  : result kernel :=
  m ← mutex_at mutex k;
  mutex_priority_inheritance_chain_loop 8 (owner m) (priority (tcbs k task)) mutex k.

Definition mutex_sleep (task : tcb_ptr) (mutex : nat) (block_type : block_type_t)
  (k : kernel) : result kernel :=
  let k := update_tcb task (with_holding_mutex (Some mutex)) k in
  m ← mutex_at mutex k;
  k ← (if decide (priority (tcbs k task) < owner_priority m)
       then mutex_priority_inheritance_chain task mutex k else Ok k);
  task_ready_to_block task (sleep_list mutex) block_type BLOCK_SORT_PRIO k.

(** The end of [mutex_lock_internal], from the test of the timeout flag. *)
Definition mutex_lock_internal_resume (current_task : tcb_ptr) (k : kernel)
  : kernel * zk_error_code_t :=
  if decide (event_timeout_wakeup (tcbs k current_task) = EVENT_WAIT_TIMEOUT) then
    let k := update_tcb current_task (with_holding_mutex None) k in
    (ZK_EXIT_CRITICAL k, ZK_ERR_TIMEOUT)
  else (ZK_EXIT_CRITICAL k, ZK_SUCCESS).

(** [mutex_lock_internal].  The critical section is entered a second time
    before [mutex_sleep], so the [ZK_EXIT_CRITICAL] after [schedule] leaves
    the nesting counter above zero when the call was made outside any
    critical section: the caller then reads its timeout flag before it is
    switched out, and is switched out by the last [ZK_EXIT_CRITICAL] with its
    return value already chosen. *)
Definition mutex_lock_internal (mutex_handle : nat) (block_type : block_type_t)
  (timeout : Z) (k : kernel) : result (kernel * api_outcome) :=
  let current_task := g_current_tcb k in
  if decide (MUTEX_MAX_NUM <= mutex_handle)%nat then Ok (k, Return ZK_ERR_INVALID_HANDLE)
  else
    mutex ← mutex_at mutex_handle k;
    if decide (mutex_is_used mutex = MUTEX_UNUSED) then Ok (k, Return ZK_ERR_STATE)
    else
      let k := ZK_ENTER_CRITICAL k in
      if decide (is_scheduler_suspending k <> 0)
      then Ok (ZK_EXIT_CRITICAL k, Return ZK_ERR_STATE)
      else if decide (owner_hold_count mutex = 0) then
        let k := update_mutex mutex_handle
                   (fun m => with_next_mutex (holding_mutex (tcbs k current_task))
                               (with_owner_priority (priority (tcbs k current_task))
                                  (with_owner_hold_count 1
                                     (with_owner (Some current_task) m)))) k in
        let k := update_tcb current_task (with_holding_mutex (Some mutex_handle)) k in
        Ok (ZK_EXIT_CRITICAL k, Return ZK_SUCCESS)
      else if decide (owner mutex = Some current_task) then
        Ok (ZK_EXIT_CRITICAL
              (update_mutex mutex_handle
                 (with_owner_hold_count (uint32 (owner_hold_count mutex + 1))) k),
            Return ZK_SUCCESS)
      else if decide (timeout = 0) then Ok (ZK_EXIT_CRITICAL k, Return ZK_ERR_FAILED)
      else
        let k := update_tcb current_task (with_event_timeout_wakeup EVENT_NO_TIMEOUT) k in
        let k := update_tcb current_task
                   (with_wake_up_time (uint32 (get_current_time k + timeout))) k in
        let k := ZK_ENTER_CRITICAL k in
        k ← mutex_sleep current_task mutex_handle block_type k;
        k ← schedule k;
        let k := ZK_EXIT_CRITICAL k in
        if decide (g_current_tcb k = current_task) then
          let '(k, ret) := mutex_lock_internal_resume current_task k in Ok (k, Return ret)
        else Ok (k, Suspended).

Definition mutex_lock (mutex_handle : nat) :=
  mutex_lock_internal mutex_handle BLOCK_TYPE_ENDLESS 0xFF.

Definition mutex_lock_timeout (mutex_handle : nat) (timeout : Z) :=
  mutex_lock_internal mutex_handle BLOCK_TYPE_TIMEOUT timeout.

Definition mutex_try_lock (mutex_handle : nat) :=
  mutex_lock_internal mutex_handle BLOCK_TYPE_ENDLESS 0.

(** The search loop of [mutex_wakeup] along the [next_mutex] links: the
    mutex whose [next_mutex] is [mutex], if the chain from [prev_mutex] has
    one.  A chain without repetition has at most [MUTEX_MAX_NUM] links. *)
Fixpoint find_prev_mutex (rounds : nat) (prev_mutex : option nat) (mutex : nat)
  (k : kernel) : option nat :=
  match rounds, prev_mutex with
  | S rounds, Some p =>
      match g_mutex_pool k !! p with
      | Some pm =>
          if decide (next_mutex pm = Some mutex) then Some p
          else find_prev_mutex rounds (next_mutex pm) mutex k
      | None => None
      end
  | _, _ => None
  end.

(** [mutex_wakeup]: the kernel and [need_reschedule]. *)
Definition mutex_wakeup (task : tcb_ptr) (mutex : nat) (k : kernel)
  : result (kernel * bool) :=
  m ← mutex_at mutex k;
  let k :=
    if decide (holding_mutex (tcbs k task) = Some mutex) then
      update_tcb task (with_holding_mutex (next_mutex m)) k
    else
      match find_prev_mutex MUTEX_MAX_NUM (holding_mutex (tcbs k task)) mutex k with
      | Some prev_mutex => update_mutex prev_mutex (with_next_mutex (next_mutex m)) k
      | None => k
      end in
  k ← (if decide (base_priority (tcbs k task) <> owner_priority m)
       then task_resume_priority task k else Ok k);
  if negb (zk_list_is_empty (sleep_list mutex) (lists k)) then
    wakeup_task ← ZK_LIST_GET_FIRST_ENTRY (sleep_list mutex) (lists k);
    let k := update_tcb wakeup_task (with_holding_mutex None) k in
    k ← task_block_to_ready wakeup_task k;
    let k := update_mutex mutex
               (fun m => with_owner_hold_count 1
                           (with_owner_priority (priority (tcbs k wakeup_task))
                              (with_owner (Some wakeup_task) m))) k in
    let k := update_mutex mutex (with_next_mutex (holding_mutex (tcbs k wakeup_task))) k in
    let k := update_tcb wakeup_task (with_holding_mutex (Some mutex)) k in
    Ok (k, true)
  else
    Ok (update_mutex mutex
          (fun m => with_next_mutex None (with_owner None
                      (with_owner_priority ZK_MIN_PRIORITY m))) k,
        false).

Definition mutex_unlock (mutex_handle : nat) (k : kernel)
  : result (kernel * zk_error_code_t) :=
  let current_task := g_current_tcb k in
  if decide (MUTEX_MAX_NUM <= mutex_handle)%nat then Ok (k, ZK_ERR_INVALID_HANDLE)
  else
    mutex ← mutex_at mutex_handle k;
    if decide (mutex_is_used mutex = MUTEX_UNUSED) then Ok (k, ZK_ERR_STATE)
    else
      let k := ZK_ENTER_CRITICAL k in
      if decide (is_scheduler_suspending k <> 0) then Ok (ZK_EXIT_CRITICAL k, ZK_ERR_STATE)
      else if decide (owner_hold_count mutex = 0)
      then Ok (ZK_EXIT_CRITICAL k, ZK_ERR_SYNC_NOT_OWNER)
      else if decide (owner mutex <> Some current_task)
      then Ok (ZK_EXIT_CRITICAL k, ZK_ERR_SYNC_NOT_OWNER)
      else
        let k := update_mutex mutex_handle
                   (with_owner_hold_count (uint32 (owner_hold_count mutex - 1))) k in
        if decide (uint32 (owner_hold_count mutex - 1) <> 0)
        then Ok (ZK_EXIT_CRITICAL k, ZK_SUCCESS)
        else
          r ← mutex_wakeup current_task mutex_handle k;
          let need_reschedule : bool := snd r in
          k ← (if need_reschedule then schedule (fst r) else Ok (fst r));
          Ok (ZK_EXIT_CRITICAL k, ZK_SUCCESS).

Definition mutex_destroy (mutex_handle : nat) (k : kernel)
  : result (kernel * zk_error_code_t) :=
  if decide (MUTEX_MAX_NUM <= mutex_handle)%nat then Ok (k, ZK_ERR_INVALID_HANDLE)
  else
    mutex ← mutex_at mutex_handle k;
    if decide (mutex_is_used mutex = MUTEX_UNUSED) then Ok (k, ZK_ERR_STATE)
    else
      let k := ZK_ENTER_CRITICAL k in
      if negb (zk_list_is_empty (sleep_list mutex_handle) (lists k))
      then Ok (ZK_EXIT_CRITICAL k, ZK_ERR_STATE)
      else if decide (owner_hold_count mutex > 0) then Ok (ZK_EXIT_CRITICAL k, ZK_ERR_STATE)
      else
        Ok (ZK_EXIT_CRITICAL
              (update_mutex mutex_handle
                 (fun m => with_next_mutex None
                             (with_owner_priority ZK_MIN_PRIORITY
                                (with_mutex_is_used MUTEX_UNUSED (with_owner None m)))) k),
            ZK_SUCCESS).

(** ** Bring-up ([zk_board.c]) *)

Definition zk_kernel_init (k : kernel) : kernel :=
  let k := with_g_mem_manager (mem_init (g_mem_manager k)) k in
  let k := scheduler_init k in
  let k := mutex_init k in
  let k := queue_init k in
  sem_init k.

End config.

(** ** A board

    A concrete configuration and the system right after bring-up, used to run
    the kernel on explicit inputs: a release build with four entries in each
    pool and the heap at the start of the STM32F1 SRAM. *)

Definition board : zk_config :=
  {| SEM_MAX_NUM := 4; MUTEX_MAX_NUM := 4; QUEUE_MAX_NUM := 4;
     DEBUG_ASSERT := false; g_heap := 0x20000000 |}.

(** Memory at reset: zeroed globals, no list node linked; the nesting counter
    has its initialiser from [zk_cpu_cm3.c]. *)
Definition power_on : kernel :=
  mk_kernel (fun _ => mk_tcb 0 0 TASK_READY EVENT_NO_TIMEOUT 0 None)
    (mk_lists (fun _ => []) (fun _ => None))
    0 0 0 0 O O 0 0xaaaaaaaa false [] [] []
    (mk_mem [] [] 0 0 0 false 0 0 0 0 0 0) (fun _ => x00).

(** Tasks [first], [first + 1], ... created with the given priorities. *)
Fixpoint create_tasks `{!zk_config} (first : tcb_ptr) (priorities : list Z) (k : kernel)
  : result kernel :=
  match priorities with
  | [] => Ok k
  | p :: r => '(k, _) ← task_create first p k; create_tasks (S first) r k
  end.

(** [zk_kernel_init], the application's tasks 1, 2, ..., then
    [zk_start_scheduler]: the idle task (control block 0) and the first
    switch. *)
Definition boot `{!zk_config} (priorities : list Z) : result kernel :=
  k ← create_tasks 1%nat priorities (zk_kernel_init power_on);
  '(k, _) ← task_create O ZK_MIN_PRIORITY k;
  start_scheduler k.

(** Running a sequence of steps, each taking the kernel and giving a pair. *)
Definition then_do {A B} (r : result (kernel * A)) (f : kernel -> result (kernel * B))
  : result (kernel * B) :=
  '(k, _) ← r; f k.

(** What a run leaves in the kernel, seen through [f]. *)
Definition observe {A B} (r : result (kernel * A)) (f : kernel -> B) : result B :=
  (fun p => f (fst p)) <$> r.

(** The value a run gives its caller. *)
Definition returned {A} (r : result (kernel * A)) : result A := snd <$> r.

(** Runs on the board.  Task 1 has priority 5, task 2 priority 3, so task 2
    runs first; the idle task is task 0. *)

Section board_runs.

#[local] Existing Instance board.

(** A queue of two one-byte elements, written twice. *)
Definition queue_filled : result (kernel * api_outcome) :=
  k ← boot [5; 3];
  '(k, _) ← queue_create 1 2 k;
  '(k, _) ← queue_try_write 0 [x01] 1 k;
  queue_try_write 0 [x02] 1 k.

(** A queue of one one-byte element, written once. *)
Definition queue_of_one : result (kernel * api_outcome) :=
  k ← boot [5; 3];
  '(k, _) ← queue_create 1 1 k;
  queue_try_write 0 [x2a] 1 k.

(** Task 2 (priority 3), then task 1 (priority 5), wait for semaphore 0; the
    idle task is left running. *)
Definition two_waiters : result (kernel * api_outcome) :=
  k ← boot [5; 3];
  let '(k, _) := sem_create 0 k in
  '(k, _) ← sem_get 0 k;
  sem_get 0 k.

Definition with_semaphore : result (kernel * (zk_error_code_t * nat)) :=
  k ← boot [5; 3]; Ok (sem_create 0 k).

Definition with_queue : result (kernel * (zk_error_code_t * nat)) :=
  k ← boot [5; 3]; queue_create 1 2 k.

Definition with_mutex : result (kernel * (zk_error_code_t * nat)) :=
  k ← boot [5; 3]; Ok (mutex_create k).

(** Four blocks fill the heap; the first and the third are freed. *)
Definition heap_fragmented : result (mem_manager_t * list Z) :=
  '(m, p1) ← mem_alloc 2544 (mem_init (g_mem_manager power_on));
  '(m, p2) ← mem_alloc 2544 m;
  '(m, p3) ← mem_alloc 2544 m;
  '(m, p4) ← mem_alloc 2544 m;
  m ← mem_free p1 m;
  m ← mem_free p3 m;
  Ok (m, [p1; p2; p3; p4]).

End board_runs.

(** ** Scheduler invariants the properties are stated with *)

(** A task is on the ready list of its priority: its [state_node] is linked
    into [g_scheduler.ready_list[priority]]. *)
Definition on_its_ready_list (k : kernel) (tcb : tcb_ptr) : Prop :=
  let p := priority (tcbs k tcb) in
  0 <= p < ZK_PRIORITY_NUM
  /\ link (lists k) (state_node tcb) = Some (ready_list p)
  /\ state_node tcb ∈ members (lists k) (ready_list p).

(** Bit [p] of the bitmap is set exactly when ready list [p] has a member. *)
Definition bitmap_consistent (k : kernel) : Prop :=
  forall p, 0 <= p < ZK_PRIORITY_NUM ->
    Z.testbit (priority_active k) p = true <-> members (lists k) (ready_list p) <> [].

Definition bitmap_check (k : kernel) : bool :=
  forallb (fun p => bool_decide (Z.testbit (priority_active k) p = true
                                 <-> members (lists k) (ready_list p) <> []))
          (seqZ 0 ZK_PRIORITY_NUM).

(** [tcb] is the first task of the ready list with the smallest index among
    the lists that have a member: the highest-priority ready task. *)
Definition highest_priority_ready (k : kernel) (tcb : tcb_ptr) : Prop :=
  exists p n,
    0 <= p < ZK_PRIORITY_NUM
    /\ head (members (lists k) (ready_list p)) = Some n
    /\ ZK_LIST_GET_OWNER n = tcb
    /\ forall q, 0 <= q < p -> members (lists k) (ready_list q) = [].

(** The kernel a run leaves, for runs that are known not to fault. *)
Definition kernel_of {A} (r : result (kernel * A)) : kernel :=
  match r with Ok (k, _) => k | Fault _ => power_on end.

(** Two tasks of priority 7 on the board, task 2 running. *)
Definition round_robin_pair : kernel :=
  kernel_of ((fun k => (k, ())) <$> boot (H := board) [7; 7]).

(** Every block size on the heap lists is a [zk_uint32]. *)
Definition block_sizes_in_range (m : mem_manager_t) : Prop :=
  forall b, b ∈ free_list m ++ used_list m -> 0 <= block_size b < 2 ^ 32.

(** The board with every entry of the queue pool in use. *)
Definition queue_pool_full : kernel :=
  kernel_of (k ← boot (H := board) [5; 3];
             '(k, _) ← queue_create (H := board) 1 2 k;
             '(k, _) ← queue_create (H := board) 1 2 k;
             '(k, _) ← queue_create (H := board) 1 2 k;
             queue_create (H := board) 1 2 k).

(** The board after bring-up, task 2 (priority 3) running. *)
Definition booted : kernel :=
  kernel_of ((fun k => (k, ())) <$> boot (H := board) [5; 3]).

(** ** Runs of the kernel

    What task [tcb] and the rest of the system can do to the kernel while
    one of its calls is pending. *)

(** No list node of task [tcb] is a member of the timeout-blocked list, and
    that list links tasks through their [state_node]: no [event_sleep_list]
    node points into it. *)
Definition off_the_timeout_list (tcb : tcb_ptr) (ls : zk_lists) : Prop :=
  (forall n, n ∈ members ls block_timeout_list -> ZK_LIST_GET_OWNER n <> tcb)
  /\ (forall t, link ls (event_sleep_list t) <> Some block_timeout_list).

(** The state of a task waiting without a timeout. *)
Definition waits_without_timeout (tcb : tcb_ptr) (k : kernel) : Prop :=
  event_timeout_wakeup (tcbs k tcb) = EVENT_NO_TIMEOUT
  /\ off_the_timeout_list tcb (lists k).

Section runs.

Context `{!zk_config}.

(** One step of the running task [tcb]: an entry point of the kernel, up to
    its return or to the point where the caller is switched out, or the rest
    of a blocking entry point. *)
Inductive task_step (tcb : tcb_ptr) (k k' : kernel) : Prop :=
| step_task_create new parameter_priority ret :
    task_create new parameter_priority k = Ok (k', ret) -> task_step tcb k k'
| step_task_delay delay_time o :
    task_delay delay_time k = Ok (k', o) -> task_step tcb k k'
| step_mem_alloc request_size m p :
    mem_alloc request_size (g_mem_manager k) = Ok (m, p) ->
    k' = with_g_mem_manager m k -> task_step tcb k k'
| step_mem_free user_addr m :
    mem_free user_addr (g_mem_manager k) = Ok m ->
    k' = with_g_mem_manager m k -> task_step tcb k k'
| step_sem_create initial_count ret :
    sem_create initial_count k = (k', ret) -> task_step tcb k k'
| step_sem_get_internal sem_handle block_type timeout o :
    sem_get_internal sem_handle block_type timeout k = Ok (k', o) -> task_step tcb k k'
| step_sem_get_internal_resume ret :
    sem_get_internal_resume tcb k = (k', ret) -> task_step tcb k k'
| step_sem_release sem_handle ret :
    sem_release sem_handle k = Ok (k', ret) -> task_step tcb k k'
| step_sem_destroy sem_handle ret :
    sem_destroy sem_handle k = Ok (k', ret) -> task_step tcb k k'
| step_mutex_create ret :
    mutex_create k = (k', ret) -> task_step tcb k k'
| step_mutex_lock_internal mutex_handle block_type timeout o :
    mutex_lock_internal mutex_handle block_type timeout k = Ok (k', o) -> task_step tcb k k'
| step_mutex_lock_internal_resume ret :
    mutex_lock_internal_resume tcb k = (k', ret) -> task_step tcb k k'
| step_mutex_unlock mutex_handle ret :
    mutex_unlock mutex_handle k = Ok (k', ret) -> task_step tcb k k'
| step_mutex_destroy mutex_handle ret :
    mutex_destroy mutex_handle k = Ok (k', ret) -> task_step tcb k k'
| step_queue_create element_single_size element_num ret :
    queue_create element_single_size element_num k = Ok (k', ret) -> task_step tcb k k'
| step_queue_write queue_handle buffer size o :
    queue_write queue_handle buffer size k = Ok (k', o) -> task_step tcb k k'
| step_queue_write_internal queue_handle buffer size block_type timeout o :
    queue_write_internal queue_handle buffer size block_type timeout k = Ok (k', o) ->
    task_step tcb k k'
| step_queue_write_internal_resume queue_handle buffer size block_type timeout o :
    queue_write_internal_resume queue_handle buffer size block_type timeout tcb k
    = Ok (k', o) -> task_step tcb k k'
| step_queue_read_internal queue_handle size block_type timeout r :
    queue_read_internal queue_handle size block_type timeout k = Ok (k', r) ->
    task_step tcb k k'
| step_queue_read_internal_resume queue_handle size block_type timeout r :
    queue_read_internal_resume queue_handle size block_type timeout tcb k = Ok (k', r) ->
    task_step tcb k k'
| step_queue_destroy queue_handle ret :
    queue_destroy queue_handle k = Ok (k', ret) -> task_step tcb k k'.

(** What happens around task [tcb] while it is not running: the tick
    interrupt, and the steps of whichever other task is running. *)
Inductive environment_step (tcb : tcb_ptr) (k k' : kernel) : Prop :=
| environment_tick :
    zk_asm_systick_handler k = Ok k' -> environment_step tcb k k'
| environment_task :
    g_current_tcb k <> tcb -> task_step (g_current_tcb k) k k' ->
    environment_step tcb k k'.

(** A call of task [tcb] that has come to [(k, o)] returns [ret] to its
    caller: at once when [o] is a return value; otherwise after steps of the
    environment and, each time [tcb] is the running task again, the [rest]
    of the call, which may block again. *)
Inductive returns (tcb : tcb_ptr) (rest : kernel -> result (kernel * api_outcome))
  : kernel * api_outcome -> zk_error_code_t -> Prop :=
| returns_at_once k ret :
    returns tcb rest (k, Return ret) ret
| returns_when_resumed k k' o ret :
    g_current_tcb k = tcb -> rest k = Ok (k', o) -> returns tcb rest (k', o) ret ->
    returns tcb rest (k, Suspended) ret
| returns_after_environment k k' ret :
    environment_step tcb k k' -> returns tcb rest (k', Suspended) ret ->
    returns tcb rest (k, Suspended) ret.

(** The rest of the four calls that wait without a timeout. *)
Definition sem_get_rest (tcb : tcb_ptr) (k : kernel) : result (kernel * api_outcome) :=
  let '(k, ret) := sem_get_internal_resume tcb k in Ok (k, Return ret).

Definition mutex_lock_rest (tcb : tcb_ptr) (k : kernel) : result (kernel * api_outcome) :=
  let '(k, ret) := mutex_lock_internal_resume tcb k in Ok (k, Return ret).

Definition queue_write_rest (queue_handle : nat) (buffer : list byte) (size : Z)
  (tcb : tcb_ptr) (k : kernel) : result (kernel * api_outcome) :=
  queue_write_internal_resume queue_handle buffer size BLOCK_TYPE_ENDLESS
    ZK_TIMEOUT_INFINITE tcb k.

(** The outcome of a read without the bytes it copied. *)
Definition without_data (r : result (kernel * (api_outcome * list byte)))
  : result (kernel * api_outcome) :=
  (fun p => (fst p, fst (snd p))) <$> r.

Definition queue_read_rest (queue_handle : nat) (size : Z) (tcb : tcb_ptr) (k : kernel)
  : result (kernel * api_outcome) :=
  without_data (queue_read_internal_resume queue_handle size BLOCK_TYPE_ENDLESS
                  ZK_TIMEOUT_INFINITE tcb k).

End runs.


(** A run on the board: semaphore 0 is created empty, task 2 waits for it, a
    tick passes, task 1 releases the semaphore. *)
Definition semaphore_created : kernel := kernel_of with_semaphore.

Definition task_2_waiting : kernel :=
  kernel_of (sem_get (H := board) 0 semaphore_created).

Definition after_a_tick : kernel :=
  kernel_of ((fun k => (k, ())) <$> zk_asm_systick_handler task_2_waiting).

Definition semaphore_released : kernel :=
  kernel_of (sem_release (H := board) 0 after_a_tick).



(** The board with the count of semaphore 0 at 1 and the scheduler suspended
    256 deep. *)
Definition semaphore_released_256_deep : kernel :=
  with_scheduler_suspend_nesting 256
    (kernel_of (sem_release (H := board) 0 semaphore_created)).


(** ** Well-formed scheduler states *)

(** The member sequences have no repetition and [link] tells, for every
    node, the list it is a member of. *)
Definition lists_wf (ls : zk_lists) : Prop :=
  (forall h, NoDup (members ls h))
  /\ (forall n h, n ∈ members ls h <-> link ls n = Some h).

(** Ready list [p] links tasks of priority [p] through their [state_node]. *)
Definition ready_lists_wf (k : kernel) : Prop :=
  forall p n, n ∈ members (lists k) (ready_list p) ->
    0 <= p < ZK_PRIORITY_NUM
    /\ exists t, n = state_node t /\ priority (tcbs k t) = p.

Definition delay_list_wf (k : kernel) : Prop :=
  forall n, n ∈ members (lists k) delay_list ->
    exists t, n = state_node t /\ 0 <= priority (tcbs k t) < ZK_PRIORITY_NUM.

(** A task on the timeout-blocked list is in state TASK_TIMEOUT_BLOCKED and
    its [event_sleep_list] node is linked into some waiter list. *)
Definition timeout_list_wf (k : kernel) : Prop :=
  forall n, n ∈ members (lists k) block_timeout_list ->
    exists t, n = state_node t
      /\ state (tcbs k t) = TASK_TIMEOUT_BLOCKED
      /\ link (lists k) (event_sleep_list t) <> None
      /\ 0 <= priority (tcbs k t) < ZK_PRIORITY_NUM.

Definition scheduler_wf (k : kernel) : Prop :=
  lists_wf (lists k) /\ ready_lists_wf k /\ delay_list_wf k /\ timeout_list_wf k
  /\ bitmap_consistent k.

(** The kernel between two entries: the running task is on its ready list,
    the scheduler is not suspended, no critical section is open and no
    switch is pending. *)
Definition kernel_wf (k : kernel) : Prop :=
  scheduler_wf k
  /\ on_its_ready_list k (g_current_tcb k)
  /\ is_scheduler_suspending k = 0
  /\ zk_critical_nesting k = 0
  /\ pendsv_pending k = false
  /\ 0 <= g_current_time k < 2 ^ 32.

(** [n] tick interrupts in a row. *)
Fixpoint ticks (n : nat) (k : kernel) : result kernel :=
  match n with
  | O => Ok k
  | S n => k ← zk_asm_systick_handler k; ticks n k
  end.


(** What waking tasks up changes between [k] and [k']: task control
    blocks, lists and the priority bitmap only; no priority and no wake-up
    time; a timeout flag only by being set; no task that is still on the
    timeout-blocked list, which loses members at its front; and no ready
    list loses a member. *)
Definition wakes (k k' : kernel) : Prop :=
  k' = with_tcbs (tcbs k') (with_lists (lists k')
         (with_priority_active (priority_active k') k))
  /\ (forall t, priority (tcbs k' t) = priority (tcbs k t)
             /\ wake_up_time (tcbs k' t) = wake_up_time (tcbs k t)
             /\ (event_timeout_wakeup (tcbs k' t) = event_timeout_wakeup (tcbs k t)
                 \/ event_timeout_wakeup (tcbs k' t) = EVENT_WAIT_TIMEOUT))
  /\ (forall t, state_node t ∈ members (lists k') block_timeout_list ->
                tcbs k' t = tcbs k t)
  /\ members (lists k') block_timeout_list `suffix_of` members (lists k) block_timeout_list
  /\ (forall p n, n ∈ members (lists k) (ready_list p) ->
                  n ∈ members (lists k') (ready_list p)).


(** What a scheduling decision changes between [k] and [k']: the order of
    the members within a list, [g_switch_next_tcb], the pending switch and
    the time slice. *)
Definition rotates (k k' : kernel) : Prop :=
  k' = with_lists (lists k')
         (with_g_switch_next_tcb (g_switch_next_tcb k')
            (with_pendsv_pending (pendsv_pending k')
               (with_g_schedule_time_slice (g_schedule_time_slice k') k)))
  /\ (forall h, members (lists k') h ≡ₚ members (lists k) h)
  /\ (forall n, link (lists k') n = link (lists k) n)
  /\ members (lists k') block_timeout_list = members (lists k) block_timeout_list.


(** Task [tcb] is blocked with a timeout that ends at tick [wake]: it is on
    the timeout-blocked list, its timeout flag is clear, and every task in
    front of it on that list is due at [wake] at the latest. *)
Definition blocked_until (tcb : tcb_ptr) (wake : Z) (k : kernel) : Prop :=
  state (tcbs k tcb) = TASK_TIMEOUT_BLOCKED
  /\ event_timeout_wakeup (tcbs k tcb) = EVENT_NO_TIMEOUT
  /\ wake_up_time (tcbs k tcb) = wake
  /\ exists l1 l2,
       members (lists k) block_timeout_list = l1 ++ state_node tcb :: l2
       /\ forall n, n ∈ l1 ->
            zk_time_is_reached wake (wake_up_time (tcbs k (ZK_LIST_GET_OWNER n))) = true.

(** No task on the timeout-blocked list is overdue. *)
Definition timeouts_pending (k : kernel) : Prop :=
  forall n, n ∈ members (lists k) block_timeout_list ->
    zk_time_is_reached (wake_up_time (tcbs k (ZK_LIST_GET_OWNER n))) (g_current_time k)
    = true.


(** The lists of the board once semaphore 0 is created, written out: the
    three tasks are ready, every other list is empty. *)
Definition board_lists : zk_lists :=
  mk_lists
    (fun h => if decide (h = ready_list 3) then [state_node 2]
              else if decide (h = ready_list 5) then [state_node 1]
              else if decide (h = ready_list 31) then [state_node 0]
              else [])
    (fun n => if decide (n = state_node 2) then Some (ready_list 3)
              else if decide (n = state_node 1) then Some (ready_list 5)
              else if decide (n = state_node 0) then Some (ready_list 31)
              else None).

Definition board_with_semaphore : kernel := with_lists board_lists semaphore_created.

(** The list heads and the list nodes the board uses. *)
Definition board_heads : list list_head :=
  map ready_list (seqZ 0 ZK_PRIORITY_NUM)
  ++ [delay_list; suspend_list; block_timeout_list]
  ++ map wait_list (seq 0 4) ++ map sleep_list (seq 0 4)
  ++ map reader_sleep_list (seq 0 4) ++ map writer_sleep_list (seq 0 4).

Definition board_nodes : list list_member :=
  map state_node (seq 0 3) ++ map event_sleep_list (seq 0 3).


(** Two tasks of priority 7 on the board and semaphore 0, created empty;
    then task 2 has called [sem_get_timeout] with a timeout of 10 ticks. *)
Definition peers_with_semaphore : kernel :=
  kernel_of (k ← boot (H := board) [7; 7]; Ok (sem_create (H := board) 0 k)).

Definition peer_waiting : kernel :=
  kernel_of (sem_get_timeout (H := board) 0 10 peers_with_semaphore).


(** The board with mutex 0 created, and then locked by the running task 2. *)
Definition mutex_created : kernel := kernel_of with_mutex.

Definition mutex_held : kernel := kernel_of (mutex_lock (H := board) 0 mutex_created).

(** The positions of a queue index its slots. *)
Definition queue_positions_in_range (q : queue_t) : Prop :=
  0 <= read_pos q < element_num q
  /\ 0 <= write_pos q < element_num q
  /\ element_num q < 2 ^ 32.

(** The board with queue 0 created: two elements of one byte. *)
Definition queue_created : kernel := kernel_of with_queue.

(** A heap whose free list is one block that spans it, nothing allocated:
    the heap [mem_init] leaves. *)
Definition whole_heap (m : mem_manager_t) (base total : Z) : Prop :=
  free_list m = [mk_block base total] /\ used_list m = []
  /\ available_size m = total /\ base_address m = base /\ total_size m = total
  /\ is_initialized m = true.

(** ** Software timers ([zk_timer.c])

    The timers have a pool and one list of their own, [g_timer_manager.timers_list],
    which links the running timers through their [list] node in the order of
    their expiry.  The list is the sequence of the handles of its members;
    for a timer that is not a member, [timer_list] says what its two
    pointers hold: null, as [zk_list_delete] leaves them, or the node
    itself, as [zk_list_init] leaves them.  [TIMER_MAX_NUM] comes from [zk_config.h] and
    is a parameter.  A handler is user code: the model records the calls
    [timer_check] makes, with their parameters, and runs nothing for them; a
    handler that calls the timer interface itself is outside the model. *)

Inductive timer_mode_t := TIMER_ONESHOT | TIMER_AUTO_RELOAD.

Inductive timer_status_t := TIMER_STOP | TIMER_RUNNING.

Inductive timer_node_t :=
| TIMER_NODE_NULL        (* pre = next = null *)
| TIMER_NODE_SELF.       (* pre = next = the node *)

#[global] Instance timer_mode_eq_dec : EqDecision timer_mode_t.
Proof. solve_decision. Defined.
#[global] Instance timer_status_eq_dec : EqDecision timer_status_t.
Proof. solve_decision. Defined.
#[global] Instance timer_node_eq_dec : EqDecision timer_node_t.
Proof. solve_decision. Defined.

Record timer_t := mk_timer {
  timer_list : timer_node_t;        (* list, while not a member *)
  timer_status : timer_status_t;    (* status *)
  timer_mode : timer_mode_t;        (* mode *)
  timer_interval : Z;               (* interval *)
  timer_handler : Z;                (* handler, a function pointer *)
  timer_wake_up_time : Z;           (* wake_up_time *)
  timer_is_used : Z;                (* is_used *)
  timer_param : Z                   (* param *)
}.

Record timer_module := mk_timers {
  g_timer_pool : list timer_t;
  timers_list : list nat            (* g_timer_manager.timers_list *)
}.

Definition with_timer_list (v : timer_node_t) (t : timer_t) : timer_t :=
  mk_timer v (timer_status t) (timer_mode t) (timer_interval t) (timer_handler t)
    (timer_wake_up_time t) (timer_is_used t) (timer_param t).
Definition with_timer_status (v : timer_status_t) (t : timer_t) : timer_t :=
  mk_timer (timer_list t) v (timer_mode t) (timer_interval t) (timer_handler t)
    (timer_wake_up_time t) (timer_is_used t) (timer_param t).
Definition with_timer_interval (v : Z) (t : timer_t) : timer_t :=
  mk_timer (timer_list t) (timer_status t) (timer_mode t) v (timer_handler t)
    (timer_wake_up_time t) (timer_is_used t) (timer_param t).
Definition with_timer_wake_up_time (v : Z) (t : timer_t) : timer_t :=
  mk_timer (timer_list t) (timer_status t) (timer_mode t) (timer_interval t) (timer_handler t)
    v (timer_is_used t) (timer_param t).
Definition with_timer_is_used (v : Z) (t : timer_t) : timer_t :=
  mk_timer (timer_list t) (timer_status t) (timer_mode t) (timer_interval t) (timer_handler t)
    (timer_wake_up_time t) v (timer_param t).

(** [g_timer_pool[handle]], where the array is dereferenced. *)
Definition timer_at (handle : nat) (ts : timer_module) : result timer_t :=
  match g_timer_pool ts !! handle with
  | Some timer => Ok timer
  | None => Fault OUT_OF_BOUNDS
  end.

Definition update_timer (handle : nat) (f : timer_t -> timer_t) (ts : timer_module)
  : timer_module :=
  mk_timers (alter f handle (g_timer_pool ts)) (timers_list ts).

(** [zk_list_init(&timer->list)] *)
Definition timer_list_init (handle : nat) (ts : timer_module) : result timer_module :=
  if decide (handle ∈ timers_list ts) then Fault LIST_CORRUPTED
  else Ok (update_timer handle (with_timer_list TIMER_NODE_SELF) ts).

(** The loop of [add_timer_to_list] and the insertion that follows it: before
    the first timer that expires later, or at the tail. *)
Fixpoint add_timer_scan (wake_up_time : Z) (handle : nat) (l : list nat) (ts : timer_module)
  : result (list nat) :=
  match l with
  | [] => Ok [handle]
  | iterator :: r =>
      timer_iterator ← timer_at iterator ts;
      if decide (int32 (uint32 (timer_wake_up_time timer_iterator - wake_up_time)) > 0)
      then Ok (handle :: iterator :: r)
      else r' ← add_timer_scan wake_up_time handle r ts; Ok (iterator :: r')
  end.

Definition add_timer_to_list (handle : nat) (ts : timer_module) : result timer_module :=
  timer ← timer_at handle ts;
  if decide (handle ∈ timers_list ts) then Fault LIST_CORRUPTED
  else
    l ← add_timer_scan (timer_wake_up_time timer) handle (timers_list ts) ts;
    Ok (mk_timers (g_timer_pool ts) l).

(** [remove_timer_from_list]: [zk_list_delete(&timer->list)]. *)
Definition remove_timer_from_list (handle : nat) (ts : timer_module) : result timer_module :=
  timer ← timer_at handle ts;
  if decide (handle ∈ timers_list ts) then
    Ok (mk_timers (alter (with_timer_list TIMER_NODE_NULL) handle (g_timer_pool ts))
                  (filter (fun i => i <> handle) (timers_list ts)))
  else
    match timer_list timer with
    | TIMER_NODE_NULL => Fault NULL_DEREFERENCE
    | TIMER_NODE_SELF => Ok (update_timer handle (with_timer_list TIMER_NODE_NULL) ts)
    end.

Section timers.

Context `{!zk_config}.
Variable TIMER_MAX_NUM : nat.

Definition timer_init (ts : timer_module) : timer_module :=
  mk_timers
    (map (fun t => with_timer_list TIMER_NODE_SELF
                     (with_timer_status TIMER_STOP (with_timer_is_used 0 t)))
         (take TIMER_MAX_NUM (g_timer_pool ts))
     ++ drop TIMER_MAX_NUM (g_timer_pool ts))
    [].

Definition get_timer_resource (ts : timer_module) : option nat :=
  (list_find (fun t => timer_is_used t = 0) (take TIMER_MAX_NUM (g_timer_pool ts)))
    ≫= (fun p => Some (fst p)).

Definition timer_create (mode : timer_mode_t) (interval handler param : Z)
  (k : kernel) (ts : timer_module)
  : result (kernel * timer_module * (zk_error_code_t * nat)) :=
  _ ← ZK_ASSERT (negb (bool_decide (handler = ZK_NULL)));
  if decide (interval = 0 \/ interval >= ZK_TSK_DLY_MAX)
  then Ok (k, ts, (ZK_ERR_OUT_OF_RANGE, O))
  else
    let k := ZK_ENTER_CRITICAL k in
    match get_timer_resource ts with
    | None => Ok (ZK_EXIT_CRITICAL k, ts, (ZK_ERR_RESOURCE_UNAVAILABLE, O))
    | Some timer_handle =>
        let ts := update_timer timer_handle
                    (fun t => mk_timer (timer_list t) TIMER_STOP mode interval handler 0
                                (timer_is_used t) param) ts in
        ts ← timer_list_init timer_handle ts;
        let ts := update_timer timer_handle (with_timer_is_used 1) ts in
        Ok (ZK_EXIT_CRITICAL k, ts, (ZK_SUCCESS, timer_handle))
    end.

Definition timer_start (timer_handle : nat) (k : kernel) (ts : timer_module)
  : result (kernel * timer_module * zk_error_code_t) :=
  if decide (TIMER_MAX_NUM <= timer_handle)%nat then Ok (k, ts, ZK_ERR_INVALID_HANDLE)
  else
    timer ← timer_at timer_handle ts;
    if decide (timer_is_used timer = 0) then Ok (k, ts, ZK_ERR_STATE)
    else
      let k := ZK_ENTER_CRITICAL k in
      ts ← (if decide (timer_status timer = TIMER_RUNNING)
            then remove_timer_from_list timer_handle ts else Ok ts);
      let ts := update_timer timer_handle
                  (fun t => with_timer_status TIMER_RUNNING
                              (with_timer_wake_up_time
                                 (uint32 (get_current_time k + timer_interval t)) t)) ts in
      ts ← add_timer_to_list timer_handle ts;
      Ok (ZK_EXIT_CRITICAL k, ts, ZK_SUCCESS).

Definition timer_stop (timer_handle : nat) (k : kernel) (ts : timer_module)
  : result (kernel * timer_module * zk_error_code_t) :=
  if decide (TIMER_MAX_NUM <= timer_handle)%nat then Ok (k, ts, ZK_ERR_INVALID_HANDLE)
  else
    timer ← timer_at timer_handle ts;
    if decide (timer_is_used timer = 0) then Ok (k, ts, ZK_ERR_STATE)
    else
      let k := ZK_ENTER_CRITICAL k in
      if decide (timer_status timer = TIMER_STOP) then Ok (ZK_EXIT_CRITICAL k, ts, ZK_ERR_STATE)
      else
        ts ← remove_timer_from_list timer_handle ts;
        let ts := update_timer timer_handle (with_timer_status TIMER_STOP) ts in
        Ok (ZK_EXIT_CRITICAL k, ts, ZK_SUCCESS).

Definition timer_delete (timer_handle : nat) (k : kernel) (ts : timer_module)
  : result (kernel * timer_module * zk_error_code_t) :=
  if decide (TIMER_MAX_NUM <= timer_handle)%nat then Ok (k, ts, ZK_ERR_INVALID_HANDLE)
  else
    timer ← timer_at timer_handle ts;
    if decide (timer_is_used timer = 0) then Ok (k, ts, ZK_ERR_STATE)
    else
      let k := ZK_ENTER_CRITICAL k in
      ts ← (if decide (timer_status timer = TIMER_RUNNING) then
              ts ← remove_timer_from_list timer_handle ts;
              Ok (update_timer timer_handle (with_timer_status TIMER_STOP) ts)
            else Ok ts);
      let ts := update_timer timer_handle (with_timer_is_used 0) ts in
      Ok (ZK_EXIT_CRITICAL k, ts, ZK_SUCCESS).

(** The first loop of [timer_check]: the timers at the head of the list
    whose time has come are moved to [expired_list], in their order.  Every
    round unlinks the head, so the rounds are at most the members the list
    has when the loop starts. *)
Fixpoint timer_check_expire (current_time : Z) (l : list nat) (ts : timer_module)
  (expired_list : list nat) : result (timer_module * list nat) :=
  match l with
  | [] => Ok (ts, expired_list)
  | first :: r =>
      timer ← timer_at first ts;
      if decide (int32 (uint32 (current_time - timer_wake_up_time timer)) >= 0) then
        ts ← remove_timer_from_list first ts;
        timer_check_expire current_time r ts (expired_list ++ [first])
      else Ok (ts, expired_list)
  end.

(** The second loop: each expired timer is unlinked from [expired_list], its
    handler is called, and it is put back on the timer list or stopped.  The
    third component collects the calls: handler and parameter. *)
Fixpoint timer_check_run (expired_list : list nat) (k : kernel) (ts : timer_module)
  (calls : list (Z * Z)) : result (kernel * timer_module * list (Z * Z)) :=
  match expired_list with
  | [] => Ok (k, ts, calls)
  | iterator :: r =>
      timer ← timer_at iterator ts;
      let calls := if decide (timer_handler timer <> ZK_NULL)
                   then calls ++ [(timer_handler timer, timer_param timer)] else calls in
      let k := ZK_ENTER_CRITICAL k in
      ts ← (if decide (timer_mode timer = TIMER_AUTO_RELOAD) then
              let ts := update_timer iterator
                          (fun t => with_timer_wake_up_time
                                      (uint32 (get_current_time k + timer_interval t)) t) ts in
              ts ← add_timer_to_list iterator ts;
              Ok (update_timer iterator (with_timer_status TIMER_RUNNING) ts)
            else Ok (update_timer iterator (with_timer_status TIMER_STOP) ts));
      timer_check_run r (ZK_EXIT_CRITICAL k) ts calls
  end.

Definition timer_check (current_time : Z) (k : kernel) (ts : timer_module)
  : result (kernel * timer_module * list (Z * Z)) :=
  let k := ZK_ENTER_CRITICAL k in
  '(ts, expired_list) ← timer_check_expire current_time (timers_list ts) ts [];
  let k := ZK_EXIT_CRITICAL k in
  timer_check_run expired_list k ts [].

Definition timer_reset (timer_handle : nat) (new_interval : Z) (k : kernel)
  (ts : timer_module) : result (kernel * timer_module * zk_error_code_t) :=
  if decide (TIMER_MAX_NUM <= timer_handle)%nat then Ok (k, ts, ZK_ERR_INVALID_HANDLE)
  else
    timer ← timer_at timer_handle ts;
    if decide (timer_is_used timer = 0) then Ok (k, ts, ZK_ERR_STATE)
    else if decide (new_interval = 0 \/ new_interval >= ZK_TSK_DLY_MAX)
    then Ok (k, ts, ZK_ERR_OUT_OF_RANGE)
    else
      let k := ZK_ENTER_CRITICAL k in
      let was_running := bool_decide (timer_status timer = TIMER_RUNNING) in
      ts ← (if was_running then remove_timer_from_list timer_handle ts else Ok ts);
      let ts := update_timer timer_handle (with_timer_interval new_interval) ts in
      ts ← (if was_running then
              let ts := update_timer timer_handle
                          (fun t => with_timer_wake_up_time
                                      (uint32 (get_current_time k + timer_interval t)) t) ts in
              ts ← add_timer_to_list timer_handle ts;
              Ok (update_timer timer_handle (with_timer_status TIMER_RUNNING) ts)
            else Ok ts);
      Ok (ZK_EXIT_CRITICAL k, ts, ZK_SUCCESS).

(** [timer_get_remaining]: the error code and what is stored through
    [remaining], if anything. *)
Definition timer_get_remaining (timer_handle : nat) (k : kernel) (ts : timer_module)
  : result (kernel * (zk_error_code_t * option Z)) :=
  if decide (TIMER_MAX_NUM <= timer_handle)%nat then Ok (k, (ZK_ERR_INVALID_HANDLE, None))
  else
    timer ← timer_at timer_handle ts;
    if decide (timer_is_used timer = 0) then Ok (k, (ZK_ERR_STATE, None))
    else
      let k := ZK_ENTER_CRITICAL k in
      if decide (timer_status timer <> TIMER_RUNNING)
      then Ok (ZK_EXIT_CRITICAL k, (ZK_ERR_STATE, Some 0))
      else
        let current_time := get_current_time k in
        let remaining :=
          if decide (int32 (uint32 (timer_wake_up_time timer - current_time)) > 0)
          then uint32 (timer_wake_up_time timer - current_time) else 0 in
        Ok (ZK_EXIT_CRITICAL k, (ZK_SUCCESS, Some remaining)).

(** [scheduler_increment_tick] in a build with ZK_USING_TIMER: the timer
    service runs after the critical section, with the time the handler read
    on entry. *)
Definition scheduler_increment_tick_with_timers (k : kernel) (ts : timer_module)
  : result (kernel * timer_module * list (Z * Z) * bool) :=
  let current_time := get_current_time k in
  '(k, need_schedule) ← scheduler_increment_tick k;
  '(k, ts, calls) ← timer_check current_time k ts;
  Ok (k, ts, calls, need_schedule).

End timers.

(** The ticks from [now] to the expiry of timer [handle], modulo 2^32. *)
Definition timer_offset (now : Z) (ts : timer_module) (handle : nat) : Z :=
  match g_timer_pool ts !! handle with
  | Some timer => uint32 (timer_wake_up_time timer - now)
  | None => 0
  end.

(** [l] is in ascending order of [f]. *)
Fixpoint sorted_by (f : nat -> Z) (l : list nat) : Prop :=
  match l with
  | [] => True
  | a :: r => Forall (fun b => f a <= f b) r /\ sorted_by f r
  end.

(** The timer list at time [now]: its members are the running timers, each
    once, each less than 2^31 ticks from its expiry, the nearest first. *)
Definition timers_wf (now : Z) (ts : timer_module) : Prop :=
  NoDup (timers_list ts)
  /\ (forall handle, handle ∈ timers_list ts <->
        exists timer, g_timer_pool ts !! handle = Some timer
                      /\ timer_status timer = TIMER_RUNNING)
  /\ (forall handle, handle ∈ timers_list ts -> timer_offset now ts handle < 2 ^ 31)
  /\ sorted_by (timer_offset now ts) (timers_list ts).

(** [n] tick interrupts in a build with ZK_USING_TIMER, and the handler
    calls they make, in order. *)
Fixpoint ticks_with_timers (n : nat) (k : kernel) (ts : timer_module)
  : result (kernel * timer_module * list (Z * Z)) :=
  match n with
  | O => Ok (k, ts, [])
  | S n =>
      '(k, ts, calls, _) ← scheduler_increment_tick_with_timers k ts;
      '(k, ts, later) ← ticks_with_timers n k ts;
      Ok (k, ts, calls ++ later)
  end.

(** The timers of the board: four entries; timer 0 is created with an
    interval of 3 ticks, handler 77 and parameter 5, auto-reload or
    one-shot, and started at time 0. *)
Definition board_timers_power_on : timer_module :=
  mk_timers (replicate 4 (mk_timer TIMER_NODE_NULL TIMER_STOP TIMER_ONESHOT 0 0 0 0 0)) [].

Definition board_timer_created (mode : timer_mode_t) : timer_module :=
  match timer_create (H := board) 4 mode 3 77 5 booted (timer_init 4 board_timers_power_on) with
  | Ok (_, ts, _) => ts
  | Fault _ => board_timers_power_on
  end.

Definition board_timer_started (mode : timer_mode_t) : timer_module :=
  match timer_start 4 0 booted (board_timer_created mode) with
  | Ok (_, ts, _) => ts
  | Fault _ => board_timers_power_on
  end.

(** The board three ticks after the auto-reload timer was started: the
    timer is due. *)
Definition board_timer_due : kernel * timer_module :=
  match ticks_with_timers 3 board_with_semaphore (board_timer_started TIMER_AUTO_RELOAD) with
  | Ok (k, ts, _) => (k, ts)
  | Fault _ => (board_with_semaphore, board_timers_power_on)
  end.

(** The timers of the board with a second timer: timer 0 has an interval of
    3 ticks and timer 1 an interval of 2 ticks; then timer 0 is started at
    time 0. *)
Definition board_two_timers : timer_module :=
  match timer_create (H := board) 4 TIMER_ONESHOT 2 78 6 booted
          (board_timer_created TIMER_ONESHOT) with
  | Ok (_, ts, _) => ts
  | Fault _ => board_timers_power_on
  end.

Definition board_timer_0_running : timer_module :=
  match timer_start 4 0 booted board_two_timers with
  | Ok (_, ts, _) => ts
  | Fault _ => board_timers_power_on
  end.

(** The lists of the board with the two peers, written out: tasks 2 and 1
    are on ready list 7, the idle task on ready list 31. *)
Definition peers_lists : zk_lists :=
  mk_lists
    (fun h => if decide (h = ready_list 7) then [state_node 2; state_node 1]
              else if decide (h = ready_list 31) then [state_node 0]
              else [])
    (fun n => if decide (n = state_node 2) then Some (ready_list 7)
              else if decide (n = state_node 1) then Some (ready_list 7)
              else if decide (n = state_node 0) then Some (ready_list 31)
              else None).

Definition peers_written_out : kernel := with_lists peers_lists peers_with_semaphore.

(** Task [tcb] is delayed until tick [wake]: it is on the delay list, and
    every task in front of it on that list is due at [wake] at the latest. *)
Definition delayed_until (tcb : tcb_ptr) (wake : Z) (k : kernel) : Prop :=
  state (tcbs k tcb) = TASK_DELAY
  /\ wake_up_time (tcbs k tcb) = wake
  /\ exists l1 l2,
       members (lists k) delay_list = l1 ++ state_node tcb :: l2
       /\ forall n, n ∈ l1 ->
            zk_time_is_reached wake (wake_up_time (tcbs k (ZK_LIST_GET_OWNER n))) = true.

(** No task on the delay list is overdue. *)
Definition delays_pending (k : kernel) : Prop :=
  forall n, n ∈ members (lists k) delay_list ->
    zk_time_is_reached (wake_up_time (tcbs k (ZK_LIST_GET_OWNER n))) (g_current_time k)
    = true.

(** The board after task 2 has locked mutex 0 and called [task_delay] with a
    delay of 100 ticks: task 1 runs.  Its lists, written out: task 2 is on
    the delay list, tasks 1 and 0 are ready. *)
Definition mutex_holder_delayed : kernel :=
  kernel_of (task_delay (H := board) 100 mutex_held).

Definition holder_delayed_lists : zk_lists :=
  mk_lists
    (fun h => if decide (h = delay_list) then [state_node 2]
              else if decide (h = ready_list 5) then [state_node 1]
              else if decide (h = ready_list 31) then [state_node 0]
              else [])
    (fun n => if decide (n = state_node 2) then Some delay_list
              else if decide (n = state_node 1) then Some (ready_list 5)
              else if decide (n = state_node 0) then Some (ready_list 31)
              else None).

Definition holder_delayed_written_out : kernel :=
  with_lists holder_delayed_lists mutex_holder_delayed.

(** The lists of the board while task 2 waits for semaphore 0, written out:
    its [event_sleep_list] is on the wait list, tasks 1 and 0 are ready. *)
Definition waiting_lists : zk_lists :=
  mk_lists
    (fun h => if decide (h = wait_list 0) then [event_sleep_list 2]
              else if decide (h = ready_list 5) then [state_node 1]
              else if decide (h = ready_list 31) then [state_node 0]
              else [])
    (fun n => if decide (n = event_sleep_list 2) then Some (wait_list 0)
              else if decide (n = state_node 1) then Some (ready_list 5)
              else if decide (n = state_node 0) then Some (ready_list 31)
              else None).

Definition task_2_waiting_written_out : kernel := with_lists waiting_lists task_2_waiting.

(** The board with semaphore 0 and mutex 0 after task 2 has waited for the
    semaphore, task 1 has locked the mutex and released the semaphore: task
    2 runs again while task 1, ready, holds the mutex. *)
Definition holder_preempted : kernel :=
  let k := fst (mutex_create (H := board) semaphore_created) in
  let k := kernel_of (sem_get (H := board) 0 k) in
  let k := kernel_of (mutex_lock (H := board) 0 k) in
  kernel_of (sem_release (H := board) 0 k).

Definition holder_preempted_written_out : kernel := with_lists board_lists holder_preempted.

(** The heap of the board after two allocations that use it up, of 100 and
    of 10100 bytes, and the release of the first. *)
Definition heap_first_block_freed : mem_manager_t :=
  match
    '(m, a) ← mem_alloc (H := board) 100 (mem_init (H := board) (g_mem_manager power_on));
    '(m, b) ← mem_alloc (H := board) 10100 m;
    mem_free (H := board) a m
  with
  | Ok m => m
  | Fault _ => g_mem_manager power_on
  end.

(** The board with mutex 0 after task 1 has locked the mutex and gone to
    sleep, task 2 has called [mutex_lock] on it, and task 1 has woken up:
    task 1 runs at the priority of task 2, which waits for the mutex.  Its
    lists, written out: task 1 is on ready list 3, the idle task on ready
    list 31, the [event_sleep_list] of task 2 on the sleep list of the
    mutex. *)
Definition holder_raised : kernel :=
  let k := kernel_of (task_delay (H := board) 5 mutex_created) in
  let k := kernel_of (mutex_lock (H := board) 0 k) in
  let k := kernel_of (task_delay (H := board) 20 k) in
  let k := kernel_of ((fun k => (k, ())) <$> ticks 6 k) in
  let k := kernel_of (mutex_lock (H := board) 0 k) in
  kernel_of ((fun k => (k, ())) <$> ticks 15 k).

Definition raised_lists : zk_lists :=
  mk_lists
    (fun h => if decide (h = sleep_list 0) then [event_sleep_list 2]
              else if decide (h = ready_list 3) then [state_node 1]
              else if decide (h = ready_list 31) then [state_node 0]
              else [])
    (fun n => if decide (n = event_sleep_list 2) then Some (sleep_list 0)
              else if decide (n = state_node 1) then Some (ready_list 3)
              else if decide (n = state_node 0) then Some (ready_list 31)
              else None).

Definition holder_raised_written_out : kernel := with_lists raised_lists holder_raised.

(** The board with mutex 0 after task 1 has locked the mutex and gone to
    sleep, the call of task 2 to [mutex_lock_timeout] has timed out, task 2
    has gone to sleep and task 1 has woken up: task 1 runs at the priority
    of task 2, with nobody waiting for the mutex.  Its lists, written out:
    task 2 is on the delay list, task 1 on ready list 3, the idle task on
    ready list 31. *)
Definition holder_raised_alone : kernel :=
  let k := kernel_of (task_delay (H := board) 5 mutex_created) in
  let k := kernel_of (mutex_lock (H := board) 0 k) in
  let k := kernel_of (task_delay (H := board) 20 k) in
  let k := kernel_of ((fun k => (k, ())) <$> ticks 6 k) in
  let k := kernel_of (mutex_lock_timeout (H := board) 0 5 k) in
  let k := kernel_of ((fun k => (k, ())) <$> ticks 6 k) in
  let k := kernel_of (task_delay (H := board) 100 k) in
  kernel_of ((fun k => (k, ())) <$> ticks 10 k).

Definition lone_holder_lists : zk_lists :=
  mk_lists
    (fun h => if decide (h = delay_list) then [state_node 2]
              else if decide (h = ready_list 3) then [state_node 1]
              else if decide (h = ready_list 31) then [state_node 0]
              else [])
    (fun n => if decide (n = state_node 2) then Some delay_list
              else if decide (n = state_node 1) then Some (ready_list 3)
              else if decide (n = state_node 0) then Some (ready_list 31)
              else None).

Definition holder_raised_alone_written_out : kernel :=
  with_lists lone_holder_lists holder_raised_alone.

(** * Properties *)

(** ** Machine arithmetic and the result monad *)

Lemma uint32_range x : 0 <= uint32 x < 2 ^ 32.
Proof. unfold uint32. apply Z.mod_pos_bound. lia. Qed.

Lemma uint32_small x : 0 <= x < 2 ^ 32 -> uint32 x = x.
Proof. intros. unfold uint32. apply Z.mod_small. lia. Qed.

Lemma uint8_range x : 0 <= uint8 x < 2 ^ 8.
Proof. unfold uint8. apply Z.mod_pos_bound. lia. Qed.

Lemma uint8_small x : 0 <= x < 2 ^ 8 -> uint8 x = x.
Proof. intros. unfold uint8. apply Z.mod_small. lia. Qed.

Lemma bind_Ok_inv {A B} (f : A -> result B) (m : result A) (b : B) :
  m ≫= f = Ok b -> exists a, m = Ok a /\ f a = Ok b.
Proof. destruct m as [a|e]; simpl; [eauto | discriminate]. Qed.

Lemma queue_pool_after_init `{!zk_config} :
  g_queue_pool (zk_kernel_init power_on)
  = replicate QUEUE_MAX_NUM (mk_queue ZK_NULL 0 0 0 0 QUEUE_UNUSED).
Proof. reflexivity. Qed.

Lemma queue_at_past_the_pool `{!zk_config} (handle : nat) :
  (QUEUE_MAX_NUM <= handle)%nat ->
  queue_at handle (zk_kernel_init power_on) = Fault OUT_OF_BOUNDS.
Proof.
  intros Hge. unfold queue_at. rewrite queue_pool_after_init.
  rewrite lookup_ge_None_2; [reflexivity|]. rewrite length_replicate. lia.
Qed.

Section on_the_board.

#[local] Existing Instance board.

(** C1: after [capacity] successful writes the queue is not full.  On a queue
    of capacity 2 the two writes wrap [write_pos] back onto [read_pos]: the
    remaining space is 2, not 0, and a third write with zero timeout returns
    ZK_SUCCESS instead of the would-block error.  On a queue of capacity 1 a
    successful write of one byte is followed by a read that fails with the
    would-block error and copies nothing. *)
Theorem queue_full_is_never_reported :
  returned queue_filled = Ok (Return ZK_SUCCESS)
  /\ observe queue_filled (fun k => queue_remaining_space <$> g_queue_pool k !! O)
     = Ok (Some 2)
  /\ returned (then_do queue_filled (queue_try_write 0 [x03] 1)) = Ok (Return ZK_SUCCESS)
  /\ returned queue_of_one = Ok (Return ZK_SUCCESS)
  /\ returned (then_do queue_of_one (queue_try_read 0 1)) = Ok (Return ZK_ERR_FAILED, []).
Proof. repeat split; vm_compute; reflexivity. Qed.

(** C2: the waiter at the head of the list is not the most urgent one.  With
    the priority-3 task and then the priority-5 task waiting on a semaphore,
    the priority-5 task is first on the wait list; [sem_release] makes it
    ready and leaves the priority-3 task blocked. *)
Theorem least_urgent_waiter_is_woken_first :
  observe two_waiters (fun k => members (lists k) (wait_list 0))
  = Ok [event_sleep_list 1; event_sleep_list 2]
  /\ observe two_waiters (fun k => (priority (tcbs k 1), priority (tcbs k 2))) = Ok (5, 3)
  /\ observe (then_do two_waiters (sem_release 0))
       (fun k => (state (tcbs k 1), state (tcbs k 2), members (lists k) (wait_list 0)))
     = Ok (TASK_READY, TASK_ENDLESS_BLOCKED, [event_sleep_list 2]).
Proof. repeat split; vm_compute; reflexivity. Qed.

(** C3: timeouts of UINT32_MAX / 2 and above are not rejected.  The
    semaphore and the queue reader block, the queue writer, the mutex and
    [task_delay] return ZK_SUCCESS. *)
Theorem oversized_timeouts_are_accepted :
  returned (then_do with_semaphore (sem_get_timeout 0 ZK_TSK_DLY_MAX)) = Ok Suspended
  /\ returned (then_do with_semaphore (sem_get_timeout 0 ZK_UINT32_MAX)) = Ok Suspended
  /\ returned (then_do with_queue (queue_read_timeout 0 1 ZK_UINT32_MAX))
     = Ok (Suspended, [])
  /\ returned (then_do with_queue (queue_write_timeout 0 [x01] 1 ZK_UINT32_MAX))
     = Ok (Return ZK_SUCCESS)
  /\ returned (then_do with_mutex (mutex_lock_timeout 0 ZK_UINT32_MAX)) = Ok (Return ZK_SUCCESS)
  /\ returned (boot [5; 3] ≫= task_delay ZK_UINT32_MAX) = Ok (Return ZK_SUCCESS).
Proof. repeat split; vm_compute; reflexivity. Qed.

(** C6: the waiters of a destroyed semaphore do not see a timeout.
    [sem_destroy] empties the wait list and marks the entry unused, and both
    waiters are ready; their timeout flag is still EVENT_NO_TIMEOUT, so the
    rest of [sem_get] returns ZK_SUCCESS to each of them. *)
Theorem destroyed_semaphore_waiters_return_success :
  observe two_waiters (fun k => (state (tcbs k 1), state (tcbs k 2)))
  = Ok (TASK_ENDLESS_BLOCKED, TASK_ENDLESS_BLOCKED)
  /\ returned (then_do two_waiters (sem_destroy 0)) = Ok ZK_SUCCESS
  /\ observe (then_do two_waiters (sem_destroy 0))
       (fun k => (members (lists k) (wait_list 0), sem_is_used <$> g_sem_pool k !! O,
                  state (tcbs k 1), state (tcbs k 2)))
     = Ok ([], Some SEM_UNUSED, TASK_READY, TASK_READY)
  /\ observe (then_do two_waiters (sem_destroy 0))
       (fun k => (event_timeout_wakeup (tcbs k 1), event_timeout_wakeup (tcbs k 2)))
     = Ok (EVENT_NO_TIMEOUT, EVENT_NO_TIMEOUT)
  /\ observe (then_do two_waiters (sem_destroy 0))
       (fun k => (snd (sem_get_internal_resume 1 k), snd (sem_get_internal_resume 2 k)))
     = Ok (ZK_SUCCESS, ZK_SUCCESS).
Proof. repeat split; vm_compute; reflexivity. Qed.

(** C7: two requests [mem_alloc] does not serve as described.  A request of
    0xFFFFFFEC bytes passes the overflow test, the rounding wraps to 0, and a
    block of 32 bytes is handed over.  With the heap in two free fragments
    of 2560 bytes and 5120 bytes available, a request of 3000 bytes fits no
    block, yet the call returns the user pointer of the last free block and
    leaves the heap as it was. *)
Theorem mem_alloc_hands_out_what_does_not_fit :
  mem_alloc_final_size 0xFFFFFFEC = 32
  /\ (fun r => (snd r, used_list (fst r)))
       <$> mem_alloc 0xFFFFFFEC (mem_init (g_mem_manager power_on))
     = Ok (0x20000010, [mk_block 0x20000000 32])
  /\ (fun r => (free_list (fst r), available_size (fst r))) <$> heap_fragmented
     = Ok ([mk_block 0x20000000 2560; mk_block 0x20001400 2560], 5120)
  /\ mem_alloc_final_size 3000 = 3016
  /\ ('(m, _) ← heap_fragmented; '(m', p) ← mem_alloc 3000 m;
      Ok (p, bool_decide (m' = m)))
     = Ok (0x20001410, true).
Proof. repeat split; vm_compute; reflexivity. Qed.

End on_the_board.

(** C10: the handle check lets the pool size itself through.  With
    [handle == QUEUE_MAX_NUM] every operation that validates with
    QUEUE_CHECK_HANDLE_VALID goes on to read [g_queue_pool[QUEUE_MAX_NUM]],
    one entry past the end; [queue_destroy] reads the pool before it
    validates, also for larger handles. *)
Theorem queue_handle_check_admits_pool_size `{!zk_config}
  (size timeout : Z) (buffer : list byte) :
  let k := zk_kernel_init power_on in
  queue_try_write QUEUE_MAX_NUM buffer size k = Fault OUT_OF_BOUNDS
  /\ queue_write_timeout QUEUE_MAX_NUM buffer size timeout k = Fault OUT_OF_BOUNDS
  /\ queue_read QUEUE_MAX_NUM size k = Fault OUT_OF_BOUNDS
  /\ queue_try_read QUEUE_MAX_NUM size k = Fault OUT_OF_BOUNDS
  /\ queue_read_timeout QUEUE_MAX_NUM size timeout k = Fault OUT_OF_BOUNDS
  /\ queue_destroy QUEUE_MAX_NUM k = Fault OUT_OF_BOUNDS
  /\ queue_destroy (S QUEUE_MAX_NUM) k = Fault OUT_OF_BOUNDS.
Proof.
  intros k. subst k.
  unfold queue_try_write, queue_write_timeout, queue_read, queue_try_read,
    queue_read_timeout, queue_write_internal, queue_read_internal, queue_destroy.
  destruct (decide (QUEUE_MAX_NUM < QUEUE_MAX_NUM)%nat) as [Hlt|_]; [lia|].
  rewrite !queue_at_past_the_pool by lia.
  repeat split; reflexivity.
Qed.

(** ** The priority bitmap and [schedule] *)

Lemma bits_of_length n v : length (bits_of n v) = n.
Proof. revert v. induction n as [|n IH]; intros v; simpl; [done|]. by rewrite IH. Qed.

Lemma bits_of_of_bits bs : bits_of (length bs) (of_bits bs) = bs.
Proof.
  induction bs as [|b r IH]; simpl; [done|]. f_equal.
  - rewrite Z.add_comm. apply Z.testbit_0_r.
  - etrans; [|exact IH]. f_equal.
    rewrite Z.shiftr_div_pow2 by lia. change (2 ^ 1) with 2.
    rewrite Z.add_comm, Z.mul_comm, Z.div_add_l by lia.
    destruct b; simpl; [change (1 / 2) with 0|change (0 / 2) with 0]; lia.
Qed.

Lemma CLZ_RBIT value : CLZ (RBIT value) = count_leading_false (bits_of 32 value).
Proof.
  unfold CLZ, RBIT.
  assert (Hlen : length (rev (bits_of 32 value)) = 32%nat)
    by (rewrite length_rev; apply bits_of_length).
  rewrite <- Hlen at 1. rewrite bits_of_of_bits. by rewrite rev_involutive.
Qed.

Lemma bits_of_lookup n v (i : nat) :
  (i < n)%nat -> bits_of n v !! i = Some (Z.testbit v (Z.of_nat i)).
Proof.
  revert v i. induction n as [|n IH]; intros v i Hi; [lia|].
  destruct i as [|i]; [done|].
  change (bits_of (S n) v !! S i) with (bits_of n (Z.shiftr v 1) !! i).
  rewrite IH by lia. f_equal. rewrite Z.shiftr_spec by lia. f_equal. lia.
Qed.

Lemma count_leading_false_spec bs :
  0 <= count_leading_false bs <= Z.of_nat (length bs)
  /\ (forall i : nat, Z.of_nat i < count_leading_false bs -> bs !! i = Some false)
  /\ (count_leading_false bs < Z.of_nat (length bs) ->
      bs !! Z.to_nat (count_leading_false bs) = Some true).
Proof.
  induction bs as [|b r (Hr & Hlow & Hat)]; simpl; [repeat split; intros; lia|].
  destruct b.
  - repeat split; try lia; intros; try lia; try done.
  - repeat split; try lia.
    + intros [|i] Hi; [done|]. simpl. apply Hlow. lia.
    + intros Hlt. replace (Z.to_nat (1 + count_leading_false r))
        with (S (Z.to_nat (count_leading_false r))) by lia.
      simpl. apply Hat. lia.
Qed.

(** [zk_cpu_clz] gives the position of the lowest set bit. *)
Lemma zk_cpu_clz_lowest_set_bit value p :
  0 <= p < 32 -> Z.testbit value p = true ->
  let c := zk_cpu_clz value in
  0 <= c <= p /\ Z.testbit value c = true /\ forall q, 0 <= q < c -> Z.testbit value q = false.
Proof.
  intros Hp Hbit. unfold zk_cpu_clz. rewrite CLZ_RBIT.
  destruct (count_leading_false_spec (bits_of 32 value)) as (Hr & Hlow & Hat).
  rewrite bits_of_length in *.
  set (c := count_leading_false (bits_of 32 value)) in *.
  assert (Hcp : c <= p).
  { destruct (decide (c <= p)) as [|Hn]; [done|].
    specialize (Hlow (Z.to_nat p)). rewrite bits_of_lookup in Hlow by lia.
    rewrite Z2Nat.id in Hlow by lia. specialize (Hlow ltac:(lia)). congruence. }
  rewrite uint8_small by lia. simpl.
  split; [lia|]. split.
  - specialize (Hat ltac:(lia)). rewrite bits_of_lookup in Hat by lia.
    rewrite Z2Nat.id in Hat by lia. congruence.
  - intros q Hq. specialize (Hlow (Z.to_nat q)). rewrite bits_of_lookup in Hlow by lia.
    rewrite Z2Nat.id in Hlow by lia. specialize (Hlow ltac:(lia)). congruence.
Qed.

Lemma get_highest_priority_task_spec k p0 :
  bitmap_consistent k ->
  0 <= p0 < ZK_PRIORITY_NUM -> members (lists k) (ready_list p0) <> [] ->
  exists next, get_highest_priority_task k = Ok next /\ highest_priority_ready k next.
Proof.
  intros Hbm Hp0 Hne. unfold ZK_PRIORITY_NUM in *.
  assert (Hbit : Z.testbit (priority_active k) p0 = true) by (apply Hbm; done).
  destruct (zk_cpu_clz_lowest_set_bit _ _ Hp0 Hbit) as (Hc & Hset & Hlow).
  unfold get_highest_priority_task, ready_list_at.
  set (c := zk_cpu_clz (priority_active k)) in *.
  destruct (decide (0 <= c < ZK_PRIORITY_NUM)) as [Hin|Hout];
    [|unfold ZK_PRIORITY_NUM in Hout; lia].
  simpl. unfold ZK_LIST_GET_FIRST_ENTRY, head_next.
  assert (Hc_ne : members (lists k) (ready_list c) <> []) by (apply Hbm; [lia|done]).
  destruct (members (lists k) (ready_list c)) as [|n r] eqn:Hl; [done|].
  exists (ZK_LIST_GET_OWNER n). split; [done|].
  exists c, n. rewrite Hl. repeat split; try lia; try done.
  intros q Hq. destruct (members (lists k) (ready_list q)) as [|x xs] eqn:Hq'; [done|].
  assert (Z.testbit (priority_active k) q = true) by (apply Hbm; [lia|by rewrite Hq']).
  rewrite Hlow in H by lia. done.
Qed.

Lemma pre_of_is_node x n l h : pre_of (NODE x) n l <> HEAD h.
Proof.
  revert x. induction l as [|y r IH]; intros x; simpl; [done|].
  destruct (decide (y = n)); [done|apply IH].
Qed.

Lemma alone_on_list h n l :
  n ∈ l ->
  (next_of h n l = HEAD h /\ pre_of (HEAD h) n l = HEAD h) <-> l = [n].
Proof.
  intros Hin. split.
  - intros [Hnext Hpre]. destruct l as [|x r]; [by apply elem_of_nil in Hin|].
    simpl in *. destruct (decide (x = n)) as [->|Hne].
    + destruct r; [done|discriminate].
    + by apply pre_of_is_node in Hpre.
  - intros ->. simpl. destruct (decide (n = n)); done.
Qed.


(** X30: [schedule] called while the running task is on its ready list.
    It tests the suspend nesting counter through [is_scheduler_suspending],
    which narrows the 32-bit counter to [zk_uint8].  (1) When the counter is
    not a multiple of 256 it sets [re_schedule_pending] and changes nothing
    else, so no switch is requested.  (2) When the counter is 0 or another
    multiple of 256 it selects [next], the highest-priority ready task, and
    when the priority of [next] differs from that of the running task it
    stores [next] in [g_switch_next_tcb] and requests the switch.  (3) With
    equal priorities: a running task that is alone on its ready list is left
    running, no switch requested; otherwise the running task is moved to the
    tail of its ready list, [g_switch_next_tcb] becomes the task at the new
    head, a switch is requested, and no other list changes. *)
Theorem schedule_from_a_ready_task (k : kernel) :
  let current := g_current_tcb k in
  let own := ready_list (priority (tcbs k current)) in
  on_its_ready_list k current -> bitmap_consistent k ->
  (scheduler_suspend_nesting k mod 256 <> 0 -> schedule k = Ok (with_re_schedule_pending 1 k))
  /\ (scheduler_suspend_nesting k mod 256 = 0 ->
      exists next,
        highest_priority_ready k next
        /\ (priority (tcbs k next) <> priority (tcbs k current) ->
            schedule k = Ok (zk_cpu_trigger_pendsv (with_g_switch_next_tcb next k)))
        /\ (priority (tcbs k next) = priority (tcbs k current) ->
            members (lists k) own = [state_node current] ->
            schedule k = Ok (with_g_switch_next_tcb next k))
        /\ (priority (tcbs k next) = priority (tcbs k current) ->
            members (lists k) own <> [state_node current] ->
            exists k' first,
              schedule k = Ok k'
              /\ members (lists k') own
                 = remove_node (state_node current) (members (lists k) own)
                   ++ [state_node current]
              /\ head (members (lists k') own) = Some first
              /\ g_switch_next_tcb k' = ZK_LIST_GET_OWNER first
              /\ pendsv_pending k' = true
              /\ (forall h, h <> own -> members (lists k') h = members (lists k) h))).
Proof.
  intros current own (Hprio & Hlink & Hin) Hbm. subst own.
  assert (Hnarrow : is_scheduler_suspending k = scheduler_suspend_nesting k mod 256)
    by reflexivity.
  rewrite <- Hnarrow. split.
  - intros Hsusp. unfold schedule. destruct (decide (is_scheduler_suspending k <> 0)); done.
  - intros Hrun.
    destruct (get_highest_priority_task_spec k (priority (tcbs k current)) Hbm Hprio)
      as (next & Hnext & Hhigh).
    { intros Hnil. rewrite Hnil in Hin. by apply elem_of_nil in Hin. }
    exists next. split; [done|].
    unfold schedule.
    destruct (decide (is_scheduler_suspending k <> 0)) as [|_]; [done|].
    rewrite Hnext. simpl. fold current.
    set (own := ready_list (priority (tcbs k current))) in *.
    assert (Hnn : node_next (state_node current) (lists k)
                  = Some (next_of own (state_node current) (members (lists k) own))).
    { unfold node_next. rewrite Hlink. done. }
    assert (Hnp : node_pre (state_node current) (lists k)
                  = Some (pre_of (HEAD own) (state_node current) (members (lists k) own))).
    { unfold node_pre. rewrite Hlink. done. }
    split; [|split].
    + intros Hne. destruct (decide (priority (tcbs k next) <> priority (tcbs k current))); done.
    + intros Heq Halone.
      destruct (decide (priority (tcbs k next) <> priority (tcbs k current))); [done|].
      rewrite Hnn, Hnp.
      destruct (alone_on_list own _ _ Hin) as [_ Hback].
      destruct (Hback Halone) as [-> ->].
      destruct (decide _) as [|Hn]; [done|]. by destruct Hn.
    + intros Heq Hnot.
      destruct (decide (priority (tcbs k next) <> priority (tcbs k current))); [done|].
      rewrite Hnn, Hnp.
      destruct (decide _) as [[H1 H2]|_].
      { exfalso. apply Hnot. apply (alone_on_list own); [done|]. split; congruence. }
      unfold ready_list_at.
      destruct (decide (0 <= priority (tcbs k current) < ZK_PRIORITY_NUM)); [|done].
      simpl. unfold zk_list_move_to_tail, zk_list_delete. simpl. rewrite Hlink. simpl.
      unfold zk_list_add_before. simpl. rewrite fn_lookup_insert. simpl.
      unfold ZK_LIST_GET_FIRST_ENTRY, head_next. simpl.
      rewrite !fn_lookup_insert.
      destruct (remove_node (state_node current) (members (lists k) own) ++ [state_node current])
        as [|first rest] eqn:Hl.
      { by destruct (remove_node (state_node current) (members (lists k) own)). }
      simpl. eexists _, first. split; [reflexivity|]. simpl.
      rewrite fn_lookup_insert. repeat split; try done.
      intros h Hh. rewrite !fn_lookup_insert_ne by done. done.
Qed.

Lemma bitmap_check_sound k : bitmap_check k = true -> bitmap_consistent k.
Proof.
  unfold bitmap_check, bitmap_consistent. intros Hall p Hp.
  rewrite forallb_forall in Hall.
  assert (Hin : In p (seqZ 0 ZK_PRIORITY_NUM)).
  { apply list_elem_of_In, elem_of_seqZ. lia. }
  apply Hall in Hin. by apply bool_decide_eq_true in Hin.
Qed.

(** The theorem on the board, with two tasks of priority 7: the running task
    2 goes behind task 1, which is selected. *)
Lemma schedule_from_a_ready_task_witness :
  on_its_ready_list round_robin_pair (g_current_tcb round_robin_pair)
  /\ bitmap_consistent round_robin_pair
  /\ scheduler_suspend_nesting round_robin_pair mod 256 = 0
  /\ exists k' first,
       schedule round_robin_pair = Ok k'
       /\ members (lists k') (ready_list 7) = [state_node 1; state_node 2]
       /\ head (members (lists k') (ready_list 7)) = Some first
       /\ g_switch_next_tcb k' = ZK_LIST_GET_OWNER first
       /\ pendsv_pending k' = true.
Proof.
  assert (Hon : on_its_ready_list round_robin_pair (g_current_tcb round_robin_pair)).
  { unfold on_its_ready_list.
    replace (g_current_tcb round_robin_pair) with 2%nat by (vm_compute; reflexivity).
    replace (priority (tcbs round_robin_pair 2)) with 7 by (vm_compute; reflexivity).
    split; [unfold ZK_PRIORITY_NUM; lia|]. split; [vm_compute; reflexivity|].
    replace (members (lists round_robin_pair) (ready_list 7))
      with [state_node 2; state_node 1] by (vm_compute; reflexivity).
    constructor. }
  assert (Hbm : bitmap_consistent round_robin_pair)
    by (apply bitmap_check_sound; vm_compute; reflexivity).
  split; [exact Hon|]. split; [exact Hbm|]. split; [reflexivity|].
  destruct (schedule_from_a_ready_task round_robin_pair Hon Hbm) as [_ Hrun].
  destruct (Hrun eq_refl) as (next & Hhigh & _ & _ & Hrot).
  assert (Hnext : next = 2%nat).
  { destruct Hhigh as (p & n & Hp & Hhead & Hown & Hlow).
    destruct (decide (p = 7)) as [->|Hne].
    - vm_compute in Hhead. injection Hhead as <-. symmetry. exact Hown.
    - exfalso. destruct (decide (p < 7)) as [Hlt|Hge].
      + assert (Hc : p = 0 \/ p = 1 \/ p = 2 \/ p = 3 \/ p = 4 \/ p = 5 \/ p = 6) by lia.
        destruct Hc as [->|[->|[->|[->|[->|[->| ->]]]]]]; vm_compute in Hhead; discriminate.
      + specialize (Hlow 7 ltac:(lia)). vm_compute in Hlow. discriminate. }
  subst next.
  destruct Hrot as (k' & first & Hk' & Hmem & Hhd & Hsw & Hpend & _).
  { reflexivity. }
  { vm_compute. discriminate. }
  exists k', first. repeat split; try done.
Defined.

(** ** The heap and queue creation *)

Section heap.
Context `{!zk_config}.

Lemma remove_block_subseteq addr l b : b ∈ remove_block addr l -> b ∈ l.
Proof.
  induction l as [|x r IH]; simpl; [done|].
  destruct (decide (block_addr x = addr)).
  - intros. by apply elem_of_cons; right.
  - intros [->|Hin]%elem_of_cons; [apply elem_of_cons; by left|].
    apply elem_of_cons; right; auto.
Qed.

Lemma mem_free_list_insert_by_addr_elem b new l :
  b ∈ mem_free_list_insert_by_addr new l -> b = new \/ b ∈ l.
Proof.
  induction l as [|x r IH]; simpl.
  - intros ->%list_elem_of_singleton. by left.
  - destruct (decide (block_addr x > block_addr new)).
    + intros [->|Hin]%elem_of_cons; [by left|by right].
    + intros [->|Hin]%elem_of_cons; [right; apply elem_of_cons; by left|].
      destruct (IH Hin) as [->|?]; [by left|right; apply elem_of_cons; by right].
Qed.

Lemma mem_alloc_scan_found final_size prev l b :
  mem_alloc_scan final_size prev l = (true, Some b) -> b ∈ l.
Proof.
  revert prev. induction l as [|x r IH]; intros prev; simpl; [done|].
  destruct (decide (block_size x >= final_size)).
  - intros [= ->]. apply elem_of_cons; by left.
  - intros Hs. apply elem_of_cons; right. eauto.
Qed.

Lemma mem_alloc_final_size_range request_size :
  0 <= mem_alloc_final_size request_size < 2 ^ 32.
Proof.
  unfold mem_alloc_final_size, zk_addr_align.
  destruct (decide _); [vm_compute; split; congruence|].
  destruct (decide _); apply uint32_range.
Qed.

Lemma mem_alloc_block_sizes request_size m m' p :
  block_sizes_in_range m -> mem_alloc request_size m = Ok (m', p) ->
  block_sizes_in_range m'.
Proof.
  unfold block_sizes_in_range. intros Hm Halloc b.
  pose proof (mem_alloc_final_size_range request_size) as Hfin.
  unfold mem_alloc in Halloc.
  destruct (ZK_ASSERT (is_initialized m)); simpl in Halloc; [|done].
  destruct (decide (request_size = 0)); [injection Halloc as <- _; auto|].
  destruct (ZK_ASSERT _); simpl in Halloc; [|done].
  destruct (_ || _); [injection Halloc as <- _; auto|].
  destruct (decide (_ > _)); [injection Halloc as <- _; simpl; auto|].
  destruct (mem_alloc_scan _ None (free_list m)) as [[] [ab|]] eqn:Hscan;
    try (injection Halloc as <- _; simpl; auto).
  apply mem_alloc_scan_found in Hscan.
  assert (Hab : 0 <= block_size ab < 2 ^ 32) by (apply Hm, elem_of_app; auto).
  destruct (decide (uint32 _ >= MEM_BLOCK_MIN_SIZE)); simpl;
    destruct (decide (_ > _)); simpl; rewrite elem_of_app; simpl;
    intros [Hb|Hb];
    repeat match goal with
    | Hx : _ ∈ mem_free_list_insert_by_addr _ _ |- _ =>
        apply mem_free_list_insert_by_addr_elem in Hx; destruct Hx as [->|Hx]
    | Hx : _ ∈ remove_block _ _ |- _ => apply remove_block_subseteq in Hx
    | Hx : _ ∈ _ :: _ |- _ => apply elem_of_cons in Hx; destruct Hx as [->|Hx]
    end; simpl; try apply uint32_range; try lia;
    try (apply Hm; apply elem_of_app; auto).
Qed.

(** C9: [queue_create] requests [element_num * element_single_size] bytes in
    unchecked 32-bit arithmetic.  When the true product is at least 2^32, its
    value modulo 2^32 is non-zero and [mem_alloc] returns a buffer for it, and
    an entry of the queue pool is unused, the call returns ZK_SUCCESS, records
    the buffer with the unwrapped dimensions, and every block of the heap,
    the buffer's among them, is smaller than the true product. *)
Theorem queue_create_wraps_the_product (k : kernel)
  (element_single_size element_num : Z) (m : mem_manager_t) (buffer : Z) (handle : nat) :
  0 <= element_single_size < 2 ^ 32 -> 0 <= element_num < 2 ^ 32 ->
  2 ^ 32 <= element_num * element_single_size ->
  uint32 (element_num * element_single_size) <> 0 ->
  mem_alloc (uint32 (element_num * element_single_size)) (g_mem_manager k) = Ok (m, buffer) ->
  buffer <> ZK_NULL ->
  get_queue_resource k = Some handle ->
  block_sizes_in_range (g_mem_manager k) ->
  exists k',
    queue_create element_single_size element_num k = Ok (k', (ZK_SUCCESS, handle))
    /\ g_mem_manager k' = m
    /\ g_queue_pool k' !! handle
       = Some (mk_queue buffer 0 0 element_single_size element_num QUEUE_USED)
    /\ uint32 (element_num * element_single_size) < element_num * element_single_size
    /\ forall b, b ∈ free_list m ++ used_list m ->
         block_size b < element_num * element_single_size.
Proof.
  intros Hess Hen Hbig Hnz Halloc Hbuf Hslot Hheap.
  unfold queue_create.
  destruct (decide (element_single_size = 0 \/ element_num = 0)) as [[->| ->]|_]; [lia|lia|].
  rewrite Halloc. simpl.
  destruct (decide (buffer = ZK_NULL)); [done|].
  change (get_queue_resource (ZK_ENTER_CRITICAL (with_g_mem_manager m k)))
    with (get_queue_resource k).
  rewrite Hslot. eexists. split; [reflexivity|].
  assert (Hlen : (handle < length (g_queue_pool k))%nat).
  { unfold get_queue_resource in Hslot.
    destruct (list_find _ _) as [[i q]|] eqn:Hfind; [|done].
    simpl in Hslot. injection Hslot as <-.
    apply list_find_Some in Hfind as (Hi & _).
    apply lookup_lt_Some in Hi. rewrite length_take in Hi. lia. }
  split; [|split; [|split]].
  - unfold ZK_EXIT_CRITICAL. simpl. repeat case_match; reflexivity.
  - assert (Hpool : forall k0, g_queue_pool (ZK_EXIT_CRITICAL k0) = g_queue_pool k0).
    { intros k0. unfold ZK_EXIT_CRITICAL. repeat case_match; reflexivity. }
    rewrite Hpool. simpl.
    destruct (lookup_lt_is_Some_2 _ _ Hlen) as [q Hq].
    rewrite list_lookup_alter_eq, Hq. reflexivity.
  - pose proof (uint32_range (element_num * element_single_size)). lia.
  - intros b Hb. pose proof (mem_alloc_block_sizes _ _ _ _ Hheap Halloc b Hb). lia.
Qed.

End heap.

(** On the board: 64 elements of 67108865 bytes make 2^32 + 64 bytes; 64 are
    requested. *)
Lemma queue_create_wraps_the_product_witness :
  exists k',
    queue_create (H := board) 67108865 64 booted = Ok (k', (ZK_SUCCESS, 0%nat))
    /\ uint32 (64 * 67108865) = 64
    /\ forall b, b ∈ free_list (g_mem_manager k') ++ used_list (g_mem_manager k') ->
         block_size b < 64 * 67108865.
Proof.
  edestruct (queue_create_wraps_the_product (H := board) booted 67108865 64)
    as (k' & Hk & Hm & _ & _ & Hsmall).
  - lia.
  - lia.
  - lia.
  - vm_compute. discriminate.
  - vm_compute. reflexivity.
  - vm_compute. discriminate.
  - vm_compute. reflexivity.
  - intros b Hb. vm_compute in Hb.
    repeat (apply elem_of_cons in Hb as [->|Hb]); [simpl; lia..|].
    apply elem_of_nil in Hb. destruct Hb.
  - exists k'. split; [exact Hk|]. split; [reflexivity|].
    rewrite Hm. exact Hsmall.
Defined.

(** With every entry of the queue pool in use, the same pair is allocatable
    after wrapping, yet the call fails with ZK_ERR_RESOURCE_UNAVAILABLE. *)
Lemma queue_create_needs_a_pool_entry :
  2 ^ 32 <= 64 * 67108865
  /\ uint32 (64 * 67108865) = 64
  /\ (exists m buffer,
        mem_alloc (H := board) 64 (g_mem_manager queue_pool_full) = Ok (m, buffer)
        /\ buffer <> ZK_NULL)
  /\ exists k',
       queue_create (H := board) 67108865 64 queue_pool_full
       = Ok (k', (ZK_ERR_RESOURCE_UNAVAILABLE, 0%nat)).
Proof.
  split; [lia|]. split; [reflexivity|]. split.
  - eexists _, _. split; [vm_compute; reflexivity|]. vm_compute. discriminate.
  - eexists. vm_compute. reflexivity.
Qed.

(** ** Waiting without a timeout *)

Lemma remove_node_elem n x l : x ∈ remove_node n l -> x ∈ l.
Proof.
  induction l as [|y r IH]; simpl; [done|].
  destruct (decide (y = n)); rewrite !elem_of_cons; tauto.
Qed.

Lemma insert_after_elem new old x l : x ∈ insert_after new old l -> x = new \/ x ∈ l.
Proof.
  induction l as [|y r IH]; simpl.
  - rewrite list_elem_of_singleton. tauto.
  - destruct (decide (y = old)); rewrite !elem_of_cons; tauto.
Qed.

Lemma insert_before_elem new old x l : x ∈ insert_before new old l -> x = new \/ x ∈ l.
Proof.
  induction l as [|y r IH]; simpl.
  - rewrite list_elem_of_singleton. tauto.
  - destruct (decide (y = old)); rewrite !elem_of_cons; tauto.
Qed.

Lemma Ok_inj {A} (a b : A) : Ok a = Ok b -> a = b.
Proof. congruence. Qed.

Ltac subst_result H :=
  match type of H with
  | _ = ?y => is_var y; subst y
  | ?x = _ => is_var x; subst x
  | _ => idtac
  end.

Ltac results :=
  repeat (cbv zeta in *; match goal with
  | H : Ok _ = Ok _ |- _ => apply Ok_inj in H; subst_result H
  | H : (_, _) = (_, _) |- _ =>
      let H1 := fresh "Hfst" in let H2 := fresh "Hsnd" in
      apply pair_equal_spec in H as [H1 H2]; subst_result H1; subst_result H2
  | H : Fault _ = Ok _ |- _ => discriminate H
  | H : mbind _ _ = Ok _ |- _ =>
      let a := fresh "r" in let Ha := fresh "Hr" in
      apply bind_Ok_inv in H as (a & Ha & H)
  | H : (if ?c then _ else _) = _ |- _ => destruct c eqn:?
  | H : match ?x with _ => _ end = _ |- _ => destruct x eqn:?
  end).

Section timeout_list.

Variable T : tcb_ptr.

Lemma off_delete node ls ls' :
  zk_list_delete node ls = Ok ls' ->
  off_the_timeout_list T ls -> off_the_timeout_list T ls'.
Proof.
  unfold zk_list_delete. intros Hd [Hm Hl]. destruct (link ls node) as [h|]; [|done].
  injection Hd as <-. split; simpl.
  - intros n. destruct (decide (h = block_timeout_list)) as [->|Hne].
    + rewrite fn_lookup_insert. intros Hn%remove_node_elem. auto.
    + rewrite fn_lookup_insert_ne by done. auto.
  - intros t. destruct (decide (node = event_sleep_list t)) as [->|Hne].
    + rewrite fn_lookup_insert. done.
    + rewrite fn_lookup_insert_ne by done. auto.
Qed.

Lemma off_added new h ls l :
  (forall x, x ∈ l -> x = new \/ x ∈ members ls h) ->
  h <> block_timeout_list \/ (exists t, new = state_node t /\ t <> T) ->
  off_the_timeout_list T ls ->
  off_the_timeout_list T
    (mk_lists (<[h := l]> (members ls)) (<[new := Some h]> (link ls))).
Proof.
  intros Hl Hside [Hm Hk]. split; simpl.
  - intros n. destruct (decide (h = block_timeout_list)) as [->|Hne].
    + rewrite fn_lookup_insert. intros [->|Hn]%Hl; [|auto].
      destruct Hside as [|(t & -> & Ht)]; done.
    + rewrite fn_lookup_insert_ne by done. auto.
  - intros t. destruct (decide (new = event_sleep_list t)) as [->|Hne].
    + rewrite fn_lookup_insert. destruct Hside as [|(t' & [=] & _)]. congruence.
    + rewrite fn_lookup_insert_ne by done. auto.
Qed.

Lemma off_add_after new old ls ls' :
  zk_list_add_after new old ls = Ok ls' ->
  match old with
  | HEAD h => h <> block_timeout_list
  | NODE (event_sleep_list _) => True
  | NODE (state_node _) => False
  end \/ (exists t, new = state_node t /\ t <> T) ->
  off_the_timeout_list T ls -> off_the_timeout_list T ls'.
Proof.
  unfold zk_list_add_after. intros Ha Hside Hoff.
  destruct (link ls new); [done|]. destruct old as [h|o].
  - injection Ha as <-. apply off_added; [|tauto|done].
    intros x. rewrite elem_of_cons. tauto.
  - destruct (link ls o) as [h|] eqn:Ho; [|done]. injection Ha as <-.
    apply off_added; [intros x; apply insert_after_elem| |done].
    destruct Hside as [Hs|]; [left|by right].
    destruct o; [done|]. intros ->. by apply Hoff in Ho.
Qed.

Lemma off_add_before new old ls ls' :
  zk_list_add_before new old ls = Ok ls' ->
  match old with
  | HEAD h => h <> block_timeout_list
  | NODE (event_sleep_list _) => True
  | NODE (state_node _) => False
  end \/ (exists t, new = state_node t /\ t <> T) ->
  off_the_timeout_list T ls -> off_the_timeout_list T ls'.
Proof.
  unfold zk_list_add_before. intros Ha Hside Hoff.
  destruct (link ls new); [done|]. destruct old as [h|o].
  - injection Ha as <-. apply off_added; [|tauto|done].
    intros x. rewrite elem_of_app, list_elem_of_singleton. tauto.
  - destruct (link ls o) as [h|] eqn:Ho; [|done]. injection Ha as <-.
    apply off_added; [intros x; apply insert_before_elem| |done].
    destruct Hside as [Hs|]; [left|by right].
    destruct o; [done|]. intros ->. by apply Hoff in Ho.
Qed.

Lemma off_move_to_tail node h ls ls' :
  zk_list_move_to_tail node h ls = Ok ls' -> h <> block_timeout_list ->
  off_the_timeout_list T ls -> off_the_timeout_list T ls'.
Proof.
  unfold zk_list_move_to_tail. intros Hm Hh Hoff. results.
  eapply off_add_before; [eassumption|by left|]. eapply off_delete; eassumption.
Qed.

Lemma off_init h ls :
  off_the_timeout_list T ls -> off_the_timeout_list T (zk_list_init h ls).
Proof.
  intros [Hm Hk]. split; simpl; [|done].
  intros n. destruct (decide (h = block_timeout_list)) as [->|Hne].
  - rewrite fn_lookup_insert. by intros ?%elem_of_nil.
  - rewrite fn_lookup_insert_ne by done. auto.
Qed.

End timeout_list.

Create HintDb waits.

Section waiting.

Context `{!zk_config}.
Variable T : tcb_ptr.

Lemma waits_frame k k' :
  event_timeout_wakeup (tcbs k' T) = event_timeout_wakeup (tcbs k T) ->
  lists k' = lists k -> waits_without_timeout T k -> waits_without_timeout T k'.
Proof. unfold waits_without_timeout. intros -> ->. done. Qed.

Lemma waits_lists ls ls' k :
  (off_the_timeout_list T ls -> off_the_timeout_list T ls') ->
  lists k = ls -> waits_without_timeout T k -> waits_without_timeout T (with_lists ls' k).
Proof. unfold waits_without_timeout. intros Hl <- [? ?]. split; [done|]. simpl. auto. Qed.

Lemma waits_update_tcb t f k :
  t <> T \/ (forall x, event_timeout_wakeup (f x) = event_timeout_wakeup x)
        \/ (forall x, event_timeout_wakeup (f x) = EVENT_NO_TIMEOUT) ->
  waits_without_timeout T k -> waits_without_timeout T (update_tcb t f k).
Proof.
  unfold waits_without_timeout. intros Hf [Hflag Hoff]. split; [|done]. simpl.
  destruct (decide (t = T)) as [->|Hne].
  - rewrite fn_lookup_insert. destruct Hf as [|[->| ->]]; done.
  - rewrite fn_lookup_insert_ne by done. done.
Qed.

Lemma waits_enter_critical k : waits_without_timeout T k -> waits_without_timeout T (ZK_ENTER_CRITICAL k).
Proof. by apply waits_frame. Qed.

Lemma waits_exit_critical k : waits_without_timeout T k -> waits_without_timeout T (ZK_EXIT_CRITICAL k).
Proof. apply waits_frame; unfold ZK_EXIT_CRITICAL; repeat case_match; done. Qed.

Lemma waits_schedule k k' : schedule k = Ok k' -> waits_without_timeout T k -> waits_without_timeout T k'.
Proof.
  unfold schedule. intros Hs Hw. results; try (revert Hw; by apply waits_frame).
  unfold zk_cpu_trigger_pendsv. apply (waits_frame (with_lists r1 k)); [done..|].
  eapply waits_lists; [|reflexivity|done].
  eapply off_move_to_tail; [eassumption|done].
Qed.


#[local] Hint Resolve waits_enter_critical waits_exit_critical waits_schedule : waits.

Lemma waits_with k k' :
  tcbs k' = tcbs k -> lists k' = lists k ->
  waits_without_timeout T k -> waits_without_timeout T k'.
Proof. intros Ht Hl. apply waits_frame; [by rewrite Ht|done]. Qed.

Lemma waits_with_g_switch_next_tcb v k :
  waits_without_timeout T k -> waits_without_timeout T (with_g_switch_next_tcb v k).
Proof. by apply waits_with. Qed.

Lemma waits_with_g_schedule_time_slice v k :
  waits_without_timeout T k -> waits_without_timeout T (with_g_schedule_time_slice v k).
Proof. by apply waits_with. Qed.

Lemma waits_with_g_current_time v k :
  waits_without_timeout T k -> waits_without_timeout T (with_g_current_time v k).
Proof. by apply waits_with. Qed.

Lemma waits_with_re_schedule_pending v k :
  waits_without_timeout T k -> waits_without_timeout T (with_re_schedule_pending v k).
Proof. by apply waits_with. Qed.

Lemma waits_with_g_mem_manager v k :
  waits_without_timeout T k -> waits_without_timeout T (with_g_mem_manager v k).
Proof. by apply waits_with. Qed.

Lemma waits_with_memory v k :
  waits_without_timeout T k -> waits_without_timeout T (with_memory v k).
Proof. by apply waits_with. Qed.

Lemma waits_with_pendsv_pending v k :
  waits_without_timeout T k -> waits_without_timeout T (with_pendsv_pending v k).
Proof. by apply waits_with. Qed.

Lemma waits_with_zk_critical_nesting v k :
  waits_without_timeout T k -> waits_without_timeout T (with_zk_critical_nesting v k).
Proof. by apply waits_with. Qed.

Lemma waits_with_priority_active v k :
  waits_without_timeout T k -> waits_without_timeout T (with_priority_active v k).
Proof. by apply waits_with. Qed.

#[local] Hint Resolve waits_with_g_switch_next_tcb waits_with_g_schedule_time_slice waits_with_g_current_time waits_with_re_schedule_pending waits_with_g_mem_manager waits_with_memory waits_with_pendsv_pending waits_with_zk_critical_nesting waits_with_priority_active : waits.

Lemma waits_clear_priority_active p k :
  waits_without_timeout T k -> waits_without_timeout T (clear_priority_active p k).
Proof. by apply waits_with. Qed.

Lemma waits_set_priority_active p k :
  waits_without_timeout T k -> waits_without_timeout T (set_priority_active p k).
Proof. by apply waits_with. Qed.

Lemma waits_update_state t v k :
  waits_without_timeout T k -> waits_without_timeout T (update_tcb t (with_state v) k).
Proof. apply waits_update_tcb. right; left. done. Qed.

Lemma waits_update_priority t v k :
  waits_without_timeout T k -> waits_without_timeout T (update_tcb t (with_priority v) k).
Proof. apply waits_update_tcb. right; left. done. Qed.

Lemma waits_update_wake_up_time t v k :
  waits_without_timeout T k -> waits_without_timeout T (update_tcb t (with_wake_up_time v) k).
Proof. apply waits_update_tcb. right; left. done. Qed.

Lemma waits_update_holding_mutex t v k :
  waits_without_timeout T k -> waits_without_timeout T (update_tcb t (with_holding_mutex v) k).
Proof. apply waits_update_tcb. right; left. done. Qed.

Lemma waits_update_no_timeout t k :
  waits_without_timeout T k ->
  waits_without_timeout T (update_tcb t (with_event_timeout_wakeup EVENT_NO_TIMEOUT) k).
Proof. apply waits_update_tcb. right; right. done. Qed.

Lemma waits_update_other t f k :
  t <> T -> waits_without_timeout T k -> waits_without_timeout T (update_tcb t f k).
Proof. intros. apply waits_update_tcb; auto. Qed.

Lemma waits_update_sem h f k :
  waits_without_timeout T k -> waits_without_timeout T (update_sem h f k).
Proof. by apply waits_with. Qed.

Lemma waits_update_mutex h f k :
  waits_without_timeout T k -> waits_without_timeout T (update_mutex h f k).
Proof. by apply waits_with. Qed.

Lemma waits_update_queue h f k :
  waits_without_timeout T k -> waits_without_timeout T (update_queue h f k).
Proof. by apply waits_with. Qed.

Lemma waits_with_lists ls' k :
  off_the_timeout_list T ls' -> waits_without_timeout T k ->
  waits_without_timeout T (with_lists ls' k).
Proof. intros Hl [? ?]. split; done. Qed.

Lemma waits_off k : waits_without_timeout T k -> off_the_timeout_list T (lists k).
Proof. by intros [? ?]. Qed.

#[local] Hint Resolve waits_clear_priority_active waits_set_priority_active waits_update_state
  waits_update_priority waits_update_wake_up_time waits_update_holding_mutex
  waits_update_no_timeout waits_update_other waits_update_sem waits_update_mutex
  waits_update_queue waits_with_lists waits_off : waits.
Lemma ready_list_at_ready p h : ready_list_at p = Ok h -> h <> block_timeout_list.
Proof. unfold ready_list_at. intros. results. done. Qed.

#[local] Hint Resolve off_delete off_move_to_tail off_init ready_list_at_ready : waits.
#[local] Hint Extern 1 (_ <> _) => discriminate : waits.
#[local] Hint Extern 1 (_ <> _) => congruence : waits.

Lemma waits_add_task_to_endless_block_list tcb sleep_head sort_type k k' :
  add_task_to_endless_block_list tcb sleep_head sort_type k = Ok k' ->
  sleep_head <> block_timeout_list ->
  waits_without_timeout T k -> waits_without_timeout T k'.
Proof.
  unfold add_task_to_endless_block_list. intros Ha Hh Hw. results;
    apply waits_update_state, waits_with_lists; try done;
    first [eapply off_add_after; [eassumption| |by apply waits_off]
          |eapply off_add_before; [eassumption| |by apply waits_off]];
    by left.
Qed.

Lemma waits_add_task_to_time_sort_list tcb target_list k k' :
  add_task_to_time_sort_list tcb target_list k = Ok k' -> tcb <> T ->
  waits_without_timeout T k -> waits_without_timeout T k'.
Proof.
  unfold add_task_to_time_sort_list. intros Ha Hh Hw. results;
    apply waits_with_lists; try done;
    first [eapply off_add_after; [eassumption| |by apply waits_off]
          |eapply off_add_before; [eassumption| |by apply waits_off]];
    right; eauto.
Qed.

Lemma waits_add_task_to_ready_list tcb k k' :
  add_task_to_ready_list tcb k = Ok k' ->
  waits_without_timeout T k -> waits_without_timeout T k'.
Proof.
  unfold add_task_to_ready_list. intros Ha Hw. results.
  apply waits_update_state, waits_set_priority_active, waits_with_lists; [|done].
  eapply off_add_after; [eassumption| |by apply waits_off].
  left. eapply ready_list_at_ready. eassumption.
Qed.

#[local] Hint Resolve waits_add_task_to_endless_block_list waits_add_task_to_time_sort_list
  waits_add_task_to_ready_list : waits.

Ltac waiting := intros; results; repeat case_match; eauto 15 with waits.

Lemma waits_add_task_to_timeout_blocked_list tcb k k' :
  add_task_to_timeout_blocked_list tcb k = Ok k' -> tcb <> T ->
  waits_without_timeout T k -> waits_without_timeout T k'.
Proof. unfold add_task_to_timeout_blocked_list. waiting. Qed.

Lemma waits_add_task_to_delay_list tcb k k' :
  add_task_to_delay_list tcb k = Ok k' -> tcb <> T ->
  waits_without_timeout T k -> waits_without_timeout T k'.
Proof. unfold add_task_to_delay_list. waiting. Qed.

Lemma waits_remove_task_from_ready_list tcb k k' :
  remove_task_from_ready_list tcb k = Ok k' ->
  waits_without_timeout T k -> waits_without_timeout T k'.
Proof. unfold remove_task_from_ready_list. waiting. Qed.

Lemma waits_remove_task_from_delay_list tcb k k' :
  remove_task_from_delay_list tcb k = Ok k' ->
  waits_without_timeout T k -> waits_without_timeout T k'.
Proof. unfold remove_task_from_delay_list. waiting. Qed.

Lemma waits_remove_task_from_blocked_list tcb k k' :
  remove_task_from_blocked_list tcb k = Ok k' ->
  waits_without_timeout T k -> waits_without_timeout T k'.
Proof. unfold remove_task_from_blocked_list. waiting. Qed.

#[local] Hint Resolve waits_add_task_to_timeout_blocked_list waits_add_task_to_delay_list
  waits_remove_task_from_ready_list waits_remove_task_from_delay_list
  waits_remove_task_from_blocked_list : waits.

Lemma waits_task_ready_to_delay tcb k k' :
  task_ready_to_delay tcb k = Ok k' -> tcb <> T ->
  waits_without_timeout T k -> waits_without_timeout T k'.
Proof. unfold task_ready_to_delay. waiting. Qed.

Lemma waits_task_delay_to_ready tcb k k' :
  task_delay_to_ready tcb k = Ok k' ->
  waits_without_timeout T k -> waits_without_timeout T k'.
Proof. unfold task_delay_to_ready. waiting. Qed.

Lemma waits_task_ready_to_block_endless tcb sleep_head sort_type k k' :
  task_ready_to_block tcb sleep_head BLOCK_TYPE_ENDLESS sort_type k = Ok k' ->
  sleep_head <> block_timeout_list ->
  waits_without_timeout T k -> waits_without_timeout T k'.
Proof. unfold task_ready_to_block. waiting. Qed.

Lemma waits_task_ready_to_block tcb sleep_head block_type sort_type k k' :
  task_ready_to_block tcb sleep_head block_type sort_type k = Ok k' ->
  sleep_head <> block_timeout_list -> tcb <> T ->
  waits_without_timeout T k -> waits_without_timeout T k'.
Proof. unfold task_ready_to_block. waiting. Qed.

Lemma waits_task_block_to_ready tcb k k' :
  task_block_to_ready tcb k = Ok k' ->
  waits_without_timeout T k -> waits_without_timeout T k'.
Proof. unfold task_block_to_ready. waiting. Qed.

#[local] Hint Resolve waits_task_ready_to_delay waits_task_delay_to_ready
  waits_task_ready_to_block_endless waits_task_ready_to_block
  waits_task_block_to_ready : waits.


Lemma waits_delay_wakeup_scan time l k k' :
  delay_wakeup_scan time l k = Ok k' ->
  waits_without_timeout T k -> waits_without_timeout T k'.
Proof.
  revert k. induction l as [|iterator r IH]; simpl; intros k Hs Hw; results; eauto with waits.
Qed.

Lemma waits_block_wakeup_scan time l k k' :
  block_wakeup_scan time l k = Ok k' ->
  (forall n, n ∈ l -> ZK_LIST_GET_OWNER n <> T) ->
  waits_without_timeout T k -> waits_without_timeout T k'.
Proof.
  revert k. induction l as [|iterator r IH]; simpl; intros k Hs Hl Hw; results; try done.
  eapply IH; [eassumption| |].
  - intros n Hn. apply Hl. by apply elem_of_cons; right.
  - eapply waits_task_block_to_ready; [eassumption|].
    apply waits_update_other; [|done]. apply Hl. by apply elem_of_cons; left.
Qed.

Lemma waits_check_task_wakeup time k k' :
  check_task_wakeup time k = Ok k' ->
  waits_without_timeout T k -> waits_without_timeout T k'.
Proof.
  unfold check_task_wakeup, check_delay_task_wakeup, check_task_block_wakeup.
  intros Hc Hw.
  apply bind_Ok_inv in Hc as (k1 & Hd & Hb).
  assert (Hw1 : waits_without_timeout T k1).
  { destruct (zk_list_is_empty delay_list (lists k)); [injection Hd as <-; done|].
    eapply waits_delay_wakeup_scan; eassumption. }
  destruct (zk_list_is_empty block_timeout_list (lists k1)); [injection Hb as <-; done|].
  eapply waits_block_wakeup_scan; [eassumption| |done]. apply Hw1.
Qed.

#[local] Hint Resolve waits_check_task_wakeup : waits.

Lemma waits_scheduler_increment_tick k k' need_schedule :
  scheduler_increment_tick k = Ok (k', need_schedule) ->
  waits_without_timeout T k -> waits_without_timeout T k'.
Proof.
  unfold scheduler_increment_tick, increment_time, get_current_time.
  intros Hs Hw. results; eauto 20 with waits.
Qed.

Lemma waits_zk_asm_systick_handler k k' :
  zk_asm_systick_handler k = Ok k' ->
  waits_without_timeout T k -> waits_without_timeout T k'.
Proof.
  unfold zk_asm_systick_handler. intros Hs Hw. results.
  eapply waits_scheduler_increment_tick; eassumption.
Qed.

Lemma waits_task_change_priority_temp tcb new_priority k k' :
  task_change_priority_temp tcb new_priority k = Ok k' ->
  waits_without_timeout T k -> waits_without_timeout T k'.
Proof. unfold task_change_priority_temp. waiting. Qed.

Lemma waits_task_resume_priority tcb k k' :
  task_resume_priority tcb k = Ok k' ->
  waits_without_timeout T k -> waits_without_timeout T k'.
Proof. unfold task_resume_priority. waiting. Qed.

#[local] Hint Resolve waits_zk_asm_systick_handler waits_task_change_priority_temp
  waits_task_resume_priority : waits.


#[local] Hint Extern 2 (_ <> _) => (simpl; congruence) : waits.

Lemma waits_task_create new parameter_priority k k' ret :
  task_create new parameter_priority k = Ok (k', ret) ->
  waits_without_timeout T k -> waits_without_timeout T k'.
Proof.
  unfold task_create. intros Hc Hw. results.
  eapply waits_exit_critical, waits_add_task_to_ready_list; [eassumption|].
  apply waits_enter_critical, waits_update_tcb; [|done]. right; left. done.
Qed.

Lemma waits_task_delay delay_time k k' o :
  task_delay delay_time k = Ok (k', o) -> g_current_tcb k <> T ->
  waits_without_timeout T k -> waits_without_timeout T k'.
Proof. unfold task_delay. waiting. Qed.

Lemma waits_sem_create initial_count k k' ret :
  sem_create initial_count k = (k', ret) ->
  waits_without_timeout T k -> waits_without_timeout T k'.
Proof. unfold sem_create. waiting. Qed.

Lemma waits_sem_get_internal_resume tcb k k' ret :
  sem_get_internal_resume tcb k = (k', ret) ->
  waits_without_timeout T k -> waits_without_timeout T k'.
Proof. unfold sem_get_internal_resume. waiting. Qed.

#[local] Hint Resolve waits_sem_get_internal_resume : waits.

Lemma waits_sem_get_internal sem_handle block_type timeout k k' o :
  sem_get_internal sem_handle block_type timeout k = Ok (k', o) ->
  g_current_tcb k <> T ->
  waits_without_timeout T k -> waits_without_timeout T k'.
Proof. unfold sem_get_internal. waiting. Qed.

Lemma waits_begin k :
  off_the_timeout_list T (lists k) ->
  waits_without_timeout T (update_tcb T (with_event_timeout_wakeup EVENT_NO_TIMEOUT) k).
Proof. intros Hoff. split; [|done]. simpl. by rewrite fn_lookup_insert. Qed.

#[local] Hint Resolve waits_begin : waits.

Lemma sem_get_internal_resume_success k k' ret :
  sem_get_internal_resume T k = (k', ret) -> waits_without_timeout T k ->
  ret = ZK_SUCCESS.
Proof.
  unfold sem_get_internal_resume. intros Hr [Hflag _]. results.
  case_decide; [|done]. simpl in *. congruence.
Qed.

Lemma sem_get_waits sem_handle timeout k k' o :
  sem_get_internal sem_handle BLOCK_TYPE_ENDLESS timeout k = Ok (k', o) ->
  g_current_tcb k = T -> off_the_timeout_list T (lists k) ->
  o <> Return ZK_ERR_TIMEOUT /\ (o = Suspended -> waits_without_timeout T k').
Proof.
  unfold sem_get_internal. intros Hg Hcur Hoff.
  cbv zeta in Hg. rewrite Hcur in Hg. clear Hcur.
  results; try (split; congruence).
  - match goal with
    | Hs : schedule _ = Ok ?x, Hr : sem_get_internal_resume _ _ = _ |- _ =>
        assert (Hw : waits_without_timeout T (ZK_EXIT_CRITICAL x)) by eauto 15 with waits;
        apply (sem_get_internal_resume_success _ _ _ Hr) in Hw as ->
    end.
    split; congruence.
  - split; [congruence|]. intros _. eauto 15 with waits.
Qed.


Lemma waits_sem_release sem_handle k k' ret :
  sem_release sem_handle k = Ok (k', ret) ->
  waits_without_timeout T k -> waits_without_timeout T k'.
Proof. unfold sem_release. waiting. Qed.

Lemma waits_sem_destroy_loop rounds sem_handle k k' :
  sem_destroy_loop rounds sem_handle k = Ok k' ->
  waits_without_timeout T k -> waits_without_timeout T k'.
Proof.
  revert k. induction rounds as [|rounds IH]; simpl; intros k Hl Hw; results;
    eauto with waits.
Qed.

#[local] Hint Resolve waits_sem_destroy_loop : waits.

Lemma waits_sem_destroy sem_handle k k' ret :
  sem_destroy sem_handle k = Ok (k', ret) ->
  waits_without_timeout T k -> waits_without_timeout T k'.
Proof. unfold sem_destroy. waiting. Qed.

Lemma waits_mutex_create k k' ret :
  mutex_create k = (k', ret) ->
  waits_without_timeout T k -> waits_without_timeout T k'.
Proof. unfold mutex_create. waiting. Qed.

Lemma waits_mutex_priority_inheritance_chain_loop rounds owner_tcb required_priority
  current_mutex k k' :
  mutex_priority_inheritance_chain_loop rounds owner_tcb required_priority current_mutex k
  = Ok k' ->
  waits_without_timeout T k -> waits_without_timeout T k'.
Proof.
  revert owner_tcb current_mutex k.
  induction rounds as [|rounds IH]; simpl; intros owner_tcb current_mutex k Hl Hw;
    results; eauto 10 with waits.
Qed.

#[local] Hint Resolve waits_mutex_priority_inheritance_chain_loop : waits.

Lemma waits_mutex_priority_inheritance_chain task mutex k k' :
  mutex_priority_inheritance_chain task mutex k = Ok k' ->
  waits_without_timeout T k -> waits_without_timeout T k'.
Proof. unfold mutex_priority_inheritance_chain. waiting. Qed.

#[local] Hint Resolve waits_mutex_priority_inheritance_chain : waits.

Lemma waits_mutex_sleep_endless task mutex k k' :
  mutex_sleep task mutex BLOCK_TYPE_ENDLESS k = Ok k' ->
  waits_without_timeout T k -> waits_without_timeout T k'.
Proof. unfold mutex_sleep. waiting. Qed.

Lemma waits_mutex_sleep task mutex block_type k k' :
  mutex_sleep task mutex block_type k = Ok k' -> task <> T ->
  waits_without_timeout T k -> waits_without_timeout T k'.
Proof. unfold mutex_sleep. waiting. Qed.

Lemma waits_mutex_lock_internal_resume tcb k k' ret :
  mutex_lock_internal_resume tcb k = (k', ret) ->
  waits_without_timeout T k -> waits_without_timeout T k'.
Proof. unfold mutex_lock_internal_resume. waiting. Qed.

#[local] Hint Resolve waits_mutex_sleep_endless waits_mutex_sleep
  waits_mutex_lock_internal_resume : waits.

Lemma waits_mutex_lock_internal mutex_handle block_type timeout k k' o :
  mutex_lock_internal mutex_handle block_type timeout k = Ok (k', o) ->
  g_current_tcb k <> T ->
  waits_without_timeout T k -> waits_without_timeout T k'.
Proof. unfold mutex_lock_internal. waiting. Qed.

Lemma mutex_lock_internal_resume_success k k' ret :
  mutex_lock_internal_resume T k = (k', ret) -> waits_without_timeout T k ->
  ret = ZK_SUCCESS.
Proof.
  unfold mutex_lock_internal_resume. intros Hr [Hflag _]. results; [|done].
  simpl in *. congruence.
Qed.

Lemma mutex_lock_waits mutex_handle timeout k k' o :
  mutex_lock_internal mutex_handle BLOCK_TYPE_ENDLESS timeout k = Ok (k', o) ->
  g_current_tcb k = T -> off_the_timeout_list T (lists k) ->
  o <> Return ZK_ERR_TIMEOUT /\ (o = Suspended -> waits_without_timeout T k').
Proof.
  unfold mutex_lock_internal. intros Hg Hcur Hoff.
  cbv zeta in Hg. rewrite Hcur in Hg. clear Hcur.
  results; try (split; congruence).
  - match goal with
    | Hs : schedule _ = Ok ?x, Hr : mutex_lock_internal_resume _ _ = _ |- _ =>
        assert (Hw : waits_without_timeout T (ZK_EXIT_CRITICAL x)) by eauto 15 with waits;
        apply (mutex_lock_internal_resume_success _ _ _ Hr) in Hw as ->
    end.
    split; congruence.
  - split; [congruence|]. intros _. eauto 15 with waits.
Qed.

Lemma waits_mutex_wakeup task mutex k k' need_reschedule :
  mutex_wakeup task mutex k = Ok (k', need_reschedule) ->
  waits_without_timeout T k -> waits_without_timeout T k'.
Proof. unfold mutex_wakeup. waiting. Qed.


#[local] Hint Resolve waits_mutex_wakeup : waits.

Lemma waits_mutex_unlock mutex_handle k k' ret :
  mutex_unlock mutex_handle k = Ok (k', ret) ->
  waits_without_timeout T k -> waits_without_timeout T k'.
Proof.
  unfold mutex_unlock. intros Hu Hw. results;
    repeat match goal with r : (kernel * bool)%type |- _ => destruct r; simpl in * end;
    eauto 15 with waits.
Qed.

Lemma waits_mutex_destroy mutex_handle k k' ret :
  mutex_destroy mutex_handle k = Ok (k', ret) ->
  waits_without_timeout T k -> waits_without_timeout T k'.
Proof. unfold mutex_destroy. waiting. Qed.

Lemma waits_queue_create element_single_size element_num k k' ret :
  queue_create element_single_size element_num k = Ok (k', ret) ->
  waits_without_timeout T k -> waits_without_timeout T k'.
Proof. unfold queue_create. waiting. Qed.

Lemma waits_queue_wakeup sleep_list_head k k' :
  queue_wakeup sleep_list_head k = Ok k' ->
  waits_without_timeout T k -> waits_without_timeout T k'.
Proof. unfold queue_wakeup. waiting. Qed.

#[local] Hint Resolve waits_queue_wakeup : waits.

Lemma waits_queue_write_attempt queue_handle buffer size block_type timeout current_tcb
  k k' o :
  queue_write_attempt queue_handle buffer size block_type timeout current_tcb k
  = Ok (k', o) ->
  current_tcb <> T ->
  waits_without_timeout T k -> waits_without_timeout T k'.
Proof. unfold queue_write_attempt, queue_sleep. waiting. Qed.

Lemma queue_write_attempt_waits queue_handle buffer size timeout k k' o :
  queue_write_attempt queue_handle buffer size BLOCK_TYPE_ENDLESS timeout T k
  = Ok (k', o) ->
  off_the_timeout_list T (lists k) ->
  o <> Return ZK_ERR_TIMEOUT /\ (o = Suspended -> waits_without_timeout T k').
Proof.
  unfold queue_write_attempt, queue_sleep. intros Hq Hoff.
  results; (split; [congruence|]); try congruence; intros _.
  eapply waits_exit_critical, waits_schedule; [eassumption|].
  eapply waits_task_ready_to_block_endless; [eassumption|done|].
  by apply waits_begin.
Qed.

Lemma waits_queue_read_attempt queue_handle size block_type timeout current_tcb k k' r :
  queue_read_attempt queue_handle size block_type timeout current_tcb k = Ok (k', r) ->
  current_tcb <> T ->
  waits_without_timeout T k -> waits_without_timeout T k'.
Proof. unfold queue_read_attempt, queue_sleep. waiting. Qed.

Lemma queue_read_attempt_waits queue_handle size timeout k k' r :
  queue_read_attempt queue_handle size BLOCK_TYPE_ENDLESS timeout T k = Ok (k', r) ->
  off_the_timeout_list T (lists k) ->
  fst r <> Return ZK_ERR_TIMEOUT /\ (fst r = Suspended -> waits_without_timeout T k').
Proof.
  unfold queue_read_attempt, queue_sleep. intros Hq Hoff.
  results; simpl; (split; [congruence|]); try congruence; intros _.
  eauto 15 with waits.
Qed.

#[local] Hint Resolve waits_queue_write_attempt waits_queue_read_attempt : waits.

Lemma waits_queue_write_internal queue_handle buffer size block_type timeout k k' o :
  queue_write_internal queue_handle buffer size block_type timeout k = Ok (k', o) ->
  g_current_tcb k <> T ->
  waits_without_timeout T k -> waits_without_timeout T k'.
Proof. unfold queue_write_internal. waiting. Qed.

Lemma waits_queue_write_internal_resume queue_handle buffer size block_type timeout
  current_tcb k k' o :
  queue_write_internal_resume queue_handle buffer size block_type timeout current_tcb k
  = Ok (k', o) ->
  current_tcb <> T ->
  waits_without_timeout T k -> waits_without_timeout T k'.
Proof. unfold queue_write_internal_resume. waiting. Qed.

Lemma waits_queue_write queue_handle buffer size k k' o :
  queue_write queue_handle buffer size k = Ok (k', o) ->
  g_current_tcb k <> T ->
  waits_without_timeout T k -> waits_without_timeout T k'.
Proof.
  unfold queue_write. intros Hq Hcur Hw. results; try done.
  eapply waits_queue_write_internal; eassumption.
Qed.

Lemma waits_queue_read_internal queue_handle size block_type timeout k k' r :
  queue_read_internal queue_handle size block_type timeout k = Ok (k', r) ->
  g_current_tcb k <> T ->
  waits_without_timeout T k -> waits_without_timeout T k'.
Proof. unfold queue_read_internal. waiting. Qed.

Lemma waits_queue_read_internal_resume queue_handle size block_type timeout
  current_tcb k k' r :
  queue_read_internal_resume queue_handle size block_type timeout current_tcb k
  = Ok (k', r) ->
  current_tcb <> T ->
  waits_without_timeout T k -> waits_without_timeout T k'.
Proof. unfold queue_read_internal_resume. waiting. Qed.

Lemma waits_queue_destroy queue_handle k k' ret :
  queue_destroy queue_handle k = Ok (k', ret) ->
  waits_without_timeout T k -> waits_without_timeout T k'.
Proof. unfold queue_destroy. waiting. Qed.


Lemma waits_task_step k k' :
  g_current_tcb k <> T -> task_step (g_current_tcb k) k k' ->
  waits_without_timeout T k -> waits_without_timeout T k'.
Proof.
  intros Hcur Hstep Hw. destruct Hstep; try subst k'.
  - eapply waits_task_create; eassumption.
  - eapply waits_task_delay; eassumption.
  - by apply waits_with_g_mem_manager.
  - by apply waits_with_g_mem_manager.
  - eapply waits_sem_create; eassumption.
  - eapply waits_sem_get_internal; eassumption.
  - eapply waits_sem_get_internal_resume; eassumption.
  - eapply waits_sem_release; eassumption.
  - eapply waits_sem_destroy; eassumption.
  - eapply waits_mutex_create; eassumption.
  - eapply waits_mutex_lock_internal; eassumption.
  - eapply waits_mutex_lock_internal_resume; eassumption.
  - eapply waits_mutex_unlock; eassumption.
  - eapply waits_mutex_destroy; eassumption.
  - eapply waits_queue_create; eassumption.
  - eapply waits_queue_write; eassumption.
  - eapply waits_queue_write_internal; eassumption.
  - eapply waits_queue_write_internal_resume; eassumption.
  - eapply waits_queue_read_internal; eassumption.
  - eapply waits_queue_read_internal_resume; eassumption.
  - eapply waits_queue_destroy; eassumption.
Qed.

Lemma waits_environment_step k k' :
  environment_step T k k' -> waits_without_timeout T k -> waits_without_timeout T k'.
Proof.
  intros [Htick|Hcur Hstep].
  - by apply waits_zk_asm_systick_handler.
  - by apply waits_task_step.
Qed.

Lemma waits_environment k k' :
  rtc (environment_step T) k k' -> waits_without_timeout T k -> waits_without_timeout T k'.
Proof. induction 1; eauto using waits_environment_step. Qed.

Lemma returns_no_timeout rest s ret :
  (forall k k' o, waits_without_timeout T k -> rest k = Ok (k', o) ->
     o <> Return ZK_ERR_TIMEOUT /\ (o = Suspended -> waits_without_timeout T k')) ->
  returns T rest s ret ->
  snd s <> Return ZK_ERR_TIMEOUT -> (snd s = Suspended -> waits_without_timeout T (fst s)) ->
  ret <> ZK_ERR_TIMEOUT.
Proof.
  intros Hrest. induction 1 as [k ret|k k' o ret Hcur Hr _ IH|k k' ret Henv _ IH];
    simpl; intros Hret Hw.
  - congruence.
  - destruct (Hrest k k' o (Hw eq_refl) Hr) as [? ?]. by apply IH.
  - apply IH; [done|]. intros _. eapply waits_environment_step; eauto.
Qed.

Lemma sem_get_rest_waits k k' o :
  waits_without_timeout T k -> sem_get_rest T k = Ok (k', o) ->
  o <> Return ZK_ERR_TIMEOUT /\ (o = Suspended -> waits_without_timeout T k').
Proof.
  unfold sem_get_rest. intros Hw Hr.
  destruct (sem_get_internal_resume T k) as [k1 ret] eqn:Hres.
  apply (sem_get_internal_resume_success _ _ _ Hres) in Hw as ->.
  apply Ok_inj in Hr. split; congruence.
Qed.

Lemma mutex_lock_rest_waits k k' o :
  waits_without_timeout T k -> mutex_lock_rest T k = Ok (k', o) ->
  o <> Return ZK_ERR_TIMEOUT /\ (o = Suspended -> waits_without_timeout T k').
Proof.
  unfold mutex_lock_rest. intros Hw Hr.
  destruct (mutex_lock_internal_resume T k) as [k1 ret] eqn:Hres.
  apply (mutex_lock_internal_resume_success _ _ _ Hres) in Hw as ->.
  apply Ok_inj in Hr. split; congruence.
Qed.

Lemma queue_write_rest_waits queue_handle buffer size k k' o :
  waits_without_timeout T k -> queue_write_rest queue_handle buffer size T k = Ok (k', o) ->
  o <> Return ZK_ERR_TIMEOUT /\ (o = Suspended -> waits_without_timeout T k').
Proof.
  unfold queue_write_rest, queue_write_internal_resume. intros [Hflag Hoff] Hr.
  cbv zeta in Hr. destruct (decide _) as [Hto|_] in Hr; [simpl in Hto; congruence|].
  eapply queue_write_attempt_waits; [eassumption|done].
Qed.

Lemma queue_read_rest_waits queue_handle size k k' o :
  waits_without_timeout T k -> queue_read_rest queue_handle size T k = Ok (k', o) ->
  o <> Return ZK_ERR_TIMEOUT /\ (o = Suspended -> waits_without_timeout T k').
Proof.
  unfold queue_read_rest, without_data, queue_read_internal_resume. intros [Hflag Hoff] Hr.
  cbv zeta in Hr. destruct (decide _) as [Hto|_] in Hr; [simpl in Hto; congruence|].
  destruct (queue_read_attempt _ _ _ _ _ _) as [[k1 r]|] eqn:Hq; [|done].
  apply Ok_inj in Hr. injection Hr as <- <-.
  eapply queue_read_attempt_waits; [eassumption|done].
Qed.


Lemma queue_write_waits queue_handle buffer size k k' o :
  queue_write queue_handle buffer size k = Ok (k', o) ->
  g_current_tcb k = T -> off_the_timeout_list T (lists k) ->
  o <> Return ZK_ERR_TIMEOUT /\ (o = Suspended -> waits_without_timeout T k').
Proof.
  unfold queue_write, queue_write_internal. intros Hq Hcur Hoff.
  cbv zeta in Hq. rewrite Hcur in Hq. clear Hcur.
  results; try (split; congruence).
  eapply queue_write_attempt_waits; [eassumption|done].
Qed.

Lemma queue_read_waits queue_handle size k k' o :
  without_data (queue_read queue_handle size k) = Ok (k', o) ->
  g_current_tcb k = T -> off_the_timeout_list T (lists k) ->
  o <> Return ZK_ERR_TIMEOUT /\ (o = Suspended -> waits_without_timeout T k').
Proof.
  unfold without_data, queue_read, queue_read_internal. intros Hq Hcur Hoff.
  cbv zeta in Hq. rewrite Hcur in Hq. clear Hcur.
  match type of Hq with _ <$> ?m = _ => destruct m as [[k1 r]|] eqn:Hm; [|done] end.
  apply Ok_inj in Hq. injection Hq as <- <-.
  results; simpl; try (split; congruence).
  eapply queue_read_attempt_waits; [eassumption|done].
Qed.

End waiting.

(** C8: the calls that wait without a timeout never return ZK_ERR_TIMEOUT.
    Task [tcb] is running, none of its list nodes is on the timeout-blocked
    list and that list links tasks by their [state_node].  Whatever the tick
    interrupt and the other tasks do while the call is pending, and however
    often the call has to block again, [sem_get], [mutex_lock], [queue_read]
    and [queue_write] return a code other than ZK_ERR_TIMEOUT; and from the
    moment the caller is switched out until it runs again its timeout flag
    stays EVENT_NO_TIMEOUT and none of its nodes is put on the
    timeout-blocked list. *)
Theorem endless_waits_never_time_out `{!zk_config} (k : kernel) :
  let tcb := g_current_tcb k in
  off_the_timeout_list tcb (lists k) ->
  (forall sem_handle r ret,
     sem_get sem_handle k = Ok r ->
     returns tcb (sem_get_rest tcb) r ret -> ret <> ZK_ERR_TIMEOUT)
  /\ (forall mutex_handle r ret,
       mutex_lock mutex_handle k = Ok r ->
       returns tcb (mutex_lock_rest tcb) r ret -> ret <> ZK_ERR_TIMEOUT)
  /\ (forall queue_handle size r ret,
       without_data (queue_read queue_handle size k) = Ok r ->
       returns tcb (queue_read_rest queue_handle size tcb) r ret -> ret <> ZK_ERR_TIMEOUT)
  /\ (forall queue_handle buffer size r ret,
       queue_write queue_handle buffer size k = Ok r ->
       returns tcb (queue_write_rest queue_handle buffer size tcb) r ret ->
       ret <> ZK_ERR_TIMEOUT)
  /\ (forall k' k'',
       (exists sem_handle, sem_get sem_handle k = Ok (k', Suspended))
       \/ (exists mutex_handle, mutex_lock mutex_handle k = Ok (k', Suspended))
       \/ (exists queue_handle size,
             without_data (queue_read queue_handle size k) = Ok (k', Suspended))
       \/ (exists queue_handle buffer size,
             queue_write queue_handle buffer size k = Ok (k', Suspended)) ->
       rtc (environment_step tcb) k' k'' -> waits_without_timeout tcb k'').
Proof.
  intros tcb Hoff. split; [|split; [|split; [|split]]].
  - intros sem_handle [k' o] ret Hcall Hret.
    destruct (sem_get_waits tcb _ _ _ _ _ Hcall eq_refl Hoff).
    eapply returns_no_timeout; [apply sem_get_rest_waits|exact Hret|done..].
  - intros mutex_handle [k' o] ret Hcall Hret.
    destruct (mutex_lock_waits tcb _ _ _ _ _ Hcall eq_refl Hoff).
    eapply returns_no_timeout; [apply mutex_lock_rest_waits|exact Hret|done..].
  - intros queue_handle size [k' o] ret Hcall Hret.
    destruct (queue_read_waits tcb _ _ _ _ _ Hcall eq_refl Hoff).
    eapply returns_no_timeout; [apply queue_read_rest_waits|exact Hret|done..].
  - intros queue_handle buffer size [k' o] ret Hcall Hret.
    destruct (queue_write_waits tcb _ _ _ _ _ _ Hcall eq_refl Hoff).
    eapply returns_no_timeout; [apply queue_write_rest_waits|exact Hret|done..].
  - intros k' k'' Hcall Henv. eapply waits_environment; [exact Henv|].
    destruct Hcall as [[h Hc]|[[h Hc]|[(h & size & Hc)|(h & buffer & size & Hc)]]].
    + by eapply sem_get_waits.
    + by eapply mutex_lock_waits.
    + by eapply queue_read_waits.
    + by eapply queue_write_waits.
Qed.

(** On the board: task 2 blocks in [sem_get], a tick passes, task 1 releases
    the semaphore, and task 2 comes back with ZK_SUCCESS. *)
Lemma endless_waits_never_time_out_witness :
  g_current_tcb semaphore_created = 2%nat
  /\ sem_get (H := board) 0 semaphore_created = Ok (task_2_waiting, Suspended)
  /\ returns (H := board) 2 (sem_get_rest 2) (task_2_waiting, Suspended) ZK_SUCCESS
  /\ ZK_SUCCESS <> ZK_ERR_TIMEOUT.
Proof.
  assert (Hcur : g_current_tcb semaphore_created = 2%nat) by (vm_compute; reflexivity).
  assert (Hcall : sem_get (H := board) 0 semaphore_created = Ok (task_2_waiting, Suspended))
    by (vm_compute; reflexivity).
  assert (Hret : returns (H := board) 2 (sem_get_rest 2)
                   (task_2_waiting, Suspended) ZK_SUCCESS).
  { apply returns_after_environment with (k' := after_a_tick).
    { apply environment_tick. vm_compute. reflexivity. }
    apply returns_after_environment with (k' := semaphore_released).
    { apply environment_task.
      - vm_compute. discriminate.
      - apply step_sem_release with (sem_handle := 0%nat) (ret := ZK_SUCCESS).
        vm_compute. reflexivity. }
    eapply returns_when_resumed with (o := Return ZK_SUCCESS).
    - vm_compute. reflexivity.
    - vm_compute. reflexivity.
    - apply returns_at_once. }
  assert (Hoff : off_the_timeout_list (g_current_tcb semaphore_created)
                   (lists semaphore_created)).
  { split.
    - intros n Hn.
      replace (members (lists semaphore_created) block_timeout_list)
        with (@nil list_member) in Hn by (vm_compute; reflexivity).
      apply elem_of_nil in Hn. destruct Hn.
    - intros t. vm_compute. discriminate. }
  split; [exact Hcur|]. split; [exact Hcall|]. split; [exact Hret|].
  destruct (endless_waits_never_time_out (H := board) semaphore_created Hoff) as [Hsem _].
  apply (Hsem 0%nat (task_2_waiting, Suspended) ZK_SUCCESS Hcall).
  rewrite Hcur. exact Hret.
Defined.

(** ** Well-formed lists *)

Lemma remove_node_elem_ne n x l : x <> n -> x ∈ remove_node n l <-> x ∈ l.
Proof.
  intros Hne. induction l as [|y r IH]; simpl; [done|].
  destruct (decide (y = n)) as [->|Hy]; rewrite !elem_of_cons; [tauto|].
  rewrite IH. tauto.
Qed.

Lemma remove_node_NoDup n l : NoDup l -> NoDup (remove_node n l).
Proof.
  induction 1 as [|y r Hy Hr IH]; simpl; [constructor|].
  destruct (decide (y = n)); [done|]. constructor; [|done].
  intros Hin. apply Hy. by apply remove_node_elem in Hin.
Qed.

Lemma remove_node_not_elem n l : NoDup l -> n ∉ remove_node n l.
Proof.
  induction 1 as [|y r Hy Hr IH]; simpl; [by intros ?%elem_of_nil|].
  destruct (decide (y = n)) as [->|Hne]; [done|].
  rewrite elem_of_cons. intros [?|?]; [congruence|done].
Qed.

Lemma insert_before_perm new old l : insert_before new old l ≡ₚ new :: l.
Proof.
  induction l as [|y r IH]; simpl; [done|].
  destruct (decide (y = old)); [done|]. rewrite IH. apply Permutation_swap.
Qed.

Lemma insert_after_perm new old l : insert_after new old l ≡ₚ new :: l.
Proof.
  induction l as [|y r IH]; simpl; [done|].
  destruct (decide (y = old)); [apply Permutation_swap|].
  rewrite IH. apply Permutation_swap.
Qed.

Lemma lists_wf_delete ls n h :
  lists_wf ls -> link ls n = Some h ->
  lists_wf (mk_lists (<[h := remove_node n (members ls h)]> (members ls))
                     (<[n := None]> (link ls))).
Proof.
  intros [Hnd Hlk] Hn. split; simpl.
  - intros h'. destruct (decide (h = h')) as [<-|Hne].
    + rewrite fn_lookup_insert. by apply remove_node_NoDup.
    + rewrite fn_lookup_insert_ne by done. done.
  - intros x h'. destruct (decide (n = x)) as [<-|Hx].
    + rewrite fn_lookup_insert. split; [|done]. intros Hin. exfalso.
      destruct (decide (h = h')) as [<-|Hne].
      * rewrite fn_lookup_insert in Hin. by apply remove_node_not_elem in Hin.
      * rewrite fn_lookup_insert_ne in Hin by done. apply Hlk in Hin. congruence.
    + rewrite (fn_lookup_insert_ne (link ls)) by done. rewrite <- Hlk.
      destruct (decide (h = h')) as [<-|Hne].
      * rewrite fn_lookup_insert. by apply remove_node_elem_ne.
      * by rewrite fn_lookup_insert_ne.
Qed.

Lemma lists_wf_add ls new h l :
  lists_wf ls -> link ls new = None -> l ≡ₚ new :: members ls h ->
  lists_wf (mk_lists (<[h := l]> (members ls)) (<[new := Some h]> (link ls))).
Proof.
  intros [Hnd Hlk] Hn Hl. split; simpl.
  - intros h'. destruct (decide (h = h')) as [<-|Hne].
    + rewrite fn_lookup_insert, Hl. constructor; [|done].
      intros Hin%Hlk. congruence.
    + by rewrite fn_lookup_insert_ne.
  - intros x h'. destruct (decide (new = x)) as [<-|Hx].
    + rewrite fn_lookup_insert. destruct (decide (h = h')) as [<-|Hne].
      * rewrite fn_lookup_insert, Hl. split; [done|]. intros _. by apply elem_of_cons; left.
      * rewrite fn_lookup_insert_ne by done. split; [|congruence].
        intros Hin%Hlk. congruence.
    + rewrite (fn_lookup_insert_ne (link ls)) by done. rewrite <- Hlk.
      destruct (decide (h = h')) as [<-|Hne].
      * rewrite fn_lookup_insert, Hl, elem_of_cons. split; [|tauto].
        intros [?|?]; [congruence|done].
      * by rewrite fn_lookup_insert_ne.
Qed.

(** ** The priority bitmap and the tick arithmetic *)

Lemma testbit_one_bit p q :
  0 <= p -> 0 <= q -> Z.testbit (Z.shiftl ZK_BIT_MASK_0 p) q = bool_decide (q = p).
Proof.
  intros Hp Hq. unfold ZK_BIT_MASK_0. rewrite Z.shiftl_1_l, Z.pow2_bits_eqb by done.
  case_bool_decide; lia.
Qed.

Lemma testbit_uint32 x q : 0 <= q < 32 -> Z.testbit (uint32 x) q = Z.testbit x q.
Proof. intros Hq. unfold uint32. apply Z.mod_pow2_bits_low. lia. Qed.

Lemma testbit_set_priority_active p q k :
  0 <= p < 32 -> 0 <= q < 32 ->
  Z.testbit (priority_active (set_priority_active p k)) q
  = Z.testbit (priority_active k) q || bool_decide (q = p).
Proof.
  intros Hp Hq. simpl. rewrite Z.lor_spec, testbit_uint32, testbit_one_bit by lia. done.
Qed.

Lemma testbit_clear_priority_active p q k :
  0 <= p < 32 -> 0 <= q < 32 ->
  Z.testbit (priority_active (clear_priority_active p k)) q
  = Z.testbit (priority_active k) q && negb (bool_decide (q = p)).
Proof.
  intros Hp Hq. simpl.
  rewrite Z.land_spec, testbit_uint32, Z.lnot_spec, testbit_one_bit by lia. done.
Qed.

Lemma zk_time_is_reached_spec a b :
  zk_time_is_reached a b = bool_decide ((a - b) mod 2 ^ 32 < 2 ^ 31).
Proof.
  unfold zk_time_is_reached, int32, uint32.
  repeat case_decide; repeat case_bool_decide; try done; exfalso;
    Z.to_euclidean_division_equations; lia.
Qed.

Lemma not_reached_before now timeout (j : Z) :
  0 <= j < timeout -> timeout < 2 ^ 31 ->
  zk_time_is_reached (uint32 (now + j)) (uint32 (now + timeout)) = false.
Proof.
  intros Hj Ht. rewrite zk_time_is_reached_spec. unfold uint32.
  case_bool_decide; [exfalso|done]. Z.to_euclidean_division_equations; lia.
Qed.

Lemma reached_at now timeout :
  zk_time_is_reached (uint32 (now + timeout)) (uint32 (now + timeout)) = true.
Proof.
  rewrite zk_time_is_reached_spec, Z.sub_diag. done.
Qed.

(** ** Waking tasks up *)

Lemma wakes_refl k : wakes k k.
Proof.
  split; [by destruct k|]. split; [intros t; auto|]. split; [done|]. split; [done|]. done.
Qed.

Lemma wakes_trans k1 k2 k3 : wakes k1 k2 -> wakes k2 k3 -> wakes k1 k3.
Proof.
  intros (He1 & Hf1 & Hb1 & Hs1 & Hr1) (He2 & Hf2 & Hb2 & Hs2 & Hr2).
  split; [|split; [|split; [|split]]].
  - rewrite He2 at 1. rewrite He1 at 1. reflexivity.
  - intros t. destruct (Hf1 t) as (Hp1 & Hw1 & Hfl1), (Hf2 t) as (Hp2 & Hw2 & Hfl2).
    split; [congruence|]. split; [congruence|].
    destruct Hfl2 as [Hfl2|]; [rewrite Hfl2; done|by right].
  - intros t Ht. rewrite Hb2 by done. apply Hb1.
    destruct Hs2 as [l ->]. apply elem_of_app. by right.
  - by etrans.
  - auto.
Qed.

Lemma tcbs_update_tcb x f k t :
  tcbs (update_tcb x f k) t = if decide (x = t) then f (tcbs k x) else tcbs k t.
Proof. reflexivity. Qed.

Lemma link_state_node_unique ls t h h' :
  lists_wf ls -> state_node t ∈ members ls h -> state_node t ∈ members ls h' -> h = h'.
Proof. intros [_ Hlk] H1%Hlk H2%Hlk. congruence. Qed.

Lemma zk_list_is_empty_spec h ls :
  zk_list_is_empty h ls = bool_decide (members ls h = []).
Proof.
  unfold zk_list_is_empty, head_next. destruct (members ls h); repeat case_bool_decide; done.
Qed.

Section wake_up.

Variable k : kernel.
Hypothesis Hwf : scheduler_wf k.

Lemma scheduler_wf_update_flag x v :
  scheduler_wf (update_tcb x (with_event_timeout_wakeup v) k).
Proof.
  destruct Hwf as (Hl & Hr & Hd & Ht & Hb).
  split; [done|]. split; [|split; [|split; [|done]]].
  - intros p n Hn. destruct (Hr p n Hn) as (Hp & t & -> & Hpr).
    split; [done|]. exists t. split; [done|]. rewrite tcbs_update_tcb.
    destruct (decide (x = t)) as [->|]; done.
  - intros n Hn. destruct (Hd n Hn) as (t & -> & Hpr). exists t. split; [done|].
    rewrite tcbs_update_tcb. destruct (decide (x = t)) as [->|]; done.
  - intros n Hn. destruct (Ht n Hn) as (t & -> & Hst & Hev & Hpr). exists t.
    rewrite tcbs_update_tcb. destruct (decide (x = t)) as [->|]; done.
Qed.

Lemma add_task_to_ready_list_wakes x :
  link (lists k) (state_node x) = None ->
  0 <= priority (tcbs k x) < ZK_PRIORITY_NUM ->
  exists k', add_task_to_ready_list x k = Ok k'
    /\ scheduler_wf k' /\ wakes k k'
    /\ members (lists k') delay_list = members (lists k) delay_list
    /\ members (lists k') block_timeout_list = members (lists k) block_timeout_list
    /\ (forall t, event_timeout_wakeup (tcbs k' t) = event_timeout_wakeup (tcbs k t))
    /\ state_node x ∈ members (lists k') (ready_list (priority (tcbs k x))).
Proof.
  intros Hx Hp. destruct Hwf as (Hl & Hr & Hd & Ht & Hb).
  set (p := priority (tcbs k x)) in *.
  unfold add_task_to_ready_list, ready_list_at, zk_list_add_after. fold p.
  destruct (decide (0 <= p < ZK_PRIORITY_NUM)); [|done]. simpl. rewrite Hx. simpl.
  eexists. split; [reflexivity|].
  assert (Hprio : forall t v, priority (tcbs (update_tcb x (with_state v) k) t)
                         = priority (tcbs k t)).
  { intros t v. rewrite tcbs_update_tcb. destruct (decide (x = t)) as [->|]; done. }
  split; [split; [|split; [|split; [|split]]]|].
  - simpl. by apply lists_wf_add.
  - intros q n. simpl. destruct (decide (ready_list p = ready_list q)) as [Heq|Hne].
    + rewrite Heq, fn_lookup_insert. injection Heq as <-.
      rewrite elem_of_cons. intros [->|Hn].
      * split; [done|]. exists x. split; [done|]. apply (Hprio x).
      * destruct (Hr p n Hn) as (_ & t & -> & Hpr). split; [done|]. exists t.
        split; [done|]. rewrite <- Hpr. apply (Hprio t).
    + rewrite fn_lookup_insert_ne by done. intros Hn.
      destruct (Hr q n Hn) as (Hq & t & -> & Hpr). split; [done|]. exists t.
      split; [done|]. rewrite <- Hpr. apply (Hprio t).
  - intros n. simpl. rewrite fn_lookup_insert_ne by done. intros Hn.
    destruct (Hd n Hn) as (t & -> & Hpr). exists t. split; [done|].
    pose proof (Hprio t TASK_READY) as Hq. simpl in Hq |- *. by rewrite Hq.
  - intros n. simpl. rewrite fn_lookup_insert_ne by done. intros Hn.
    destruct (Ht n Hn) as (t & -> & Hst & Hev & Hpr). exists t. split; [done|].
    assert (x <> t).
    { intros ->. apply Hl in Hn. congruence. }
    rewrite fn_lookup_insert_ne by done. rewrite fn_lookup_insert_ne by done. done.
  - intros q Hq. change ZK_PRIORITY_NUM with 32 in *.
    change (priority_active _) with
      (priority_active (set_priority_active p k)).
    rewrite testbit_set_priority_active by done. simpl.
    destruct (decide (q = p)) as [->|Hne].
    + rewrite fn_lookup_insert, bool_decide_true by done. rewrite orb_true_r. done.
    + rewrite fn_lookup_insert_ne by congruence. rewrite bool_decide_false by done.
      rewrite orb_false_r. by apply Hb.
  - split; [split; [reflexivity|split; [|split; [|split]]]|].
    + intros t. simpl. destruct (decide (x = t)) as [->|].
      * rewrite fn_lookup_insert. auto.
      * rewrite fn_lookup_insert_ne by done. auto.
    + intros t. simpl. rewrite fn_lookup_insert_ne by done. intros Hn.
      destruct (decide (x = t)) as [->|]; [|by rewrite fn_lookup_insert_ne].
      apply Hl in Hn. congruence.
    + simpl. by rewrite fn_lookup_insert_ne.
    + intros q n Hn. simpl. destruct (decide (ready_list p = ready_list q)) as [Heq|Hne].
      * rewrite Heq, fn_lookup_insert. injection Heq as <-. apply elem_of_cons. by right.
      * by rewrite fn_lookup_insert_ne.
    + simpl. rewrite !fn_lookup_insert_ne by done. rewrite fn_lookup_insert.
      split; [done|]. split; [done|]. split; [|apply elem_of_cons; by left].
      intros t. destruct (decide (x = t)) as [->|].
      * by rewrite fn_lookup_insert.
      * by rewrite fn_lookup_insert_ne.
Qed.

End wake_up.

Lemma remove_task_from_delay_list_wakes k x :
  scheduler_wf k -> state_node x ∈ members (lists k) delay_list ->
  exists k', remove_task_from_delay_list x k = Ok k'
    /\ scheduler_wf k' /\ wakes k k'
    /\ link (lists k') (state_node x) = None
    /\ members (lists k') delay_list = remove_node (state_node x) (members (lists k) delay_list)
    /\ members (lists k') block_timeout_list = members (lists k) block_timeout_list
    /\ (forall t, event_timeout_wakeup (tcbs k' t) = event_timeout_wakeup (tcbs k t)).
Proof.
  intros (Hl & Hr & Hd & Ht & Hb) Hx.
  assert (Hlink : link (lists k) (state_node x) = Some delay_list) by (by apply Hl).
  unfold remove_task_from_delay_list, zk_list_delete. rewrite Hlink. simpl.
  eexists. split; [reflexivity|].
  assert (Hother : forall t, state_node t ∈ members (lists k) block_timeout_list -> x <> t).
  { intros t Hn ->. apply Hl in Hn. congruence. }
  split; [split; [|split; [|split; [|split]]]|].
  - simpl. by apply lists_wf_delete.
  - intros q n. simpl. rewrite fn_lookup_insert_ne by done. intros Hn.
    destruct (Hr q n Hn) as (Hq & t & -> & Hpr). split; [done|]. exists t.
    split; [done|]. destruct (decide (x = t)) as [->|].
    + by rewrite fn_lookup_insert.
    + by rewrite fn_lookup_insert_ne.
  - intros n. simpl. rewrite fn_lookup_insert. intros Hn%remove_node_elem.
    destruct (Hd n Hn) as (t & -> & Hpr). exists t. split; [done|].
    destruct (decide (x = t)) as [->|].
    + by rewrite fn_lookup_insert.
    + by rewrite fn_lookup_insert_ne.
  - intros n. simpl. rewrite fn_lookup_insert_ne by done. intros Hn.
    destruct (Ht n Hn) as (t & -> & Hst & Hev & Hpr). exists t. split; [done|].
    rewrite !fn_lookup_insert_ne by (try done; by apply Hother). done.
  - intros q Hq. simpl. rewrite fn_lookup_insert_ne by done. by apply Hb.
  - split; [split; [reflexivity|split; [|split; [|split]]]|].
    + intros t. simpl. destruct (decide (x = t)) as [->|].
      * rewrite fn_lookup_insert. auto.
      * rewrite fn_lookup_insert_ne by done. auto.
    + intros t. simpl. rewrite fn_lookup_insert_ne by done. intros Hn.
      rewrite fn_lookup_insert_ne by (by apply Hother). done.
    + simpl. by rewrite fn_lookup_insert_ne.
    + intros q n Hn. simpl. by rewrite fn_lookup_insert_ne.
    + simpl. rewrite !fn_lookup_insert. rewrite fn_lookup_insert_ne by done.
      split; [done|]. split; [done|]. split; [done|].
      intros t. destruct (decide (x = t)) as [->|].
      * by rewrite fn_lookup_insert.
      * by rewrite fn_lookup_insert_ne.
Qed.

Lemma task_delay_to_ready_wakes k x :
  scheduler_wf k -> state_node x ∈ members (lists k) delay_list ->
  exists k', task_delay_to_ready x k = Ok k'
    /\ scheduler_wf k' /\ wakes k k'
    /\ members (lists k') delay_list = remove_node (state_node x) (members (lists k) delay_list)
    /\ members (lists k') block_timeout_list = members (lists k) block_timeout_list
    /\ (forall t, event_timeout_wakeup (tcbs k' t) = event_timeout_wakeup (tcbs k t)).
Proof.
  intros Hwf Hx.
  assert (Hp : 0 <= priority (tcbs k x) < ZK_PRIORITY_NUM).
  { destruct Hwf as (_ & _ & Hd & _). destruct (Hd _ Hx) as (t & [= <-] & Hp). done. }
  destruct (remove_task_from_delay_list_wakes k x Hwf Hx)
    as (k1 & Hrem & Hwf1 & Hw1 & Hlk & Hd1 & Ht1 & Hf1).
  assert (Hp1 : 0 <= priority (tcbs k1 x) < ZK_PRIORITY_NUM).
  { destruct Hw1 as (_ & Hf & _). destruct (Hf x) as (-> & _). done. }
  destruct (add_task_to_ready_list_wakes k1 Hwf1 x Hlk Hp1)
    as (k2 & Hadd & Hwf2 & Hw2 & Hd2 & Ht2 & Hf2 & _).
  exists k2. unfold task_delay_to_ready. rewrite Hrem. simpl. split; [done|].
  split; [done|]. split; [by eapply wakes_trans|]. split; [congruence|].
  split; [congruence|]. intros t. by rewrite Hf2.
Qed.

Ltac lookups :=
  repeat first [rewrite fn_lookup_insert | rewrite fn_lookup_insert_ne by congruence].

Lemma event_list_of_timeout_blocked k x he :
  scheduler_wf k -> link (lists k) (event_sleep_list x) = Some he ->
  he <> block_timeout_list /\ he <> delay_list /\ forall q, he <> ready_list q.
Proof.
  intros (Hl & Hr & Hd & Ht & Hb) Hlink. apply Hl in Hlink.
  split; [|split].
  - intros ->. destruct (Ht _ Hlink) as (t & [=] & _).
  - intros ->. destruct (Hd _ Hlink) as (t & [=] & _).
  - intros q ->. destruct (Hr _ _ Hlink) as (_ & t & [=] & _).
Qed.

Lemma remove_task_from_blocked_list_wakes k x r :
  scheduler_wf k -> members (lists k) block_timeout_list = state_node x :: r ->
  exists k', remove_task_from_blocked_list x k = Ok k'
    /\ scheduler_wf k' /\ wakes k k'
    /\ link (lists k') (state_node x) = None
    /\ members (lists k') block_timeout_list = r
    /\ members (lists k') delay_list = members (lists k) delay_list
    /\ (forall t, event_timeout_wakeup (tcbs k' t) = event_timeout_wakeup (tcbs k t)).
Proof.
  intros Hwf Hmem. pose proof Hwf as (Hl & Hr & Hd & Ht & Hb).
  assert (Hx : state_node x ∈ members (lists k) block_timeout_list)
    by (rewrite Hmem; apply elem_of_cons; by left).
  destruct (Ht _ Hx) as (t & [= <-] & Hst & Hev & Hpr).
  assert (Hlink : link (lists k) (state_node x) = Some block_timeout_list) by (by apply Hl).
  destruct (link (lists k) (event_sleep_list x)) as [he|] eqn:Hhe; [|done].
  destruct (event_list_of_timeout_blocked k x he Hwf Hhe) as (Hne1 & Hne2 & Hne3).
  assert (Hnd : NoDup (state_node x :: r)) by (rewrite <- Hmem; apply Hl).
  apply NoDup_cons_1_1 in Hnd. rename Hnd into Hxr.
  unfold remove_task_from_blocked_list, zk_list_delete.
  destruct (decide (state (tcbs k x) = TASK_TIMEOUT_BLOCKED)); [|done].
  rewrite Hlink. simpl. rewrite fn_lookup_insert_ne by done. rewrite Hhe. simpl.
  rewrite Hmem. simpl. destruct (decide (state_node x = state_node x)); [|done].
  eexists. split; [reflexivity|].
  assert (Hother : forall t, state_node t ∈ r -> x <> t) by (intros t Hin ->; done).
  assert (Hlists : lists_wf
    (mk_lists
       (<[he := remove_node (event_sleep_list x)
                  (<[block_timeout_list := r]> (members (lists k)) he)]>
          (<[block_timeout_list := r]> (members (lists k))))
       (<[event_sleep_list x := None]> (<[state_node x := None]> (link (lists k)))))).
  { pose proof (lists_wf_delete _ _ _ Hl Hlink) as Hl1. rewrite Hmem in Hl1. simpl in Hl1.
    destruct (decide (state_node x = state_node x)); [|done].
    apply (lists_wf_delete _ (event_sleep_list x) he Hl1). simpl. by lookups. }
  split; [split; [|split; [|split; [|split]]]|].
  - exact Hlists.
  - intros q n. simpl. rewrite !fn_lookup_insert_ne by (try done; apply Hne3).
    intros Hn. destruct (Hr q n Hn) as (Hq & t & -> & Hp). split; [done|]. exists t.
    split; [done|]. destruct (decide (x = t)) as [->|]; by lookups.
  - intros n. simpl. rewrite !fn_lookup_insert_ne by done. intros Hn.
    destruct (Hd n Hn) as (t & -> & Hp). exists t. split; [done|].
    destruct (decide (x = t)) as [->|]; by lookups.
  - intros n. simpl. rewrite fn_lookup_insert_ne by done. rewrite fn_lookup_insert.
    intros Hn. assert (Hn' : n ∈ members (lists k) block_timeout_list)
      by (rewrite Hmem; apply elem_of_cons; by right).
    destruct (Ht n Hn') as (t & -> & Hst' & Hev' & Hp). exists t. split; [done|].
    assert (x <> t) by (by apply Hother). by lookups.
  - intros q Hq. simpl. rewrite !fn_lookup_insert_ne by (try done; apply Hne3).
    by apply Hb.
  - split; [split; [reflexivity|split; [|split; [|split]]]|].
    + intros t. simpl. destruct (decide (x = t)) as [->|]; lookups; auto.
    + intros t. simpl. rewrite fn_lookup_insert_ne by done. rewrite fn_lookup_insert.
      intros Hn. assert (x <> t) by (by apply Hother). by lookups.
    + simpl. rewrite fn_lookup_insert_ne by done. rewrite fn_lookup_insert, Hmem.
      by apply suffix_cons_r.
    + intros q n Hn. simpl. by rewrite !fn_lookup_insert_ne by (try done; apply Hne3).
    + simpl. split; [by lookups|]. split; [by lookups|]. split; [by lookups|].
      intros t. destruct (decide (x = t)) as [->|]; by lookups.
Qed.

Lemma task_block_to_ready_wakes k x r :
  scheduler_wf k -> members (lists k) block_timeout_list = state_node x :: r ->
  exists k', task_block_to_ready x k = Ok k'
    /\ scheduler_wf k' /\ wakes k k'
    /\ members (lists k') block_timeout_list = r
    /\ members (lists k') delay_list = members (lists k) delay_list
    /\ (forall t, event_timeout_wakeup (tcbs k' t) = event_timeout_wakeup (tcbs k t)).
Proof.
  intros Hwf Hmem.
  assert (Hp : 0 <= priority (tcbs k x) < ZK_PRIORITY_NUM).
  { destruct Hwf as (_ & _ & _ & Ht & _).
    destruct (Ht (state_node x)) as (t & [= <-] & _ & _ & Hp); [|done].
    rewrite Hmem. apply elem_of_cons. by left. }
  destruct (remove_task_from_blocked_list_wakes k x r Hwf Hmem)
    as (k1 & Hrem & Hwf1 & Hw1 & Hlk & Ht1 & Hd1 & Hf1).
  assert (Hp1 : 0 <= priority (tcbs k1 x) < ZK_PRIORITY_NUM).
  { destruct Hw1 as (_ & Hf & _). destruct (Hf x) as (-> & _). done. }
  destruct (add_task_to_ready_list_wakes k1 Hwf1 x Hlk Hp1)
    as (k2 & Hadd & Hwf2 & Hw2 & Hd2 & Ht2 & Hf2 & _).
  exists k2. unfold task_block_to_ready. rewrite Hrem. simpl. split; [done|].
  split; [done|]. split; [by eapply wakes_trans|]. split; [congruence|].
  split; [congruence|]. intros t. by rewrite Hf2.
Qed.

Lemma wakes_after_flag k x k1 :
  wakes (update_tcb x (with_event_timeout_wakeup EVENT_WAIT_TIMEOUT) k) k1 ->
  state_node x ∉ members (lists k1) block_timeout_list ->
  wakes k k1.
Proof.
  intros (He & Hf & Hb & Hs & Hr) Hx. split; [|split; [|split; [|split]]].
  - rewrite He at 1. reflexivity.
  - intros t. destruct (Hf t) as (Hp & Hw & Hfl). rewrite tcbs_update_tcb in Hp, Hw, Hfl.
    destruct (decide (x = t)) as [->|]; simpl in *; [|done].
    split; [done|]. split; [done|]. destruct Hfl; auto.
  - intros t Ht. rewrite Hb by done. rewrite tcbs_update_tcb.
    destruct (decide (x = t)) as [->|]; done.
  - done.
  - done.
Qed.

Lemma delay_wakeup_scan_wakes time l : forall k,
  scheduler_wf k -> members (lists k) delay_list = l ->
  exists k', delay_wakeup_scan time l k = Ok k'
    /\ scheduler_wf k' /\ wakes k k'
    /\ members (lists k') block_timeout_list = members (lists k) block_timeout_list
    /\ (forall t, event_timeout_wakeup (tcbs k' t) = event_timeout_wakeup (tcbs k t)).
Proof.
  induction l as [|e r IH]; intros k Hwf Hmem; simpl.
  - exists k. split; [done|]. split; [done|]. split; [apply wakes_refl|]. done.
  - assert (He : e ∈ members (lists k) delay_list)
      by (rewrite Hmem; apply elem_of_cons; by left).
    pose proof Hwf as (Hl & _ & Hd & _). destruct (Hd e He) as (x & -> & _). simpl.
    destruct (zk_time_is_reached time (wake_up_time (tcbs k x))).
    + destruct (task_delay_to_ready_wakes k x Hwf He) as (k1 & Hrun & Hwf1 & Hw1 & Hd1 & Ht1 & Hf1).
      rewrite Hrun. simpl.
      destruct (IH k1 Hwf1) as (k2 & Hrun2 & Hwf2 & Hw2 & Ht2 & Hf2).
      { rewrite Hd1, Hmem. simpl. by destruct (decide (state_node x = state_node x)). }
      exists k2. split; [done|]. split; [done|]. split; [by eapply wakes_trans|].
      split; [congruence|]. intros t. by rewrite Hf2.
    + exists k. split; [done|]. split; [done|]. split; [apply wakes_refl|]. done.
Qed.

Lemma block_wakeup_scan_wakes time l : forall k,
  scheduler_wf k -> members (lists k) block_timeout_list = l ->
  exists k' woken, block_wakeup_scan time l k = Ok k'
    /\ scheduler_wf k' /\ wakes k k'
    /\ l = woken ++ members (lists k') block_timeout_list
    /\ (forall n, n ∈ woken ->
          zk_time_is_reached time (wake_up_time (tcbs k (ZK_LIST_GET_OWNER n))) = true
          /\ event_timeout_wakeup (tcbs k' (ZK_LIST_GET_OWNER n)) = EVENT_WAIT_TIMEOUT)
    /\ (forall n, head (members (lists k') block_timeout_list) = Some n ->
          zk_time_is_reached time (wake_up_time (tcbs k (ZK_LIST_GET_OWNER n))) = false).
Proof.
  induction l as [|e r IH]; intros k Hwf Hmem; simpl.
  - exists k, []. split; [done|]. split; [done|]. split; [apply wakes_refl|].
    rewrite Hmem. split; [done|]. split; [by intros n ?%elem_of_nil|done].
  - assert (He : e ∈ members (lists k) block_timeout_list)
      by (rewrite Hmem; apply elem_of_cons; by left).
    pose proof Hwf as (Hl & _ & _ & Ht & _). destruct (Ht e He) as (x & -> & _). simpl.
    destruct (zk_time_is_reached time (wake_up_time (tcbs k x))) eqn:Hreached.
    + set (k0 := update_tcb x (with_event_timeout_wakeup EVENT_WAIT_TIMEOUT) k).
      assert (Hwf0 : scheduler_wf k0) by (by apply scheduler_wf_update_flag).
      destruct (task_block_to_ready_wakes k0 x r Hwf0 Hmem)
        as (k1 & Hrun & Hwf1 & Hw1 & Ht1 & Hd1 & Hf1).
      rewrite Hrun. simpl.
      destruct (IH k1 Hwf1 Ht1) as (k2 & woken & Hrun2 & Hwf2 & Hw2 & Hsplit & Hwoken & Hhead).
      assert (Hxr : state_node x ∉ r).
      { apply NoDup_cons_1_1. rewrite <- Hmem. apply Hl. }
      assert (Hw01 : wakes k k1).
      { apply (wakes_after_flag k x); [done|]. by rewrite Ht1. }
      assert (Hwake : forall t, wake_up_time (tcbs k1 t) = wake_up_time (tcbs k t)).
      { intros t. destruct Hw01 as (_ & Hf & _). by destruct (Hf t) as (_ & -> & _). }
      exists k2, (state_node x :: woken). split; [done|]. split; [done|].
      split; [by eapply wakes_trans|]. split; [by rewrite Hsplit at 1|]. split.
      * intros n [->|Hn]%elem_of_cons.
        -- split; [done|]. simpl. destruct Hw2 as (_ & Hf & _).
           destruct (Hf x) as (_ & _ & [Hfl|Hfl]); [|done]. rewrite Hfl, Hf1.
           unfold k0. rewrite tcbs_update_tcb. by destruct (decide (x = x)).
        -- destruct (Hwoken n Hn) as [Hre Hfl]. by rewrite Hwake in Hre.
      * intros n Hn. rewrite <- Hwake. by apply Hhead.
    + exists k, []. split; [done|]. split; [done|]. split; [apply wakes_refl|].
      rewrite Hmem. split; [done|]. split; [by intros n ?%elem_of_nil|].
      simpl. intros n [= <-]. done.
Qed.

Lemma check_task_wakeup_wakes time k :
  scheduler_wf k ->
  exists k' woken, check_task_wakeup time k = Ok k'
    /\ scheduler_wf k' /\ wakes k k'
    /\ members (lists k) block_timeout_list = woken ++ members (lists k') block_timeout_list
    /\ (forall n, n ∈ woken ->
          zk_time_is_reached time (wake_up_time (tcbs k (ZK_LIST_GET_OWNER n))) = true
          /\ event_timeout_wakeup (tcbs k' (ZK_LIST_GET_OWNER n)) = EVENT_WAIT_TIMEOUT)
    /\ (forall n, head (members (lists k') block_timeout_list) = Some n ->
          zk_time_is_reached time (wake_up_time (tcbs k (ZK_LIST_GET_OWNER n))) = false).
Proof.
  intros Hwf.
  destruct (delay_wakeup_scan_wakes time _ k Hwf eq_refl) as (k1 & Hrun1 & Hwf1 & Hw1 & Ht1 & Hf1).
  destruct (block_wakeup_scan_wakes time _ k1 Hwf1 eq_refl)
    as (k2 & woken & Hrun2 & Hwf2 & Hw2 & Hsplit & Hwoken & Hhead).
  assert (Hwake : forall t, wake_up_time (tcbs k1 t) = wake_up_time (tcbs k t)).
  { intros t. destruct Hw1 as (_ & Hf & _). by destruct (Hf t) as (_ & -> & _). }
  exists k2, woken.
  split.
  { unfold check_task_wakeup, check_delay_task_wakeup, check_task_block_wakeup.
    rewrite zk_list_is_empty_spec. case_bool_decide as Hd.
    - rewrite Hd in Hrun1. simpl in Hrun1. injection Hrun1 as <-. simpl.
      rewrite zk_list_is_empty_spec. case_bool_decide as Hb; [|done].
      rewrite Hb in Hrun2. done.
    - rewrite Hrun1. simpl.
      rewrite zk_list_is_empty_spec. case_bool_decide as Hb; [|done].
      rewrite Hb in Hrun2. done. }
  split; [done|]. split; [by eapply wakes_trans|]. split; [by rewrite <- Ht1|].
  split.
  - intros n Hn. destruct (Hwoken n Hn) as [Hre Hfl]. by rewrite Hwake in Hre.
  - intros n Hn. rewrite <- Hwake. by apply Hhead.
Qed.

(** ** The scheduling decision *)

Lemma rotates_refl k : rotates k k.
Proof. split; [by destruct k|]. done. Qed.

Lemma rotates_trans k1 k2 k3 : rotates k1 k2 -> rotates k2 k3 -> rotates k1 k3.
Proof.
  intros (He1 & Hp1 & Hl1 & Ht1) (He2 & Hp2 & Hl2 & Ht2). split; [|split; [|split]].
  - rewrite He2 at 1. rewrite He1 at 1. reflexivity.
  - intros h. by rewrite Hp2.
  - intros n. by rewrite Hl2.
  - congruence.
Qed.

Lemma rotates_fields k k' :
  rotates k k' ->
  tcbs k' = tcbs k /\ priority_active k' = priority_active k
  /\ g_current_tcb k' = g_current_tcb k /\ g_current_time k' = g_current_time k
  /\ zk_critical_nesting k' = zk_critical_nesting k
  /\ scheduler_suspend_nesting k' = scheduler_suspend_nesting k.
Proof. intros (-> & _). done. Qed.

Lemma scheduler_wf_rotates k k' : scheduler_wf k -> rotates k k' -> scheduler_wf k'.
Proof.
  intros (Hl & Hr & Hd & Ht & Hb) Hrot.
  destruct (rotates_fields _ _ Hrot) as (Htc & Hpa & _).
  destruct Hrot as (_ & Hp & Hlk & _).
  split; [|split; [|split; [|split]]].
  - split.
    + intros h. rewrite Hp. apply Hl.
    + intros n h. rewrite Hp, Hlk. apply Hl.
  - intros p n. rewrite Hp, Htc. apply Hr.
  - intros n. rewrite Hp, Htc. apply Hd.
  - intros n. rewrite Hp, Htc. intros Hn.
    destruct (Ht n Hn) as (t & -> & ? & ? & ?). exists t. by rewrite Hlk.
  - intros p Hp'. rewrite Hpa. etrans; [by apply Hb|].
    split; intros Hne Hnil.
    + apply Hne. apply Permutation_nil_r. rewrite <- Hnil. symmetry. apply Hp.
    + apply Hne. apply Permutation_nil_r. rewrite <- Hnil. apply Hp.
Qed.

Lemma on_its_ready_list_rotates k k' t :
  on_its_ready_list k t -> rotates k k' -> on_its_ready_list k' t.
Proof.
  intros (Hp & Hlk & Hin) Hrot.
  destruct (rotates_fields _ _ Hrot) as (Htc & _).
  destruct Hrot as (_ & Hperm & Hlink & _).
  unfold on_its_ready_list. rewrite Htc, Hlink, Hperm. done.
Qed.

Lemma highest_ready_on_its_list k next :
  scheduler_wf k -> highest_priority_ready k next -> on_its_ready_list k next.
Proof.
  intros (Hl & Hr & _) (p & n & Hp & Hhead & Hown & _).
  assert (Hn : n ∈ members (lists k) (ready_list p)).
  { destruct (members (lists k) (ready_list p)); [done|].
    injection Hhead as ->. apply elem_of_cons. by left. }
  destruct (Hr p n Hn) as (_ & t & -> & Hpr). simpl in Hown. subst t.
  unfold on_its_ready_list. rewrite Hpr. split; [done|]. split; [by apply Hl|done].
Qed.

Lemma remove_node_move n l : n ∈ l -> remove_node n l ++ [n] ≡ₚ l.
Proof.
  induction l as [|y r IH]; simpl; [by intros ?%elem_of_nil|].
  destruct (decide (y = n)) as [->|Hne].
  - intros _. symmetry. apply Permutation_cons_append.
  - intros [?|Hin]%elem_of_cons; [congruence|]. simpl. by rewrite IH.
Qed.

Lemma zk_list_move_to_tail_rotates ls n h :
  lists_wf ls -> link ls n = Some h ->
  exists ls', zk_list_move_to_tail n h ls = Ok ls'
    /\ (forall h', members ls' h' ≡ₚ members ls h')
    /\ (forall x, link ls' x = link ls x)
    /\ (forall h', h' <> h -> members ls' h' = members ls h')
    /\ members ls' h <> [].
Proof.
  intros Hl Hn. unfold zk_list_move_to_tail, zk_list_delete, zk_list_add_before.
  rewrite Hn. simpl. rewrite fn_lookup_insert. eexists. split; [reflexivity|]. simpl.
  split; [|split; [|split]].
  - intros h'. destruct (decide (h = h')) as [<-|Hne]; lookups; [|done].
    apply remove_node_move. by apply Hl.
  - intros x. destruct (decide (n = x)) as [<-|Hne]; by lookups.
  - intros h' Hne. by lookups.
  - lookups. intros Hnil. by apply app_nil in Hnil as [_ [=]].
Qed.

Lemma get_highest_priority_task_ready k :
  scheduler_wf k -> on_its_ready_list k (g_current_tcb k) ->
  exists next, get_highest_priority_task k = Ok next /\ on_its_ready_list k next.
Proof.
  intros Hwf (Hp & _ & Hin).
  destruct (get_highest_priority_task_spec k (priority (tcbs k (g_current_tcb k))))
    as (next & Hnext & Hhigh); [apply Hwf|done| |].
  { intros Hnil. rewrite Hnil in Hin. by apply elem_of_nil in Hin. }
  exists next. split; [done|]. by apply highest_ready_on_its_list.
Qed.

Lemma ZK_LIST_GET_FIRST_ENTRY_ready k p :
  scheduler_wf k -> members (lists k) (ready_list p) <> [] ->
  exists first, ZK_LIST_GET_FIRST_ENTRY (ready_list p) (lists k) = Ok first
    /\ on_its_ready_list k first.
Proof.
  intros (Hl & Hr & _) Hne. unfold ZK_LIST_GET_FIRST_ENTRY, head_next.
  destruct (members (lists k) (ready_list p)) as [|n r] eqn:Hm; [done|].
  assert (Hn : n ∈ members (lists k) (ready_list p))
    by (rewrite Hm; apply elem_of_cons; by left).
  destruct (Hr p n Hn) as (Hp & t & -> & Hpr). exists t. split; [done|].
  unfold on_its_ready_list. rewrite Hpr. split; [done|]. split; [by apply Hl|done].
Qed.

Lemma schedule_rotates k :
  scheduler_wf k -> is_scheduler_suspending k = 0 ->
  on_its_ready_list k (g_current_tcb k) ->
  exists k', schedule k = Ok k' /\ rotates k k'
    /\ (pendsv_pending k' = pendsv_pending k
        \/ pendsv_pending k' = true /\ on_its_ready_list k' (g_switch_next_tcb k')).
Proof.
  intros Hwf Hrun Hcur.
  destruct (get_highest_priority_task_ready k Hwf Hcur) as (next & Hnext & Hon).
  unfold schedule. rewrite Hrun. destruct (decide (0 <> 0)); [done|].
  rewrite Hnext. simpl.
  destruct (decide _) as [Hdiff|Hsame].
  { eexists. split; [reflexivity|]. split; [split; [by destruct k|done]|]. right. done. }
  destruct (decide _) as [Halone|Hmore].
  { eexists. split; [reflexivity|]. split; [split; [by destruct k|done]|]. by left. }
  unfold ready_list_at. destruct Hcur as (Hp & Hlk & Hin).
  destruct (decide _) as [_|Hout]; [|done]. simpl.
  destruct (zk_list_move_to_tail_rotates (lists k) (state_node (g_current_tcb k))
              (ready_list (priority (tcbs k (g_current_tcb k)))))
    as (ls' & Hmove & Hperm & Hlink & Hother & Hne); [apply Hwf|done|].
  rewrite Hmove. simpl.
  assert (Hrot : rotates k (with_lists ls' k)).
  { split; [by destruct k|]. split; [done|]. split; [done|]. by apply Hother. }
  assert (Hwf' : scheduler_wf (with_lists ls' k)) by (by eapply scheduler_wf_rotates).
  destruct (ZK_LIST_GET_FIRST_ENTRY_ready (with_lists ls' k) _ Hwf' Hne)
    as (first & Hfirst & Hon').
  simpl in Hfirst. rewrite Hfirst. simpl.
  eexists. split; [reflexivity|]. split.
  - eapply rotates_trans; [exact Hrot|]. split; [reflexivity|done].
  - right. done.
Qed.

Lemma ZK_EXIT_CRITICAL_wf k :
  scheduler_wf k -> on_its_ready_list k (g_current_tcb k) ->
  pendsv_pending k = false
  \/ pendsv_pending k = true /\ on_its_ready_list k (g_switch_next_tcb k) ->
  zk_critical_nesting k = 1 -> is_scheduler_suspending k = 0 ->
  0 <= g_current_time k < 2 ^ 32 ->
  kernel_wf (ZK_EXIT_CRITICAL k)
  /\ tcbs (ZK_EXIT_CRITICAL k) = tcbs k /\ lists (ZK_EXIT_CRITICAL k) = lists k
  /\ g_current_time (ZK_EXIT_CRITICAL k) = g_current_time k.
Proof.
  intros Hwf Hcur Hpend Hnest Hrun Htime. unfold ZK_EXIT_CRITICAL. rewrite Hnest.
  change (uint32 (1 - 1)) with 0. simpl. destruct (decide (0 = 0)); [|done].
  destruct Hpend as [Hp|[Hp Hnext]]; rewrite Hp; simpl; (split; [|done]).
  - split; [done|]. split; [done|]. done.
  - split; [done|]. split; [done|]. done.
Qed.

Lemma on_its_ready_list_wakes k k' t :
  scheduler_wf k' -> wakes k k' -> on_its_ready_list k t -> on_its_ready_list k' t.
Proof.
  intros (Hl & _) (_ & Hf & _ & _ & Hr) (Hp & Hlk & Hin).
  destruct (Hf t) as (Hpr & _). unfold on_its_ready_list. rewrite Hpr.
  split; [done|]. assert (Hin' := Hr _ _ Hin). split; [by apply Hl|done].
Qed.

Lemma scheduler_increment_tick_wf k :
  kernel_wf k ->
  exists k' need_schedule woken,
    scheduler_increment_tick k = Ok (k', need_schedule)
    /\ kernel_wf k'
    /\ g_current_time k' = uint32 (g_current_time k + 1)
    /\ (forall t, priority (tcbs k' t) = priority (tcbs k t)
              /\ wake_up_time (tcbs k' t) = wake_up_time (tcbs k t)
              /\ (event_timeout_wakeup (tcbs k' t) = event_timeout_wakeup (tcbs k t)
                  \/ event_timeout_wakeup (tcbs k' t) = EVENT_WAIT_TIMEOUT))
    /\ (forall t, state_node t ∈ members (lists k') block_timeout_list ->
                  tcbs k' t = tcbs k t)
    /\ members (lists k) block_timeout_list
       = woken ++ members (lists k') block_timeout_list
    /\ (forall n, n ∈ woken ->
          zk_time_is_reached (g_current_time k)
            (wake_up_time (tcbs k (ZK_LIST_GET_OWNER n))) = true
          /\ event_timeout_wakeup (tcbs k' (ZK_LIST_GET_OWNER n)) = EVENT_WAIT_TIMEOUT)
    /\ (forall n, head (members (lists k') block_timeout_list) = Some n ->
          zk_time_is_reached (g_current_time k)
            (wake_up_time (tcbs k (ZK_LIST_GET_OWNER n))) = false).
Proof.
  intros (Hwf & Hcur & Hrun & Hnest & Hpend & Htime).
  set (kt := increment_time (ZK_ENTER_CRITICAL k)).
  assert (Hwft : scheduler_wf kt) by exact Hwf.
  destruct (check_task_wakeup_wakes (g_current_time k) kt Hwft)
    as (k1 & woken & Hscan & Hwf1 & Hw1 & Hsplit & Hwoken & Hhead).
  pose proof Hw1 as (He1 & Hf1 & Hb1 & _ & _).
  assert (Hc1 : g_current_tcb k1 = g_current_tcb k) by (by rewrite He1).
  assert (Hcur1 : on_its_ready_list k1 (g_current_tcb k1)).
  { rewrite Hc1. apply (on_its_ready_list_wakes kt); [done|done|exact Hcur]. }
  assert (Hrun1 : is_scheduler_suspending k1 = 0) by (rewrite He1; exact Hrun).
  assert (Hnest1 : zk_critical_nesting k1 = 1).
  { rewrite He1. simpl. by rewrite Hnest. }
  assert (Hpend1 : pendsv_pending k1 = false) by (rewrite He1; exact Hpend).
  assert (Htime1 : g_current_time k1 = uint32 (g_current_time k + 1)) by (by rewrite He1).
  (* what every branch ends with *)
  assert (Hend : forall kx,
    rotates k1 kx ->
    pendsv_pending kx = false
    \/ pendsv_pending kx = true /\ on_its_ready_list kx (g_switch_next_tcb kx) ->
    kernel_wf (ZK_EXIT_CRITICAL kx)
    /\ g_current_time (ZK_EXIT_CRITICAL kx) = uint32 (g_current_time k + 1)
    /\ tcbs (ZK_EXIT_CRITICAL kx) = tcbs k1
    /\ members (lists (ZK_EXIT_CRITICAL kx)) block_timeout_list
       = members (lists k1) block_timeout_list).
  { intros kx Hrot Hp.
    destruct (rotates_fields _ _ Hrot) as (Htc & Hpa & Hc & Ht & Hn & Hs).
    destruct (ZK_EXIT_CRITICAL_wf kx) as (Hk & Htcx & Hlx & Htx).
    - by eapply scheduler_wf_rotates.
    - rewrite Hc. by eapply on_its_ready_list_rotates.
    - done.
    - congruence.
    - unfold is_scheduler_suspending in *. congruence.
    - rewrite Ht, Htime1. apply uint32_range.
    - split; [done|]. split; [congruence|]. split; [congruence|].
      rewrite Hlx. apply Hrot. }
  cut (exists kx need_schedule,
         scheduler_increment_tick k = Ok (ZK_EXIT_CRITICAL kx, need_schedule)
         /\ rotates k1 kx
         /\ (pendsv_pending kx = false
             \/ pendsv_pending kx = true /\ on_its_ready_list kx (g_switch_next_tcb kx))).
  { intros (kx & need & Heq & Hrot & Hp).
    destruct (Hend kx Hrot Hp) as (Hk & Ht & Htc & Hm).
    exists (ZK_EXIT_CRITICAL kx), need, woken. rewrite Htc, Hm.
    split; [done|]. split; [done|]. split; [done|]. split; [exact Hf1|].
    split; [exact Hb1|]. split; [exact Hsplit|]. split; [exact Hwoken|exact Hhead]. }
  unfold scheduler_increment_tick, get_current_time.
  change (is_scheduler_suspending (ZK_ENTER_CRITICAL k)) with (is_scheduler_suspending k).
  rewrite Hrun. destruct (decide (0 <> 0)); [done|].
  change (increment_time (ZK_ENTER_CRITICAL k)) with kt. rewrite Hscan.
  destruct (get_highest_priority_task_ready k1 Hwf1 Hcur1) as (next & Hnext & Hon).
  cbn [mbind result_bind]. rewrite Hnext. cbn [mbind result_bind].
  set (k2 := with_g_switch_next_tcb next k1).
  assert (Hrot2 : rotates k1 k2) by (split; [by destruct k1|done]).
  assert (Hwf2 : scheduler_wf k2) by exact Hwf1.
  assert (Hcur2 : on_its_ready_list k2 (g_current_tcb k2)) by exact Hcur1.
  assert (Hpend2 : pendsv_pending k2 = false) by exact Hpend1.
  assert (Hrun2 : is_scheduler_suspending k2 = 0) by exact Hrun1.
  assert (Hsched : forall kx, rotates k2 kx -> pendsv_pending kx = false ->
            on_its_ready_list kx (g_current_tcb kx) ->
            exists ky, schedule kx = Ok ky /\ rotates k1 ky
              /\ (pendsv_pending ky = false
                  \/ pendsv_pending ky = true
                     /\ on_its_ready_list ky (g_switch_next_tcb ky))).
  { intros kx Hrotx Hpx Hcx.
    destruct (rotates_fields _ _ Hrotx) as (_ & _ & _ & _ & _ & Hs).
    destruct (schedule_rotates kx) as (ky & Hs' & Hroty & Hpy).
    - by eapply scheduler_wf_rotates.
    - unfold is_scheduler_suspending in *. congruence.
    - done.
    - exists ky. split; [done|]. split.
      { eapply rotates_trans; [exact Hrot2|]. eapply rotates_trans; [exact Hrotx|exact Hroty]. }
      destruct Hpy as [Heq|Hr]; [left; congruence|by right]. }
  destruct (decide _) as [Hlt|Hge].
  { destruct (Hsched k2 (rotates_refl _) Hpend2 Hcur2) as (ky & Hs & Hroty & Hpy).
    rewrite Hs. cbn [mbind result_bind]. by exists ky, true. }
  destruct (decide _) as [Heq|Hne].
  2:{ exists k2, false. split; [done|]. split; [done|]. left. exact Hpend2. }
  pose proof Hcur2 as (Hp2 & Hlk2 & Hin2).
  unfold ready_list_at.
  destruct (decide (0 <= _ < ZK_PRIORITY_NUM)) as [_|Hout]; [|exfalso; apply Hout; exact Hp2].
  cbn [mbind result_bind].
  destruct (_ && _).
  - destruct (decide _) as [Hslice|Hslice].
    + set (k3 := with_g_schedule_time_slice SCHEDULE_TIME_SLICE_INIT_VALUE
                   (with_g_schedule_time_slice (uint32 (g_schedule_time_slice k2 - 1)) k2)).
      assert (Hrot3 : rotates k2 k3) by (split; [reflexivity|done]).
      destruct (zk_list_move_to_tail_rotates (lists k3) (state_node (g_current_tcb k2))
                  (ready_list (priority (tcbs k2 (g_current_tcb k2)))))
        as (ls & Hmove & Hperm & Hlink & Hother & Hnonempty); [apply Hwf2|exact Hlk2|].
      rewrite Hmove. cbn [mbind result_bind].
      set (k4 := with_lists ls k3).
      assert (Hrot4 : rotates k3 k4).
      { split; [reflexivity|]. split; [exact Hperm|]. split; [exact Hlink|].
        by apply Hother. }
      assert (Hrot24 : rotates k2 k4) by (by eapply rotates_trans).
      assert (Hwf4 : scheduler_wf k4) by (by eapply scheduler_wf_rotates).
      destruct (ZK_LIST_GET_FIRST_ENTRY_ready k4 _ Hwf4 Hnonempty) as (first & Hfirst & Hon4).
      rewrite Hfirst. cbn [mbind result_bind].
      set (k5 := with_g_switch_next_tcb first k4).
      assert (Hrot5 : rotates k2 k5).
      { eapply rotates_trans; [exact Hrot24|]. split; [reflexivity|done]. }
      destruct (Hsched k5 Hrot5) as (ky & Hs & Hroty & Hpy); [exact Hpend2| |].
      { by apply (on_its_ready_list_rotates k2). }
      rewrite Hs. cbn [mbind result_bind]. by exists ky, true.
    + eexists _, false. split; [reflexivity|]. split.
      * eapply rotates_trans; [exact Hrot2|]. split; [reflexivity|done].
      * left. exact Hpend2.
  - eexists _, false. split; [reflexivity|]. split.
    + eapply rotates_trans; [exact Hrot2|]. split; [reflexivity|done].
    + left. exact Hpend2.
Qed.

Lemma zk_asm_systick_handler_wf k :
  kernel_wf k ->
  exists k' woken,
    zk_asm_systick_handler k = Ok k'
    /\ kernel_wf k'
    /\ g_current_time k' = uint32 (g_current_time k + 1)
    /\ (forall t, priority (tcbs k' t) = priority (tcbs k t)
              /\ wake_up_time (tcbs k' t) = wake_up_time (tcbs k t)
              /\ (event_timeout_wakeup (tcbs k' t) = event_timeout_wakeup (tcbs k t)
                  \/ event_timeout_wakeup (tcbs k' t) = EVENT_WAIT_TIMEOUT))
    /\ (forall t, state_node t ∈ members (lists k') block_timeout_list ->
                  tcbs k' t = tcbs k t)
    /\ members (lists k) block_timeout_list
       = woken ++ members (lists k') block_timeout_list
    /\ (forall n, n ∈ woken ->
          zk_time_is_reached (g_current_time k)
            (wake_up_time (tcbs k (ZK_LIST_GET_OWNER n))) = true
          /\ event_timeout_wakeup (tcbs k' (ZK_LIST_GET_OWNER n)) = EVENT_WAIT_TIMEOUT)
    /\ (forall n, head (members (lists k') block_timeout_list) = Some n ->
          zk_time_is_reached (g_current_time k)
            (wake_up_time (tcbs k (ZK_LIST_GET_OWNER n))) = false).
Proof.
  intros Hwf. destruct (scheduler_increment_tick_wf k Hwf) as (k' & need & woken & Hrun & H).
  exists k', woken. unfold zk_asm_systick_handler. rewrite Hrun. done.
Qed.

(** ** Blocking with a timeout *)

Lemma scheduler_wf_update_tcb k x f :
  (forall t, priority (f t) = priority t /\ state (f t) = state t) ->
  scheduler_wf k -> scheduler_wf (update_tcb x f k).
Proof.
  intros Hf (Hl & Hr & Hd & Ht & Hb).
  split; [done|]. split; [|split; [|split; [|done]]].
  - intros p n Hn. destruct (Hr p n Hn) as (Hp & t & -> & Hpr).
    split; [done|]. exists t. split; [done|]. rewrite tcbs_update_tcb.
    destruct (decide (x = t)) as [->|]; [|done]. by destruct (Hf (tcbs k t)) as [-> _].
  - intros n Hn. destruct (Hd n Hn) as (t & -> & Hpr). exists t. split; [done|].
    rewrite tcbs_update_tcb. destruct (decide (x = t)) as [->|]; [|done].
    by destruct (Hf (tcbs k t)) as [-> _].
  - intros n Hn. destruct (Ht n Hn) as (t & -> & Hst & Hev & Hpr). exists t.
    rewrite tcbs_update_tcb. destruct (decide (x = t)) as [->|]; [|done].
    destruct (Hf (tcbs k t)) as [-> ->]. done.
Qed.

Lemma remove_task_from_ready_list_wf k x :
  scheduler_wf k -> on_its_ready_list k x ->
  exists k', remove_task_from_ready_list x k = Ok k'
    /\ scheduler_wf k'
    /\ k' = with_tcbs (tcbs k') (with_lists (lists k')
              (with_priority_active (priority_active k') k))
    /\ tcbs k' = <[x := with_state TASK_UNKNOWN (tcbs k x)]> (tcbs k)
    /\ members (lists k')
       = <[ready_list (priority (tcbs k x))
             := remove_node (state_node x)
                  (members (lists k) (ready_list (priority (tcbs k x))))]>
           (members (lists k))
    /\ link (lists k') = <[state_node x := None]> (link (lists k)).
Proof.
  intros (Hl & Hr & Hd & Ht & Hb) (Hp & Hlk & Hin).
  set (p := priority (tcbs k x)) in *.
  unfold remove_task_from_ready_list, zk_list_delete. rewrite Hlk. cbn [mbind result_bind].
  unfold ready_list_at. cbn [tcbs with_lists]. fold p.
  destruct (decide (0 <= p < ZK_PRIORITY_NUM)); [|done]. cbn [mbind result_bind].
  rewrite zk_list_is_empty_spec. cbn [lists with_lists members]. rewrite fn_lookup_insert.
  assert (Hother : forall t n, n ∈ members (lists k) delay_list
                            \/ n ∈ members (lists k) block_timeout_list ->
                            n = state_node t -> x <> t).
  { intros t n [Hn|Hn] -> ->; apply Hl in Hn; congruence. }
  assert (Hprio : forall t, priority (<[x := with_state TASK_UNKNOWN (tcbs k x)]> (tcbs k) t)
                       = priority (tcbs k t)).
  { intros t. destruct (decide (x = t)) as [->|]; by lookups. }
  assert (Hwf' : forall pa,
    (forall q, 0 <= q < ZK_PRIORITY_NUM ->
       Z.testbit pa q = true <->
       (<[ready_list p := remove_node (state_node x) (members (lists k) (ready_list p))]>
          (members (lists k))) (ready_list q) <> []) ->
    scheduler_wf
      (update_tcb x (with_state TASK_UNKNOWN)
         (with_priority_active pa
            (with_lists
               (mk_lists
                  (<[ready_list p := remove_node (state_node x)
                                       (members (lists k) (ready_list p))]>
                     (members (lists k)))
                  (<[state_node x := None]> (link (lists k)))) k)))).
  { intros pa Hpa. split; [|split; [|split; [|split]]].
    - by apply lists_wf_delete.
    - intros q n. cbn. destruct (decide (ready_list p = ready_list q)) as [Heq|Hne].
      + rewrite Heq, fn_lookup_insert. injection Heq as <-. intros Hn%remove_node_elem.
        destruct (Hr p n Hn) as (_ & t & -> & Hpr). split; [done|]. exists t.
        split; [done|]. by rewrite Hprio.
      + rewrite fn_lookup_insert_ne by done. intros Hn.
        destruct (Hr q n Hn) as (Hq & t & -> & Hpr). split; [done|]. exists t.
        split; [done|]. by rewrite Hprio.
    - intros n. cbn. rewrite fn_lookup_insert_ne by done. intros Hn.
      destruct (Hd n Hn) as (t & -> & Hpr). exists t. split; [done|]. by rewrite Hprio.
    - intros n. cbn. rewrite fn_lookup_insert_ne by done. intros Hn.
      destruct (Ht n Hn) as (t & -> & Hst & Hev & Hpr). exists t. split; [done|].
      assert (x <> t) by (eapply Hother; [by right|done]). by lookups.
    - exact Hpa. }
  case_bool_decide as Hempty.
  - eexists. split; [reflexivity|]. split; [|done].
    apply Hwf'. intros q Hq. change ZK_PRIORITY_NUM with 32 in *.
    change (Z.land _ _) with (priority_active (clear_priority_active p k)).
    rewrite testbit_clear_priority_active by done.
    destruct (decide (q = p)) as [->|Hne].
    + rewrite fn_lookup_insert, bool_decide_true, andb_false_r by done. by rewrite Hempty.
    + rewrite fn_lookup_insert_ne by congruence. rewrite bool_decide_false, andb_true_r by done.
      by apply Hb.
  - eexists. split; [reflexivity|]. split; [|done].
    change (update_tcb x (with_state TASK_UNKNOWN) ?k0)
      with (update_tcb x (with_state TASK_UNKNOWN) (with_priority_active (priority_active k) k0)).
    apply Hwf'. intros q Hq. destruct (decide (q = p)) as [->|Hne].
    + rewrite fn_lookup_insert. split; [done|]. intros _. apply Hb; [done|].
      intros Hnil. rewrite Hnil in Hin. by apply elem_of_nil in Hin.
    + rewrite fn_lookup_insert_ne by congruence. by apply Hb.
Qed.

Lemma endless_block_scan_last k tcb sleep_head (L : list list_member) l : forall acc,
  (forall t, acc = Some t -> event_sleep_list t ∈ L) ->
  (forall n, n ∈ l -> n ∈ L /\ exists t, n = event_sleep_list t) ->
  acc <> None \/ l <> [] ->
  exists it, snd (endless_block_scan k tcb sleep_head acc l) = Some it
             /\ event_sleep_list it ∈ L.
Proof.
  induction l as [|n r IH]; intros acc Hacc Hl Hne; simpl.
  - destruct acc as [t|]; [|by destruct Hne]. exists t. auto.
  - destruct (Hl n) as (HnL & t & ->); [apply elem_of_cons; by left|]. simpl.
    destruct (decide _).
    + exists t. done.
    + apply IH.
      * by intros t' [= <-].
      * intros n' Hn'. apply Hl. apply elem_of_cons. by right.
      * by left.
Qed.

Lemma add_task_to_endless_block_list_wf k x wait :
  scheduler_wf k ->
  link (lists k) (event_sleep_list x) = None ->
  link (lists k) (state_node x) = None ->
  (forall n, n ∈ members (lists k) wait -> exists t, n = event_sleep_list t) ->
  (forall q, wait <> ready_list q) -> wait <> delay_list -> wait <> block_timeout_list ->
  exists k' l, add_task_to_endless_block_list x wait BLOCK_SORT_PRIO k = Ok k'
    /\ scheduler_wf k'
    /\ k' = with_tcbs (tcbs k') (with_lists (lists k') k)
    /\ tcbs k' = <[x := with_state TASK_ENDLESS_BLOCKED (tcbs k x)]> (tcbs k)
    /\ members (lists k') = <[wait := l]> (members (lists k))
    /\ link (lists k') = <[event_sleep_list x := Some wait]> (link (lists k)).
Proof.
  intros Hwf Hev Hst Hwait Hq Hd Hb. pose proof Hwf as (Hl & Hr & Hdl & Ht & Hbm).
  assert (Hadd : exists l,
    l ≡ₚ event_sleep_list x :: members (lists k) wait
    /\ (if zk_list_is_empty wait (lists k)
        then zk_list_add_after (event_sleep_list x) (HEAD wait) (lists k)
        else match endless_block_scan k x wait None (members (lists k) wait) with
             | (_, None) => Fault NULL_DEREFERENCE
             | (HEAD _, Some tcb_iterator) =>
                 zk_list_add_after (event_sleep_list x)
                   (NODE (event_sleep_list tcb_iterator)) (lists k)
             | (NODE _, Some tcb_iterator) =>
                 zk_list_add_before (event_sleep_list x)
                   (NODE (event_sleep_list tcb_iterator)) (lists k)
             end)
       = Ok (mk_lists (<[wait := l]> (members (lists k)))
                      (<[event_sleep_list x := Some wait]> (link (lists k))))).
  { rewrite zk_list_is_empty_spec. case_bool_decide as Hempty.
    - unfold zk_list_add_after. rewrite Hev. by eexists.
    - destruct (endless_block_scan_last k x wait (members (lists k) wait)
                  (members (lists k) wait) None) as (it & Hit & Hin); [done| |by right|].
      { intros n Hn. split; [done|]. by apply Hwait. }
      apply Hl in Hin.
      destruct (endless_block_scan _ _ _ _ _) as [[h|n] acc]; simpl in Hit; subst acc.
      + unfold zk_list_add_after. rewrite Hev, Hin. eexists. split; [|reflexivity].
        apply insert_after_perm.
      + unfold zk_list_add_before. rewrite Hev, Hin. eexists. split; [|reflexivity].
        apply insert_before_perm. }
  destruct Hadd as (l & Hperm & Hadd). exists (update_tcb x (with_state TASK_ENDLESS_BLOCKED)
    (with_lists (mk_lists (<[wait := l]> (members (lists k)))
                          (<[event_sleep_list x := Some wait]> (link (lists k)))) k)), l.
  split.
  { unfold add_task_to_endless_block_list. rewrite Hadd. done. }
  split; [|done].
  assert (Hprio : forall t, priority (<[x := with_state TASK_ENDLESS_BLOCKED (tcbs k x)]>
                                   (tcbs k) t) = priority (tcbs k t)).
  { intros t. destruct (decide (x = t)) as [->|]; by lookups. }
  split; [|split; [|split; [|split]]].
  - by apply lists_wf_add.
  - intros q n. cbn. rewrite fn_lookup_insert_ne by apply Hq. intros Hn.
    destruct (Hr q n Hn) as (Hq' & t & -> & Hpr). split; [done|]. exists t.
    split; [done|]. by rewrite Hprio.
  - intros n. cbn. rewrite fn_lookup_insert_ne by done. intros Hn.
    destruct (Hdl n Hn) as (t & -> & Hpr). exists t. split; [done|]. by rewrite Hprio.
  - intros n. cbn. rewrite fn_lookup_insert_ne by done. intros Hn.
    destruct (Ht n Hn) as (t & -> & Hst' & Hev' & Hpr). exists t. split; [done|].
    assert (x <> t) by (intros ->; apply Hl in Hn; congruence).
    lookups. split; [done|]. split; [|done].
    destruct (decide (event_sleep_list x = event_sleep_list t)) as [[= ->]|]; [done|].
    by lookups.
  - intros q Hq'. cbn. rewrite fn_lookup_insert_ne by apply Hq. by apply Hbm.
Qed.

Lemma time_sort_scan_spec k x h l : forall acc,
  (forall n, n ∈ l -> exists t, n = state_node t) ->
  (exists l1 it l2,
     l = l1 ++ state_node it :: l2
     /\ time_sort_scan k x h acc l = (NODE (state_node it), Some it)
     /\ forall m, m ∈ l1 ->
          zk_time_is_reached (wake_up_time (tcbs k (ZK_LIST_GET_OWNER m)))
            (wake_up_time (tcbs k x)) = false)
  \/ (exists acc', time_sort_scan k x h acc l = (HEAD h, acc'))
     /\ forall m, m ∈ l ->
          zk_time_is_reached (wake_up_time (tcbs k (ZK_LIST_GET_OWNER m)))
            (wake_up_time (tcbs k x)) = false.
Proof.
  induction l as [|n r IH]; intros acc Hl; simpl.
  - right. split; [by eexists|]. by intros m ?%elem_of_nil.
  - destruct (Hl n) as (t & ->); [apply elem_of_cons; by left|]. simpl.
    destruct (zk_time_is_reached _ _) eqn:Hreached.
    + left. exists [], t, r. split; [done|]. split; [done|]. by intros m ?%elem_of_nil.
    + destruct (IH (Some t)) as [(l1 & it & l2 & -> & Hscan & Hbefore)|[Hscan Hall]].
      { intros n' Hn'. apply Hl. apply elem_of_cons. by right. }
      * left. exists (state_node t :: l1), it, l2. split; [done|]. split; [done|].
        intros m [->|Hm]%elem_of_cons; [done|by apply Hbefore].
      * right. split; [done|]. intros m [->|Hm]%elem_of_cons; [done|by apply Hall].
Qed.

Lemma insert_before_split new n l1 l2 :
  n ∉ l1 -> insert_before new n (l1 ++ n :: l2) = l1 ++ new :: n :: l2.
Proof.
  induction l1 as [|y r IH]; simpl; intros Hn.
  - by destruct (decide (n = n)).
  - apply not_elem_of_cons in Hn as [Hne Hn].
    destruct (decide (y = n)); [congruence|]. by rewrite IH.
Qed.

Lemma add_task_to_timeout_blocked_list_wf k x :
  scheduler_wf k ->
  link (lists k) (state_node x) = None ->
  link (lists k) (event_sleep_list x) <> None ->
  0 <= priority (tcbs k x) < ZK_PRIORITY_NUM ->
  exists k' l1 l2, add_task_to_timeout_blocked_list x k = Ok k'
    /\ scheduler_wf k'
    /\ k' = with_tcbs (tcbs k') (with_lists (lists k') k)
    /\ tcbs k' = <[x := with_state TASK_TIMEOUT_BLOCKED (tcbs k x)]> (tcbs k)
    /\ members (lists k) block_timeout_list = l1 ++ l2
    /\ members (lists k')
       = <[block_timeout_list := l1 ++ state_node x :: l2]> (members (lists k))
    /\ link (lists k') = <[state_node x := Some block_timeout_list]> (link (lists k))
    /\ forall m, m ∈ l1 ->
         zk_time_is_reached (wake_up_time (tcbs k (ZK_LIST_GET_OWNER m)))
           (wake_up_time (tcbs k x)) = false.
Proof.
  intros Hwf Hst Hev Hp. pose proof Hwf as (Hl & Hr & Hdl & Ht & Hbm).
  assert (Hnodes : forall n, n ∈ members (lists k) block_timeout_list ->
                     exists t, n = state_node t).
  { intros n Hn. destruct (Ht n Hn) as (t & -> & _). by exists t. }
  assert (Hadd : exists l1 l2,
    members (lists k) block_timeout_list = l1 ++ l2
    /\ add_task_to_time_sort_list x BLOCKED_TIMEOUT_LIST k
       = Ok (with_lists
               (mk_lists (<[block_timeout_list := l1 ++ state_node x :: l2]>
                            (members (lists k)))
                         (<[state_node x := Some block_timeout_list]> (link (lists k)))) k)
    /\ forall m, m ∈ l1 ->
         zk_time_is_reached (wake_up_time (tcbs k (ZK_LIST_GET_OWNER m)))
           (wake_up_time (tcbs k x)) = false).
  { unfold add_task_to_time_sort_list. rewrite zk_list_is_empty_spec.
    case_bool_decide as Hempty.
    - exists [], []. unfold zk_list_add_after. rewrite Hst, Hempty. simpl.
      split; [done|]. split; [done|]. by intros m ?%elem_of_nil.
    - destruct (time_sort_scan_spec k x block_timeout_list
                  (members (lists k) block_timeout_list) None Hnodes)
        as [(l1 & it & l2 & Hsplit & Hscan & Hbefore)|[[acc Hscan] Hall]].
      + rewrite Hscan. exists l1, (state_node it :: l2). split; [done|].
        assert (Hit : link (lists k) (state_node it) = Some block_timeout_list).
        { apply Hl. rewrite Hsplit. apply elem_of_app. right. apply elem_of_cons. by left. }
        unfold zk_list_add_before. rewrite Hst, Hit. cbn [mbind result_bind].
        rewrite Hsplit at 1. rewrite insert_before_split; [done|].
        pose proof (proj1 Hl block_timeout_list) as Hnd. rewrite Hsplit in Hnd.
        apply list.NoDup_app in Hnd as (_ & Hnd & _). intros Hin. apply (Hnd _ Hin).
        apply elem_of_cons. by left.
      + rewrite Hscan. exists (members (lists k) block_timeout_list), [].
        split; [by rewrite app_nil_r|]. unfold zk_list_add_before. rewrite Hst. done. }
  destruct Hadd as (l1 & l2 & Hsplit & Hadd & Hbefore).
  eexists _, l1, l2. split.
  { unfold add_task_to_timeout_blocked_list. rewrite Hadd. reflexivity. }
  split; [|done].
  assert (Hprio : forall t, priority (<[x := with_state TASK_TIMEOUT_BLOCKED (tcbs k x)]>
                                   (tcbs k) t) = priority (tcbs k t)).
  { intros t. destruct (decide (x = t)) as [->|]; by lookups. }
  split; [|split; [|split; [|split]]].
  - apply lists_wf_add; [done|done|]. rewrite Hsplit. symmetry. apply Permutation_middle.
  - intros q n. cbn. rewrite fn_lookup_insert_ne by done. intros Hn.
    destruct (Hr q n Hn) as (Hq' & t & -> & Hpr). split; [done|]. exists t.
    split; [done|]. by rewrite Hprio.
  - intros n. cbn. rewrite fn_lookup_insert_ne by done. intros Hn.
    destruct (Hdl n Hn) as (t & -> & Hpr). exists t. split; [done|]. by rewrite Hprio.
  - intros n. cbn. rewrite fn_lookup_insert.
    rewrite elem_of_app, elem_of_cons. intros Hn.
    assert (Hcase : n = state_node x \/ n ∈ members (lists k) block_timeout_list).
    { rewrite Hsplit, elem_of_app. tauto. }
    destruct Hcase as [->|Hn'].
    + exists x. lookups. done.
    + destruct (Ht n Hn') as (t & -> & Hst' & Hev' & Hpr). exists t. split; [done|].
      assert (x <> t) by (intros ->; apply Hl in Hn'; congruence).
      lookups. done.
  - intros q Hq'. cbn. rewrite fn_lookup_insert_ne by done. by apply Hbm.
Qed.

Lemma reached_after_insertion now timeout w :
  0 < timeout < 2 ^ 31 ->
  zk_time_is_reached w now = true ->
  zk_time_is_reached w (uint32 (now + timeout)) = false ->
  zk_time_is_reached (uint32 (now + timeout)) w = true.
Proof.
  rewrite !zk_time_is_reached_spec. unfold uint32. intros Ht H1 H2.
  apply bool_decide_eq_true in H1. apply bool_decide_eq_false in H2.
  apply bool_decide_eq_true.
  Z.to_euclidean_division_equations. lia.
Qed.

Section blocking.

Context `{!zk_config}.


End blocking.

(** ** Ticks while a task is blocked with a timeout *)

Lemma app_split_not_in {A} (woken rest l1 l2 : list A) x :
  woken ++ rest = l1 ++ x :: l2 -> x ∉ woken ->
  exists l1', l1 = woken ++ l1' /\ rest = l1' ++ x :: l2.
Proof.
  revert l1. induction woken as [|a w IH]; intros l1 Heq Hx; simpl in *.
  - by exists l1.
  - apply not_elem_of_cons in Hx as [Hne Hx]. destruct l1 as [|b l1]; simpl in Heq.
    + injection Heq as -> _. done.
    + injection Heq as -> Heq. destruct (IH l1 Heq Hx) as (l1' & -> & ->). by exists l1'.
Qed.

Lemma blocked_is_not_running k tcb wake :
  kernel_wf k -> blocked_until tcb wake k -> g_current_tcb k <> tcb.
Proof.
  intros ((Hl & _) & (_ & Hlk & _) & _) (_ & _ & _ & l1 & l2 & Hmem & _) Heq.
  rewrite Heq in Hlk.
  assert (Hin : state_node tcb ∈ members (lists k) block_timeout_list).
  { rewrite Hmem. apply elem_of_app. right. apply elem_of_cons. by left. }
  apply Hl in Hin. congruence.
Qed.

Lemma tick_leaves_blocked k tcb wake :
  kernel_wf k -> blocked_until tcb wake k ->
  zk_time_is_reached (g_current_time k) wake = false ->
  exists k', zk_asm_systick_handler k = Ok k'
    /\ kernel_wf k'
    /\ g_current_time k' = uint32 (g_current_time k + 1)
    /\ blocked_until tcb wake k'.
Proof.
  intros Hwf (Hst & Hfl & Hwk & l1 & l2 & Hmem & Hbefore) Hnot.
  destruct (zk_asm_systick_handler_wf k Hwf)
    as (k' & woken & Hrun & Hwf' & Htime & Hf & Hsame & Hsplit & Hwoken & Hhead).
  exists k'. split; [done|]. split; [done|]. split; [done|].
  assert (HT : state_node tcb ∉ woken).
  { intros Hin. destruct (Hwoken _ Hin) as [Hre _]. simpl in Hre. congruence. }
  rewrite Hmem in Hsplit. symmetry in Hsplit.
  destruct (app_split_not_in _ _ _ _ _ Hsplit HT) as (l1' & -> & Hrest).
  assert (Hin : state_node tcb ∈ members (lists k') block_timeout_list).
  { rewrite Hrest. apply elem_of_app. right. apply elem_of_cons. by left. }
  unfold blocked_until. rewrite (Hsame tcb Hin). split; [done|]. split; [done|].
  split; [done|]. exists l1', l2. split; [done|]. intros n Hn.
  destruct (Hf (ZK_LIST_GET_OWNER n)) as (_ & -> & _). apply Hbefore.
  apply elem_of_app. by right.
Qed.

Lemma tick_wakes_blocked k tcb :
  kernel_wf k -> blocked_until tcb (g_current_time k) k ->
  exists k', zk_asm_systick_handler k = Ok k'
    /\ kernel_wf k'
    /\ g_current_time k' = uint32 (g_current_time k + 1)
    /\ event_timeout_wakeup (tcbs k' tcb) = EVENT_WAIT_TIMEOUT.
Proof.
  intros Hwf (Hst & Hfl & Hwk & l1 & l2 & Hmem & Hbefore).
  destruct (zk_asm_systick_handler_wf k Hwf)
    as (k' & woken & Hrun & Hwf' & Htime & Hf & Hsame & Hsplit & Hwoken & Hhead).
  exists k'. split; [done|]. split; [done|]. split; [done|].
  destruct (decide (state_node tcb ∈ woken)) as [Hin|HT].
  { by destruct (Hwoken _ Hin) as [_ Hflag]. }
  exfalso. rewrite Hmem in Hsplit. symmetry in Hsplit.
  destruct (app_split_not_in _ _ _ _ _ Hsplit HT) as (l1' & -> & Hrest).
  assert (Hreached : forall n, n ∈ l1' ++ [state_node tcb] ->
            zk_time_is_reached (g_current_time k)
              (wake_up_time (tcbs k (ZK_LIST_GET_OWNER n))) = true).
  { intros n [Hn| ->%list_elem_of_singleton]%elem_of_app.
    - apply Hbefore. apply elem_of_app. by right.
    - simpl. rewrite Hwk, zk_time_is_reached_spec, Z.sub_diag. done. }
  destruct l1' as [|n r]; simpl in Hrest.
  - specialize (Hhead (state_node tcb)). rewrite Hrest in Hhead.
    rewrite Hreached in Hhead; [by specialize (Hhead eq_refl)|].
    apply list_elem_of_singleton. done.
  - specialize (Hhead n). rewrite Hrest in Hhead.
    rewrite Hreached in Hhead; [by specialize (Hhead eq_refl)|].
    apply elem_of_cons. by left.
Qed.

Lemma tick_keeps_timed_out k tcb :
  kernel_wf k -> event_timeout_wakeup (tcbs k tcb) = EVENT_WAIT_TIMEOUT ->
  exists k', zk_asm_systick_handler k = Ok k'
    /\ kernel_wf k'
    /\ g_current_time k' = uint32 (g_current_time k + 1)
    /\ event_timeout_wakeup (tcbs k' tcb) = EVENT_WAIT_TIMEOUT.
Proof.
  intros Hwf Hfl.
  destruct (zk_asm_systick_handler_wf k Hwf)
    as (k' & woken & Hrun & Hwf' & Htime & Hf & _).
  exists k'. split; [done|]. split; [done|]. split; [done|].
  destruct (Hf tcb) as (_ & _ & [Heq|Heq]); congruence.
Qed.

Lemma uint32_succ a : uint32 (uint32 a + 1) = uint32 (a + 1).
Proof. unfold uint32. by rewrite Zplus_mod_idemp_l. Qed.

Lemma ticks_while_blocked tcb now timeout (n : nat) : forall (m : Z) k,
  0 <= m -> 0 < timeout < 2 ^ 31 ->
  kernel_wf k -> g_current_time k = uint32 (now + m) ->
  (m <= timeout -> blocked_until tcb (uint32 (now + timeout)) k) ->
  (timeout < m -> event_timeout_wakeup (tcbs k tcb) = EVENT_WAIT_TIMEOUT) ->
  exists kn, ticks n k = Ok kn
    /\ kernel_wf kn /\ g_current_time kn = uint32 (now + (m + Z.of_nat n))
    /\ (m + Z.of_nat n <= timeout -> blocked_until tcb (uint32 (now + timeout)) kn)
    /\ (timeout < m + Z.of_nat n -> event_timeout_wakeup (tcbs kn tcb) = EVENT_WAIT_TIMEOUT).
Proof.
  induction n as [|n IH]; intros m k Hm Hto Hwf Htime Hblocked Hflag.
  - exists k. change (Z.of_nat 0) with 0. rewrite Z.add_0_r. done.
  - assert (Hstep : exists k', zk_asm_systick_handler k = Ok k'
      /\ kernel_wf k' /\ g_current_time k' = uint32 (now + (m + 1))
      /\ (m + 1 <= timeout -> blocked_until tcb (uint32 (now + timeout)) k')
      /\ (timeout < m + 1 -> event_timeout_wakeup (tcbs k' tcb) = EVENT_WAIT_TIMEOUT)).
    { destruct (decide (m < timeout)) as [Hlt|Hge]; [|destruct (decide (m = timeout)) as [->|Hne]].
      - destruct (tick_leaves_blocked k tcb (uint32 (now + timeout)) Hwf)
          as (k' & Hrun & Hwf' & Htime' & Hb'); [apply Hblocked; lia| |].
        { rewrite Htime. apply not_reached_before; lia. }
        exists k'. split; [done|]. split; [done|].
        split; [by rewrite Htime', Htime, uint32_succ, Z.add_assoc|].
        split; [done|lia].
      - destruct (tick_wakes_blocked k tcb Hwf) as (k' & Hrun & Hwf' & Htime' & Hf').
        { rewrite Htime. apply Hblocked. lia. }
        exists k'. split; [done|]. split; [done|].
        split; [by rewrite Htime', Htime, uint32_succ, Z.add_assoc|].
        split; [lia|done].
      - destruct (tick_keeps_timed_out k tcb Hwf) as (k' & Hrun & Hwf' & Htime' & Hf');
          [apply Hflag; lia|].
        exists k'. split; [done|]. split; [done|].
        split; [by rewrite Htime', Htime, uint32_succ, Z.add_assoc|].
        split; [lia|done]. }
    destruct Hstep as (k' & Hrun & Hwf' & Htime' & Hb' & Hf').
    destruct (IH (m + 1) k') as (kn & Hticks & Hwfn & Htimen & Hbn & Hfn);
      [lia|done|done|done|done|done|].
    exists kn. simpl ticks. rewrite Hrun. cbn [mbind result_bind].
    replace (m + Z.of_nat (S n)) with (m + 1 + Z.of_nat n) by lia. done.
Qed.


(** ** The board as a well-formed kernel *)

(** The written-out lists are the lists bring-up leaves, on every head and
    node of the board. *)
Lemma board_lists_agree :
  forallb (fun h => bool_decide (members board_lists h
                                 = members (lists semaphore_created) h)) board_heads
  && forallb (fun n => bool_decide (link board_lists n
                                    = link (lists semaphore_created) n)) board_nodes
  = true.
Proof. vm_compute. reflexivity. Qed.

Lemma board_lists_wf : lists_wf board_lists.
Proof.
  split.
  - intros h. simpl. repeat case_decide; try apply NoDup_singleton; apply NoDup_nil_2.
  - intros n h. simpl.
    destruct (decide (n = state_node 2)) as [->|Hn2];
      [|destruct (decide (n = state_node 1)) as [->|Hn1];
        [|destruct (decide (n = state_node 0)) as [->|Hn0]]];
    (destruct (decide (h = ready_list 3)) as [->|Hh3];
      [|destruct (decide (h = ready_list 5)) as [->|Hh5];
        [|destruct (decide (h = ready_list 31)) as [->|Hh31]]]);
    rewrite ?list_elem_of_singleton, ?elem_of_nil;
    (split; [intros Hn|intros Hs]);
    try reflexivity; try solve [inversion Hn]; try solve [inversion Hs].
  all: try (inversion Hs; subst h; by destruct Hh3 + by destruct Hh5 + by destruct Hh31).
  all: subst n; by destruct Hn2 + by destruct Hn1 + by destruct Hn0.
Qed.

(** Any kernel whose tasks 2, 1 and 0 have priorities 3, 5 and 31, whose
    bitmap has exactly these three bits and which runs task 2 outside any
    critical section is well formed with the written-out lists. *)
Section written_out_lists.

Variable k : kernel.
Hypothesis Hp2 : priority (tcbs k 2) = 3.
Hypothesis Hp1 : priority (tcbs k 1) = 5.
Hypothesis Hp0 : priority (tcbs k 0) = 31.
Hypothesis Hbits : priority_active k = 2147483688.
Hypothesis Hcur : g_current_tcb k = 2%nat.
Hypothesis Hnest : scheduler_suspend_nesting k = 0.
Hypothesis Hcrit : zk_critical_nesting k = 0.
Hypothesis Hpend : pendsv_pending k = false.
Hypothesis Hnow : g_current_time k = 0.

Lemma with_board_lists_wf : kernel_wf (with_lists board_lists k).
Proof.
  split; [split; [|split; [|split; [|split]]]|].
  - exact board_lists_wf.
  - intros p n. cbn [lists with_lists tcbs members board_lists].
    destruct (decide (ready_list p = ready_list 3)) as [Hp|_];
      [|destruct (decide (ready_list p = ready_list 5)) as [Hp|_];
        [|destruct (decide (ready_list p = ready_list 31)) as [Hp|_]]];
    rewrite ?list_elem_of_singleton, ?elem_of_nil.
    + inversion Hp; subst p. intros ->. split; [done|]. by exists 2%nat.
    + inversion Hp; subst p. intros ->. split; [done|]. by exists 1%nat.
    + inversion Hp; subst p. intros ->. split; [done|]. by exists 0%nat.
    + intros [].
  - intros n. cbn. by intros ?%elem_of_nil.
  - intros n. cbn. by intros ?%elem_of_nil.
  - apply bitmap_check_sound. unfold bitmap_check.
    cbn [lists with_lists priority_active]. rewrite Hbits. vm_compute. reflexivity.
  - unfold on_its_ready_list, is_scheduler_suspending.
    cbn [lists with_lists tcbs g_current_tcb scheduler_suspend_nesting
         zk_critical_nesting pendsv_pending g_current_time].
    rewrite Hcur, Hp2, Hnest, Hcrit, Hpend, Hnow.
    split; [|done]. split; [done|]. split; [done|].
    apply list_elem_of_singleton. done.
Qed.

End written_out_lists.

Lemma board_with_semaphore_wf : kernel_wf board_with_semaphore.
Proof. apply with_board_lists_wf; vm_compute; reflexivity. Qed.


(** ** A blocked caller with a ready task of its own priority *)

(** When the caller of [sem_get_timeout] shares its priority with a
    ready task, [schedule] finds the two priorities equal and moves the caller's
    [state_node], which the call has just linked into the timeout-blocked
    list, to the tail of the ready list.  On the board: task 2 is switched
    out in state TASK_TIMEOUT_BLOCKED but is a member of ready list 7 and of
    no timeout list; five ticks later, at time 5 of a timeout of 10, the
    round robin runs it again and the rest of its call returns ZK_SUCCESS,
    the semaphore count being 0 throughout. *)
Theorem blocked_caller_is_requeued_beside_a_peer :
  returned (sem_get_timeout (H := board) 0 10 peers_with_semaphore) = Ok Suspended
  /\ g_current_tcb peer_waiting = 1%nat
  /\ state (tcbs peer_waiting 2) = TASK_TIMEOUT_BLOCKED
  /\ members (lists peer_waiting) (ready_list 7) = [state_node 1; state_node 2]
  /\ members (lists peer_waiting) block_timeout_list = []
  /\ (fun k => (g_current_tcb k, g_current_time k, state (tcbs k 2),
                snd (sem_get_internal_resume 2 k), count <$> g_sem_pool k !! 0%nat))
     <$> ticks 5 peer_waiting
     = Ok (2%nat, 5, TASK_TIMEOUT_BLOCKED, ZK_SUCCESS, Some 0).
Proof. repeat split; vm_compute; reflexivity. Qed.

(** ** Time comparison, the bitmap search and runs of ticks *)

(** X2: [zk_time_is_reached] compares two tick counts by their distance, not
    by their values: a time [e] ticks after [start] has reached the time [d]
    ticks after [start] exactly when [d <= e], wherever the counter wraps in
    between, as long as the two are less than 2^31 ticks apart. *)
Theorem zk_time_is_reached_across_the_wrap (start d e : Z) :
  - 2 ^ 31 <= e - d < 2 ^ 31 ->
  zk_time_is_reached (uint32 (start + e)) (uint32 (start + d)) = bool_decide (d <= e).
Proof.
  intros Hd. rewrite zk_time_is_reached_spec. unfold uint32.
  repeat case_bool_decide; try done; exfalso;
    Z.to_euclidean_division_equations; lia.
Qed.

Lemma zk_time_is_reached_across_the_wrap_witness :
  zk_time_is_reached 2 0xFFFFFFFE = true /\ zk_time_is_reached 0xFFFFFFFE 2 = false.
Proof.
  split.
  - apply (zk_time_is_reached_across_the_wrap 0xFFFFFFFE 0 4). lia.
  - apply (zk_time_is_reached_across_the_wrap 0xFFFFFFFE 4 0). lia.
Defined.

(** X3: [zk_cpu_clz] (RBIT, then CLZ) gives the position of the lowest set
    bit of a 32-bit value, and 32 when no bit is set. *)
Theorem zk_cpu_clz_finds_the_lowest_set_bit (value : Z) :
  0 <= value < 2 ^ 32 ->
  (value = 0 -> zk_cpu_clz value = 32)
  /\ (value <> 0 ->
      0 <= zk_cpu_clz value < 32
      /\ Z.testbit value (zk_cpu_clz value) = true
      /\ forall q, 0 <= q < zk_cpu_clz value -> Z.testbit value q = false).
Proof.
  intros Hv. split; [intros ->; reflexivity|]. intros Hne.
  assert (Hbit : exists p, 0 <= p < 32 /\ Z.testbit value p = true).
  { exists (Z.log2 value). split.
    - split; [apply Z.log2_nonneg|]. apply Z.log2_lt_pow2; lia.
    - apply Z.bit_log2. lia. }
  destruct Hbit as (p & Hp & Hbit).
  destruct (zk_cpu_clz_lowest_set_bit value p Hp Hbit) as (Hc & Hset & Hlow).
  split; [lia|]. split; [done|]. exact Hlow.
Qed.

Lemma zk_cpu_clz_finds_the_lowest_set_bit_witness :
  0 <= zk_cpu_clz 40 < 32
  /\ Z.testbit 40 (zk_cpu_clz 40) = true
  /\ forall q, 0 <= q < zk_cpu_clz 40 -> Z.testbit 40 q = false.
Proof. apply (zk_cpu_clz_finds_the_lowest_set_bit 40); lia. Defined.

(** X4: with no bit set in the priority bitmap, [get_highest_priority_task]
    takes 32 as the highest priority and reads [g_scheduler.ready_list[32]],
    one entry past the array; so do [schedule], with the scheduler not
    suspended, and [start_scheduler]. *)
Theorem no_ready_task_reads_past_the_ready_lists (k : kernel) :
  priority_active k = 0 ->
  get_highest_priority_task k = Fault OUT_OF_BOUNDS
  /\ start_scheduler k = Fault OUT_OF_BOUNDS
  /\ (is_scheduler_suspending k = 0 -> schedule k = Fault OUT_OF_BOUNDS).
Proof.
  intros Hbits.
  assert (Hget : get_highest_priority_task k = Fault OUT_OF_BOUNDS).
  { unfold get_highest_priority_task. rewrite Hbits. reflexivity. }
  split; [exact Hget|]. split.
  - unfold start_scheduler. rewrite Hget. reflexivity.
  - intros Hrun. unfold schedule. rewrite Hrun, Hget. reflexivity.
Qed.

Lemma no_ready_task_reads_past_the_ready_lists_witness :
  start_scheduler (zk_kernel_init (H := board) power_on) = Fault OUT_OF_BOUNDS.
Proof.
  assert (Hbits : priority_active (zk_kernel_init (H := board) power_on) = 0)
    by (vm_compute; reflexivity).
  destruct (no_ready_task_reads_past_the_ready_lists _ Hbits) as (_ & Hstart & _).
  exact Hstart.
Defined.

(** X5: tick interrupts keep a well-formed kernel well formed.  Whatever the
    number of ticks, none of them reads through a null pointer or past an
    array, the kernel they leave is well formed again, the tick counter has
    advanced by that number modulo 2^32, and no task has changed its
    priority or its wake-up time. *)
Theorem ticks_keep_the_kernel_well_formed (k : kernel) (n : nat) :
  kernel_wf k ->
  exists kn,
    ticks n k = Ok kn
    /\ kernel_wf kn
    /\ g_current_time kn = uint32 (g_current_time k + Z.of_nat n)
    /\ forall t, priority (tcbs kn t) = priority (tcbs k t)
                 /\ wake_up_time (tcbs kn t) = wake_up_time (tcbs k t).
Proof.
  revert k. induction n as [|n IH]; intros k Hwf.
  - exists k. split; [done|]. split; [done|]. split; [|done].
    rewrite Z.add_0_r. symmetry. apply uint32_small. apply Hwf.
  - destruct (zk_asm_systick_handler_wf k Hwf)
      as (k1 & woken & Hrun & Hwf1 & Htime1 & Hsame1 & _).
    destruct (IH k1 Hwf1) as (kn & Hticks & Hwfn & Htimen & Hsamen).
    exists kn. split; [|split; [done|split]].
    + simpl. rewrite Hrun. exact Hticks.
    + rewrite Htimen, Htime1. unfold uint32.
      rewrite Nat2Z.inj_succ. rewrite Zplus_mod_idemp_l. f_equal. lia.
    + intros t. destruct (Hsamen t) as [Hp Hw]. destruct (Hsame1 t) as (Hp1 & Hw1 & _).
      split; congruence.
Qed.

Lemma ticks_keep_the_kernel_well_formed_witness :
  exists kn, ticks 7 board_with_semaphore = Ok kn /\ kernel_wf kn.
Proof.
  destruct (ticks_keep_the_kernel_well_formed board_with_semaphore 7
              board_with_semaphore_wf) as (kn & Hticks & Hwf & _).
  exists kn. split; [exact Hticks|exact Hwf].
Defined.

(** ** Semaphores and mutexes without waiters *)

(** Leaving a critical section changes the nesting counter and, when a
    switch is pending, the running task; nothing else. *)
Lemma ZK_EXIT_CRITICAL_fields k :
  tcbs (ZK_EXIT_CRITICAL k) = tcbs k
  /\ lists (ZK_EXIT_CRITICAL k) = lists k
  /\ g_sem_pool (ZK_EXIT_CRITICAL k) = g_sem_pool k
  /\ g_mutex_pool (ZK_EXIT_CRITICAL k) = g_mutex_pool k
  /\ g_queue_pool (ZK_EXIT_CRITICAL k) = g_queue_pool k
  /\ memory (ZK_EXIT_CRITICAL k) = memory k
  /\ g_mem_manager (ZK_EXIT_CRITICAL k) = g_mem_manager k
  /\ scheduler_suspend_nesting (ZK_EXIT_CRITICAL k) = scheduler_suspend_nesting k
  /\ g_current_time (ZK_EXIT_CRITICAL k) = g_current_time k.
Proof.
  unfold ZK_EXIT_CRITICAL. simpl. case_decide; [destruct (pendsv_pending k)|]; done.
Qed.

(** A critical section entered and left with no switch pending leaves the
    running task where it was. *)
Lemma ZK_EXIT_CRITICAL_no_switch k :
  pendsv_pending k = false ->
  g_current_tcb (ZK_EXIT_CRITICAL k) = g_current_tcb k
  /\ pendsv_pending (ZK_EXIT_CRITICAL k) = false.
Proof.
  intros Hp. unfold ZK_EXIT_CRITICAL. simpl. rewrite Hp. case_decide; done.
Qed.

Lemma list_alter_insert {A} (f : A -> A) (l : list A) (i : nat) (x : A) :
  l !! i = Some x -> alter f i l = <[i := f x]> l.
Proof.
  intros Hx. apply list_eq. intros j. rewrite list_lookup_alter, list_lookup_insert.
  pose proof (lookup_lt_Some _ _ _ Hx).
  destruct (decide (i = j)) as [->|Hne].
  - rewrite Hx. simpl. by rewrite decide_True.
  - by rewrite decide_False by tauto.
Qed.

Section semaphores.

Context `{!zk_config}.

(** X6: [sem_try_get] never waits.  On a pool of [SEM_MAX_NUM] entries it
    returns at once, moves no task between lists and changes no task control
    block.  It returns ZK_SUCCESS exactly when the handle is in range, the
    semaphore is created, the count is positive and the suspend nesting
    counter of the scheduler is 0 or another multiple of 256, and then the
    count is one less: [is_scheduler_suspending] narrows the 32-bit counter
    to [zk_uint8], so a scheduler suspended 256 deep is taken for a running
    one.  In every other case the pool is unchanged. *)
Theorem sem_try_get_never_waits (sem_handle : nat) (k : kernel) :
  length (g_sem_pool k) = SEM_MAX_NUM ->
  exists k' ret,
    sem_try_get sem_handle k = Ok (k', Return ret)
    /\ lists k' = lists k /\ tcbs k' = tcbs k
    /\ (ret = ZK_SUCCESS ->
        exists sem, g_sem_pool k !! sem_handle = Some sem
                    /\ sem_is_used sem = SEM_USED /\ count sem > 0
                    /\ scheduler_suspend_nesting k mod 256 = 0
                    /\ g_sem_pool k' = <[sem_handle := with_count (count sem - 1) sem]>
                                         (g_sem_pool k))
    /\ (ret <> ZK_SUCCESS ->
        g_sem_pool k' = g_sem_pool k
        /\ forall sem, g_sem_pool k !! sem_handle = Some sem ->
             sem_is_used sem = SEM_UNUSED \/ scheduler_suspend_nesting k mod 256 <> 0
             \/ count sem <= 0).
Proof.
  intros Hlen.
  assert (Hnarrow : is_scheduler_suspending k = scheduler_suspend_nesting k mod 256)
    by reflexivity.
  rewrite <- Hnarrow. unfold sem_try_get, sem_get_internal.
  destruct (decide (SEM_MAX_NUM <= sem_handle)%nat) as [Hge|Hlt].
  { exists k, ZK_ERR_INVALID_HANDLE. repeat split; try done.
    intros sem Hsem. apply lookup_lt_Some in Hsem. lia. }
  unfold sem_at. destruct (g_sem_pool k !! sem_handle) as [sem|] eqn:Hsem;
    [|apply lookup_ge_None in Hsem; lia].
  cbn [mbind result_bind].
  destruct (decide (sem_is_used sem = SEM_UNUSED)) as [Hun|Hused].
  { exists k, ZK_ERR_STATE. repeat split; try done.
    intros sem' Hsem'. left. congruence. }
  change (is_scheduler_suspending (ZK_ENTER_CRITICAL k)) with (is_scheduler_suspending k).
  destruct (ZK_EXIT_CRITICAL_fields (ZK_ENTER_CRITICAL k)) as (Ht & Hl & Hs & _).
  destruct (decide (is_scheduler_suspending k <> 0)) as [Hsus|Hrun].
  { eexists _, ZK_ERR_STATE. split; [reflexivity|]. repeat split; try done.
    intros sem' Hsem'. right. left. done. }
  destruct (decide (count sem > 0)) as [Hpos|Hzero].
  - eexists _, ZK_SUCCESS. split; [reflexivity|].
    destruct (ZK_EXIT_CRITICAL_fields
                (update_sem sem_handle (with_count (count sem - 1)) (ZK_ENTER_CRITICAL k)))
      as (Ht' & Hl' & Hs' & _).
    split; [by rewrite Hl'|]. split; [by rewrite Ht'|]. split; [|done].
    intros _. exists sem. split; [done|]. split; [by destruct (sem_is_used sem)|].
    split; [done|]. split; [lia|]. rewrite Hs'. simpl.
    by apply list_alter_insert.
  - destruct (decide (0 = 0)) as [_|]; [|done].
    eexists _, ZK_ERR_FAILED. split; [reflexivity|]. repeat split; try done.
    intros sem' Hsem'. right. right. assert (sem' = sem) by congruence. subst. lia.
Qed.

(** X7: a release and a try-get undo each other.  On a created semaphore
    with no waiter and a count below SEM_COUNT_MAX, with the scheduler not
    suspended, [sem_release] returns ZK_SUCCESS and makes the count one
    more; [sem_try_get] on the result returns ZK_SUCCESS and leaves the pool
    as it was before the release. *)
Theorem sem_release_then_try_get (sem_handle : nat) (k : kernel) (sem : semaphore_t) :
  (sem_handle < SEM_MAX_NUM)%nat ->
  g_sem_pool k !! sem_handle = Some sem ->
  sem_is_used sem = SEM_USED ->
  0 <= count sem < SEM_COUNT_MAX ->
  members (lists k) (wait_list sem_handle) = [] ->
  is_scheduler_suspending k = 0 ->
  exists k1 k2,
    sem_release sem_handle k = Ok (k1, ZK_SUCCESS)
    /\ g_sem_pool k1 = <[sem_handle := with_count (count sem + 1) sem]> (g_sem_pool k)
    /\ sem_try_get sem_handle k1 = Ok (k2, Return ZK_SUCCESS)
    /\ g_sem_pool k2 = g_sem_pool k
    /\ lists k2 = lists k /\ tcbs k2 = tcbs k.
Proof.
  intros Hh Hsem Hused Hcount Hempty Hrun.
  pose proof (lookup_lt_Some _ _ _ Hsem) as Hlen.
  pose (k0 := update_sem sem_handle (with_count (uint32 (count sem + 1)))
                (ZK_ENTER_CRITICAL k)).
  destruct (ZK_EXIT_CRITICAL_fields k0) as (Ht1 & Hl1 & Hs1 & _ & _ & _ & _ & Hn1 & _).
  assert (Hpool1 : g_sem_pool (ZK_EXIT_CRITICAL k0)
                   = <[sem_handle := with_count (count sem + 1) sem]> (g_sem_pool k)).
  { rewrite Hs1. simpl. rewrite (list_alter_insert _ _ _ sem) by done.
    rewrite uint32_small; [done|]. unfold SEM_COUNT_MAX in Hcount. lia. }
  assert (Hrel : sem_release sem_handle k = Ok (ZK_EXIT_CRITICAL k0, ZK_SUCCESS)).
  { unfold sem_release, sem_at. rewrite decide_False by lia. rewrite Hsem.
    cbn [mbind result_bind]. rewrite decide_False by (by rewrite Hused).
    rewrite decide_False by lia.
    assert (Hemp : zk_list_is_empty (wait_list sem_handle) (lists (ZK_ENTER_CRITICAL k))
                   = true).
    { unfold zk_list_is_empty, head_next. simpl. rewrite Hempty. by apply bool_decide_eq_true. }
    rewrite Hemp. reflexivity. }
  set (k1 := ZK_EXIT_CRITICAL k0) in *.
  set (sem1 := with_count (count sem + 1) sem).
  assert (Hsem1 : g_sem_pool k1 !! sem_handle = Some sem1).
  { rewrite Hpool1. by apply list_lookup_insert_eq. }
  pose (k2 := update_sem sem_handle (with_count (count sem1 - 1)) (ZK_ENTER_CRITICAL k1)).
  destruct (ZK_EXIT_CRITICAL_fields k2) as (Ht2 & Hl2 & Hs2 & _).
  exists k1, (ZK_EXIT_CRITICAL k2). split; [exact Hrel|]. split; [exact Hpool1|]. split.
  - unfold sem_try_get, sem_get_internal, sem_at. rewrite decide_False by lia.
    rewrite Hsem1. cbn [mbind result_bind].
    rewrite decide_False by (simpl; by rewrite Hused).
    change (is_scheduler_suspending (ZK_ENTER_CRITICAL k1)) with (is_scheduler_suspending k1).
    assert (Hrun1 : is_scheduler_suspending k1 = 0).
    { unfold is_scheduler_suspending. rewrite Hn1. exact Hrun. }
    destruct (decide (is_scheduler_suspending k1 <> 0)) as [Hc|_]; [by rewrite Hrun1 in Hc|].
    rewrite decide_True by (simpl; lia). reflexivity.
  - split; [|split].
    + rewrite Hs2. simpl. rewrite (list_alter_insert _ _ _ sem1) by done.
      rewrite Hpool1, list_insert_insert_eq. simpl.
      replace (count sem + 1 - 1) with (count sem) by lia.
      apply list_insert_id. rewrite Hsem. by destruct sem.
    + rewrite Hl2. simpl. rewrite Hl1. reflexivity.
    + rewrite Ht2. simpl. rewrite Ht1. reflexivity.
Qed.

(** X8: [sem_create] takes the first unused entry of the pool.  With a
    count up to SEM_COUNT_MAX it either returns ZK_SUCCESS and a handle below
    SEM_MAX_NUM whose entry was unused, every entry before it being in use,
    and that entry now holds the count, is marked used and has no waiter; or
    every entry is in use, and it returns ZK_ERR_RESOURCE_UNAVAILABLE and
    changes neither the pool nor a list. *)
Theorem sem_create_takes_the_first_unused_entry (initial_count : Z) (k : kernel) :
  initial_count <= SEM_COUNT_MAX ->
  length (g_sem_pool k) = SEM_MAX_NUM ->
  exists k' ret sem_handle,
    sem_create initial_count k = (k', (ret, sem_handle))
    /\ ((ret = ZK_SUCCESS
         /\ (sem_handle < SEM_MAX_NUM)%nat
         /\ (exists old, g_sem_pool k !! sem_handle = Some old
                         /\ sem_is_used old = SEM_UNUSED)
         /\ (forall i s, (i < sem_handle)%nat -> g_sem_pool k !! i = Some s ->
                         sem_is_used s = SEM_USED)
         /\ g_sem_pool k' = <[sem_handle := mk_sem initial_count SEM_USED]> (g_sem_pool k)
         /\ members (lists k') (wait_list sem_handle) = [])
        \/ (ret = ZK_ERR_RESOURCE_UNAVAILABLE
            /\ (forall s, s ∈ g_sem_pool k -> sem_is_used s = SEM_USED)
            /\ g_sem_pool k' = g_sem_pool k /\ lists k' = lists k)).
Proof.
  intros Hcount Hlen. unfold sem_create. rewrite decide_False by lia.
  unfold get_sem_resource. change (g_sem_pool (ZK_ENTER_CRITICAL k)) with (g_sem_pool k).
  rewrite firstn_all2 by lia.
  destruct (list_find (fun sem => sem_is_used sem = SEM_UNUSED) (g_sem_pool k))
    as [[h old]|] eqn:Hfind; cbn [mbind option_bind fst].
  - apply list_find_Some in Hfind as (Hold & Hunused & Hbefore).
    pose proof (lookup_lt_Some _ _ _ Hold) as Hh.
    eexists _, ZK_SUCCESS, h. split; [reflexivity|]. left.
    split; [done|]. split; [lia|]. split; [by exists old|]. split.
    { intros i s Hi Hs. specialize (Hbefore i s Hs Hi). by destruct (sem_is_used s). }
    match goal with |- context [ZK_EXIT_CRITICAL ?x] =>
      destruct (ZK_EXIT_CRITICAL_fields x) as (_ & Hl & Hs & _) end.
    rewrite Hl, Hs. simpl. split.
    + by rewrite (list_alter_insert _ _ _ old).
    + by rewrite fn_lookup_insert.
  - apply list_find_None in Hfind.
    eexists _, ZK_ERR_RESOURCE_UNAVAILABLE, O. split; [reflexivity|]. right.
    destruct (ZK_EXIT_CRITICAL_fields (ZK_ENTER_CRITICAL k)) as (_ & Hl & Hs & _).
    split; [done|]. split; [|by rewrite Hl, Hs].
    intros s Hs'. rewrite list.Forall_forall in Hfind. specialize (Hfind s Hs').
    by destruct (sem_is_used s).
Qed.

End semaphores.

Lemma sem_try_get_never_waits_witness :
  scheduler_suspend_nesting semaphore_released_256_deep = 256
  /\ exists k',
       sem_try_get (H := board) 0 semaphore_released_256_deep = Ok (k', Return ZK_SUCCESS)
       /\ lists k' = lists semaphore_released_256_deep
       /\ count <$> g_sem_pool k' !! 0%nat = Some 0.
Proof.
  split; [reflexivity|].
  destruct (sem_try_get_never_waits (H := board) 0 semaphore_released_256_deep)
    as (k' & ret & Hcall & Hlists & _ & Hsuccess & _).
  - vm_compute. reflexivity.
  - assert (Hret : returned (sem_try_get (H := board) 0 semaphore_released_256_deep)
                   = Ok (Return ZK_SUCCESS)) by (vm_compute; reflexivity).
    rewrite Hcall in Hret. injection Hret as ->.
    exists k'. split; [exact Hcall|]. split; [exact Hlists|].
    destruct (Hsuccess eq_refl) as (sem & Hsem & _ & _ & _ & ->).
    assert (Hcount : count sem = 1).
    { assert (Hpool : g_sem_pool semaphore_released_256_deep !! 0%nat
                      = Some (mk_sem 1 SEM_USED)) by (vm_compute; reflexivity).
      rewrite Hpool in Hsem. by injection Hsem as <-. }
    rewrite list_lookup_insert_eq by (apply lookup_lt_Some in Hsem; exact Hsem).
    cbn. by rewrite Hcount.
Defined.

Lemma sem_release_then_try_get_witness :
  exists k1 k2,
    sem_release (H := board) 0 semaphore_created = Ok (k1, ZK_SUCCESS)
    /\ sem_try_get (H := board) 0 k1 = Ok (k2, Return ZK_SUCCESS)
    /\ g_sem_pool k2 = g_sem_pool semaphore_created.
Proof.
  destruct (sem_release_then_try_get (H := board) 0 semaphore_created (mk_sem 0 SEM_USED))
    as (k1 & k2 & Hrel & _ & Hget & Hpool & _).
  - vm_compute. lia.
  - vm_compute. reflexivity.
  - reflexivity.
  - vm_compute. split; [discriminate|reflexivity].
  - vm_compute. reflexivity.
  - vm_compute. reflexivity.
  - exists k1, k2. split; [exact Hrel|]. split; [exact Hget|exact Hpool].
Defined.

Lemma sem_create_takes_the_first_unused_entry_witness :
  exists k' ret sem_handle, sem_create (H := board) 3 booted = (k', (ret, sem_handle)).
Proof.
  destruct (sem_create_takes_the_first_unused_entry (H := board) 3 booted)
    as (k' & ret & h & Hcall & _).
  - vm_compute. discriminate.
  - vm_compute. reflexivity.
  - exists k', ret, h. exact Hcall.
Defined.

Section mutexes.

Context `{!zk_config}.

(** X9: a mutex is recursive for its owner.  When the running task owns the
    mutex with a hold count below 2^32 - 1, the scheduler is not suspended
    and no switch is pending, [mutex_lock] returns ZK_SUCCESS at once with
    the hold count one more, and [mutex_unlock] on the result returns
    ZK_SUCCESS and leaves the pool, the lists and the task control blocks as
    they were before the lock: the mutex stays owned. *)
Theorem mutex_relock_then_unlock (mutex_handle : nat) (k : kernel) (m : mutex_t) :
  (mutex_handle < MUTEX_MAX_NUM)%nat ->
  g_mutex_pool k !! mutex_handle = Some m ->
  mutex_is_used m = MUTEX_USED ->
  owner m = Some (g_current_tcb k) ->
  0 < owner_hold_count m < 2 ^ 32 - 1 ->
  is_scheduler_suspending k = 0 ->
  pendsv_pending k = false ->
  exists k1 k2,
    mutex_lock mutex_handle k = Ok (k1, Return ZK_SUCCESS)
    /\ g_mutex_pool k1
       = <[mutex_handle := with_owner_hold_count (owner_hold_count m + 1) m]>
           (g_mutex_pool k)
    /\ mutex_unlock mutex_handle k1 = Ok (k2, ZK_SUCCESS)
    /\ g_mutex_pool k2 = g_mutex_pool k
    /\ lists k2 = lists k /\ tcbs k2 = tcbs k.
Proof.
  intros Hh Hm Hused Hown Hcount Hrun Hpend.
  pose (k0 := update_mutex mutex_handle
                (with_owner_hold_count (uint32 (owner_hold_count m + 1)))
                (ZK_ENTER_CRITICAL k)).
  destruct (ZK_EXIT_CRITICAL_fields k0) as (Ht1 & Hl1 & _ & Hs1 & _ & _ & _ & Hn1 & _).
  destruct (ZK_EXIT_CRITICAL_no_switch k0) as [Hc1 Hp1]; [exact Hpend|].
  assert (Hpool1 : g_mutex_pool (ZK_EXIT_CRITICAL k0)
                   = <[mutex_handle := with_owner_hold_count (owner_hold_count m + 1) m]>
                       (g_mutex_pool k)).
  { rewrite Hs1. simpl. rewrite (list_alter_insert _ _ _ m) by done.
    rewrite uint32_small; [done|lia]. }
  assert (Hlock : mutex_lock mutex_handle k = Ok (ZK_EXIT_CRITICAL k0, Return ZK_SUCCESS)).
  { unfold mutex_lock, mutex_lock_internal, mutex_at. rewrite decide_False by lia.
    rewrite Hm. cbn [mbind result_bind]. rewrite decide_False by (by rewrite Hused).
    change (is_scheduler_suspending (ZK_ENTER_CRITICAL k)) with (is_scheduler_suspending k).
    destruct (decide (is_scheduler_suspending k <> 0)) as [Hc|_]; [by rewrite Hrun in Hc|].
    rewrite decide_False by lia. rewrite decide_True by done. reflexivity. }
  set (k1 := ZK_EXIT_CRITICAL k0) in *.
  set (m1 := with_owner_hold_count (owner_hold_count m + 1) m).
  pose proof (lookup_lt_Some _ _ _ Hm) as Hlen.
  assert (Hm1 : g_mutex_pool k1 !! mutex_handle = Some m1).
  { rewrite Hpool1. by apply list_lookup_insert_eq. }
  pose (k2 := update_mutex mutex_handle
                (with_owner_hold_count (uint32 (owner_hold_count m1 - 1)))
                (ZK_ENTER_CRITICAL k1)).
  destruct (ZK_EXIT_CRITICAL_fields k2) as (Ht2 & Hl2 & _ & Hs2 & _).
  exists k1, (ZK_EXIT_CRITICAL k2). split; [exact Hlock|]. split; [exact Hpool1|]. split.
  - unfold mutex_unlock, mutex_at. rewrite decide_False by lia.
    rewrite Hm1. cbn [mbind result_bind]. rewrite decide_False by (simpl; by rewrite Hused).
    change (is_scheduler_suspending (ZK_ENTER_CRITICAL k1)) with (is_scheduler_suspending k1).
    assert (Hrun1 : is_scheduler_suspending k1 = 0).
    { unfold is_scheduler_suspending. rewrite Hn1. exact Hrun. }
    destruct (decide (is_scheduler_suspending k1 <> 0)) as [Hc|_]; [by rewrite Hrun1 in Hc|].
    rewrite decide_False by (simpl; lia).
    rewrite decide_False by (simpl; rewrite Hown, Hc1; intros Hc; by apply Hc).
    rewrite decide_True; [reflexivity|].
    simpl. rewrite uint32_small by lia. lia.
  - split; [|split].
    + rewrite Hs2. simpl. rewrite (list_alter_insert _ _ _ m1) by done.
      rewrite Hpool1, list_insert_insert_eq. simpl.
      replace (owner_hold_count m + 1 - 1) with (owner_hold_count m) by lia.
      rewrite uint32_small by lia.
      apply list_insert_id. rewrite Hm. by destruct m.
    + rewrite Hl2. simpl. rewrite Hl1. reflexivity.
    + rewrite Ht2. simpl. rewrite Ht1. reflexivity.
Qed.

(** X10: only the owner unlocks.  With the scheduler not suspended,
    [mutex_unlock] on a created mutex that is free or owned by another task
    returns ZK_ERR_SYNC_NOT_OWNER and changes neither the pool, nor a list,
    nor a task control block. *)
Theorem mutex_unlock_by_another_task (mutex_handle : nat) (k : kernel) (m : mutex_t) :
  (mutex_handle < MUTEX_MAX_NUM)%nat ->
  g_mutex_pool k !! mutex_handle = Some m ->
  mutex_is_used m = MUTEX_USED ->
  owner_hold_count m = 0 \/ owner m <> Some (g_current_tcb k) ->
  is_scheduler_suspending k = 0 ->
  exists k',
    mutex_unlock mutex_handle k = Ok (k', ZK_ERR_SYNC_NOT_OWNER)
    /\ g_mutex_pool k' = g_mutex_pool k
    /\ lists k' = lists k /\ tcbs k' = tcbs k.
Proof.
  intros Hh Hm Hused Hnot Hrun.
  destruct (ZK_EXIT_CRITICAL_fields (ZK_ENTER_CRITICAL k)) as (Ht & Hl & _ & Hs & _).
  exists (ZK_EXIT_CRITICAL (ZK_ENTER_CRITICAL k)). split; [|done].
  unfold mutex_unlock, mutex_at. rewrite decide_False by lia.
  rewrite Hm. cbn [mbind result_bind]. rewrite decide_False by (by rewrite Hused).
  change (is_scheduler_suspending (ZK_ENTER_CRITICAL k)) with (is_scheduler_suspending k).
  destruct (decide (is_scheduler_suspending k <> 0)) as [Hc|_]; [by rewrite Hrun in Hc|].
  destruct (decide (owner_hold_count m = 0)) as [|Hheld]; [reflexivity|].
  destruct Hnot as [|Hother]; [done|]. by rewrite decide_True.
Qed.

(** X11: locking and unlocking a free mutex.  On a created mutex that
    nobody holds and nobody waits for, called by a running task whose
    priority is its base priority, with the scheduler not suspended and no
    switch pending, [mutex_lock] returns ZK_SUCCESS and makes
    the caller the owner with a hold count of 1, the mutex at the head of
    the caller's chain of held mutexes; [mutex_unlock] then returns
    ZK_SUCCESS, frees the mutex (no owner, hold count 0, owner priority
    ZK_MIN_PRIORITY, no link) and gives every task control block the value
    it had before the lock; no list changes. *)
Theorem mutex_lock_then_unlock (mutex_handle : nat) (k : kernel) (m : mutex_t) :
  let current := g_current_tcb k in
  (mutex_handle < MUTEX_MAX_NUM)%nat ->
  g_mutex_pool k !! mutex_handle = Some m ->
  mutex_is_used m = MUTEX_USED ->
  owner_hold_count m = 0 ->
  members (lists k) (sleep_list mutex_handle) = [] ->
  base_priority (tcbs k current) = priority (tcbs k current) ->
  is_scheduler_suspending k = 0 ->
  pendsv_pending k = false ->
  exists k1 k2,
    mutex_lock mutex_handle k = Ok (k1, Return ZK_SUCCESS)
    /\ g_mutex_pool k1 !! mutex_handle
       = Some (mk_mutex (Some current) 1 (priority (tcbs k current)) MUTEX_USED
                 (holding_mutex (tcbs k current)))
    /\ holding_mutex (tcbs k1 current) = Some mutex_handle
    /\ mutex_unlock mutex_handle k1 = Ok (k2, ZK_SUCCESS)
    /\ g_mutex_pool k2
       = <[mutex_handle := mk_mutex None 0 ZK_MIN_PRIORITY MUTEX_USED None]> (g_mutex_pool k)
    /\ (forall t, tcbs k2 t = tcbs k t)
    /\ lists k2 = lists k.
Proof.
  intros current Hh Hm Hused Hfree Hempty Hbase Hrun Hpend.
  pose proof (lookup_lt_Some _ _ _ Hm) as Hlen.
  set (m1 := mk_mutex (Some current) 1 (priority (tcbs k current)) MUTEX_USED
               (holding_mutex (tcbs k current))).
  pose (k0 := update_tcb current (with_holding_mutex (Some mutex_handle))
                (update_mutex mutex_handle
                   (fun m => with_next_mutex (holding_mutex (tcbs k current))
                               (with_owner_priority (priority (tcbs k current))
                                  (with_owner_hold_count 1
                                     (with_owner (Some current) m))))
                   (ZK_ENTER_CRITICAL k))).
  destruct (ZK_EXIT_CRITICAL_fields k0) as (Ht1 & Hl1 & _ & Hs1 & _ & _ & _ & Hn1 & _).
  destruct (ZK_EXIT_CRITICAL_no_switch k0) as [Hc1 Hp1]; [exact Hpend|].
  assert (Hlock : mutex_lock mutex_handle k = Ok (ZK_EXIT_CRITICAL k0, Return ZK_SUCCESS)).
  { unfold mutex_lock, mutex_lock_internal, mutex_at. rewrite decide_False by lia.
    rewrite Hm. cbn [mbind result_bind]. rewrite decide_False by (by rewrite Hused).
    change (is_scheduler_suspending (ZK_ENTER_CRITICAL k)) with (is_scheduler_suspending k).
    destruct (decide (is_scheduler_suspending k <> 0)) as [Hc|_]; [by rewrite Hrun in Hc|].
    rewrite decide_True by done. reflexivity. }
  set (k1 := ZK_EXIT_CRITICAL k0) in *.
  assert (Hpool1 : g_mutex_pool k1 = <[mutex_handle := m1]> (g_mutex_pool k)).
  { rewrite Hs1. simpl. rewrite (list_alter_insert _ _ _ m) by done.
    subst m1. f_equal. destruct m. simpl in *. by subst. }
  assert (Hm1 : g_mutex_pool k1 !! mutex_handle = Some m1).
  { rewrite Hpool1. by apply list_lookup_insert_eq. }
  assert (Hcur1 : g_current_tcb k1 = current) by exact Hc1.
  assert (Htcb1 : tcbs k1 = <[current := with_holding_mutex (Some mutex_handle)
                                            (tcbs k current)]> (tcbs k)).
  { rewrite Ht1. reflexivity. }
  assert (Hlists1 : lists k1 = lists k) by (rewrite Hl1; reflexivity).
  assert (Hrun1 : is_scheduler_suspending k1 = 0).
  { unfold is_scheduler_suspending. rewrite Hn1. exact Hrun. }
  clear Ht1 Hl1 Hs1 Hn1 Hc1. clearbody k1. clear k0.
  pose (ka := update_mutex mutex_handle (with_owner_hold_count (uint32 (1 - 1)))
                (ZK_ENTER_CRITICAL k1)).
  pose (kb := update_tcb current (with_holding_mutex (holding_mutex (tcbs k current))) ka).
  pose (kc := update_mutex mutex_handle
                (fun m => with_next_mutex None (with_owner None
                            (with_owner_priority ZK_MIN_PRIORITY m))) kb).
  assert (Hwake : mutex_wakeup current mutex_handle ka = Ok (kc, false)).
  { unfold mutex_wakeup, mutex_at.
    assert (Hma : g_mutex_pool ka !! mutex_handle
                  = Some (with_owner_hold_count (uint32 (1 - 1)) m1)).
    { subst ka. simpl. rewrite list_lookup_alter, decide_True by done. by rewrite Hm1. }
    rewrite Hma. cbn [mbind result_bind].
    assert (Hhold : holding_mutex (tcbs ka current) = Some mutex_handle).
    { subst ka. simpl. rewrite Htcb1, fn_lookup_insert. reflexivity. }
    destruct (decide (holding_mutex (tcbs ka current) = Some mutex_handle)) as [_|Hc];
      [|done].
    assert (Hb : base_priority (tcbs (update_tcb current
                    (with_holding_mutex (next_mutex (with_owner_hold_count (uint32 (1 - 1)) m1)))
                    ka) current) = owner_priority (with_owner_hold_count (uint32 (1 - 1)) m1)).
    { simpl. rewrite fn_lookup_insert. simpl. rewrite Htcb1, fn_lookup_insert. simpl.
      exact Hbase. }
    destruct (decide (base_priority _ <> owner_priority _)) as [Hc|_]; [by rewrite Hb in Hc|].
    cbn [mbind result_bind].
    assert (Hemp : zk_list_is_empty (sleep_list mutex_handle)
                     (lists (update_tcb current
                        (with_holding_mutex
                           (next_mutex (with_owner_hold_count (uint32 (1 - 1)) m1))) ka))
                   = true).
    { unfold zk_list_is_empty, head_next. simpl. rewrite Hlists1, Hempty.
      by apply bool_decide_eq_true. }
    rewrite Hemp. reflexivity. }
  destruct (ZK_EXIT_CRITICAL_fields kc) as (Ht2 & Hl2 & _ & Hs2 & _).
  exists k1, (ZK_EXIT_CRITICAL kc). split; [exact Hlock|]. split; [exact Hm1|]. split.
  { rewrite Htcb1, fn_lookup_insert. reflexivity. }
  split.
  - unfold mutex_unlock, mutex_at. rewrite decide_False by lia.
    rewrite Hm1. cbn [mbind result_bind]. rewrite decide_False by done.
    change (is_scheduler_suspending (ZK_ENTER_CRITICAL k1)) with (is_scheduler_suspending k1).
    destruct (decide (is_scheduler_suspending k1 <> 0)) as [Hc|_]; [by rewrite Hrun1 in Hc|].
    rewrite decide_False by done.
    rewrite decide_False by (rewrite Hcur1; intros Hc; by apply Hc).
    rewrite decide_False by (intros Hc; by apply Hc).
    rewrite Hcur1. change (owner_hold_count m1) with 1.
    fold ka. rewrite Hwake. reflexivity.
  - split; [|split].
    + rewrite Hs2. subst kc kb ka. simpl.
      rewrite (list_alter_insert (with_owner_hold_count _) _ _ m1) by done.
      rewrite list_alter_insert with (x := with_owner_hold_count (uint32 (1 - 1)) m1)
        by (apply list_lookup_insert_eq; by rewrite Hpool1, length_insert).
      rewrite list_insert_insert_eq, Hpool1, list_insert_insert_eq. reflexivity.
    + intros t. rewrite Ht2. subst kc kb ka. simpl. rewrite Htcb1.
      destruct (decide (t = current)) as [->|Hne].
      * rewrite !fn_lookup_insert. by destruct (tcbs k current).
      * by rewrite !fn_lookup_insert_ne.
    + rewrite Hl2. subst kc kb ka. simpl. exact Hlists1.
Qed.

End mutexes.

Lemma mutex_relock_then_unlock_witness :
  exists k1 k2,
    mutex_lock (H := board) 0 mutex_held = Ok (k1, Return ZK_SUCCESS)
    /\ mutex_unlock (H := board) 0 k1 = Ok (k2, ZK_SUCCESS)
    /\ g_mutex_pool k2 = g_mutex_pool mutex_held.
Proof.
  destruct (mutex_relock_then_unlock (H := board) 0 mutex_held
              (mk_mutex (Some 2%nat) 1 3 MUTEX_USED None))
    as (k1 & k2 & Hlock & _ & Hunlock & Hpool & _).
  - vm_compute. lia.
  - vm_compute. reflexivity.
  - reflexivity.
  - vm_compute. reflexivity.
  - vm_compute. split; reflexivity.
  - vm_compute. reflexivity.
  - vm_compute. reflexivity.
  - exists k1, k2. split; [exact Hlock|]. split; [exact Hunlock|exact Hpool].
Defined.

Lemma mutex_unlock_by_another_task_witness :
  exists k', mutex_unlock (H := board) 0 mutex_created = Ok (k', ZK_ERR_SYNC_NOT_OWNER)
             /\ g_mutex_pool k' = g_mutex_pool mutex_created.
Proof.
  destruct (mutex_unlock_by_another_task (H := board) 0 mutex_created
              (mk_mutex None 0 ZK_MIN_PRIORITY MUTEX_USED None))
    as (k' & Hcall & Hpool & _).
  - vm_compute. lia.
  - vm_compute. reflexivity.
  - reflexivity.
  - left. reflexivity.
  - vm_compute. reflexivity.
  - exists k'. split; [exact Hcall|exact Hpool].
Defined.

Lemma mutex_lock_then_unlock_witness :
  exists k1 k2,
    mutex_lock (H := board) 0 mutex_created = Ok (k1, Return ZK_SUCCESS)
    /\ mutex_unlock (H := board) 0 k1 = Ok (k2, ZK_SUCCESS)
    /\ lists k2 = lists mutex_created.
Proof.
  destruct (mutex_lock_then_unlock (H := board) 0 mutex_created
              (mk_mutex None 0 ZK_MIN_PRIORITY MUTEX_USED None))
    as (k1 & k2 & Hlock & _ & _ & Hunlock & _ & _ & Hlists).
  - vm_compute. lia.
  - vm_compute. reflexivity.
  - reflexivity.
  - reflexivity.
  - vm_compute. reflexivity.
  - vm_compute. reflexivity.
  - vm_compute. reflexivity.
  - vm_compute. reflexivity.
  - exists k1, k2. split; [exact Hlock|]. split; [exact Hunlock|exact Hlists].
Defined.

(** ** Message queues without waiters *)

Lemma queue_remaining_space_in_range (q : queue_t) :
  queue_positions_in_range q -> 0 < queue_remaining_space q <= element_num q.
Proof.
  intros (Hr & Hw & He). unfold queue_remaining_space.
  destruct (decide (read_pos q > write_pos q)).
  - rewrite (uint32_small (read_pos q - write_pos q)) by lia.
    rewrite (uint32_small (element_num q - (read_pos q - write_pos q))) by lia.
    rewrite uint32_small by lia. lia.
  - rewrite (uint32_small (write_pos q - read_pos q)) by lia.
    rewrite uint32_small by lia. lia.
Qed.

Lemma queue_full_in_range (q : queue_t) : queue_positions_in_range q -> queue_full q = false.
Proof.
  intros Hq. pose proof (queue_remaining_space_in_range q Hq).
  unfold queue_full. apply bool_decide_eq_false. lia.
Qed.

(** X12: a queue never counts as full.  While the two positions index slots
    of the queue, [queue_remaining_space] is between 1 and the number of
    elements, so [queue_full] is false; and both position updates keep the
    positions in range. *)
Theorem queue_is_never_full (q : queue_t) :
  queue_positions_in_range q ->
  0 < queue_remaining_space q <= element_num q
  /\ queue_full q = false
  /\ queue_positions_in_range (queue_write_pos_increase q)
  /\ queue_positions_in_range (queue_read_pos_increase q).
Proof.
  intros Hq. split; [by apply queue_remaining_space_in_range|].
  split; [by apply queue_full_in_range|].
  destruct Hq as (Hr & Hw & He). split.
  - unfold queue_write_pos_increase, queue_positions_in_range. simpl.
    rewrite uint32_small by lia. case_decide; simpl; lia.
  - unfold queue_read_pos_increase, queue_positions_in_range. simpl.
    rewrite uint32_small by lia. case_decide; simpl; lia.
Qed.

Lemma queue_is_never_full_witness :
  queue_full (mk_queue 0x20000010 0 0 1 2 QUEUE_USED) = false.
Proof.
  apply (queue_is_never_full (mk_queue 0x20000010 0 0 1 2 QUEUE_USED)).
  unfold queue_positions_in_range. simpl. lia.
Defined.

(** [zk_memcpy] into the address space and back. *)
Lemma store_bytes_other (dest : Z) (src : list byte) (mem : Z -> byte) (a : Z) :
  0 <= dest < 2 ^ 32 -> 0 <= a < 2 ^ 32 ->
  (forall i : nat, (i < length src)%nat -> a <> uint32 (dest + Z.of_nat i)) ->
  store_bytes dest src mem a = mem a.
Proof.
  revert dest mem. induction src as [|b r IH]; intros dest mem Hd Ha Hne; [done|].
  simpl. rewrite IH.
  - rewrite fn_lookup_insert_ne; [done|].
    specialize (Hne O ltac:(simpl; lia)). rewrite Z.add_0_r, uint32_small in Hne by done.
    congruence.
  - apply uint32_range.
  - done.
  - intros i Hi. specialize (Hne (S i) ltac:(simpl; lia)).
    intros ->. apply Hne. unfold uint32. rewrite Zplus_mod_idemp_l. f_equal. lia.
Qed.

Lemma load_store_bytes (dest : Z) (src : list byte) (mem : Z -> byte) :
  0 <= dest < 2 ^ 32 -> Z.of_nat (length src) <= 2 ^ 32 ->
  load_bytes dest (length src) (store_bytes dest src mem) = src.
Proof.
  revert dest mem. induction src as [|b r IH]; intros dest mem Hd Hlen; [done|].
  simpl. f_equal.
  - rewrite store_bytes_other; [by rewrite fn_lookup_insert|apply uint32_range|done|].
    intros i Hi. simpl in Hlen. unfold uint32. rewrite Zplus_mod_idemp_l.
    intros Heq. assert (Hmod : (dest + 1 + Z.of_nat i) mod 2 ^ 32 = dest mod 2 ^ 32).
    { rewrite <- Heq. symmetry. apply Z.mod_small. done. }
    Z.to_euclidean_division_equations. lia.
  - apply IH; [apply uint32_range|]. simpl in Hlen. lia.
Qed.

Section queues.

Context `{!zk_config}.

(** X13: what is written to an empty queue is what the next read returns.
    On a created queue of at least two elements that is empty and has no
    sleeping reader or writer, and whose next slot is not at address 0
    ([zk_memcpy] does nothing for a null pointer), a write of [size] bytes,
    from 1 up to the element size, out of a buffer that holds them,
    whatever its block type and timeout, returns ZK_SUCCESS at once; the
    read that follows returns ZK_SUCCESS and the [size] bytes written, and
    leaves the queue empty again. *)
Theorem queue_write_then_read (queue_handle : nat) (k : kernel) (q : queue_t)
  (buffer : list byte) (size : Z) (write_type read_type : block_type_t)
  (write_timeout read_timeout : Z) :
  (queue_handle < QUEUE_MAX_NUM)%nat ->
  g_queue_pool k !! queue_handle = Some q ->
  queue_is_used q = QUEUE_USED ->
  read_pos q = write_pos q ->
  0 <= write_pos q < element_num q ->
  2 <= element_num q < 2 ^ 32 ->
  0 < size <= element_single_size q ->
  element_single_size q < 2 ^ 32 ->
  (Z.to_nat size <= length buffer)%nat ->
  QUEUE_INDEX_TO_BUFFERADDR q (write_pos q) <> ZK_NULL ->
  members (lists k) (reader_sleep_list queue_handle) = [] ->
  members (lists k) (writer_sleep_list queue_handle) = [] ->
  exists k1 k2 q2,
    queue_write_internal queue_handle buffer size write_type write_timeout k
    = Ok (k1, Return ZK_SUCCESS)
    /\ queue_read_internal queue_handle size read_type read_timeout k1
       = Ok (k2, (Return ZK_SUCCESS, take (Z.to_nat size) buffer))
    /\ g_queue_pool k2 !! queue_handle = Some q2
    /\ queue_empty q2 = true
    /\ lists k2 = lists k.
Proof.
  intros Hh Hq Hused Hempty Hw He Hsize Hes Hbuf Haddr Hreaders Hwriters.
  pose proof (lookup_lt_Some _ _ _ Hq) as Hlen.
  assert (Hrange : queue_positions_in_range q).
  { unfold queue_positions_in_range. rewrite Hempty. lia. }
  set (addr := QUEUE_INDEX_TO_BUFFERADDR q (write_pos q)) in *.
  set (data := take (Z.to_nat size) buffer).
  set (q1 := queue_write_pos_increase q).
  pose (kw := update_queue queue_handle queue_write_pos_increase
                (with_memory (store_bytes addr data (memory (ZK_ENTER_CRITICAL k)))
                   (ZK_ENTER_CRITICAL k))).
  destruct (ZK_EXIT_CRITICAL_fields kw) as (_ & Hl1 & _ & _ & Hp1 & Hmem1 & _).
  assert (Hwrite : queue_write_internal queue_handle buffer size write_type write_timeout k
                   = Ok (ZK_EXIT_CRITICAL kw, Return ZK_SUCCESS)).
  { unfold queue_write_internal, queue_at. rewrite decide_False by lia.
    rewrite Hq. cbn [mbind result_bind]. rewrite decide_False by (by rewrite Hused).
    rewrite decide_False by lia.
    unfold queue_write_attempt, queue_at.
    change (g_queue_pool (ZK_ENTER_CRITICAL k)) with (g_queue_pool k).
    rewrite Hq. cbn [mbind result_bind]. rewrite queue_full_in_range by done.
    fold addr. rewrite decide_False by done. fold data. fold kw.
    assert (Hemp : zk_list_is_empty (reader_sleep_list queue_handle) (lists kw) = true).
    { unfold zk_list_is_empty, head_next.
      change (lists kw) with (lists k). rewrite Hreaders. by apply bool_decide_eq_true. }
    rewrite Hemp. reflexivity. }
  set (k1 := ZK_EXIT_CRITICAL kw) in *.
  assert (Hq1 : g_queue_pool k1 !! queue_handle = Some q1).
  { rewrite Hp1. change (g_queue_pool kw)
      with (alter queue_write_pos_increase queue_handle (g_queue_pool k)).
    rewrite list_lookup_alter, decide_True by done. by rewrite Hq. }
  assert (Hmem : memory k1 = store_bytes addr data (memory k)) by (rewrite Hmem1; done).
  assert (Hlists1 : lists k1 = lists k) by (rewrite Hl1; done).
  clear Hl1 Hp1 Hmem1. clearbody k1. clear kw.
  assert (Hq1r : read_pos q1 = write_pos q).
  { subst q1. unfold queue_write_pos_increase. case_decide; simpl; exact Hempty. }
  assert (Hq1w : write_pos q1 <> write_pos q).
  { subst q1. unfold queue_write_pos_increase. simpl. rewrite uint32_small by lia.
    case_decide; simpl; lia. }
  assert (Hq1fields : data_buffer q1 = data_buffer q
                      /\ element_single_size q1 = element_single_size q
                      /\ element_num q1 = element_num q
                      /\ queue_is_used q1 = queue_is_used q).
  { subst q1. unfold queue_write_pos_increase. simpl. case_decide; done. }
  destruct Hq1fields as (Hdb & Hess & Hen & Hu1).
  assert (Haddr1 : QUEUE_INDEX_TO_BUFFERADDR q1 (read_pos q1) = addr).
  { unfold QUEUE_INDEX_TO_BUFFERADDR. rewrite Hdb, Hess, Hq1r. reflexivity. }
  pose (kr := update_queue queue_handle queue_read_pos_increase (ZK_ENTER_CRITICAL k1)).
  destruct (ZK_EXIT_CRITICAL_fields kr) as (_ & Hl2 & _ & _ & Hp2 & _).
  exists k1, (ZK_EXIT_CRITICAL kr), (queue_read_pos_increase q1).
  split; [exact Hwrite|]. split; [|split; [|split]].
  - unfold queue_read_internal, queue_at. rewrite decide_False by lia.
    rewrite Hq1. cbn [mbind result_bind]. rewrite decide_False by (by rewrite Hu1, Hused).
    rewrite decide_False by lia.
    unfold queue_read_attempt, queue_at.
    change (g_queue_pool (ZK_ENTER_CRITICAL k1)) with (g_queue_pool k1).
    rewrite Hq1. cbn [mbind result_bind].
    assert (Hne : queue_empty q1 = false).
    { unfold queue_empty. apply bool_decide_eq_false. congruence. }
    rewrite Hne, Haddr1. rewrite decide_False by done. fold kr.
    assert (Hemp : zk_list_is_empty (writer_sleep_list queue_handle) (lists kr) = true).
    { unfold zk_list_is_empty, head_next.
      change (lists kr) with (lists k1). rewrite Hlists1, Hwriters.
      by apply bool_decide_eq_true. }
    rewrite Hemp. cbn [negb mbind result_bind].
    change (memory (ZK_ENTER_CRITICAL k1)) with (memory k1). rewrite Hmem.
    assert (Hdata : length data = Z.to_nat size).
    { subst data. rewrite length_take. lia. }
    rewrite <- Hdata. rewrite load_store_bytes; [reflexivity| |].
    + subst addr. apply uint32_range.
    + rewrite Hdata. lia.
  - rewrite Hp2. change (g_queue_pool kr)
      with (alter queue_read_pos_increase queue_handle (g_queue_pool k1)).
    rewrite list_lookup_alter, decide_True by done. by rewrite Hq1.
  - unfold queue_empty. apply bool_decide_eq_true.
    clear -Hempty. subst q1. destruct q as [db rp wp ess en u]. simpl in Hempty. subst rp.
    unfold queue_read_pos_increase, queue_write_pos_increase.
    repeat (case_decide; simpl in *); congruence.
  - rewrite Hl2. exact Hlists1.
Qed.

End queues.

Lemma queue_write_then_read_witness :
  exists k1 k2,
    queue_try_write (H := board) 0 [x2a] 1 queue_created = Ok (k1, Return ZK_SUCCESS)
    /\ queue_try_read (H := board) 0 1 k1 = Ok (k2, (Return ZK_SUCCESS, [x2a])).
Proof.
  destruct (queue_write_then_read (H := board) 0 queue_created
              (mk_queue 0x20000010 0 0 1 2 QUEUE_USED) [x2a] 1
              BLOCK_TYPE_ENDLESS BLOCK_TYPE_ENDLESS ZK_TIMEOUT_NONE ZK_TIMEOUT_NONE)
    as (k1 & k2 & q2 & Hwrite & Hread & _).
  - vm_compute. lia.
  - vm_compute. reflexivity.
  - reflexivity.
  - reflexivity.
  - simpl. lia.
  - simpl. lia.
  - simpl. lia.
  - simpl. lia.
  - simpl. lia.
  - vm_compute. discriminate.
  - vm_compute. reflexivity.
  - vm_compute. reflexivity.
  - exists k1, k2. split; [exact Hwrite|exact Hread].
Defined.

(** ** The heap: alignment, and allocating and freeing on the fresh heap *)

Lemma uint32_land_ones x : uint32 x = Z.land x (Z.ones 32).
Proof. unfold uint32. by rewrite Z.land_ones by lia. Qed.

Lemma land_low_bits addr n : 0 <= n -> Z.land addr (2 ^ n - 1) = addr mod 2 ^ n.
Proof.
  intros Hn. replace (2 ^ n - 1) with (Z.ones n) by (rewrite Z.ones_equiv; lia).
  by apply Z.land_ones.
Qed.

Lemma land_high_bits addr n :
  0 <= n -> 0 <= addr < 2 ^ 32 ->
  Z.land addr (uint32 (Z.lnot (2 ^ n - 1))) = addr - addr mod 2 ^ n.
Proof.
  intros Hn Ha. rewrite uint32_land_ones.
  rewrite (Z.land_comm (Z.lnot _)), Z.land_assoc.
  rewrite <- uint32_land_ones, uint32_small by done.
  replace (2 ^ n - 1) with (Z.ones n) by (rewrite Z.ones_equiv; lia).
  rewrite <- Z.ldiff_land.
  rewrite Z.ldiff_ones_r by done. rewrite Z.shiftr_div_pow2, Z.shiftl_mul_pow2 by done.
  pose proof (Z.div_mod addr (2 ^ n) ltac:(lia)). lia.
Qed.

Lemma zk_addr_align_rounds_up_aux (addr n : Z) :
  0 <= n < 32 -> 0 <= addr < 2 ^ 32 ->
  let align := 2 ^ n in
  let r := zk_addr_align addr align (align - 1) in
  r mod align = 0
  /\ (addr mod align = 0 -> r = addr)
  /\ (addr <= 2 ^ 32 - align -> addr <= r < addr + align)
  /\ (2 ^ 32 - align < addr -> r = 0).
Proof.
  intros Hn Ha align r. subst r. unfold zk_addr_align.
  assert (Hal : 0 < align) by (subst align; lia).
  assert (Hdiv : 2 ^ 32 = align * 2 ^ (32 - n)).
  { subst align. rewrite <- Z.pow_add_r by lia. f_equal. lia. }
  assert (Hpos : 0 < 2 ^ (32 - n)) by lia.
  subst align. rewrite land_low_bits, land_high_bits by lia.
  set (align := 2 ^ n) in *.
  pose proof (Z.mod_pos_bound addr align Hal) as Hm.
  pose proof (Z.div_mod addr align ltac:(lia)) as Hdm.
  destruct (decide (addr mod align <> 0)) as [Hne|Heq].
  - set (q := addr / align) in *.
    replace (addr - addr mod align + align) with (align * (q + 1)) by lia.
    assert (Hq : 0 <= q < 2 ^ (32 - n)) by nia.
    destruct (decide (q + 1 < 2 ^ (32 - n))) as [Hlt|Hge].
    + rewrite uint32_small by nia. split.
      { rewrite Z.mul_comm. apply Z.mod_mul. lia. }
      split; [lia|]. split; [nia|]. intros Hhigh. nia.
    + assert (Hq1 : q + 1 = 2 ^ (32 - n)) by lia.
      assert (Hz : uint32 (align * (q + 1)) = 0).
      { rewrite Hq1, <- Hdiv. reflexivity. }
      rewrite Hz. split; [by apply Z.mod_0_l; lia|]. split; [lia|].
      split; [nia|done].
  - assert (Hz : addr mod align = 0) by lia.
    split; [done|]. split; [done|]. split; [lia|]. intros Hhigh. exfalso.
    assert (Hq : addr / align < 2 ^ (32 - n)) by (apply Z.div_lt_upper_bound; lia).
    assert (align * (addr / align) <= align * (2 ^ (32 - n) - 1))
      by (apply Z.mul_le_mono_nonneg_l; lia).
    lia.
Qed.

(** X14: [zk_addr_align] with a power of two [align] and [mask = align - 1]
    rounds a 32-bit address up to the next multiple of [align]: an aligned
    address is returned as it is; any other gives the multiple above it,
    computed modulo 2^32, so that an address in the last [align - 1] bytes
    of the address space is rounded to 0. *)
Theorem zk_addr_align_rounds_up (addr n : Z) :
  0 <= n < 32 -> 0 <= addr < 2 ^ 32 ->
  let align := 2 ^ n in
  let r := zk_addr_align addr align (align - 1) in
  r mod align = 0
  /\ (addr mod align = 0 -> r = addr)
  /\ (addr <= 2 ^ 32 - align -> addr <= r < addr + align)
  /\ (2 ^ 32 - align < addr -> r = 0).
Proof. apply zk_addr_align_rounds_up_aux. Qed.

Lemma zk_addr_align_rounds_up_witness :
  zk_addr_align 0x20000001 8 7 mod 8 = 0
  /\ 0x20000001 <= zk_addr_align 0x20000001 8 7 < 0x20000001 + 8.
Proof.
  destruct (zk_addr_align_rounds_up 0x20000001 3) as (Hmod & _ & Hup & _); [lia|lia|].
  split; [exact Hmod|]. apply Hup. lia.
Defined.

Section fresh_heap.

Context `{!zk_config}.

Lemma ZK_ASSERT_true : ZK_ASSERT true = Ok tt.
Proof. unfold ZK_ASSERT. by rewrite andb_false_r. Qed.

Lemma mem_alloc_final_size_bounds request_size :
  0 < request_size <= ZK_UINT32_MAX - MEM_BLOCK_ALIGNMENT - ZK_BYTE_ALIGNMENT ->
  let F := mem_alloc_final_size request_size in
  MEM_BLOCK_MIN_SIZE <= F /\ request_size + MEM_BLOCK_ALIGNMENT <= F
  /\ F < request_size + MEM_BLOCK_ALIGNMENT + ZK_BYTE_ALIGNMENT + MEM_BLOCK_MIN_SIZE
  /\ F mod ZK_BYTE_ALIGNMENT = 0.
Proof.
  change MEM_BLOCK_ALIGNMENT with 16. change ZK_BYTE_ALIGNMENT with 8.
  change MEM_BLOCK_MIN_SIZE with 32. change ZK_UINT32_MAX with (2 ^ 32 - 1).
  intros Hr F. subst F. unfold mem_alloc_final_size.
  change MEM_BLOCK_ALIGNMENT with 16. change ZK_BYTE_ALIGNMENT with 8.
  change MEM_BLOCK_MIN_SIZE with 32. change ZK_BYTE_ALIGNMENT_MASK with (2 ^ 3 - 1).
  change 8 with (2 ^ 3) at 1.
  rewrite (uint32_small (request_size + 16)) by lia.
  destruct (zk_addr_align_rounds_up_aux (request_size + 16) 3) as (Hmod & _ & Hup & _);
    [lia|lia|].
  specialize (Hup ltac:(lia)). change (2 ^ 3) with 8 in *.
  destruct (decide (zk_addr_align (request_size + 16) 8 (8 - 1) < 32)).
  - split; [lia|]. split; [lia|]. split; [lia|]. reflexivity.
  - split; [lia|]. split; [lia|]. split; [lia|]. exact Hmod.
Qed.

Lemma mem_alloc_then_mem_free_whole (m : mem_manager_t) (base total request_size : Z) :
  whole_heap m base total ->
  0 <= base -> base + total < 2 ^ 32 -> MEM_BLOCK_MIN_SIZE <= total ->
  total + MEM_BLOCK_MIN_SIZE < 2 ^ 32 ->
  0 < request_size <= ZK_UINT32_MAX - MEM_BLOCK_ALIGNMENT - ZK_BYTE_ALIGNMENT ->
  let F := mem_alloc_final_size request_size in
  F <= total ->
  exists m1 m2,
    mem_alloc request_size m = Ok (m1, base + MEM_BLOCK_ALIGNMENT)
    /\ available_size m1 = total - F
    /\ used_list m1
       = [mk_block base (if decide (total - F >= MEM_BLOCK_MIN_SIZE) then F else total)]
    /\ free_list m1 = (if decide (total - F >= MEM_BLOCK_MIN_SIZE)
                       then [mk_block (base + F) (total - F)] else [])
    /\ mem_free (base + MEM_BLOCK_ALIGNMENT) m1 = Ok m2
    /\ free_list m2 = [mk_block base total] /\ used_list m2 = []
    /\ base_address m2 = base /\ total_size m2 = total /\ is_initialized m2 = true
    /\ available_size m2
       = if decide (total - F >= MEM_BLOCK_MIN_SIZE) then total else total - F + total.
Proof.
  intros (Hfree & Hused & Hav & Hbase & Htot & Hinit) Hb Hend Hmin Hroom Hreq F HF.
  destruct (mem_alloc_final_size_bounds request_size Hreq) as (HFmin & HFreq & _ & _).
  fold F in HFmin, HFreq.
  revert Hmin Hroom Hreq HFmin HFreq.
  change MEM_BLOCK_ALIGNMENT with 16. change ZK_BYTE_ALIGNMENT with 8.
  change MEM_BLOCK_MIN_SIZE with 32. change ZK_UINT32_MAX with (2 ^ 32 - 1).
  intros Hmin Hroom Hreq HFmin HFreq.
  (* the allocation *)
  assert (Hscan : mem_alloc_scan F None (free_list m) = (true, Some (mk_block base total))).
  { rewrite Hfree. simpl. by rewrite decide_True by lia. }
  assert (Halloc : exists m1,
            mem_alloc request_size m = Ok (m1, base + 16)
            /\ available_size m1 = total - F
            /\ used_list m1 = [mk_block base (if decide (total - F >= 32) then F else total)]
            /\ free_list m1 = (if decide (total - F >= 32)
                               then [mk_block (base + F) (total - F)] else [])
            /\ base_address m1 = base /\ total_size m1 = total
            /\ is_initialized m1 = true).
  { unfold mem_alloc. rewrite Hinit, ZK_ASSERT_true. cbn [mbind result_bind].
    rewrite decide_False by lia.
    rewrite bool_decide_eq_true_2
      by (change MEM_BLOCK_ALIGNMENT with 16; change ZK_UINT32_MAX with (2 ^ 32 - 1); lia).
    rewrite ZK_ASSERT_true. cbn [mbind result_bind].
    unfold zk_add_overflow. change MEM_BLOCK_ALIGNMENT with 16.
    rewrite (uint32_small (request_size + 16)) by lia.
    rewrite !bool_decide_eq_false_2 by lia. cbn [fst orb].
    fold F. rewrite Hav. rewrite decide_False by lia.
    rewrite Hscan. cbn [block_addr block_size]. change MEM_BLOCK_MIN_SIZE with 32.
    rewrite (uint32_small (total - F)) by lia.
    rewrite (uint32_small (base + 16)) by lia.
    destruct (decide (total - F >= 32)) as [Hsplit|Hwhole].
    - eexists. split; [reflexivity|]. rewrite Hfree, Hused. cbn.
      destruct (decide (base = base)) as [_|]; [|done]. cbn.
      rewrite Hav, Htot.
      rewrite (uint32_small (total - F)) by lia.
      rewrite (uint32_small (base + F)) by lia.
      case_decide; cbn; rewrite ?Hbase, ?Htot, ?Hinit;
        rewrite ?(uint32_small (total - F)) by lia; done.
    - eexists. split; [reflexivity|]. rewrite Hfree, Hused. cbn.
      destruct (decide (base = base)) as [_|]; [|done]. cbn.
      rewrite Hav, Htot.
      rewrite (uint32_small (total - F)) by lia.
      case_decide; cbn; rewrite ?Hbase, ?Htot, ?Hinit;
        rewrite ?(uint32_small (total - F)) by lia; done. }
  destruct Halloc as (m1 & Halloc & Hav1 & Hused1 & Hfree1 & Hbase1 & Htot1 & Hinit1).
  exists m1.
  (* the release *)
  set (size := if decide (total - F >= 32) then F else total) in *.
  assert (Hsize : 32 <= size <= total) by (subst size; case_decide; lia).
  assert (Hmerge : mem_merge_free_blocks (mk_block base size) (free_list m1)
                   = [mk_block base total]).
  { rewrite Hfree1. subst size. unfold mem_merge_free_blocks.
    destruct (decide (total - F >= 32)) as [Hsplit|Hwhole].
    - rewrite decide_False by done. cbn [split_by_addr block_addr].
      rewrite decide_True by lia. cbn.
      rewrite (uint32_small (base + F)) by lia. rewrite decide_True by done.
      cbn. rewrite uint32_small by lia. do 2 f_equal. lia.
    - by rewrite decide_True. }
  assert (Hfree_ok : exists m2,
            mem_free (base + 16) m1 = Ok m2
            /\ free_list m2 = [mk_block base total] /\ used_list m2 = []
            /\ base_address m2 = base /\ total_size m2 = total
            /\ is_initialized m2 = true
            /\ available_size m2 = uint32 (total - F + size)).
  { unfold mem_free. rewrite decide_False by (change ZK_NULL with 0; lia).
    rewrite Hinit1, ZK_ASSERT_true. cbn [mbind result_bind].
    change MEM_BLOCK_ALIGNMENT with 16.
    replace (base + 16 - 16) with base by lia. rewrite (uint32_small base) by lia.
    rewrite Hbase1, Htot1. rewrite (uint32_small (base + total)) by lia.
    rewrite (bool_decide_eq_true_2 (base >= base)) by lia.
    rewrite ZK_ASSERT_true. cbn [mbind result_bind].
    rewrite (bool_decide_eq_true_2 (base < base + total)) by lia.
    rewrite ZK_ASSERT_true. cbn [mbind result_bind].
    rewrite Hused1. cbn [list_find block_addr]. rewrite decide_True by done.
    cbn [fmap option_fmap option_map prod_map block_size]. change MEM_BLOCK_MIN_SIZE with 32.
    rewrite bool_decide_eq_true_2 by lia.
    rewrite ZK_ASSERT_true. cbn [mbind result_bind].
    rewrite bool_decide_eq_true_2 by lia.
    rewrite ZK_ASSERT_true. cbn [mbind result_bind].
    eexists. split; [reflexivity|]. cbn. rewrite Hmerge, Hav1, Hused1. cbn.
    rewrite decide_True by done. done. }
  destruct Hfree_ok as (m2 & Hfr & Hf2 & Hu2 & Hb2 & Ht2 & Hi2 & Ha2).
  exists m2. repeat (split; [done|]).
  rewrite Ha2. subst size. case_decide.
  - rewrite uint32_small by lia. lia.
  - rewrite uint32_small by lia. lia.
Qed.

Lemma mem_init_whole_heap (m : mem_manager_t) :
  0 <= g_heap -> g_heap + CONFIG_TOTAL_MEM_SIZE < 2 ^ 32 ->
  let heap := mem_init m in
  whole_heap heap (base_address heap) (total_size heap)
  /\ g_heap <= base_address heap < g_heap + ZK_BYTE_ALIGNMENT
  /\ base_address heap + total_size heap = g_heap + CONFIG_TOTAL_MEM_SIZE.
Proof.
  intros Hg Hend heap. subst heap. unfold mem_init. cbn.
  change CONFIG_TOTAL_MEM_SIZE with 10240 in *. change ZK_BYTE_ALIGNMENT with 8.
  change ZK_BYTE_ALIGNMENT_MASK with (2 ^ 3 - 1). change 8 with (2 ^ 3) at 1 2 3 4 5 6.
  destruct (zk_addr_align_rounds_up_aux g_heap 3) as (_ & _ & Hup & _); [lia|lia|].
  specialize (Hup ltac:(lia)). change (2 ^ 3) with 8 in *.
  set (base := zk_addr_align g_heap 8 (8 - 1)) in *.
  rewrite (uint32_small (base - g_heap)) by lia.
  rewrite (uint32_small (10240 - (base - g_heap))) by lia.
  split; [done|]. split; [lia|lia].
Qed.

(** X15: allocating and freeing on the fresh heap.  On the heap [mem_init]
    leaves, for an array [g_heap] that lies inside the address space, a
    request whose block size, the request plus the 16-byte header rounded up
    to 8 and at least 32, either leaves a remainder of at least 32 bytes or
    takes the whole heap: [mem_alloc] returns the address 16 bytes above the
    base, records one used block of that size and counts that size off
    [available_size]; [mem_free] of that address merges the block back, and
    the heap is again one free block that spans it, with all of it
    available. *)
Theorem mem_alloc_then_mem_free_on_the_fresh_heap (m : mem_manager_t) (request_size : Z) :
  0 <= g_heap -> g_heap + CONFIG_TOTAL_MEM_SIZE < 2 ^ 32 ->
  0 < request_size <= CONFIG_TOTAL_MEM_SIZE ->
  let heap := mem_init m in
  let F := mem_alloc_final_size request_size in
  F <= total_size heap - MEM_BLOCK_MIN_SIZE \/ F = total_size heap ->
  exists m1 m2,
    mem_alloc request_size heap = Ok (m1, base_address heap + MEM_BLOCK_ALIGNMENT)
    /\ used_list m1 = [mk_block (base_address heap) F]
    /\ available_size m1 = total_size heap - F
    /\ mem_free (base_address heap + MEM_BLOCK_ALIGNMENT) m1 = Ok m2
    /\ whole_heap m2 (base_address heap) (total_size heap).
Proof.
  intros Hg Hend Hreq heap F HF.
  destruct (mem_init_whole_heap m Hg Hend) as (Hwhole & Hbase & Htotal).
  fold heap in Hwhole, Hbase, Htotal.
  revert HF Hreq Hend Hbase Htotal.
  change CONFIG_TOTAL_MEM_SIZE with 10240. change ZK_BYTE_ALIGNMENT with 8.
  change MEM_BLOCK_MIN_SIZE with 32.
  intros HF Hreq Hend Hbase Htotal.
  destruct (mem_alloc_then_mem_free_whole heap (base_address heap) (total_size heap)
              request_size Hwhole)
    as (m1 & m2 & Halloc & Hav1 & Hused1 & _ & Hfree & Hf2 & Hu2 & Hb2 & Ht2 & Hi2 & Ha2);
    try (change MEM_BLOCK_MIN_SIZE with 32; change MEM_BLOCK_ALIGNMENT with 16;
         change ZK_BYTE_ALIGNMENT with 8; change ZK_UINT32_MAX with (2 ^ 32 - 1); lia).
  fold F in Hav1, Hused1, Ha2. change MEM_BLOCK_MIN_SIZE with 32 in *.
  exists m1, m2. split; [exact Halloc|]. split.
  { rewrite Hused1. case_decide; [done|]. do 2 f_equal. lia. }
  split; [exact Hav1|]. split; [exact Hfree|].
  unfold whole_heap. repeat (split; [done|]). split; [|done].
  rewrite Ha2. case_decide; lia.
Qed.

(** X16: [mem_free] gives back more than [mem_alloc] took.  On the fresh
    heap, a request whose block size leaves a remainder of 1 to 31 bytes is
    given the whole block, and the free list is left empty, but only the
    block size is counted off [available_size]; [mem_free] counts the whole
    block back, so that afterwards [available_size] exceeds [total_size] by
    the remainder. *)
Theorem mem_free_returns_more_than_mem_alloc_took (m : mem_manager_t) (request_size : Z) :
  0 <= g_heap -> g_heap + CONFIG_TOTAL_MEM_SIZE < 2 ^ 32 ->
  0 < request_size <= CONFIG_TOTAL_MEM_SIZE ->
  let heap := mem_init m in
  let F := mem_alloc_final_size request_size in
  total_size heap - MEM_BLOCK_MIN_SIZE < F < total_size heap ->
  exists m1 m2,
    mem_alloc request_size heap = Ok (m1, base_address heap + MEM_BLOCK_ALIGNMENT)
    /\ used_list m1 = [mk_block (base_address heap) (total_size heap)]
    /\ free_list m1 = []
    /\ available_size m1 = total_size heap - F
    /\ mem_free (base_address heap + MEM_BLOCK_ALIGNMENT) m1 = Ok m2
    /\ free_list m2 = [mk_block (base_address heap) (total_size heap)]
    /\ used_list m2 = []
    /\ total_size m2 = total_size heap
    /\ available_size m2 = total_size heap + (total_size heap - F).
Proof.
  intros Hg Hend Hreq heap F HF.
  destruct (mem_init_whole_heap m Hg Hend) as (Hwhole & Hbase & Htotal).
  fold heap in Hwhole, Hbase, Htotal.
  revert HF Hreq Hend Hbase Htotal.
  change CONFIG_TOTAL_MEM_SIZE with 10240. change ZK_BYTE_ALIGNMENT with 8.
  change MEM_BLOCK_MIN_SIZE with 32.
  intros HF Hreq Hend Hbase Htotal.
  destruct (mem_alloc_then_mem_free_whole heap (base_address heap) (total_size heap)
              request_size Hwhole)
    as (m1 & m2 & Halloc & Hav1 & Hused1 & Hfree1 & Hfree & Hf2 & Hu2 & Hb2 & Ht2 & Hi2 & Ha2);
    try (change MEM_BLOCK_MIN_SIZE with 32; change MEM_BLOCK_ALIGNMENT with 16;
         change ZK_BYTE_ALIGNMENT with 8; change ZK_UINT32_MAX with (2 ^ 32 - 1); lia).
  fold F in Hav1, Hused1, Hfree1, Ha2. change MEM_BLOCK_MIN_SIZE with 32 in *.
  rewrite decide_False in Hused1 by lia. rewrite decide_False in Hfree1 by lia.
  rewrite decide_False in Ha2 by lia.
  exists m1, m2. repeat (split; [done|]). rewrite Ha2. lia.
Qed.

End fresh_heap.

Lemma mem_alloc_then_mem_free_on_the_fresh_heap_witness :
  exists m1 m2,
    mem_alloc (H := board) 100 (mem_init (H := board) (g_mem_manager power_on))
    = Ok (m1, 0x20000010)
    /\ mem_free (H := board) 0x20000010 m1 = Ok m2
    /\ free_list m2 = [mk_block 0x20000000 10240].
Proof.
  destruct (mem_alloc_then_mem_free_on_the_fresh_heap (H := board)
              (g_mem_manager power_on) 100)
    as (m1 & m2 & Halloc & _ & _ & Hfree & Hwhole & _).
  - simpl. lia.
  - vm_compute. reflexivity.
  - vm_compute. split; [reflexivity|discriminate].
  - left. vm_compute. discriminate.
  - exists m1, m2. split; [exact Halloc|]. split; [exact Hfree|exact Hwhole].
Defined.

Lemma mem_free_returns_more_than_mem_alloc_took_witness :
  exists m1 m2,
    mem_alloc (H := board) 10216 (mem_init (H := board) (g_mem_manager power_on))
    = Ok (m1, 0x20000010)
    /\ available_size m1 = 8
    /\ mem_free (H := board) 0x20000010 m1 = Ok m2
    /\ total_size m2 = 10240
    /\ available_size m2 = 10248.
Proof.
  destruct (mem_free_returns_more_than_mem_alloc_took (H := board)
              (g_mem_manager power_on) 10216)
    as (m1 & m2 & Halloc & _ & _ & Hav1 & Hfree & _ & _ & Htot & Hav2).
  - simpl. lia.
  - vm_compute. reflexivity.
  - vm_compute. split; [reflexivity|discriminate].
  - vm_compute. split; reflexivity.
  - exists m1, m2. split; [exact Halloc|]. split; [exact Hav1|]. split; [exact Hfree|].
    split; [exact Htot|exact Hav2].
Defined.

(** ** Software timers *)

Lemma int32_difference_of_offsets (now a b : Z) :
  uint32 (a - now) < 2 ^ 31 -> uint32 (b - now) < 2 ^ 31 ->
  int32 (uint32 (a - b)) = uint32 (a - now) - uint32 (b - now).
Proof.
  unfold int32, uint32. intros Ha Hb.
  case_decide; Z.to_euclidean_division_equations; lia.
Qed.

Lemma sorted_by_filter (f : nat -> Z) (P : nat -> Prop) `{!forall x, Decision (P x)}
  (l : list nat) :
  sorted_by f l -> sorted_by f (filter P l).
Proof.
  induction l as [|a r IH]; [done|]. intros [Ha Hr]. rewrite filter_cons.
  destruct (decide (P a)); [|by apply IH].
  split; [|by apply IH]. rewrite list.Forall_forall in Ha |- *.
  intros b [_ Hb]%list_elem_of_filter. by apply Ha.
Qed.

Lemma sorted_by_ext (f g : nat -> Z) (l : list nat) :
  (forall a, a ∈ l -> f a = g a) -> sorted_by f l -> sorted_by g l.
Proof.
  induction l as [|a r IH]; [done|]. intros Heq [Ha Hr]. split.
  - rewrite list.Forall_forall in Ha |- *. intros b Hb.
    rewrite <- !Heq; [by apply Ha| |]; apply elem_of_cons; auto.
  - apply IH; [|done]. intros b Hb. apply Heq. apply elem_of_cons. auto.
Qed.

Lemma add_timer_scan_sorted (now : Z) (ts : timer_module) (handle : nat) (l : list nat)
  (wake : Z) :
  (forall i, i ∈ l -> is_Some (g_timer_pool ts !! i)) ->
  (forall i, i ∈ l -> timer_offset now ts i < 2 ^ 31) ->
  timer_offset now ts handle = uint32 (wake - now) ->
  timer_offset now ts handle < 2 ^ 31 ->
  sorted_by (timer_offset now ts) l ->
  exists l', add_timer_scan wake handle l ts = Ok l'
             /\ l' ≡ₚ handle :: l
             /\ sorted_by (timer_offset now ts) l'.
Proof.
  intros Hpool Hlt Hh Hhlt. revert Hpool Hlt.
  induction l as [|i r IH]; intros Hpool Hlt Hsorted.
  - exists [handle]. split; [done|]. split; [done|]. split; [apply Forall_nil_2|done].
  - destruct Hsorted as [Hi Hr]. simpl. unfold timer_at.
    destruct (Hpool i ltac:(apply elem_of_cons; auto)) as [ti Hti]. rewrite Hti.
    cbn [mbind result_bind].
    assert (Hoff : timer_offset now ts i = uint32 (timer_wake_up_time ti - now)).
    { unfold timer_offset. by rewrite Hti. }
    assert (Hilt : timer_offset now ts i < 2 ^ 31) by (apply Hlt, elem_of_cons; auto).
    rewrite (int32_difference_of_offsets now) by (rewrite <- ?Hoff, <- ?Hh; done).
    rewrite <- Hoff, <- Hh.
    destruct (decide (timer_offset now ts i - timer_offset now ts handle > 0)) as [Hgt|Hle].
    + exists (handle :: i :: r). split; [done|]. split; [done|]. split; [|done].
      constructor; [lia|].
      rewrite list.Forall_forall in Hi |- *. intros b Hb. specialize (Hi b Hb). lia.
    + destruct IH as (r' & Hscan & Hperm & Hsr); [| |done|].
      { intros j Hj. apply Hpool, elem_of_cons. auto. }
      { intros j Hj. apply Hlt, elem_of_cons. auto. }
      rewrite Hscan. cbn [mbind result_bind].
      exists (i :: r'). split; [done|]. split.
      { rewrite Hperm. apply Permutation_swap. }
      split; [|done]. rewrite Hperm. constructor; [lia|done].
Qed.

Lemma timer_offset_other (now : Z) (ts ts' : timer_module) (i : nat) :
  g_timer_pool ts' !! i = g_timer_pool ts !! i ->
  timer_offset now ts' i = timer_offset now ts i.
Proof. unfold timer_offset. by intros ->. Qed.

Lemma filter_not_elem (handle : nat) (l : list nat) :
  handle ∉ l -> filter (fun i => i <> handle) l = l.
Proof.
  induction l as [|a r IH]; [done|]. intros Hn. rewrite filter_cons.
  rewrite decide_True by (intros ->; apply Hn; apply elem_of_cons; auto).
  f_equal. apply IH. intros Hin. apply Hn. apply elem_of_cons. auto.
Qed.

Section timer_properties.

Variable TIMER_MAX_NUM : nat.

Lemma timer_start_spec (timer_handle : nat) (k : kernel) (ts : timer_module) (timer : timer_t) :
  let now := g_current_time k in
  timers_wf now ts -> 0 <= now < 2 ^ 32 ->
  (timer_handle < TIMER_MAX_NUM)%nat ->
  g_timer_pool ts !! timer_handle = Some timer ->
  timer_is_used timer <> 0 ->
  0 < timer_interval timer < ZK_TSK_DLY_MAX ->
  exists ts' timer',
    timer_start TIMER_MAX_NUM timer_handle k ts
    = Ok (ZK_EXIT_CRITICAL (ZK_ENTER_CRITICAL k), ts', ZK_SUCCESS)
    /\ timers_wf now ts'
    /\ timers_list ts' ≡ₚ timer_handle :: filter (fun i => i <> timer_handle) (timers_list ts)
    /\ g_timer_pool ts' !! timer_handle = Some timer'
    /\ timer_status timer' = TIMER_RUNNING
    /\ timer_wake_up_time timer' = uint32 (now + timer_interval timer)
    /\ timer_interval timer' = timer_interval timer
    /\ timer_mode timer' = timer_mode timer
    /\ timer_handler timer' = timer_handler timer
    /\ timer_param timer' = timer_param timer
    /\ timer_is_used timer' = timer_is_used timer
    /\ forall i, i <> timer_handle -> g_timer_pool ts' !! i = g_timer_pool ts !! i.
Proof.
  intros now (Hnodup & Hmem & Hlt & Hsorted) Hnow Hh Ht Hused Hiv.
  change ZK_TSK_DLY_MAX with (2 ^ 31 - 1) in Hiv.
  set (l := timers_list ts) in *. set (la := filter (fun i => i <> timer_handle) l).
  (* the timer is taken off the list if it runs *)
  assert (Hrem : exists ts_a node,
            (if decide (timer_status timer = TIMER_RUNNING)
             then remove_timer_from_list timer_handle ts else Ok ts) = Ok ts_a
            /\ timers_list ts_a = la
            /\ g_timer_pool ts_a !! timer_handle = Some (with_timer_list node timer)
            /\ forall i, i <> timer_handle -> g_timer_pool ts_a !! i = g_timer_pool ts !! i).
  { destruct (decide (timer_status timer = TIMER_RUNNING)) as [Hrun|Hstop].
    - assert (Hin : timer_handle ∈ l) by (apply Hmem; eauto).
      unfold remove_timer_from_list, timer_at. rewrite Ht. cbn [mbind result_bind].
      rewrite decide_True by done. eexists _, TIMER_NODE_NULL. split; [reflexivity|].
      cbn [timers_list g_timer_pool]. split; [done|]. split.
      + rewrite list_lookup_alter, decide_True by done. by rewrite Ht.
      + intros i Hi. by rewrite list_lookup_alter_ne.
    - assert (Hnin : timer_handle ∉ l).
      { intros Hin. apply Hmem in Hin as (t' & Ht' & Hr). congruence. }
      exists ts, (timer_list timer). split; [done|]. split.
      { subst la. by rewrite filter_not_elem. }
      split; [|done]. rewrite Ht. by destruct timer. }
  destruct Hrem as (ts_a & node & Hrem & Hla & Hta & Hothers_a).
  set (f := fun t => with_timer_status TIMER_RUNNING
                       (with_timer_wake_up_time (uint32 (now + timer_interval t)) t)).
  set (ts_b := update_timer timer_handle f ts_a).
  set (tb := f (with_timer_list node timer)).
  assert (Htb : g_timer_pool ts_b !! timer_handle = Some tb).
  { subst ts_b. cbn. rewrite list_lookup_alter, decide_True by done. by rewrite Hta. }
  assert (Hothers_b : forall i, i <> timer_handle ->
                        g_timer_pool ts_b !! i = g_timer_pool ts !! i).
  { intros i Hi. subst ts_b. cbn. rewrite list_lookup_alter_ne by done. by apply Hothers_a. }
  assert (Hlb : timers_list ts_b = la) by exact Hla.
  assert (Hla_sub : forall i, i ∈ la -> i ∈ l /\ i <> timer_handle).
  { intros i Hi%list_elem_of_filter. tauto. }
  assert (Hoff_h : timer_offset now ts_b timer_handle = timer_interval timer).
  { unfold timer_offset. rewrite Htb. subst tb f. cbn. unfold uint32.
    Z.to_euclidean_division_equations. lia. }
  destruct (add_timer_scan_sorted now ts_b timer_handle la
              (uint32 (now + timer_interval timer)))
    as (l' & Hscan & Hperm & Hsorted').
  { intros i Hi. destruct (Hla_sub i Hi) as [Hil Hne]. rewrite Hothers_b by done.
    apply Hmem in Hil as (t' & Ht' & _). by rewrite Ht'. }
  { intros i Hi. destruct (Hla_sub i Hi) as [Hil Hne].
    rewrite (timer_offset_other now ts) by (by apply Hothers_b). by apply Hlt. }
  { rewrite Hoff_h. unfold uint32. Z.to_euclidean_division_equations. lia. }
  { rewrite Hoff_h. lia. }
  { apply (sorted_by_ext (timer_offset now ts)).
    - intros i Hi. destruct (Hla_sub i Hi) as [Hil Hne]. symmetry.
      by apply timer_offset_other, Hothers_b.
    - by apply sorted_by_filter. }
  exists (mk_timers (g_timer_pool ts_b) l'), tb.
  split.
  { unfold timer_start. rewrite decide_False by lia. unfold timer_at at 1. rewrite Ht.
    cbn [mbind result_bind]. rewrite decide_False by done.
    rewrite Hrem. cbn [mbind result_bind].
    change (get_current_time (ZK_ENTER_CRITICAL k)) with now. fold f. fold ts_b.
    unfold add_timer_to_list, timer_at. rewrite Htb. cbn [mbind result_bind].
    rewrite Hlb. rewrite decide_False by (intros Hi%Hla_sub; tauto).
    change (timer_wake_up_time tb) with (uint32 (now + timer_interval timer)).
    rewrite Hscan. reflexivity. }
  assert (Hin' : forall i, i ∈ l' <-> i = timer_handle \/ (i ∈ l /\ i <> timer_handle)).
  { intros i. rewrite Hperm, elem_of_cons. subst la. rewrite list_elem_of_filter. tauto. }
  split; [|split; [exact Hperm|]].
  - split; [|split; [|split]]; cbn [timers_list g_timer_pool].
    + rewrite Hperm. apply NoDup_cons_2.
      * intros Hi%Hla_sub. tauto.
      * by apply list.NoDup_filter.
    + intros i. rewrite Hin'. destruct (decide (i = timer_handle)) as [->|Hne].
      * split; [|tauto]. intros _. exists tb. done.
      * rewrite Hothers_b by done. rewrite <- Hmem. tauto.
    + intros i Hi%Hin'. destruct Hi as [->|[Hil Hne]].
      * change (timer_offset now {| g_timer_pool := g_timer_pool ts_b; timers_list := l' |}
                  timer_handle) with (timer_offset now ts_b timer_handle).
        rewrite Hoff_h. lia.
      * rewrite (timer_offset_other now ts) by (by apply Hothers_b). by apply Hlt.
    + exact Hsorted'.
  - cbn [g_timer_pool]. split; [exact Htb|]. repeat (split; [done|]). exact Hothers_b.
Qed.

(** X17: [timer_start] keeps the timer list in order.  At a time when the
    list holds exactly the running timers, each once and less than 2^31
    ticks from its expiry, the nearest first, starting a created timer whose
    interval is in the range [timer_create] accepts returns ZK_SUCCESS and
    leaves the list in that state again, with the started timer a member,
    running and due one interval from now; no other timer changes. *)
Theorem timer_start_keeps_the_list_sorted (timer_handle : nat) (k : kernel)
  (ts : timer_module) (timer : timer_t) :
  let now := g_current_time k in
  timers_wf now ts -> 0 <= now < 2 ^ 32 ->
  (timer_handle < TIMER_MAX_NUM)%nat ->
  g_timer_pool ts !! timer_handle = Some timer ->
  timer_is_used timer <> 0 ->
  0 < timer_interval timer < ZK_TSK_DLY_MAX ->
  exists k' ts' timer',
    timer_start TIMER_MAX_NUM timer_handle k ts = Ok (k', ts', ZK_SUCCESS)
    /\ timers_wf now ts'
    /\ timer_handle ∈ timers_list ts'
    /\ (forall i, i <> timer_handle -> i ∈ timers_list ts' <-> i ∈ timers_list ts)
    /\ g_timer_pool ts' !! timer_handle = Some timer'
    /\ timer_status timer' = TIMER_RUNNING
    /\ timer_wake_up_time timer' = uint32 (now + timer_interval timer)
    /\ forall i, i <> timer_handle -> g_timer_pool ts' !! i = g_timer_pool ts !! i.
Proof.
  intros now Hwf Hnow Hh Ht Hused Hiv.
  destruct (timer_start_spec timer_handle k ts timer Hwf Hnow Hh Ht Hused Hiv)
    as (ts' & timer' & Hstart & Hwf' & Hperm & Ht' & Hrun & Hwake & _ & _ & _ & _ & _ & Hoth).
  exists (ZK_EXIT_CRITICAL (ZK_ENTER_CRITICAL k)), ts', timer'.
  split; [exact Hstart|]. split; [exact Hwf'|]. split.
  { rewrite Hperm. apply elem_of_cons. auto. }
  split.
  { intros i Hi. rewrite Hperm, elem_of_cons, list_elem_of_filter. tauto. }
  done.
Qed.

(** X18: right after [timer_start], [timer_get_remaining] gives the whole
    interval: both return ZK_SUCCESS and the remaining time stored is the
    interval of the timer. *)
Theorem timer_get_remaining_after_timer_start (timer_handle : nat) (k : kernel)
  (ts : timer_module) (timer : timer_t) :
  let now := g_current_time k in
  timers_wf now ts -> 0 <= now < 2 ^ 32 ->
  (timer_handle < TIMER_MAX_NUM)%nat ->
  g_timer_pool ts !! timer_handle = Some timer ->
  timer_is_used timer <> 0 ->
  0 < timer_interval timer < ZK_TSK_DLY_MAX ->
  exists k1 ts1 k2,
    timer_start TIMER_MAX_NUM timer_handle k ts = Ok (k1, ts1, ZK_SUCCESS)
    /\ timer_get_remaining TIMER_MAX_NUM timer_handle k1 ts1
       = Ok (k2, (ZK_SUCCESS, Some (timer_interval timer))).
Proof.
  intros now Hwf Hnow Hh Ht Hused Hiv.
  destruct (timer_start_spec timer_handle k ts timer Hwf Hnow Hh Ht Hused Hiv)
    as (ts' & timer' & Hstart & _ & _ & Ht' & Hrun & Hwake & _ & _ & _ & _ & Hused' & _).
  change ZK_TSK_DLY_MAX with (2 ^ 31 - 1) in Hiv.
  set (k1 := ZK_EXIT_CRITICAL (ZK_ENTER_CRITICAL k)) in *.
  assert (Hnow1 : g_current_time k1 = now).
  { subst k1. by destruct (ZK_EXIT_CRITICAL_fields (ZK_ENTER_CRITICAL k))
      as (_ & _ & _ & _ & _ & _ & _ & _ & ->). }
  exists k1, ts', (ZK_EXIT_CRITICAL (ZK_ENTER_CRITICAL k1)). split; [exact Hstart|].
  unfold timer_get_remaining, timer_at. rewrite decide_False by lia. rewrite Ht'.
  cbn [mbind result_bind]. rewrite decide_False by (by rewrite Hused').
  rewrite decide_False by (rewrite Hrun; intros Hc; by apply Hc).
  change (get_current_time (ZK_ENTER_CRITICAL k1)) with (g_current_time k1).
  rewrite Hnow1, Hwake. fold now.
  assert (Hd : uint32 (uint32 (now + timer_interval timer) - now) = timer_interval timer).
  { unfold uint32. Z.to_euclidean_division_equations. lia. }
  rewrite Hd. unfold int32. rewrite (uint32_small (timer_interval timer)) by lia.
  rewrite (decide_True (P := timer_interval timer < 2 ^ 31)) by lia.
  rewrite decide_True by lia. reflexivity.
Qed.

End timer_properties.

Lemma critical_section_round_trip (k : kernel) :
  zk_critical_nesting k = 0 -> pendsv_pending k = false ->
  ZK_EXIT_CRITICAL (ZK_ENTER_CRITICAL k) = k.
Proof.
  intros Hn Hp. unfold ZK_EXIT_CRITICAL, ZK_ENTER_CRITICAL. destruct k. simpl in *.
  subst. reflexivity.
Qed.

Lemma due_at_offset_zero (current wake : Z) :
  uint32 (wake - current) < 2 ^ 31 ->
  int32 (uint32 (current - wake)) >= 0 <-> uint32 (wake - current) = 0.
Proof.
  unfold int32, uint32. intros Hd.
  case_decide; Z.to_euclidean_division_equations; lia.
Qed.

Lemma lone_timer_tick (k : kernel) (ts : timer_module) (h : nat) (t : timer_t) :
  let now := g_current_time k in
  let offset := uint32 (timer_wake_up_time t - now) in
  kernel_wf k -> timers_list ts = [h] -> g_timer_pool ts !! h = Some t ->
  timer_mode t = TIMER_AUTO_RELOAD -> timer_handler t <> ZK_NULL ->
  offset < 2 ^ 31 ->
  exists k' ts' t' need,
    scheduler_increment_tick_with_timers k ts
    = Ok (k', ts',
          (if decide (offset = 0) then [(timer_handler t, timer_param t)] else []), need)
    /\ kernel_wf k' /\ g_current_time k' = uint32 (now + 1)
    /\ timers_list ts' = [h] /\ g_timer_pool ts' !! h = Some t'
    /\ timer_mode t' = timer_mode t /\ timer_handler t' = timer_handler t
    /\ timer_param t' = timer_param t /\ timer_interval t' = timer_interval t
    /\ timer_wake_up_time t'
       = (if decide (offset = 0) then uint32 (uint32 (now + 1) + timer_interval t)
          else timer_wake_up_time t).
Proof.
  intros now offset Hwf Hl Ht Hmode Hhandler Hoff.
  destruct (scheduler_increment_tick_wf k Hwf)
    as (k' & need & woken & Htick & Hwf' & Htime' & _).
  pose proof Hwf' as (_ & _ & _ & Hnest' & Hpend' & _).
  exists k'. unfold scheduler_increment_tick_with_timers. rewrite Htick.
  cbn [mbind result_bind]. change (get_current_time k) with now.
  unfold timer_check. rewrite Hl. cbn [timer_check_expire]. unfold timer_at at 1.
  rewrite Ht. cbn [mbind result_bind].
  destruct (decide (offset = 0)) as [Hdue|Hlater].
  - rewrite decide_True by (by apply due_at_offset_zero).
    unfold remove_timer_from_list, timer_at. rewrite Ht. cbn [mbind result_bind].
    rewrite Hl. rewrite decide_True by (apply list_elem_of_singleton; done).
    cbn [mbind result_bind timer_check_expire app].
    rewrite filter_cons, decide_False by (intros Hc; by apply Hc). rewrite filter_nil.
    rewrite critical_section_round_trip by done.
    cbn [timer_check_run]. unfold timer_at at 1. cbn [g_timer_pool].
    rewrite list_lookup_alter, decide_True by done. rewrite Ht.
    cbn [fmap option_fmap option_map mbind result_bind].
    change (timer_handler (with_timer_list TIMER_NODE_NULL t)) with (timer_handler t).
    change (timer_param (with_timer_list TIMER_NODE_NULL t)) with (timer_param t).
    change (timer_mode (with_timer_list TIMER_NODE_NULL t)) with (timer_mode t).
    rewrite decide_True by done. rewrite decide_True by done.
    unfold add_timer_to_list, timer_at, update_timer. cbn [g_timer_pool timers_list].
    rewrite !list_lookup_alter, !decide_True by done. rewrite Ht.
    cbn [fmap option_fmap option_map mbind result_bind].
    rewrite decide_False by (apply not_elem_of_nil).
    cbn [add_timer_scan mbind result_bind timer_check_run g_timer_pool timers_list].
    rewrite critical_section_round_trip by done.
    eexists _, _, need. split; [reflexivity|]. split; [done|]. split; [done|].
    cbn [g_timer_pool timers_list]. split; [done|]. split.
    { rewrite !list_lookup_alter, !decide_True by done. rewrite Ht. reflexivity. }
    cbn. change (get_current_time (ZK_ENTER_CRITICAL k')) with (g_current_time k').
    rewrite Htime'. done.
  - rewrite decide_False by (by rewrite due_at_offset_zero).
    cbn [mbind result_bind timer_check_run].
    rewrite critical_section_round_trip by done.
    exists ts, t, need. done.
Qed.

Lemma lone_timer_quiet (h : nat) (n : nat) :
  forall (k : kernel) (ts : timer_module) (t : timer_t),
    kernel_wf k -> timers_list ts = [h] -> g_timer_pool ts !! h = Some t ->
    timer_mode t = TIMER_AUTO_RELOAD -> timer_handler t <> ZK_NULL ->
    Z.of_nat n <= uint32 (timer_wake_up_time t - g_current_time k) < 2 ^ 31 ->
    exists k' ts' t',
      ticks_with_timers n k ts = Ok (k', ts', [])
      /\ kernel_wf k' /\ g_current_time k' = uint32 (g_current_time k + Z.of_nat n)
      /\ timers_list ts' = [h] /\ g_timer_pool ts' !! h = Some t'
      /\ timer_mode t' = timer_mode t /\ timer_handler t' = timer_handler t
      /\ timer_param t' = timer_param t /\ timer_interval t' = timer_interval t
      /\ timer_wake_up_time t' = timer_wake_up_time t.
Proof.
  induction n as [|n IH]; intros k ts t Hwf Hl Ht Hmode Hhandler Hoff.
  - exists k, ts, t. split; [done|]. split; [done|]. split; [|done].
    rewrite Z.add_0_r. symmetry. apply uint32_small. apply Hwf.
  - destruct (lone_timer_tick k ts h t Hwf Hl Ht Hmode Hhandler ltac:(lia))
      as (k1 & ts1 & t1 & need & Htick & Hwf1 & Htime1 & Hl1 & Ht1 & Hm1 & Hh1 & Hp1 & Hi1
          & Hw1).
    rewrite decide_False in Htick by lia. rewrite decide_False in Hw1 by lia.
    assert (Hoff1 : uint32 (timer_wake_up_time t1 - g_current_time k1)
                    = uint32 (timer_wake_up_time t - g_current_time k) - 1).
    { rewrite Hw1, Htime1. revert Hoff. unfold uint32. intros Hoff.
      Z.to_euclidean_division_equations. lia. }
    destruct (IH k1 ts1 t1 Hwf1 Hl1 Ht1) as (k' & ts' & t' & Hticks & Hwf' & Htime' & Hl' & Ht'
                                            & Hm' & Hh' & Hp' & Hi' & Hw');
      [congruence|congruence|lia|].
    exists k', ts', t'. split.
    { cbn [ticks_with_timers]. rewrite Htick. cbn [mbind result_bind]. rewrite Hticks.
      reflexivity. }
    split; [done|]. split.
    { rewrite Htime', Htime1. unfold uint32. rewrite Zplus_mod_idemp_l. f_equal. lia. }
    repeat (split; [congruence|]). congruence.
Qed.

Lemma ticks_with_timers_app (a b : nat) (k : kernel) (ts : timer_module) :
  ticks_with_timers (a + b) k ts
  = '(k1, ts1, calls1) ← ticks_with_timers a k ts;
    '(k2, ts2, calls2) ← ticks_with_timers b k1 ts1;
    Ok (k2, ts2, calls1 ++ calls2).
Proof.
  revert k ts. induction a as [|a IH]; intros k ts.
  - cbn. by destruct (ticks_with_timers b k ts) as [[[k2 ts2] c2]|].
  - cbn [ticks_with_timers Nat.add].
    destruct (scheduler_increment_tick_with_timers k ts) as [[[[k1 ts1] c1] need]|];
      [|done].
    cbn [mbind result_bind]. rewrite IH.
    destruct (ticks_with_timers a k1 ts1) as [[[k2 ts2] c2]|]; [|done].
    cbn [mbind result_bind].
    destruct (ticks_with_timers b k2 ts2) as [[[k3 ts3] c3]|]; [|done].
    cbn [mbind result_bind]. by rewrite app_assoc.
Qed.

(** X19: the period of an auto-reload timer is one tick more than its
    interval.  With ZK_USING_TIMER, in a well-formed kernel whose only
    running timer is an auto-reload timer due at the current time: the next
    tick calls its handler; the call is the only one through the following
    [interval] ticks; and the tick after those calls the handler again.
    The reload takes the time from [get_current_time] after the tick has
    advanced it, while the expiry is compared with the time read before. *)
Theorem auto_reload_timer_period (k : kernel) (ts : timer_module) (h : nat) (t : timer_t) :
  kernel_wf k -> timers_list ts = [h] -> g_timer_pool ts !! h = Some t ->
  timer_mode t = TIMER_AUTO_RELOAD -> timer_handler t <> ZK_NULL ->
  0 < timer_interval t < ZK_TSK_DLY_MAX ->
  timer_wake_up_time t = g_current_time k ->
  let call := (timer_handler t, timer_param t) in
  let interval := Z.to_nat (timer_interval t) in
  (forall n, (n <= interval)%nat ->
     exists kn tsn, ticks_with_timers (1 + n) k ts = Ok (kn, tsn, [call]))
  /\ exists kn tsn, ticks_with_timers (1 + interval + 1) k ts = Ok (kn, tsn, [call; call]).
Proof.
  intros Hwf Hl Ht Hmode Hhandler Hiv Hdue call interval.
  change ZK_TSK_DLY_MAX with (2 ^ 31 - 1) in Hiv.
  assert (Htime : 0 <= g_current_time k < 2 ^ 32) by apply Hwf.
  assert (Hoff0 : uint32 (timer_wake_up_time t - g_current_time k) = 0).
  { rewrite Hdue, Z.sub_diag. reflexivity. }
  destruct (lone_timer_tick k ts h t Hwf Hl Ht Hmode Hhandler ltac:(rewrite Hoff0; lia))
    as (k1 & ts1 & t1 & need & Htick & Hwf1 & Htime1 & Hl1 & Ht1 & Hm1 & Hh1 & Hp1 & Hi1
        & Hw1).
  rewrite decide_True in Htick by done. rewrite decide_True in Hw1 by done. fold call in Htick.
  assert (Hoff1 : uint32 (timer_wake_up_time t1 - g_current_time k1) = timer_interval t).
  { rewrite Hw1, Htime1. unfold uint32. Z.to_euclidean_division_equations. lia. }
  assert (Hquiet : forall n, (n <= interval)%nat ->
            exists kn tsn tn,
              ticks_with_timers n k1 ts1 = Ok (kn, tsn, [])
              /\ kernel_wf kn
              /\ g_current_time kn = uint32 (g_current_time k1 + Z.of_nat n)
              /\ timers_list tsn = [h] /\ g_timer_pool tsn !! h = Some tn
              /\ timer_mode tn = timer_mode t1 /\ timer_handler tn = timer_handler t1
              /\ timer_param tn = timer_param t1 /\ timer_interval tn = timer_interval t1
              /\ timer_wake_up_time tn = timer_wake_up_time t1).
  { intros n Hn. apply lone_timer_quiet; try done; try congruence.
    rewrite Hoff1. subst interval. lia. }
  split.
  - intros n Hn. destruct (Hquiet n Hn) as (kn & tsn & tn & Hticks & _).
    exists kn, tsn. cbn [ticks_with_timers Nat.add]. rewrite Htick.
    cbn [mbind result_bind]. rewrite Hticks. reflexivity.
  - destruct (Hquiet interval (le_n _))
      as (kn & tsn & tn & Hticks & Hwfn & Htimen & Hln & Htn & Hmn & Hhn & Hpn & Hin & Hwn).
    assert (Hoffn : uint32 (timer_wake_up_time tn - g_current_time kn) = 0).
    { rewrite Hwn, Htimen, Hw1, Htime1. subst interval. unfold uint32.
      Z.to_euclidean_division_equations. lia. }
    destruct (lone_timer_tick kn tsn h tn Hwfn Hln Htn) as (k2 & ts2 & t2 & need2 & Htick2 & _);
      [congruence|congruence|rewrite Hoffn; lia|].
    rewrite decide_True in Htick2 by done.
    exists k2, ts2. replace (1 + interval + 1)%nat with (S (interval + 1)) by lia.
    cbn [ticks_with_timers]. rewrite Htick. cbn [mbind result_bind].
    rewrite ticks_with_timers_app, Hticks. cbn [mbind result_bind ticks_with_timers].
    rewrite Htick2. cbn [mbind result_bind]. subst call. by rewrite Hhn, Hh1, Hpn, Hp1.
Qed.

Lemma board_timer_created_wf (mode : timer_mode_t) : timers_wf 0 (board_timer_created mode).
Proof.
  assert (Hl : timers_list (board_timer_created mode) = []) by (by destruct mode).
  unfold timers_wf. rewrite Hl. split; [constructor|]. split; [|split; [|done]].
  - intros handle. split; [by intros ?%elem_of_nil|].
    intros (timer & Ht & Hrun). exfalso.
    destruct mode; vm_compute in Ht;
      repeat (destruct handle as [|handle]; [injection Ht as <-; discriminate Hrun|]);
      discriminate Ht.
  - by intros handle ?%elem_of_nil.
Qed.

Lemma board_two_timers_wf : timers_wf 0 board_two_timers.
Proof.
  assert (Hl : timers_list board_two_timers = []) by reflexivity.
  unfold timers_wf. rewrite Hl. split; [constructor|]. split; [|split; [|done]].
  - intros handle. split; [by intros ?%elem_of_nil|].
    intros (timer & Ht & Hrun). exfalso.
    vm_compute in Ht;
      repeat (destruct handle as [|handle]; [injection Ht as <-; discriminate Hrun|]);
      discriminate Ht.
  - by intros handle ?%elem_of_nil.
Qed.

(** On the board, with timer 0 running and due in 3 ticks: timer 1, with an
    interval of 2 ticks, is put in front of it. *)
Lemma timer_start_keeps_the_list_sorted_witness :
  timers_list board_timer_0_running = [0%nat]
  /\ exists k' ts',
       timer_start 4 1 booted board_timer_0_running = Ok (k', ts', ZK_SUCCESS)
       /\ timers_wf 0 ts' /\ timers_list ts' = [1%nat; 0%nat].
Proof.
  assert (Hnow : g_current_time booted = 0) by (vm_compute; reflexivity).
  split; [vm_compute; reflexivity|].
  destruct (timer_start_keeps_the_list_sorted 4 0 booted board_two_timers
              (mk_timer TIMER_NODE_SELF TIMER_STOP TIMER_ONESHOT 3 77 0 1 5))
    as (k1 & ts1 & timer1 & Hstart1 & Hwf1 & _).
  { rewrite Hnow. apply board_two_timers_wf. }
  { rewrite Hnow. lia. }
  { lia. }
  { vm_compute. reflexivity. }
  { discriminate. }
  { vm_compute. split; reflexivity. }
  assert (Hts1 : ts1 = board_timer_0_running).
  { unfold board_timer_0_running. by rewrite Hstart1. }
  subst ts1.
  destruct (timer_start_keeps_the_list_sorted 4 1 booted board_timer_0_running
              (mk_timer TIMER_NODE_SELF TIMER_STOP TIMER_ONESHOT 2 78 0 1 6))
    as (k' & ts' & timer' & Hstart & Hwf & _).
  { exact Hwf1. }
  { rewrite Hnow. lia. }
  { lia. }
  { vm_compute. reflexivity. }
  { discriminate. }
  { vm_compute. split; reflexivity. }
  exists k', ts'. rewrite Hnow in Hwf. split; [exact Hstart|]. split; [exact Hwf|].
  assert (Hlist : (fun r => timers_list (snd (fst r)))
                    <$> timer_start 4 1 booted board_timer_0_running
                  = Ok [1%nat; 0%nat]) by (vm_compute; reflexivity).
  rewrite Hstart in Hlist. by injection Hlist.
Defined.

Lemma timer_get_remaining_after_timer_start_witness :
  exists k1 ts1 k2,
    timer_start 4 0 booted (board_timer_created TIMER_AUTO_RELOAD) = Ok (k1, ts1, ZK_SUCCESS)
    /\ timer_get_remaining 4 0 k1 ts1 = Ok (k2, (ZK_SUCCESS, Some 3)).
Proof.
  assert (Hnow : g_current_time booted = 0) by (vm_compute; reflexivity).
  apply (timer_get_remaining_after_timer_start 4 0 booted
           (board_timer_created TIMER_AUTO_RELOAD)
           (mk_timer TIMER_NODE_SELF TIMER_STOP TIMER_AUTO_RELOAD 3 77 0 1 5)).
  - rewrite Hnow. apply board_timer_created_wf.
  - rewrite Hnow. lia.
  - lia.
  - reflexivity.
  - discriminate.
  - vm_compute. split; reflexivity.
Defined.

Lemma auto_reload_timer_period_witness :
  exists kn tsn,
    ticks_with_timers 5 board_timer_due.1 board_timer_due.2 = Ok (kn, tsn, [(77, 5); (77, 5)]).
Proof.
  assert (Hnow : g_current_time board_with_semaphore = 0) by (vm_compute; reflexivity).
  destruct (lone_timer_quiet 0 3 board_with_semaphore (board_timer_started TIMER_AUTO_RELOAD)
              (mk_timer TIMER_NODE_SELF TIMER_RUNNING TIMER_AUTO_RELOAD 3 77 3 1 5))
    as (k & ts & t & Hticks & Hwf & Htime & Hl & Ht & Hmode & Hhandler & Hparam & Hinterval
        & Hwake).
  - apply board_with_semaphore_wf.
  - reflexivity.
  - reflexivity.
  - reflexivity.
  - discriminate.
  - rewrite Hnow. vm_compute. split; [discriminate|reflexivity].
  - rewrite Hnow in Htime. cbn [timer_mode timer_handler timer_param timer_interval
                                timer_wake_up_time] in *.
    unfold board_timer_due. rewrite Hticks. cbn [fst snd].
    destruct (auto_reload_timer_period k ts 0 t Hwf Hl Ht Hmode) as [_ Htwice].
    + rewrite Hhandler. discriminate.
    + rewrite Hinterval. vm_compute. split; reflexivity.
    + rewrite Hwake, Htime. reflexivity.
    + rewrite Hhandler, Hparam, Hinterval in Htwice. exact Htwice.
Defined.

(** ** A caller that blocks beside a ready task of its own priority *)

Lemma next_of_head h h' n l : next_of h n l = HEAD h' -> h' = h.
Proof.
  induction l as [|x r IH]; simpl; [congruence|].
  destruct (decide (x = n)); [|done]. destruct r; [congruence|done].
Qed.

Lemma remove_node_inserted n l1 l2 :
  n ∉ l1 -> remove_node n (l1 ++ n :: l2) = l1 ++ l2.
Proof.
  induction l1 as [|x r IH]; simpl; intros Hn.
  - by destruct (decide (n = n)).
  - apply not_elem_of_cons in Hn as [Hne Hn].
    destruct (decide (x = n)); [congruence|]. by rewrite IH.
Qed.

Section peers.

Context `{!zk_config}.

(** X1: [sem_get_timeout] beside a ready task of the caller's priority.
    In a well-formed kernel where the running task has the most urgent
    priority among the ready tasks and shares it with a ready task [peer], a
    call with a timeout from 1 up to ZK_TSK_DLY_MAX - 1 on a created
    semaphore whose count is 0 switches to [peer]; [schedule], finding the
    two priorities equal, has moved the caller's [state_node] from the
    timeout-blocked list to the tail of the ready list.  The caller is left
    in state TASK_TIMEOUT_BLOCKED on its ready list, the timeout-blocked
    list is as it was before the call, so that no tick can time the wait
    out, and when the round robin runs the caller again the rest of its call
    returns ZK_SUCCESS, the count being 0. *)
Theorem sem_get_timeout_beside_a_peer (k : kernel) (sem_handle : nat) (timeout : Z)
  (peer : tcb_ptr) (rest : list list_member) :
  let tcb := g_current_tcb k in
  let p := priority (tcbs k tcb) in
  kernel_wf k ->
  0 < timeout < ZK_TSK_DLY_MAX ->
  (sem_handle < SEM_MAX_NUM)%nat ->
  (exists sem, g_sem_pool k !! sem_handle = Some sem
               /\ sem_is_used sem = SEM_USED /\ count sem = 0) ->
  (forall n, n ∈ members (lists k) (wait_list sem_handle) ->
             exists t, n = event_sleep_list t) ->
  link (lists k) (event_sleep_list tcb) = None ->
  remove_node (state_node tcb) (members (lists k) (ready_list p)) = state_node peer :: rest ->
  (forall q, 0 <= q < p -> members (lists k) (ready_list q) = []) ->
  exists k0,
    sem_get_timeout sem_handle timeout k = Ok (k0, Suspended)
    /\ g_current_tcb k0 = peer
    /\ state (tcbs k0 tcb) = TASK_TIMEOUT_BLOCKED
    /\ members (lists k0) (ready_list p) = state_node peer :: rest ++ [state_node tcb]
    /\ members (lists k0) block_timeout_list = members (lists k) block_timeout_list
    /\ (exists sem, g_sem_pool k0 !! sem_handle = Some sem /\ count sem = 0)
    /\ snd (sem_get_internal_resume tcb k0) = ZK_SUCCESS.
Proof.
  intros T pT (Hwf & Hcur & Hrun & Hnest & Hpend & Htime) Hto Hh (sem & Hsem & Hused & Hcount)
    Hwait Hev Hpeer Hurgent.
  fold T in Hcur. change ZK_TSK_DLY_MAX with 2147483647 in Hto.
  set (wake := uint32 (g_current_time k + timeout)).
  set (kb := update_tcb T (with_wake_up_time wake)
               (update_tcb T (with_event_timeout_wakeup EVENT_NO_TIMEOUT)
                  (ZK_ENTER_CRITICAL k))).
  assert (Hwfb : scheduler_wf kb).
  { apply scheduler_wf_update_tcb; [done|]. apply scheduler_wf_update_tcb; [done|]. exact Hwf. }
  assert (HtcbT : tcbs kb T = with_wake_up_time wake
                               (with_event_timeout_wakeup EVENT_NO_TIMEOUT (tcbs k T))).
  { unfold kb. rewrite !tcbs_update_tcb. destruct (decide (T = T)); done. }
  assert (Htcb : forall t, t <> T -> tcbs kb t = tcbs k t).
  { intros t Ht. unfold kb. rewrite !tcbs_update_tcb. destruct (decide (T = t)); done. }
  assert (Hcurb : on_its_ready_list kb T).
  { unfold on_its_ready_list. rewrite HtcbT. exact Hcur. }
  destruct (remove_task_from_ready_list_wf kb T Hwfb Hcurb)
    as (kc & Hrem & Hwfc & Hec & Htc & Hmc & Hlc).
  rewrite HtcbT in Htc, Hmc. cbn [priority with_wake_up_time with_event_timeout_wakeup] in Hmc.
  fold pT in Hmc. change (members (lists kb)) with (members (lists k)) in Hmc.
  change (link (lists kb)) with (link (lists k)) in Hlc.
  rewrite Hpeer in Hmc.
  destruct (add_task_to_endless_block_list_wf kc T (wait_list sem_handle))
    as (kd & l & Hadd & Hwfd & Hed & Htd & Hmd & Hld); try done.
  { rewrite Hlc. by lookups. }
  { rewrite Hlc. by lookups. }
  { rewrite Hmc. lookups. exact Hwait. }
  destruct (add_task_to_timeout_blocked_list_wf kd T)
    as (ke & l1 & l2 & Htb & Hwfe & Hee & Hte & Hsplit & Hme & Hle & _).
  { done. }
  { rewrite Hld, Hlc. by lookups. }
  { rewrite Hld. by lookups. }
  { rewrite Htd, Htc. lookups. exact (proj1 Hcur). }
  assert (Hke : ke = with_tcbs (tcbs ke) (with_lists (lists ke)
                        (with_priority_active (priority_active kc) kb))).
  { rewrite Hee at 1. rewrite Hed at 1. rewrite Hec at 1. reflexivity. }
  assert (HkeT : tcbs ke T
                 = with_state TASK_TIMEOUT_BLOCKED
                     (with_wake_up_time wake
                        (with_event_timeout_wakeup EVENT_NO_TIMEOUT (tcbs k T)))).
  { rewrite Hte, Htd, Htc. by lookups. }
  assert (Hke_other : forall t, t <> T -> tcbs ke t = tcbs k t).
  { intros t Ht. rewrite Hte, Htd, Htc. lookups. by apply Htcb. }
  assert (Hready : forall q, members (lists ke) (ready_list q)
                        = if decide (q = pT) then state_node peer :: rest
                          else members (lists k) (ready_list q)).
  { intros q. rewrite Hme, Hmd, Hmc. destruct (decide (q = pT)) as [->|]; by lookups. }
  assert (Htimeout : members (lists kd) block_timeout_list
                     = members (lists k) block_timeout_list).
  { rewrite Hmd, Hmc. by lookups. }
  pose proof Hwf as (Hl & Hr & _).
  pose proof Hcur as (HpT & HlkT & HinT). fold pT in HpT, HlkT, HinT.
  (* the peer *)
  assert (Hpeer_in : state_node peer ∈ members (lists k) (ready_list pT)).
  { apply (remove_node_elem (state_node T)). rewrite Hpeer. apply elem_of_cons. by left. }
  assert (HpeerT : peer <> T).
  { intros ->. apply (remove_node_not_elem (state_node T) (members (lists k) (ready_list pT))).
    - apply Hl.
    - rewrite Hpeer. apply elem_of_cons. by left. }
  assert (Hpeer_prio : priority (tcbs k peer) = pT).
  { destruct (Hr pT _ Hpeer_in) as (_ & t & [= <-] & Hp). exact Hp. }
  (* the highest-priority ready task is the peer *)
  destruct (get_highest_priority_task_spec ke pT) as (next & Hnext & Hhigh).
  { apply Hwfe. }
  { exact HpT. }
  { rewrite Hready. by destruct (decide (pT = pT)). }
  assert (Hnext_peer : next = peer).
  { destruct Hhigh as (q & n & Hq & Hhead & Hown & Hlow).
    destruct (decide (q = pT)) as [->|Hne].
    - rewrite Hready in Hhead. destruct (decide (pT = pT)); [|done].
      injection Hhead as <-. by rewrite <- Hown.
    - exfalso. destruct (decide (q < pT)) as [Hlt|Hge].
      + rewrite Hready in Hhead. destruct (decide (q = pT)); [done|].
        rewrite Hurgent in Hhead by lia. done.
      + specialize (Hlow pT ltac:(lia)). rewrite Hready in Hlow.
        by destruct (decide (pT = pT)). }
  subst next.
  (* the caller is a member of the timeout-blocked list when [schedule] runs *)
  assert (HT_not_there : state_node T ∉ l1).
  { intros Hin. assert (Hin' : state_node T ∈ members (lists k) block_timeout_list).
    { rewrite <- Htimeout, Hsplit. apply elem_of_app. by left. }
    apply Hl in Hin'. congruence. }
  assert (HreadyD : members (lists kd) (ready_list pT) = state_node peer :: rest).
  { rewrite Hmd, Hmc. by lookups. }
  assert (Hsched : exists ls,
            schedule ke
            = Ok (zk_cpu_trigger_pendsv
                    (with_g_switch_next_tcb peer
                       (with_lists ls (with_g_switch_next_tcb peer ke))))
            /\ members ls (ready_list pT) = state_node peer :: rest ++ [state_node T]
            /\ members ls block_timeout_list = l1 ++ l2).
  { unfold schedule.
    replace (is_scheduler_suspending ke) with 0 by (rewrite Hke; symmetry; exact Hrun).
    destruct (decide (0 <> 0)); [done|]. rewrite Hnext. cbn [mbind result_bind].
    replace (g_current_tcb (with_g_switch_next_tcb peer ke)) with T by (by rewrite Hke).
    cbn [tcbs lists with_g_switch_next_tcb].
    rewrite HkeT, (Hke_other peer HpeerT), Hpeer_prio.
    cbn [priority with_state with_wake_up_time with_event_timeout_wakeup]. fold pT.
    destruct (decide (pT <> pT)); [done|].
    unfold node_next, node_pre. rewrite Hle. lookups. cbn [mbind option_bind].
    destruct (decide _) as [[Hnx _]|_].
    { injection Hnx as Hnx. apply next_of_head in Hnx. done. }
    unfold ready_list_at. destruct (decide (0 <= pT < ZK_PRIORITY_NUM)); [|done].
    cbn [mbind result_bind].
    unfold zk_list_move_to_tail, zk_list_delete. rewrite Hle. lookups.
    cbn [mbind result_bind]. unfold zk_list_add_before. cbn [link]. lookups.
    cbn [members]. lookups. rewrite Hme. lookups.
    rewrite (remove_node_inserted _ _ _ HT_not_there), HreadyD.
    cbn [mbind result_bind].
    unfold ZK_LIST_GET_FIRST_ENTRY, head_next. cbn [members]. lookups.
    cbn [mbind result_bind ZK_LIST_GET_OWNER app].
    eexists. split; [reflexivity|]. cbn [members]. by lookups. }
  destruct Hsched as (ls & Hsched & Hls_ready & Hls_timeout).
  unfold sem_get_timeout, sem_get_internal.
  destruct (decide (SEM_MAX_NUM <= sem_handle)%nat); [lia|].
  unfold sem_at. rewrite Hsem. cbn [mbind result_bind]. rewrite Hused.
  destruct (decide (SEM_USED = SEM_UNUSED)); [done|].
  change (is_scheduler_suspending (ZK_ENTER_CRITICAL k)) with (is_scheduler_suspending k).
  rewrite Hrun. destruct (decide (0 <> 0)); [done|].
  rewrite Hcount. destruct (decide (0 > 0)); [lia|]. destruct (decide (timeout = 0)); [lia|].
  change (update_tcb (g_current_tcb k) (with_wake_up_time _) _) with kb.
  fold T. unfold task_ready_to_block. rewrite Hrem. cbn [mbind result_bind].
  rewrite Hadd. cbn [mbind result_bind].
  destruct (decide (BLOCK_TYPE_TIMEOUT = BLOCK_TYPE_TIMEOUT)); [|done].
  rewrite Htb. cbn [mbind result_bind]. rewrite Hsched. cbn [mbind result_bind].
  set (kx := zk_cpu_trigger_pendsv
               (with_g_switch_next_tcb peer (with_lists ls (with_g_switch_next_tcb peer ke)))).
  assert (Hexit : ZK_EXIT_CRITICAL kx
                  = with_pendsv_pending false
                      (with_g_current_tcb peer (with_zk_critical_nesting 0 kx))).
  { unfold ZK_EXIT_CRITICAL.
    replace (zk_critical_nesting kx) with 1
      by (unfold kx; rewrite Hke; cbn; by rewrite Hnest).
    change (uint32 (1 - 1)) with 0. cbn. by destruct (decide (0 = 0)). }
  rewrite Hexit. cbn [g_current_tcb with_pendsv_pending with_g_current_tcb].
  destruct (decide (peer = T)); [done|].
  eexists. split; [reflexivity|].
  cbn [g_current_tcb tcbs lists g_sem_pool with_pendsv_pending with_g_current_tcb
       with_zk_critical_nesting kx zk_cpu_trigger_pendsv with_g_switch_next_tcb with_lists].
  split; [done|]. split; [by rewrite HkeT|]. split.
  { exact Hls_ready. }
  split.
  { by rewrite Hls_timeout, <- Hsplit. }
  split.
  { exists sem. split; [|done]. rewrite Hke. exact Hsem. }
  unfold sem_get_internal_resume. cbn. rewrite HkeT. cbn.
  by destruct (decide (EVENT_NO_TIMEOUT = EVENT_WAIT_TIMEOUT)).
Qed.

End peers.

Lemma peers_lists_wf : lists_wf peers_lists.
Proof.
  split.
  - intros h. simpl. repeat case_decide.
    + apply NoDup_cons_2; [|apply NoDup_singleton].
      intros Hin%list_elem_of_singleton. discriminate Hin.
    + apply NoDup_singleton.
    + apply NoDup_nil_2.
  - intros n h. simpl.
    destruct (decide (n = state_node 2)) as [->|Hn2];
      [|destruct (decide (n = state_node 1)) as [->|Hn1];
        [|destruct (decide (n = state_node 0)) as [->|Hn0]]];
    (destruct (decide (h = ready_list 7)) as [->|Hh7];
      [|destruct (decide (h = ready_list 31)) as [->|Hh31]]);
    rewrite ?elem_of_cons, ?list_elem_of_singleton, ?elem_of_nil;
    (split; [intros Hn|intros Hs]);
    try reflexivity; try tauto;
    try solve [inversion Hn]; try solve [inversion Hs];
    try solve [destruct Hn as [Hn|Hn]; inversion Hn];
    try solve [destruct Hn as [Hn|[Hn|Hn]]; inversion Hn].
  all: try (inversion Hs; subst h; by destruct Hh7 + by destruct Hh31).
  all: try (destruct Hn as [Hn|[Hn|[]]]); try (subst n; by destruct Hn2 + by destruct Hn1 + by destruct Hn0).
Qed.

Lemma peers_written_out_wf : kernel_wf peers_written_out.
Proof.
  assert (Hp2 : priority (tcbs peers_with_semaphore 2) = 7) by (vm_compute; reflexivity).
  assert (Hp1 : priority (tcbs peers_with_semaphore 1) = 7) by (vm_compute; reflexivity).
  assert (Hp0 : priority (tcbs peers_with_semaphore 0) = 31) by (vm_compute; reflexivity).
  assert (Hbits : priority_active peers_with_semaphore = 2147483776)
    by (vm_compute; reflexivity).
  assert (Hcur : g_current_tcb peers_with_semaphore = 2%nat) by (vm_compute; reflexivity).
  assert (Hnest : scheduler_suspend_nesting peers_with_semaphore = 0)
    by (vm_compute; reflexivity).
  assert (Hcrit : zk_critical_nesting peers_with_semaphore = 0) by (vm_compute; reflexivity).
  assert (Hpend : pendsv_pending peers_with_semaphore = false) by (vm_compute; reflexivity).
  assert (Hnow : g_current_time peers_with_semaphore = 0) by (vm_compute; reflexivity).
  unfold peers_written_out. generalize dependent peers_with_semaphore. intros k.
  intros Hp2 Hp1 Hp0 Hbits Hcur Hnest Hcrit Hpend Hnow.
  split; [split; [|split; [|split; [|split]]]|].
  - exact peers_lists_wf.
  - intros p n. cbn [lists with_lists tcbs members peers_lists].
    destruct (decide (ready_list p = ready_list 7)) as [Hp|_];
      [|destruct (decide (ready_list p = ready_list 31)) as [Hp|_]];
    rewrite ?elem_of_cons, ?list_elem_of_singleton, ?elem_of_nil.
    + inversion Hp; subst p. intros [->|[->|[]]]; (split; [done|]);
        [by exists 2%nat|by exists 1%nat].
    + inversion Hp; subst p. intros [->|[]]. split; [done|]. by exists 0%nat.
    + intros [].
  - intros n. cbn. by intros ?%elem_of_nil.
  - intros n. cbn. by intros ?%elem_of_nil.
  - apply bitmap_check_sound. unfold bitmap_check.
    cbn [lists with_lists priority_active]. rewrite Hbits. vm_compute. reflexivity.
  - unfold on_its_ready_list, is_scheduler_suspending.
    cbn [lists with_lists tcbs g_current_tcb scheduler_suspend_nesting
         zk_critical_nesting pendsv_pending g_current_time].
    rewrite Hcur, Hp2, Hnest, Hcrit, Hpend, Hnow.
    split; [|done]. split; [done|]. split; [done|].
    apply elem_of_cons. by left.
Qed.

Lemma sem_get_timeout_beside_a_peer_witness :
  exists k0,
    sem_get_timeout (H := board) 0 10 peers_written_out = Ok (k0, Suspended)
    /\ g_current_tcb k0 = 1%nat
    /\ state (tcbs k0 2) = TASK_TIMEOUT_BLOCKED
    /\ members (lists k0) (ready_list 7) = [state_node 1; state_node 2]
    /\ members (lists k0) block_timeout_list = []
    /\ snd (sem_get_internal_resume 2 k0) = ZK_SUCCESS.
Proof.
  assert (Hc : g_current_tcb peers_written_out = 2%nat) by (vm_compute; reflexivity).
  assert (Hp : priority (tcbs peers_written_out 2) = 7) by (vm_compute; reflexivity).
  assert (Hl : lists peers_written_out = peers_lists) by reflexivity.
  destruct (sem_get_timeout_beside_a_peer (H := board) peers_written_out 0 10 1 [])
    as (k0 & Hcall & Hcur & Hstate & Hready & Htimeout & _ & Hresume).
  - exact peers_written_out_wf.
  - vm_compute. split; reflexivity.
  - vm_compute. lia.
  - eexists. split; [vm_compute; reflexivity|]. split; reflexivity.
  - intros n. rewrite Hl. intros Hn. apply elem_of_nil in Hn. destruct Hn.
  - rewrite Hc, Hl. reflexivity.
  - rewrite Hc, Hp, Hl. reflexivity.
  - intros q Hq. rewrite Hc, Hp in Hq. rewrite Hl. cbn [members peers_lists].
    destruct (decide (ready_list q = ready_list 7)) as [Heq|_]; [inversion Heq; lia|].
    destruct (decide (ready_list q = ready_list 31)) as [Heq|_]; [inversion Heq; lia|].
    reflexivity.
  - rewrite Hc, Hp, Hl in *. exists k0. split; [exact Hcall|]. split; [exact Hcur|].
    split; [exact Hstate|]. split; [exact Hready|]. split; [exact Htimeout|exact Hresume].
Defined.

(** ** Delays ([task_delay]) *)

Lemma remove_node_absent n l : n ∉ l -> remove_node n l = l.
Proof.
  induction l as [|x r IH]; simpl; [done|]. intros [Hne Hn]%not_elem_of_cons.
  destruct (decide (x = n)); [congruence|]. by rewrite IH.
Qed.

Lemma zk_list_delete_other n ls ls' h :
  zk_list_delete n ls = Ok ls' -> n ∉ members ls h -> members ls' h = members ls h.
Proof.
  unfold zk_list_delete. destruct (link ls n) as [h0|]; [|done]. intros [= <-] Hn. simpl.
  destruct (decide (h0 = h)) as [->|Hne]; lookups; [|done]. by apply remove_node_absent.
Qed.

Lemma zk_list_add_after_head new h0 ls ls' h :
  zk_list_add_after new (HEAD h0) ls = Ok ls' -> h <> h0 -> members ls' h = members ls h.
Proof.
  unfold zk_list_add_after. destruct (link ls new); [done|]. intros [= <-] Hne. simpl.
  by lookups.
Qed.

Lemma zk_list_add_before_head new h0 ls ls' h :
  zk_list_add_before new (HEAD h0) ls = Ok ls' -> h <> h0 -> members ls' h = members ls h.
Proof.
  unfold zk_list_add_before. destruct (link ls new); [done|]. intros [= <-] Hne. simpl.
  by lookups.
Qed.

Lemma ready_list_at_is_ready p h : ready_list_at p = Ok h -> h = ready_list p.
Proof. unfold ready_list_at. case_decide; congruence. Qed.

(** What putting [x] on its ready list changes. *)
Lemma add_task_to_ready_list_frame x k k' :
  add_task_to_ready_list x k = Ok k' ->
  (forall h, (forall q, h <> ready_list q) -> members (lists k') h = members (lists k) h)
  /\ (forall t, t <> x -> tcbs k' t = tcbs k t)
  /\ state (tcbs k' x) = TASK_READY.
Proof.
  unfold add_task_to_ready_list. intros H. results.
  apply ready_list_at_is_ready in Hr. subst r.
  split; [|split].
  - intros h Hh. cbn. eapply zk_list_add_after_head; [exact Hr0|apply Hh].
  - intros t Ht. rewrite tcbs_update_tcb. by destruct (decide (x = t)).
  - rewrite tcbs_update_tcb. by destruct (decide (x = x)).
Qed.

Lemma task_delay_to_ready_frame x k k' :
  task_delay_to_ready x k = Ok k' ->
  (forall t, t <> x -> tcbs k' t = tcbs k t) /\ state (tcbs k' x) = TASK_READY.
Proof.
  unfold task_delay_to_ready, remove_task_from_delay_list. intros H. results.
  apply add_task_to_ready_list_frame in H as (_ & Hother & Hstate).
  split; [|done]. intros t Ht. rewrite Hother by done.
  rewrite tcbs_update_tcb. by destruct (decide (x = t)).
Qed.

Lemma task_block_to_ready_frame x k k' :
  task_block_to_ready x k = Ok k' ->
  (forall h, state_node x ∉ members (lists k) h -> event_sleep_list x ∉ members (lists k) h ->
             (forall q, h <> ready_list q) -> members (lists k') h = members (lists k) h)
  /\ (forall t, t <> x -> tcbs k' t = tcbs k t)
  /\ state (tcbs k' x) = TASK_READY.
Proof.
  unfold task_block_to_ready, remove_task_from_blocked_list. intros H. results.
  - apply add_task_to_ready_list_frame in H as (Hm & Hother & Hstate).
    split; [|split; [|done]].
    + intros h Hs He Hq. rewrite Hm by done. cbn.
      rewrite (zk_list_delete_other _ _ _ h Hr1).
      * by apply (zk_list_delete_other _ _ _ h Hr0).
      * by rewrite (zk_list_delete_other _ _ _ h Hr0).
    + intros t Ht. rewrite Hother by done. rewrite tcbs_update_tcb.
      by destruct (decide (x = t)).
  - apply add_task_to_ready_list_frame in H as (Hm & Hother & Hstate).
    split; [|split; [|done]].
    + intros h Hs He Hq. rewrite Hm by done. cbn.
      by apply (zk_list_delete_other _ _ _ h Hr1).
    + intros t Ht. rewrite Hother by done. rewrite tcbs_update_tcb.
      by destruct (decide (x = t)).
Qed.

(** The loop of [check_delay_task_wakeup] wakes the tasks at the front of the
    delay list that are due, makes them ready, and stops at the first one
    that is not due. *)
Lemma delay_wakeup_scan_delays time l : forall k,
  scheduler_wf k -> members (lists k) delay_list = l ->
  exists k' woken,
    delay_wakeup_scan time l k = Ok k'
    /\ l = woken ++ members (lists k') delay_list
    /\ (forall n, n ∈ woken ->
          zk_time_is_reached time (wake_up_time (tcbs k (ZK_LIST_GET_OWNER n))) = true
          /\ state (tcbs k' (ZK_LIST_GET_OWNER n)) = TASK_READY)
    /\ (forall n, head (members (lists k') delay_list) = Some n ->
          zk_time_is_reached time (wake_up_time (tcbs k (ZK_LIST_GET_OWNER n))) = false)
    /\ (forall t, state_node t ∉ woken -> tcbs k' t = tcbs k t)
    /\ (forall t, tcbs k' t = tcbs k t \/ state (tcbs k' t) = TASK_READY).
Proof.
  induction l as [|it r IH]; intros k Hwf Hl.
  - exists k, []. simpl. rewrite Hl. split; [done|]. split; [done|].
    split; [by intros n ?%elem_of_nil|]. split; [done|]. split; [done|]. by left.
  - pose proof Hwf as (Hls & _ & Hd & _).
    assert (Hit : it ∈ members (lists k) delay_list) by (rewrite Hl; apply elem_of_cons; by left).
    destruct (Hd it Hit) as (x & -> & _). simpl.
    destruct (zk_time_is_reached _ _) eqn:Hreached.
    + destruct (task_delay_to_ready_wakes k x Hwf Hit) as (k1 & Hrun & Hwf1 & _ & Hm1 & _).
      destruct (task_delay_to_ready_frame x k k1 Hrun) as (Hother & Hstate).
      rewrite Hl in Hm1. simpl in Hm1. destruct (decide (state_node x = state_node x)); [|done].
      destruct (IH k1 Hwf1 Hm1) as (k' & woken & Hscan & Hsplit & Hwoken & Hhead & Hsame & Hor).
      assert (Hnd : NoDup (state_node x :: r)) by (rewrite <- Hl; apply Hls).
      apply list.NoDup_cons in Hnd as [Hx Hnd].
      assert (Hx' : state_node x ∉ woken).
      { intros Hin. apply Hx. rewrite Hsplit. apply elem_of_app. by left. }
      assert (Hne : forall n, n ∈ r -> ZK_LIST_GET_OWNER n <> x).
      { intros n Hn Heq. destruct (Hd n) as (t & -> & _).
        - rewrite Hl. apply elem_of_cons. by right.
        - simpl in Heq. by subst t. }
      exists k', (state_node x :: woken). rewrite Hrun. cbn [mbind result_bind].
      split; [done|]. split; [by rewrite Hsplit at 1|]. split; [|split; [|split]].
      * intros n [->|Hn]%elem_of_cons.
        -- split; [done|]. simpl. rewrite (Hsame x Hx'). done.
        -- destruct (Hwoken n Hn) as [Hre Hst]. split; [|done].
           rewrite <- Hre. f_equal. f_equal. symmetry. apply Hother. apply Hne.
           rewrite Hsplit. apply elem_of_app. by left.
      * intros n Hn. rewrite <- (Hhead n Hn). f_equal. f_equal. symmetry. apply Hother.
        apply Hne. rewrite Hsplit. apply elem_of_app. right.
        destruct (members (lists k') delay_list); [done|]. injection Hn as ->.
        apply elem_of_cons. by left.
      * intros t [Ht Hn]%not_elem_of_cons. rewrite (Hsame t Hn). apply Hother. congruence.
      * intros t. destruct (Hor t) as [Heq|Hst]; [|by right].
        destruct (decide (t = x)) as [->|Hne']; [right; by rewrite Heq|].
        left. rewrite Heq. by apply Hother.
    + exists k, []. rewrite Hl. split; [done|]. split; [done|].
      split; [by intros n ?%elem_of_nil|]. split; [by intros n [= <-]|].
      split; [done|]. by left.
Qed.

(** The loop of [check_task_block_wakeup] leaves alone every list that holds
    no node of a task it wakes, and the control block of every other task. *)
Lemma block_wakeup_scan_frame time l h : forall k k',
  block_wakeup_scan time l k = Ok k' ->
  (forall q, h <> ready_list q) ->
  (forall n, n ∈ l -> (state_node (ZK_LIST_GET_OWNER n) ∉ members (lists k) h)
                      /\ (event_sleep_list (ZK_LIST_GET_OWNER n) ∉ members (lists k) h)) ->
  members (lists k') h = members (lists k) h
  /\ (forall t, (forall n, n ∈ l -> ZK_LIST_GET_OWNER n <> t) -> tcbs k' t = tcbs k t)
  /\ (forall t, tcbs k' t = tcbs k t \/ state (tcbs k' t) = TASK_READY).
Proof.
  induction l as [|it r IH]; intros k k' Hscan Hh Hl; simpl in Hscan.
  - injection Hscan as <-. split; [done|]. split; [done|]. by left.
  - destruct (zk_time_is_reached _ _).
    2:{ injection Hscan as <-. split; [done|]. split; [done|]. by left. }
    apply bind_Ok_inv in Hscan as (k1 & Hrun & Hscan).
    set (x := ZK_LIST_GET_OWNER it) in *.
    destruct (task_block_to_ready_frame x _ k1 Hrun) as (Hm & Hother & Hstate).
    destruct (Hl it) as [Hs He]; [apply elem_of_cons; by left|]. fold x in Hs, He.
    specialize (Hm h Hs He Hh). cbn in Hm.
    destruct (IH k1 k' Hscan Hh) as (Hm' & Hsame & Hor).
    { intros n Hn. rewrite Hm. apply Hl. apply elem_of_cons. by right. }
    split; [by rewrite Hm'|]. split.
    + intros t Ht. rewrite Hsame.
      * rewrite Hother; [|by (intros ->; apply (Ht it); [apply elem_of_cons; by left|])].
        rewrite tcbs_update_tcb. destruct (decide (x = t)) as [Heq|]; [|done].
        exfalso. apply (Ht it); [apply elem_of_cons; by left|done].
      * intros n Hn. apply Ht. apply elem_of_cons. by right.
    + intros t. destruct (Hor t) as [Heq|Hst]; [|by right].
      destruct (decide (t = x)) as [->|Hne]; [right; by rewrite Heq|].
      left. rewrite Heq, Hother by done. rewrite tcbs_update_tcb.
      by destruct (decide (x = t)).
Qed.

Lemma zk_list_move_to_tail_other n h0 ls ls' h :
  zk_list_move_to_tail n h0 ls = Ok ls' -> n ∉ members ls h -> h <> h0 ->
  members ls' h = members ls h.
Proof.
  unfold zk_list_move_to_tail. intros H Hn Hh. apply bind_Ok_inv in H as (ls1 & Hd & Ha).
  rewrite (zk_list_add_before_head _ _ _ _ h Ha Hh). by apply (zk_list_delete_other _ _ _ h Hd).
Qed.

(** [schedule] changes no control block, and no list but the ready list of
    the running task and the list its [state_node] is linked in. *)
Lemma schedule_frame k k' h :
  schedule k = Ok k' ->
  state_node (g_current_tcb k) ∉ members (lists k) h -> (forall q, h <> ready_list q) ->
  tcbs k' = tcbs k /\ members (lists k') h = members (lists k) h.
Proof.
  unfold schedule. intros H Hn Hh. results; try done.
  cbn in *. split; [done|]. by eapply zk_list_move_to_tail_other.
Qed.

(** What a tick does to the delay list: the tasks at its front that are due
    at the time the tick reads are made ready, in order, up to the first one
    that is not due; the control block of a task that stays on the list does
    not change, and a ready task stays ready. *)
Lemma scheduler_increment_tick_delays k :
  kernel_wf k ->
  exists k' need_schedule woken,
    scheduler_increment_tick k = Ok (k', need_schedule)
    /\ members (lists k) delay_list = woken ++ members (lists k') delay_list
    /\ (forall n, n ∈ woken ->
          zk_time_is_reached (g_current_time k)
            (wake_up_time (tcbs k (ZK_LIST_GET_OWNER n))) = true
          /\ state (tcbs k' (ZK_LIST_GET_OWNER n)) = TASK_READY)
    /\ (forall n, head (members (lists k') delay_list) = Some n ->
          zk_time_is_reached (g_current_time k)
            (wake_up_time (tcbs k (ZK_LIST_GET_OWNER n))) = false)
    /\ (forall t, state_node t ∈ members (lists k') delay_list -> tcbs k' t = tcbs k t)
    /\ (forall t, state (tcbs k t) = TASK_READY -> state (tcbs k' t) = TASK_READY).
Proof.
  intros Hkwf. pose proof Hkwf as (Hwf & Hcur & Hrun & Hnest & Hpend & Htime).
  destruct (scheduler_increment_tick_wf k Hkwf) as (k' & need & _ & Htick & _).
  exists k', need.
  set (now := g_current_time k) in *.
  set (kt := increment_time (ZK_ENTER_CRITICAL k)).
  assert (Hwft : scheduler_wf kt) by exact Hwf.
  (* the delay list *)
  assert (Hdelay : exists kb woken,
            check_delay_task_wakeup now kt = Ok kb
            /\ scheduler_wf kb /\ wakes kt kb
            /\ members (lists k) delay_list = woken ++ members (lists kb) delay_list
            /\ (forall n, n ∈ woken ->
                  zk_time_is_reached now (wake_up_time (tcbs k (ZK_LIST_GET_OWNER n))) = true
                  /\ state (tcbs kb (ZK_LIST_GET_OWNER n)) = TASK_READY)
            /\ (forall n, head (members (lists kb) delay_list) = Some n ->
                  zk_time_is_reached now (wake_up_time (tcbs k (ZK_LIST_GET_OWNER n)))
                  = false)
            /\ (forall t, state_node t ∉ woken -> tcbs kb t = tcbs k t)
            /\ (forall t, tcbs kb t = tcbs k t \/ state (tcbs kb t) = TASK_READY)).
  { unfold check_delay_task_wakeup. rewrite zk_list_is_empty_spec.
    case_bool_decide as Hempty.
    - exists kt, []. split; [done|]. split; [done|]. split; [apply wakes_refl|].
      change (members (lists kt)) with (members (lists k)) in *. rewrite Hempty.
      split; [done|]. split; [by intros n ?%elem_of_nil|]. split; [done|].
      split; [done|]. by left.
    - destruct (delay_wakeup_scan_delays now _ kt Hwft eq_refl)
        as (kb & woken & Hscan & Hsplit & Hwoken & Hhead & Hsame & Hor).
      destruct (delay_wakeup_scan_wakes now _ kt Hwft eq_refl)
        as (kb' & Hscan' & Hwfb & Hwb & _).
      rewrite Hscan in Hscan'. injection Hscan' as <-.
      exists kb, woken. done. }
  destruct Hdelay as (kb & woken & Hcheckb & Hwfb & Hwb & Hsplit & Hwoken & Hhead & Hsame
                      & Hor).
  exists woken.
  (* the timeout-blocked list *)
  assert (Hblock : exists kc,
            check_task_block_wakeup now kb = Ok kc
            /\ scheduler_wf kc /\ wakes kb kc
            /\ members (lists kc) delay_list = members (lists kb) delay_list
            /\ (forall t, state_node t ∈ members (lists kb) delay_list ->
                          tcbs kc t = tcbs kb t)
            /\ (forall t, tcbs kc t = tcbs kb t \/ state (tcbs kc t) = TASK_READY)).
  { unfold check_task_block_wakeup. rewrite zk_list_is_empty_spec.
    case_bool_decide as Hempty.
    - exists kb. split; [done|]. split; [done|]. split; [apply wakes_refl|].
      split; [done|]. split; [done|]. by left.
    - destruct (block_wakeup_scan_wakes now _ kb Hwfb eq_refl)
        as (kc & _ & Hscan & Hwfc & Hwc & _).
      pose proof Hwfb as (Hlb & _ & Hdb & Htb & _).
      destruct (block_wakeup_scan_frame now _ delay_list kb kc Hscan) as (Hm & Hsamec & Horc).
      { done. }
      { intros n Hn. destruct (Htb n Hn) as (t & -> & _). simpl. split.
        - intros Hin. apply Hlb in Hin. apply Hlb in Hn. congruence.
        - intros Hin. by destruct (Hdb _ Hin) as (t' & Ht' & _). }
      exists kc. split; [done|]. split; [done|]. split; [done|]. split; [done|].
      split; [|done]. intros t Ht. apply Hsamec. intros n Hn Heq.
      destruct (Htb n Hn) as (t' & -> & _). simpl in Heq. subst t'.
      apply Hlb in Ht. apply Hlb in Hn. congruence. }
  destruct Hblock as (kc & Hcheckc & Hwfc & Hwc & Hmc & Hsamec & Horc).
  (* the running task is on its ready list *)
  assert (Hcurc : state_node (g_current_tcb k) ∉ members (lists kc) delay_list).
  { assert (Hon : on_its_ready_list kc (g_current_tcb k)).
    { apply (on_its_ready_list_wakes kb); [done|done|].
      apply (on_its_ready_list_wakes kt); [done|done|exact Hcur]. }
    destruct Hon as (_ & Hlk & _). intros Hin. pose proof Hwfc as ((_ & Hlinks) & _).
    apply Hlinks in Hin. congruence. }
  assert (Hec : g_current_tcb kc = g_current_tcb k).
  { destruct Hwc as (-> & _). destruct Hwb as (-> & _). reflexivity. }
  (* the scheduling decision changes neither *)
  assert (Hrest : tcbs k' = tcbs kc
                  /\ members (lists k') delay_list = members (lists kc) delay_list).
  { unfold scheduler_increment_tick in Htick.
    change (is_scheduler_suspending (ZK_ENTER_CRITICAL k)) with (is_scheduler_suspending k)
      in Htick.
    rewrite Hrun in Htick. destruct (decide (0 <> 0)); [done|].
    change (get_current_time k) with now in Htick. fold kt in Htick.
    unfold check_task_wakeup in Htick. rewrite Hcheckb in Htick.
    cbn [mbind result_bind] in Htick. rewrite Hcheckc in Htick.
    cbn [mbind result_bind] in Htick.
    clear Hcheckb Hcheckc Hsplit Hwoken Hhead Hsame Hor Hsamec Horc Hmc.
    apply bind_Ok_inv in Htick as (next & _ & Htick).
    cbn [g_current_tcb tcbs lists with_g_switch_next_tcb] in Htick.
    rewrite Hec in Htick.
    repeat match type of Htick with
    | (if ?c then _ else _) = _ => destruct c
    | mbind _ _ = Ok _ =>
        let a := fresh "r" in let Ha := fresh "Hr" in
        apply bind_Ok_inv in Htick as (a & Ha & Htick)
    end;
    injection Htick as <- _;
    destruct (ZK_EXIT_CRITICAL_fields r) as (-> & -> & _) ||
    (match goal with |- context [ZK_EXIT_CRITICAL ?kx] =>
       destruct (ZK_EXIT_CRITICAL_fields kx) as (-> & -> & _) end).
    all: try done.
    - apply (schedule_frame _ _ delay_list) in Hr; [exact Hr| |done].
      cbn [g_current_tcb lists with_g_switch_next_tcb]. rewrite Hec. exact Hcurc.
    - apply ready_list_at_is_ready in Hr. subst r.
      cbn [lists with_lists with_g_schedule_time_slice with_g_switch_next_tcb] in *.
      apply (schedule_frame _ _ delay_list) in Hr2.
      + destruct Hr2 as [-> ->]. cbn. split; [done|].
        eapply zk_list_move_to_tail_other; [exact Hr0|done|done].
      + cbn. rewrite Hec.
        rewrite (zk_list_move_to_tail_other _ _ _ _ delay_list Hr0); done.
      + done. }
  destruct Hrest as (Htcbs & Hmembers).
  rewrite Hmembers, Hmc, Htcbs.
  split; [exact Htick|]. split; [exact Hsplit|]. split; [|split; [exact Hhead|split]].
  - intros n Hn. destruct (Hwoken n Hn) as [Hre Hst]. split; [done|].
    destruct (Horc (ZK_LIST_GET_OWNER n)) as [-> | ->]; done.
  - intros t Ht. rewrite Hsamec by done. apply Hsame. intros Hin.
    assert (Hnd : NoDup (members (lists k) delay_list)) by apply Hwf.
    rewrite Hsplit in Hnd. apply list.NoDup_app in Hnd as (_ & Hnd & _). by apply (Hnd _ Hin).
  - intros t Ht. destruct (Horc t) as [-> | ->]; [|done].
    destruct (Hor t) as [-> | ->]; done.
Qed.

Lemma zk_asm_systick_handler_delays k :
  kernel_wf k ->
  exists k' woken,
    zk_asm_systick_handler k = Ok k'
    /\ kernel_wf k'
    /\ g_current_time k' = uint32 (g_current_time k + 1)
    /\ (forall t, wake_up_time (tcbs k' t) = wake_up_time (tcbs k t))
    /\ members (lists k) delay_list = woken ++ members (lists k') delay_list
    /\ (forall n, n ∈ woken ->
          zk_time_is_reached (g_current_time k)
            (wake_up_time (tcbs k (ZK_LIST_GET_OWNER n))) = true
          /\ state (tcbs k' (ZK_LIST_GET_OWNER n)) = TASK_READY)
    /\ (forall n, head (members (lists k') delay_list) = Some n ->
          zk_time_is_reached (g_current_time k)
            (wake_up_time (tcbs k (ZK_LIST_GET_OWNER n))) = false)
    /\ (forall t, state_node t ∈ members (lists k') delay_list -> tcbs k' t = tcbs k t)
    /\ (forall t, state (tcbs k t) = TASK_READY -> state (tcbs k' t) = TASK_READY).
Proof.
  intros Hwf.
  destruct (scheduler_increment_tick_wf k Hwf) as (k' & need & _ & Hrun & Hwf' & Htime & Hf & _).
  destruct (scheduler_increment_tick_delays k Hwf) as (k2 & need2 & woken & Hrun2 & Hd).
  rewrite Hrun in Hrun2. injection Hrun2 as <- <-.
  exists k', woken. unfold zk_asm_systick_handler. rewrite Hrun.
  split; [done|]. split; [done|]. split; [done|]. split; [|done].
  intros t. by destruct (Hf t) as (_ & -> & _).
Qed.

Lemma delayed_is_not_running k tcb wake :
  kernel_wf k -> delayed_until tcb wake k -> g_current_tcb k <> tcb.
Proof.
  intros ((Hl & _) & (_ & Hlk & _) & _) (_ & _ & l1 & l2 & Hmem & _) Heq.
  rewrite Heq in Hlk.
  assert (Hin : state_node tcb ∈ members (lists k) delay_list).
  { rewrite Hmem. apply elem_of_app. right. apply elem_of_cons. by left. }
  apply Hl in Hin. congruence.
Qed.

Lemma tick_leaves_delayed k tcb wake :
  kernel_wf k -> delayed_until tcb wake k ->
  zk_time_is_reached (g_current_time k) wake = false ->
  exists k', zk_asm_systick_handler k = Ok k'
    /\ kernel_wf k'
    /\ g_current_time k' = uint32 (g_current_time k + 1)
    /\ delayed_until tcb wake k'.
Proof.
  intros Hwf (Hst & Hwk & l1 & l2 & Hmem & Hbefore) Hnot.
  destruct (zk_asm_systick_handler_delays k Hwf)
    as (k' & woken & Hrun & Hwf' & Htime & Hf & Hsplit & Hwoken & Hhead & Hsame & _).
  exists k'. split; [done|]. split; [done|]. split; [done|].
  assert (HT : state_node tcb ∉ woken).
  { intros Hin. destruct (Hwoken _ Hin) as [Hre _]. simpl in Hre. congruence. }
  rewrite Hmem in Hsplit. symmetry in Hsplit.
  destruct (app_split_not_in _ _ _ _ _ Hsplit HT) as (l1' & -> & Hrest).
  assert (Hin : state_node tcb ∈ members (lists k') delay_list).
  { rewrite Hrest. apply elem_of_app. right. apply elem_of_cons. by left. }
  unfold delayed_until. rewrite (Hsame tcb Hin). split; [done|]. split; [done|].
  exists l1', l2. split; [done|]. intros n Hn. rewrite Hf. apply Hbefore.
  apply elem_of_app. by right.
Qed.

Lemma tick_wakes_delayed k tcb :
  kernel_wf k -> delayed_until tcb (g_current_time k) k ->
  exists k', zk_asm_systick_handler k = Ok k'
    /\ kernel_wf k'
    /\ g_current_time k' = uint32 (g_current_time k + 1)
    /\ state (tcbs k' tcb) = TASK_READY.
Proof.
  intros Hwf (Hst & Hwk & l1 & l2 & Hmem & Hbefore).
  destruct (zk_asm_systick_handler_delays k Hwf)
    as (k' & woken & Hrun & Hwf' & Htime & Hf & Hsplit & Hwoken & Hhead & _).
  exists k'. split; [done|]. split; [done|]. split; [done|].
  destruct (decide (state_node tcb ∈ woken)) as [Hin|HT].
  { by destruct (Hwoken _ Hin) as [_ Hready]. }
  exfalso. rewrite Hmem in Hsplit. symmetry in Hsplit.
  destruct (app_split_not_in _ _ _ _ _ Hsplit HT) as (l1' & -> & Hrest).
  assert (Hreached : forall n, n ∈ l1' ++ [state_node tcb] ->
            zk_time_is_reached (g_current_time k)
              (wake_up_time (tcbs k (ZK_LIST_GET_OWNER n))) = true).
  { intros n [Hn| ->%list_elem_of_singleton]%elem_of_app.
    - apply Hbefore. apply elem_of_app. by right.
    - simpl. rewrite Hwk, zk_time_is_reached_spec, Z.sub_diag. done. }
  destruct l1' as [|n r]; simpl in Hrest.
  - specialize (Hhead (state_node tcb)). rewrite Hrest in Hhead.
    rewrite Hreached in Hhead; [by specialize (Hhead eq_refl)|].
    apply list_elem_of_singleton. done.
  - specialize (Hhead n). rewrite Hrest in Hhead.
    rewrite Hreached in Hhead; [by specialize (Hhead eq_refl)|].
    apply elem_of_cons. by left.
Qed.

Lemma tick_keeps_ready k tcb :
  kernel_wf k -> state (tcbs k tcb) = TASK_READY ->
  exists k', zk_asm_systick_handler k = Ok k'
    /\ kernel_wf k'
    /\ g_current_time k' = uint32 (g_current_time k + 1)
    /\ state (tcbs k' tcb) = TASK_READY.
Proof.
  intros Hwf Hst.
  destruct (zk_asm_systick_handler_delays k Hwf)
    as (k' & woken & Hrun & Hwf' & Htime & _ & _ & _ & _ & _ & Hready).
  exists k'. auto.
Qed.

Lemma ticks_while_delayed tcb now delay_time (n : nat) : forall (m : Z) k,
  0 <= m -> 0 < delay_time < 2 ^ 31 ->
  kernel_wf k -> g_current_time k = uint32 (now + m) ->
  (m <= delay_time -> delayed_until tcb (uint32 (now + delay_time)) k) ->
  (delay_time < m -> state (tcbs k tcb) = TASK_READY) ->
  exists kn, ticks n k = Ok kn
    /\ kernel_wf kn /\ g_current_time kn = uint32 (now + (m + Z.of_nat n))
    /\ (m + Z.of_nat n <= delay_time -> delayed_until tcb (uint32 (now + delay_time)) kn)
    /\ (delay_time < m + Z.of_nat n -> state (tcbs kn tcb) = TASK_READY).
Proof.
  induction n as [|n IH]; intros m k Hm Hto Hwf Htime Hdelayed Hready.
  - exists k. change (Z.of_nat 0) with 0. rewrite Z.add_0_r. done.
  - assert (Hstep : exists k', zk_asm_systick_handler k = Ok k'
      /\ kernel_wf k' /\ g_current_time k' = uint32 (now + (m + 1))
      /\ (m + 1 <= delay_time -> delayed_until tcb (uint32 (now + delay_time)) k')
      /\ (delay_time < m + 1 -> state (tcbs k' tcb) = TASK_READY)).
    { destruct (decide (m < delay_time)) as [Hlt|Hge];
        [|destruct (decide (m = delay_time)) as [->|Hne]].
      - destruct (tick_leaves_delayed k tcb (uint32 (now + delay_time)) Hwf)
          as (k' & Hrun & Hwf' & Htime' & Hb'); [apply Hdelayed; lia| |].
        { rewrite Htime. apply not_reached_before; lia. }
        exists k'. split; [done|]. split; [done|].
        split; [by rewrite Htime', Htime, uint32_succ, Z.add_assoc|].
        split; [done|lia].
      - destruct (tick_wakes_delayed k tcb Hwf) as (k' & Hrun & Hwf' & Htime' & Hf').
        { rewrite Htime. apply Hdelayed. lia. }
        exists k'. split; [done|]. split; [done|].
        split; [by rewrite Htime', Htime, uint32_succ, Z.add_assoc|].
        split; [lia|done].
      - destruct (tick_keeps_ready k tcb Hwf) as (k' & Hrun & Hwf' & Htime' & Hf');
          [apply Hready; lia|].
        exists k'. split; [done|]. split; [done|].
        split; [by rewrite Htime', Htime, uint32_succ, Z.add_assoc|].
        split; [lia|done]. }
    destruct Hstep as (k' & Hrun & Hwf' & Htime' & Hb' & Hf').
    destruct (IH (m + 1) k') as (kn & Hticks & Hwfn & Htimen & Hbn & Hfn);
      [lia|done|done|done|done|done|].
    exists kn. simpl ticks. rewrite Hrun. cbn [mbind result_bind].
    replace (m + Z.of_nat (S n)) with (m + 1 + Z.of_nat n) by lia. done.
Qed.

Lemma add_task_to_delay_list_wf k x :
  scheduler_wf k ->
  link (lists k) (state_node x) = None ->
  0 <= priority (tcbs k x) < ZK_PRIORITY_NUM ->
  exists k' l1 l2, add_task_to_delay_list x k = Ok k'
    /\ scheduler_wf k'
    /\ k' = with_tcbs (tcbs k') (with_lists (lists k') k)
    /\ tcbs k' = <[x := with_state TASK_DELAY (tcbs k x)]> (tcbs k)
    /\ members (lists k) delay_list = l1 ++ l2
    /\ members (lists k') = <[delay_list := l1 ++ state_node x :: l2]> (members (lists k))
    /\ link (lists k') = <[state_node x := Some delay_list]> (link (lists k))
    /\ forall m, m ∈ l1 ->
         zk_time_is_reached (wake_up_time (tcbs k (ZK_LIST_GET_OWNER m)))
           (wake_up_time (tcbs k x)) = false.
Proof.
  intros Hwf Hst Hp. pose proof Hwf as (Hl & Hr & Hdl & Ht & Hbm).
  assert (Hnodes : forall n, n ∈ members (lists k) delay_list -> exists t, n = state_node t).
  { intros n Hn. destruct (Hdl n Hn) as (t & -> & _). by exists t. }
  assert (Hadd : exists l1 l2,
    members (lists k) delay_list = l1 ++ l2
    /\ add_task_to_time_sort_list x DELAY_LIST k
       = Ok (with_lists
               (mk_lists (<[delay_list := l1 ++ state_node x :: l2]> (members (lists k)))
                         (<[state_node x := Some delay_list]> (link (lists k)))) k)
    /\ forall m, m ∈ l1 ->
         zk_time_is_reached (wake_up_time (tcbs k (ZK_LIST_GET_OWNER m)))
           (wake_up_time (tcbs k x)) = false).
  { unfold add_task_to_time_sort_list. rewrite zk_list_is_empty_spec.
    case_bool_decide as Hempty.
    - exists [], []. unfold zk_list_add_after. rewrite Hst, Hempty. simpl.
      split; [done|]. split; [done|]. by intros m ?%elem_of_nil.
    - destruct (time_sort_scan_spec k x delay_list (members (lists k) delay_list) None Hnodes)
        as [(l1 & it & l2 & Hsplit & Hscan & Hbefore)|[[acc Hscan] Hall]].
      + rewrite Hscan. exists l1, (state_node it :: l2). split; [done|].
        assert (Hit : link (lists k) (state_node it) = Some delay_list).
        { apply Hl. rewrite Hsplit. apply elem_of_app. right. apply elem_of_cons. by left. }
        unfold zk_list_add_before. rewrite Hst, Hit. cbn [mbind result_bind].
        rewrite Hsplit at 1. rewrite insert_before_split; [done|].
        pose proof (proj1 Hl delay_list) as Hnd. rewrite Hsplit in Hnd.
        apply list.NoDup_app in Hnd as (_ & Hnd & _). intros Hin. apply (Hnd _ Hin).
        apply elem_of_cons. by left.
      + rewrite Hscan. exists (members (lists k) delay_list), [].
        split; [by rewrite app_nil_r|]. unfold zk_list_add_before. rewrite Hst. done. }
  destruct Hadd as (l1 & l2 & Hsplit & Hadd & Hbefore).
  eexists _, l1, l2. split.
  { unfold add_task_to_delay_list. rewrite Hadd. reflexivity. }
  split; [|done].
  assert (Hprio : forall t, priority (<[x := with_state TASK_DELAY (tcbs k x)]> (tcbs k) t)
                       = priority (tcbs k t)).
  { intros t. destruct (decide (x = t)) as [->|]; by lookups. }
  split; [|split; [|split; [|split]]].
  - apply lists_wf_add; [done|done|]. rewrite Hsplit. symmetry. apply Permutation_middle.
  - intros q n. cbn. rewrite fn_lookup_insert_ne by done. intros Hn.
    destruct (Hr q n Hn) as (Hq' & t & -> & Hpr). split; [done|]. exists t.
    split; [done|]. by rewrite Hprio.
  - intros n. cbn. rewrite fn_lookup_insert.
    rewrite elem_of_app, elem_of_cons. intros Hn.
    assert (Hcase : n = state_node x \/ n ∈ members (lists k) delay_list).
    { rewrite Hsplit, elem_of_app. tauto. }
    destruct Hcase as [->|Hn'].
    + exists x. split; [done|]. by rewrite Hprio.
    + destruct (Hdl n Hn') as (t & -> & Hpr). exists t. split; [done|]. by rewrite Hprio.
  - intros n. cbn. rewrite fn_lookup_insert_ne by done. intros Hn.
    destruct (Ht n Hn) as (t & -> & Hst' & Hev' & Hpr). exists t. split; [done|].
    assert (x <> t) by (intros ->; apply Hl in Hn; congruence).
    lookups. done.
  - intros q Hq'. cbn. rewrite fn_lookup_insert_ne by done. by apply Hbm.
Qed.

Section delays.

Context `{!zk_config}.

Lemma ZK_ASSERT_delay_time delay_time :
  0 < delay_time < ZK_TSK_DLY_MAX ->
  ZK_ASSERT (bool_decide (delay_time > 0) && bool_decide (delay_time < ZK_TSK_DLY_MAX)) = Ok tt.
Proof.
  intros Hd. unfold ZK_ASSERT.
  rewrite !bool_decide_eq_true_2 by lia. simpl. by rewrite andb_false_r.
Qed.

(** The state in which [task_delay] calls [schedule]: the caller is off its
    ready list and on the delay list. *)
Lemma task_ready_to_delay_wf (k : kernel) (delay_time : Z) :
  let tcb := g_current_tcb k in
  let p := priority (tcbs k tcb) in
  let wake := uint32 (g_current_time k + delay_time) in
  let kb := update_tcb tcb (with_wake_up_time wake) (ZK_ENTER_CRITICAL k) in
  kernel_wf k ->
  exists ke l1 l2,
    task_ready_to_delay tcb kb = Ok ke
    /\ scheduler_wf ke
    /\ ke = with_tcbs (tcbs ke) (with_lists (lists ke)
              (with_priority_active (priority_active ke) kb))
    /\ tcbs ke tcb = with_state TASK_DELAY (with_wake_up_time wake (tcbs k tcb))
    /\ (forall t, t <> tcb -> tcbs ke t = tcbs k t)
    /\ members (lists k) delay_list = l1 ++ l2
    /\ members (lists ke)
       = <[delay_list := l1 ++ state_node tcb :: l2]>
           (<[ready_list p := remove_node (state_node tcb) (members (lists k) (ready_list p))]>
              (members (lists k)))
    /\ link (lists ke) (state_node tcb) = Some delay_list
    /\ forall m, m ∈ l1 ->
         zk_time_is_reached (wake_up_time (tcbs k (ZK_LIST_GET_OWNER m))) wake = false.
Proof.
  intros T pT wake kb (Hwf & Hcur & Hrun & Hnest & Hpend & Htime).
  fold T in Hcur.
  assert (Hwfb : scheduler_wf kb).
  { apply scheduler_wf_update_tcb; [done|]. exact Hwf. }
  assert (HtcbT : tcbs kb T = with_wake_up_time wake (tcbs k T)).
  { unfold kb. rewrite !tcbs_update_tcb. destruct (decide (T = T)); done. }
  assert (Htcb : forall t, t <> T -> tcbs kb t = tcbs k t).
  { intros t Ht. unfold kb. rewrite !tcbs_update_tcb. destruct (decide (T = t)); done. }
  assert (Hcurb : on_its_ready_list kb T).
  { unfold on_its_ready_list. rewrite HtcbT. exact Hcur. }
  destruct (remove_task_from_ready_list_wf kb T Hwfb Hcurb)
    as (kc & Hrem & Hwfc & Hec & Htc & Hmc & Hlc).
  rewrite HtcbT in Htc, Hmc. cbn [priority with_wake_up_time] in Hmc.
  fold pT in Hmc. change (members (lists kb)) with (members (lists k)) in Hmc.
  change (link (lists kb)) with (link (lists k)) in Hlc.
  destruct (add_task_to_delay_list_wf kc T)
    as (ke & l1 & l2 & Hadd & Hwfe & Hee & Hte & Hsplit & Hme & Hle & Hbefore).
  { done. }
  { rewrite Hlc. by lookups. }
  { rewrite Htc. lookups. exact (proj1 Hcur). }
  assert (Hdelay : members (lists kc) delay_list = members (lists k) delay_list).
  { rewrite Hmc. by lookups. }
  exists ke, l1, l2. split.
  { unfold task_ready_to_delay. rewrite Hrem. cbn [mbind result_bind]. exact Hadd. }
  split; [done|]. split.
  { assert (Hpa : priority_active ke = priority_active kc) by (by rewrite Hee).
    rewrite Hpa. rewrite Hee at 1. rewrite Hec at 1. reflexivity. }
  split; [rewrite Hte, Htc; by lookups|].
  split; [intros t Ht; rewrite Hte, Htc; lookups; by apply Htcb|].
  split; [by rewrite <- Hdelay|]. split; [by rewrite Hme, Hmc|].
  split; [rewrite Hle; by lookups|].
  intros m Hm. specialize (Hbefore m Hm).
  assert (Hm' : m ∈ members (lists k) delay_list).
  { rewrite <- Hdelay, Hsplit. apply elem_of_app. by left. }
  pose proof Hwf as (Hl & _ & Hd & _).
  destruct (Hd m Hm') as (t & -> & _). cbn [ZK_LIST_GET_OWNER] in *.
  assert (HtT : t <> T).
  { intros ->. apply Hl in Hm'. destruct Hcur as (_ & Hlk & _). congruence. }
  rewrite !Htc in Hbefore. revert Hbefore. lookups. rewrite (Htcb t HtT). done.
Qed.

(** [schedule] called by a running task whose [state_node] is linked in a
    list [h] other than its ready list, while the first ready task has its
    priority: the node is moved from [h] to the tail of the ready list. *)
Lemma schedule_beside_a_peer (k : kernel) (peer : tcb_ptr) (rest : list list_member)
  (h : list_head) :
  let tcb := g_current_tcb k in
  let p := priority (tcbs k tcb) in
  is_scheduler_suspending k = 0 ->
  get_highest_priority_task k = Ok peer ->
  priority (tcbs k peer) = p ->
  0 <= p < ZK_PRIORITY_NUM ->
  link (lists k) (state_node tcb) = Some h -> h <> ready_list p ->
  members (lists k) (ready_list p) = state_node peer :: rest ->
  exists ls,
    schedule k
    = Ok (zk_cpu_trigger_pendsv
            (with_g_switch_next_tcb peer (with_lists ls (with_g_switch_next_tcb peer k))))
    /\ members ls (ready_list p) = state_node peer :: rest ++ [state_node tcb]
    /\ members ls h = remove_node (state_node tcb) (members (lists k) h).
Proof.
  intros T pT Hrun Hnext Hprio HpT Hlk Hh Hready.
  unfold schedule. rewrite Hrun. destruct (decide (0 <> 0)); [done|].
  rewrite Hnext. cbn [mbind result_bind].
  cbn [tcbs lists g_current_tcb with_g_switch_next_tcb]. fold T. rewrite Hprio. fold pT.
  destruct (decide (pT <> pT)); [done|].
  unfold node_next, node_pre. rewrite Hlk. cbn [mbind option_bind].
  destruct (decide _) as [[Hnx _]|_].
  { injection Hnx as Hnx. apply next_of_head in Hnx. done. }
  unfold ready_list_at. destruct (decide (0 <= pT < ZK_PRIORITY_NUM)); [|done].
  cbn [mbind result_bind].
  unfold zk_list_move_to_tail, zk_list_delete. rewrite Hlk.
  cbn [mbind result_bind]. unfold zk_list_add_before. cbn [link]. lookups.
  cbn [members]. lookups. rewrite Hready.
  cbn [mbind result_bind].
  unfold ZK_LIST_GET_FIRST_ENTRY, head_next. cbn [members]. lookups.
  cbn [mbind result_bind ZK_LIST_GET_OWNER app].
  eexists. split; [reflexivity|]. cbn [members]. by lookups.
Qed.

(** X21: [task_delay] beside a ready task of the caller's priority does not
    delay.  In a well-formed kernel where the running task has the most
    urgent priority among the ready tasks and shares it with a ready task
    [peer], a call with a delay from 1 up to ZK_TSK_DLY_MAX - 1 returns
    ZK_SUCCESS and switches to [peer]; [schedule], finding the two
    priorities equal, has moved the caller's [state_node] from the delay
    list to the tail of the ready list.  The caller is left in state
    TASK_DELAY on its ready list and the delay list is as it was before the
    call, so that the round robin runs the caller again whatever its delay
    is. *)
Theorem task_delay_beside_a_peer (k : kernel) (delay_time : Z) (peer : tcb_ptr)
  (rest : list list_member) :
  let tcb := g_current_tcb k in
  let p := priority (tcbs k tcb) in
  kernel_wf k ->
  0 < delay_time < ZK_TSK_DLY_MAX ->
  remove_node (state_node tcb) (members (lists k) (ready_list p)) = state_node peer :: rest ->
  (forall q, 0 <= q < p -> members (lists k) (ready_list q) = []) ->
  exists k0,
    task_delay delay_time k = Ok (k0, Return ZK_SUCCESS)
    /\ g_current_tcb k0 = peer
    /\ peer <> tcb
    /\ state (tcbs k0 tcb) = TASK_DELAY
    /\ members (lists k0) (ready_list p) = state_node peer :: rest ++ [state_node tcb]
    /\ members (lists k0) delay_list = members (lists k) delay_list.
Proof.
  intros T pT Hkwf Hd Hpeer Hurgent.
  pose proof Hkwf as (Hwf & Hcur & Hrun & Hnest & Hpend & Htime). fold T in Hcur.
  destruct (task_ready_to_delay_wf k delay_time Hkwf)
    as (ke & l1 & l2 & Hmove & Hwfe & Hke & HkeT & Hke_other & Hsplit & Hme & Hle & _).
  fold T in Hmove, HkeT, Hke_other, Hme, Hle. fold pT in Hme.
  set (wake := uint32 (g_current_time k + delay_time)) in *.
  set (kb := update_tcb T (with_wake_up_time wake) (ZK_ENTER_CRITICAL k)) in *.
  rewrite Hpeer in Hme.
  pose proof Hwf as (Hl & Hr & _).
  pose proof Hcur as (HpT & HlkT & HinT). fold pT in HpT, HlkT, HinT.
  assert (Hready : forall q, members (lists ke) (ready_list q)
                        = if decide (q = pT) then state_node peer :: rest
                          else members (lists k) (ready_list q)).
  { intros q. rewrite Hme. destruct (decide (q = pT)) as [->|]; by lookups. }
  assert (Hpeer_in : state_node peer ∈ members (lists k) (ready_list pT)).
  { apply (remove_node_elem (state_node T)). rewrite Hpeer. apply elem_of_cons. by left. }
  assert (HpeerT : peer <> T).
  { intros ->. apply (remove_node_not_elem (state_node T) (members (lists k) (ready_list pT))).
    - apply Hl.
    - rewrite Hpeer. apply elem_of_cons. by left. }
  assert (Hpeer_prio : priority (tcbs k peer) = pT).
  { destruct (Hr pT _ Hpeer_in) as (_ & t & [= <-] & Hp). exact Hp. }
  destruct (get_highest_priority_task_spec ke pT) as (next & Hnext & Hhigh).
  { apply Hwfe. }
  { exact HpT. }
  { rewrite Hready. by destruct (decide (pT = pT)). }
  assert (Hnext_peer : next = peer).
  { destruct Hhigh as (q & n & Hq & Hhead & Hown & Hlow).
    destruct (decide (q = pT)) as [->|Hne].
    - rewrite Hready in Hhead. destruct (decide (pT = pT)); [|done].
      injection Hhead as <-. by rewrite <- Hown.
    - exfalso. destruct (decide (q < pT)) as [Hlt|Hge].
      + rewrite Hready in Hhead. destruct (decide (q = pT)); [done|].
        rewrite Hurgent in Hhead by lia. done.
      + specialize (Hlow pT ltac:(lia)). rewrite Hready in Hlow.
        by destruct (decide (pT = pT)). }
  subst next.
  assert (HT_not_there : state_node T ∉ l1).
  { intros Hin. assert (Hin' : state_node T ∈ members (lists k) delay_list).
    { rewrite Hsplit. apply elem_of_app. by left. }
    apply Hl in Hin'. congruence. }
  assert (Hcure : g_current_tcb ke = T) by (by rewrite Hke).
  assert (HprioT : priority (tcbs ke T) = pT) by (by rewrite HkeT).
  destruct (schedule_beside_a_peer ke peer rest delay_list)
    as (ls & Hsched & Hls_ready & Hls_delay).
  { rewrite Hke. exact Hrun. }
  { exact Hnext. }
  { rewrite Hcure, HprioT, (Hke_other peer HpeerT). exact Hpeer_prio. }
  { rewrite Hcure, HprioT. exact HpT. }
  { rewrite Hcure. exact Hle. }
  { done. }
  { rewrite Hcure, HprioT. rewrite Hready. by destruct (decide (pT = pT)). }
  rewrite Hcure, HprioT in Hls_ready. rewrite Hcure in Hls_delay.
  rewrite Hme in Hls_delay. revert Hls_delay. lookups.
  rewrite (remove_node_inserted _ _ _ HT_not_there). intros Hls_delay.
  unfold task_delay.
  change (is_scheduler_suspending (ZK_ENTER_CRITICAL k)) with (is_scheduler_suspending k).
  rewrite Hrun. destruct (decide (0 <> 0)); [done|].
  rewrite (ZK_ASSERT_delay_time _ Hd). cbn [mbind result_bind].
  change (update_tcb (g_current_tcb (ZK_ENTER_CRITICAL k)) (with_wake_up_time _) _) with kb.
  change (g_current_tcb (ZK_ENTER_CRITICAL k)) with T.
  rewrite Hmove. cbn [mbind result_bind]. rewrite Hsched. cbn [mbind result_bind].
  set (kx := zk_cpu_trigger_pendsv
               (with_g_switch_next_tcb peer (with_lists ls (with_g_switch_next_tcb peer ke)))).
  assert (Hexit : ZK_EXIT_CRITICAL kx
                  = with_pendsv_pending false
                      (with_g_current_tcb peer (with_zk_critical_nesting 0 kx))).
  { unfold ZK_EXIT_CRITICAL.
    replace (zk_critical_nesting kx) with 1
      by (unfold kx; rewrite Hke; cbn; by rewrite Hnest).
    change (uint32 (1 - 1)) with 0. cbn. by destruct (decide (0 = 0)). }
  rewrite Hexit.
  eexists. split; [reflexivity|].
  cbn [g_current_tcb tcbs lists with_pendsv_pending with_g_current_tcb
       with_zk_critical_nesting kx zk_cpu_trigger_pendsv with_g_switch_next_tcb with_lists].
  split; [done|]. split; [done|]. split; [by rewrite HkeT|]. split; [exact Hls_ready|].
  by rewrite Hls_delay, Hsplit.
Qed.

(** X22: [task_delay] alone at its priority.  A call with a delay from 1 up
    to ZK_TSK_DLY_MAX - 1, made at tick [now] by the running task in a
    well-formed kernel where another task is ready, none of them at the
    caller's priority, and no delayed task is overdue, returns ZK_SUCCESS
    with the caller switched out.  While only tick interrupts follow, the
    caller stays in
    state TASK_DELAY through the first [delay_time] of them, which read the
    times [now] to [now + delay_time - 1]; the next one, which reads
    [now + delay_time], makes it ready, and it stays ready. *)
Theorem task_delay_wakes_after_the_delay (k : kernel) (delay_time : Z) :
  let tcb := g_current_tcb k in
  let now := g_current_time k in
  kernel_wf k -> delays_pending k ->
  0 < delay_time < ZK_TSK_DLY_MAX ->
  members (lists k) (ready_list (priority (tcbs k tcb))) = [state_node tcb] ->
  (exists p n, n ∈ members (lists k) (ready_list p) /\ n <> state_node tcb) ->
  exists k0,
    task_delay delay_time k = Ok (k0, Return ZK_SUCCESS)
    /\ forall n : nat, exists kn,
         ticks n k0 = Ok kn
         /\ g_current_time kn = uint32 (now + Z.of_nat n)
         /\ (Z.of_nat n <= delay_time ->
             state (tcbs kn tcb) = TASK_DELAY /\ g_current_tcb kn <> tcb)
         /\ (delay_time < Z.of_nat n -> state (tcbs kn tcb) = TASK_READY).
Proof.
  intros T now Hkwf Hpending Hd Halone (p0 & n0 & Hn0 & Hn0T).
  pose proof Hkwf as (Hwf & Hcur & Hrun & Hnest & Hpend & Htime). fold T in Hcur.
  assert (Hd' : 0 < delay_time < 2 ^ 31).
  { change ZK_TSK_DLY_MAX with 2147483647 in Hd. lia. }
  set (pT := priority (tcbs k T)) in *.
  destruct (task_ready_to_delay_wf k delay_time Hkwf)
    as (ke & l1 & l2 & Hmove & Hwfe & Hke & HkeT & Hke_other & Hsplit & Hme & Hle & Hbefore).
  fold T in Hmove, HkeT, Hke_other, Hme, Hle. fold pT in Hme. fold now in Hmove, HkeT, Hbefore.
  set (wake := uint32 (now + delay_time)) in *.
  set (kb := update_tcb T (with_wake_up_time wake) (ZK_ENTER_CRITICAL k)) in *.
  rewrite Halone in Hme. simpl in Hme. destruct (decide (state_node T = state_node T)); [|done].
  assert (Hready : forall q, members (lists ke) (ready_list q)
                        = if decide (q = pT) then [] else members (lists k) (ready_list q)).
  { intros q. rewrite Hme. destruct (decide (q = pT)) as [->|]; by lookups. }
  assert (Hp0 : p0 <> pT).
  { intros ->. rewrite Halone in Hn0. by apply list_elem_of_singleton in Hn0. }
  destruct (get_highest_priority_task_spec ke p0) as (next & Hnext & Hhigh).
  { apply Hwfe. }
  { pose proof Hwf as (_ & Hr & _). by destruct (Hr _ _ Hn0). }
  { rewrite Hready. destruct (decide (p0 = pT)); [done|].
    intros Hnil. rewrite Hnil in Hn0. by apply elem_of_nil in Hn0. }
  pose proof (highest_ready_on_its_list ke next Hwfe Hhigh) as Hon.
  assert (Hdiff : priority (tcbs ke next) <> priority (tcbs ke T)).
  { intros Heq. destruct Hon as (_ & _ & Hin). rewrite Heq, HkeT in Hin.
    cbn [priority with_state with_wake_up_time] in Hin.
    fold pT in Hin. rewrite Hready in Hin. destruct (decide (pT = pT)); [|done].
    by apply elem_of_nil in Hin. }
  assert (HnextT : next <> T) by (by intros ->).
  assert (Hsched : schedule ke = Ok (zk_cpu_trigger_pendsv (with_g_switch_next_tcb next ke))).
  { unfold schedule.
    replace (is_scheduler_suspending ke) with 0 by (rewrite Hke; symmetry; exact Hrun).
    destruct (decide (0 <> 0)); [done|]. rewrite Hnext. cbn [mbind result_bind].
    replace (g_current_tcb (with_g_switch_next_tcb next ke)) with T by (by rewrite Hke).
    cbn [tcbs with_g_switch_next_tcb]. destruct (decide _); [done|]. done. }
  set (kx := zk_cpu_trigger_pendsv (with_g_switch_next_tcb next ke)).
  assert (Hexit : ZK_EXIT_CRITICAL kx
                  = with_pendsv_pending false
                      (with_g_current_tcb next (with_zk_critical_nesting 0 kx))).
  { unfold ZK_EXIT_CRITICAL.
    replace (zk_critical_nesting kx) with 1
      by (unfold kx; rewrite Hke; cbn; by rewrite Hnest).
    change (uint32 (1 - 1)) with 0. cbn. by destruct (decide (0 = 0)). }
  set (k0 := with_pendsv_pending false
               (with_g_current_tcb next (with_zk_critical_nesting 0 kx))) in *.
  assert (Hcall : task_delay delay_time k = Ok (k0, Return ZK_SUCCESS)).
  { unfold task_delay.
    change (is_scheduler_suspending (ZK_ENTER_CRITICAL k)) with (is_scheduler_suspending k).
    rewrite Hrun. destruct (decide (0 <> 0)); [done|].
    rewrite (ZK_ASSERT_delay_time _ Hd). cbn [mbind result_bind].
    change (update_tcb (g_current_tcb (ZK_ENTER_CRITICAL k)) (with_wake_up_time _) _) with kb.
    change (g_current_tcb (ZK_ENTER_CRITICAL k)) with T.
    rewrite Hmove. cbn [mbind result_bind]. rewrite Hsched. cbn [mbind result_bind].
    fold kx. by rewrite Hexit. }
  assert (Hwf0 : kernel_wf k0).
  { split; [exact Hwfe|]. split; [exact Hon|]. split.
    { unfold is_scheduler_suspending in *. cbn. rewrite Hke. exact Hrun. }
    split; [done|]. split; [done|]. cbn. rewrite Hke. exact Htime. }
  assert (Htime0 : g_current_time k0 = now) by (cbn; by rewrite Hke).
  assert (Hdelayed : delayed_until T wake k0).
  { unfold delayed_until.
    change (tcbs k0) with (tcbs ke). change (lists k0) with (lists ke).
    rewrite HkeT. split; [done|]. split; [done|].
    exists l1, l2. split; [rewrite Hme; by lookups|].
    intros m Hm.
    assert (Hm' : m ∈ members (lists k) delay_list).
    { rewrite Hsplit. apply elem_of_app. by left. }
    pose proof Hwf as (Hl & _ & Hdl & _).
    destruct (Hdl m Hm') as (t & -> & _).
    assert (HtT : t <> T).
    { intros ->. apply Hl in Hm'. destruct Hcur as (_ & Hlk & _). congruence. }
    cbn [ZK_LIST_GET_OWNER]. rewrite Hke_other by done.
    apply reached_after_insertion; [done| |exact (Hbefore _ Hm)].
    apply (Hpending (state_node t) Hm'). }
  exists k0. split; [exact Hcall|]. intros n.
  destruct (ticks_while_delayed T now delay_time n 0 k0)
    as (kn & Hticks & Hwfn & Htimen & Hdn & Hrn); try done; try lia.
  { rewrite Htime0, Z.add_0_r. symmetry. apply uint32_small. exact Htime. }
  exists kn. split; [done|]. split; [done|]. split.
  - intros Hle'. specialize (Hdn Hle'). split; [apply Hdn|].
    by apply (delayed_is_not_running kn T wake).
  - exact Hrn.
Qed.

End delays.

Lemma task_delay_beside_a_peer_witness :
  exists k0,
    task_delay (H := board) 1000 peers_written_out = Ok (k0, Return ZK_SUCCESS)
    /\ g_current_tcb k0 = 1%nat
    /\ state (tcbs k0 2) = TASK_DELAY
    /\ members (lists k0) (ready_list 7) = [state_node 1; state_node 2]
    /\ members (lists k0) delay_list = []
    /\ (g_current_tcb <$> ticks 5 k0) = Ok 2%nat.
Proof.
  assert (Hc : g_current_tcb peers_written_out = 2%nat) by (vm_compute; reflexivity).
  assert (Hp : priority (tcbs peers_written_out 2) = 7) by (vm_compute; reflexivity).
  assert (Hl : lists peers_written_out = peers_lists) by reflexivity.
  destruct (task_delay_beside_a_peer (H := board) peers_written_out 1000 1 [])
    as (k0 & Hcall & Hcur & _ & Hstate & Hready & Hdelay).
  - exact peers_written_out_wf.
  - vm_compute. split; reflexivity.
  - rewrite Hc, Hp, Hl. reflexivity.
  - intros q Hq. rewrite Hc, Hp in Hq. rewrite Hl. cbn [members peers_lists].
    destruct (decide (ready_list q = ready_list 7)) as [Heq|_]; [inversion Heq; lia|].
    destruct (decide (ready_list q = ready_list 31)) as [Heq|_]; [inversion Heq; lia|].
    reflexivity.
  - rewrite Hc, Hp, Hl in *. exists k0. split; [exact Hcall|]. split; [exact Hcur|].
    split; [exact Hstate|]. split; [exact Hready|]. split; [exact Hdelay|].
    assert (Hrun : (g_current_tcb <$> ticks 5
                      (kernel_of (task_delay (H := board) 1000 peers_written_out)))
                   = Ok 2%nat) by (vm_compute; reflexivity).
    rewrite Hcall in Hrun. exact Hrun.
Defined.

Lemma task_delay_wakes_after_the_delay_witness :
  exists k0,
    task_delay (H := board) 10 board_with_semaphore = Ok (k0, Return ZK_SUCCESS)
    /\ (exists k10, ticks 10 k0 = Ok k10
                    /\ g_current_time k10 = 10
                    /\ state (tcbs k10 2) = TASK_DELAY)
    /\ (exists k11, ticks 11 k0 = Ok k11
                    /\ g_current_time k11 = 11
                    /\ state (tcbs k11 2) = TASK_READY).
Proof.
  assert (Hc : g_current_tcb board_with_semaphore = 2%nat) by (vm_compute; reflexivity).
  assert (Hnow : g_current_time board_with_semaphore = 0) by (vm_compute; reflexivity).
  assert (Hp : priority (tcbs board_with_semaphore 2) = 3) by (vm_compute; reflexivity).
  assert (Hl : lists board_with_semaphore = board_lists) by reflexivity.
  destruct (task_delay_wakes_after_the_delay (H := board) board_with_semaphore 10)
    as (k0 & Hcall & Hticks).
  - exact board_with_semaphore_wf.
  - intros n. rewrite Hl. intros Hn. apply elem_of_nil in Hn. destruct Hn.
  - vm_compute. split; reflexivity.
  - rewrite Hc, Hp, Hl. reflexivity.
  - exists 5, (state_node 1). rewrite Hc, Hl. split; [|discriminate].
    apply list_elem_of_singleton. reflexivity.
  - rewrite Hc, Hnow in Hticks. exists k0. split; [exact Hcall|]. split.
    + destruct (Hticks 10%nat) as (k10 & Hrun & Htime & Hdelayed & _).
      exists k10. split; [exact Hrun|]. split; [exact Htime|].
      apply Hdelayed. vm_compute. discriminate.
    + destruct (Hticks 11%nat) as (k11 & Hrun & Htime & _ & Hready).
      exists k11. split; [exact Hrun|]. split; [exact Htime|].
      apply Hready. vm_compute. reflexivity.
Defined.

(** ** Waiting without a timeout beside a ready task of the same priority *)

(** [schedule] called by a running task whose [state_node] is in no list,
    while the first ready task has its priority: [zk_list_move_to_tail]
    unlinks the node through its null pointers. *)
Lemma schedule_beside_a_peer_unlinked (k : kernel) (peer : tcb_ptr) :
  let tcb := g_current_tcb k in
  let p := priority (tcbs k tcb) in
  is_scheduler_suspending k = 0 ->
  get_highest_priority_task k = Ok peer ->
  priority (tcbs k peer) = p ->
  0 <= p < ZK_PRIORITY_NUM ->
  link (lists k) (state_node tcb) = None ->
  schedule k = Fault NULL_DEREFERENCE.
Proof.
  intros T pT Hrun Hnext Hprio HpT Hlk.
  unfold schedule. rewrite Hrun. destruct (decide (0 <> 0)); [done|].
  rewrite Hnext. cbn [mbind result_bind].
  cbn [tcbs lists g_current_tcb with_g_switch_next_tcb]. fold T. rewrite Hprio. fold pT.
  destruct (decide (pT <> pT)); [done|].
  unfold node_next, node_pre. rewrite Hlk. cbn [mbind option_bind].
  destruct (decide _) as [[Hnx _]|_]; [done|].
  unfold ready_list_at. destruct (decide (0 <= pT < ZK_PRIORITY_NUM)); [|done].
  cbn [mbind result_bind].
  unfold zk_list_move_to_tail, zk_list_delete. rewrite Hlk. reflexivity.
Qed.

Section peers_without_timeout.

Context `{!zk_config}.

(** X20: [sem_get] beside a ready task of the caller's priority.  In a
    well-formed kernel where the running task has the most urgent priority
    among the ready tasks and shares it with a ready task, a call on a
    created semaphore whose count is 0 dereferences a null pointer:
    [task_ready_to_block] has unlinked the caller's [state_node] and, the
    wait having no timeout, linked it nowhere; [schedule] finds the
    priorities of the caller and of the first ready task equal and calls
    [zk_list_move_to_tail] on the node, whose [pre] and [next] are
    LIST_NODE_NULL. *)
Theorem sem_get_beside_a_peer (k : kernel) (sem_handle : nat) (peer : tcb_ptr)
  (rest : list list_member) :
  let tcb := g_current_tcb k in
  let p := priority (tcbs k tcb) in
  kernel_wf k ->
  (sem_handle < SEM_MAX_NUM)%nat ->
  (exists sem, g_sem_pool k !! sem_handle = Some sem
               /\ sem_is_used sem = SEM_USED /\ count sem = 0) ->
  (forall n, n ∈ members (lists k) (wait_list sem_handle) ->
             exists t, n = event_sleep_list t) ->
  link (lists k) (event_sleep_list tcb) = None ->
  remove_node (state_node tcb) (members (lists k) (ready_list p)) = state_node peer :: rest ->
  (forall q, 0 <= q < p -> members (lists k) (ready_list q) = []) ->
  sem_get sem_handle k = Fault NULL_DEREFERENCE.
Proof.
  intros T pT (Hwf & Hcur & Hrun & Hnest & Hpend & Htime) Hh (sem & Hsem & Hused & Hcount)
    Hwait Hev Hpeer Hurgent.
  fold T in Hcur.
  set (wake := uint32 (g_current_time k + 0xFF)).
  set (kb := update_tcb T (with_wake_up_time wake)
               (update_tcb T (with_event_timeout_wakeup EVENT_NO_TIMEOUT)
                  (ZK_ENTER_CRITICAL k))).
  assert (Hwfb : scheduler_wf kb).
  { apply scheduler_wf_update_tcb; [done|]. apply scheduler_wf_update_tcb; [done|]. exact Hwf. }
  assert (HtcbT : tcbs kb T = with_wake_up_time wake
                               (with_event_timeout_wakeup EVENT_NO_TIMEOUT (tcbs k T))).
  { unfold kb. rewrite !tcbs_update_tcb. destruct (decide (T = T)); done. }
  assert (Htcb : forall t, t <> T -> tcbs kb t = tcbs k t).
  { intros t Ht. unfold kb. rewrite !tcbs_update_tcb. destruct (decide (T = t)); done. }
  assert (Hcurb : on_its_ready_list kb T).
  { unfold on_its_ready_list. rewrite HtcbT. exact Hcur. }
  destruct (remove_task_from_ready_list_wf kb T Hwfb Hcurb)
    as (kc & Hrem & Hwfc & Hec & Htc & Hmc & Hlc).
  rewrite HtcbT in Htc, Hmc. cbn [priority with_wake_up_time with_event_timeout_wakeup] in Hmc.
  fold pT in Hmc. change (members (lists kb)) with (members (lists k)) in Hmc.
  change (link (lists kb)) with (link (lists k)) in Hlc.
  rewrite Hpeer in Hmc.
  destruct (add_task_to_endless_block_list_wf kc T (wait_list sem_handle))
    as (kd & l & Hadd & Hwfd & Hed & Htd & Hmd & Hld); try done.
  { rewrite Hlc. by lookups. }
  { rewrite Hlc. by lookups. }
  { rewrite Hmc. lookups. exact Hwait. }
  assert (Hkd : kd = with_tcbs (tcbs kd) (with_lists (lists kd)
                        (with_priority_active (priority_active kc) kb))).
  { rewrite Hed at 1. rewrite Hec at 1. reflexivity. }
  assert (HkdT : tcbs kd T
                 = with_state TASK_ENDLESS_BLOCKED
                     (with_wake_up_time wake
                        (with_event_timeout_wakeup EVENT_NO_TIMEOUT (tcbs k T)))).
  { rewrite Htd, Htc. by lookups. }
  assert (Hkd_other : forall t, t <> T -> tcbs kd t = tcbs k t).
  { intros t Ht. rewrite Htd, Htc. lookups. by apply Htcb. }
  assert (Hready : forall q, members (lists kd) (ready_list q)
                        = if decide (q = pT) then state_node peer :: rest
                          else members (lists k) (ready_list q)).
  { intros q. rewrite Hmd, Hmc. destruct (decide (q = pT)) as [->|]; by lookups. }
  pose proof Hwf as (Hl & Hr & _).
  pose proof Hcur as (HpT & HlkT & HinT). fold pT in HpT, HlkT, HinT.
  assert (Hpeer_in : state_node peer ∈ members (lists k) (ready_list pT)).
  { apply (remove_node_elem (state_node T)). rewrite Hpeer. apply elem_of_cons. by left. }
  assert (HpeerT : peer <> T).
  { intros ->. apply (remove_node_not_elem (state_node T) (members (lists k) (ready_list pT))).
    - apply Hl.
    - rewrite Hpeer. apply elem_of_cons. by left. }
  assert (Hpeer_prio : priority (tcbs k peer) = pT).
  { destruct (Hr pT _ Hpeer_in) as (_ & t & [= <-] & Hp). exact Hp. }
  destruct (get_highest_priority_task_spec kd pT) as (next & Hnext & Hhigh).
  { apply Hwfd. }
  { exact HpT. }
  { rewrite Hready. by destruct (decide (pT = pT)). }
  assert (Hnext_peer : next = peer).
  { destruct Hhigh as (q & n & Hq & Hhead & Hown & Hlow).
    destruct (decide (q = pT)) as [->|Hne].
    - rewrite Hready in Hhead. destruct (decide (pT = pT)); [|done].
      injection Hhead as <-. by rewrite <- Hown.
    - exfalso. destruct (decide (q < pT)) as [Hlt|Hge].
      + rewrite Hready in Hhead. destruct (decide (q = pT)); [done|].
        rewrite Hurgent in Hhead by lia. done.
      + specialize (Hlow pT ltac:(lia)). rewrite Hready in Hlow.
        by destruct (decide (pT = pT)). }
  subst next.
  assert (Hcurd : g_current_tcb kd = T) by (by rewrite Hkd).
  assert (HprioT : priority (tcbs kd T) = pT) by (by rewrite HkdT).
  assert (Hsched : schedule kd = Fault NULL_DEREFERENCE).
  { apply (schedule_beside_a_peer_unlinked kd peer).
    - rewrite Hkd. exact Hrun.
    - exact Hnext.
    - rewrite Hcurd, HprioT, (Hkd_other peer HpeerT). exact Hpeer_prio.
    - rewrite Hcurd, HprioT. exact HpT.
    - rewrite Hcurd, Hld, Hlc. by lookups. }
  unfold sem_get, sem_get_internal.
  destruct (decide (SEM_MAX_NUM <= sem_handle)%nat); [lia|].
  unfold sem_at. rewrite Hsem. cbn [mbind result_bind]. rewrite Hused.
  destruct (decide (SEM_USED = SEM_UNUSED)); [done|].
  change (is_scheduler_suspending (ZK_ENTER_CRITICAL k)) with (is_scheduler_suspending k).
  rewrite Hrun. destruct (decide (0 <> 0)); [done|].
  rewrite Hcount. destruct (decide (0 > 0)); [lia|]. destruct (decide (255 = 0)); [lia|].
  change (update_tcb (g_current_tcb k) (with_wake_up_time _) _) with kb.
  fold T. unfold task_ready_to_block. rewrite Hrem. cbn [mbind result_bind].
  rewrite Hadd. cbn [mbind result_bind].
  destruct (decide (BLOCK_TYPE_ENDLESS = BLOCK_TYPE_TIMEOUT)); [done|].
  cbn [mbind result_bind]. rewrite Hsched. reflexivity.
Qed.

End peers_without_timeout.

Lemma sem_get_beside_a_peer_witness :
  sem_get (H := board) 0 peers_written_out = Fault NULL_DEREFERENCE.
Proof.
  assert (Hc : g_current_tcb peers_written_out = 2%nat) by (vm_compute; reflexivity).
  assert (Hp : priority (tcbs peers_written_out 2) = 7) by (vm_compute; reflexivity).
  assert (Hl : lists peers_written_out = peers_lists) by reflexivity.
  apply (sem_get_beside_a_peer (H := board) peers_written_out 0 1 []).
  - exact peers_written_out_wf.
  - vm_compute. lia.
  - eexists. split; [vm_compute; reflexivity|]. split; reflexivity.
  - intros n. rewrite Hl. intros Hn. apply elem_of_nil in Hn. destruct Hn.
  - rewrite Hc, Hl. reflexivity.
  - rewrite Hc, Hp, Hl. reflexivity.
  - intros q Hq. rewrite Hc, Hp in Hq. rewrite Hl. cbn [members peers_lists].
    destruct (decide (ready_list q = ready_list 7)) as [Heq|_]; [inversion Heq; lia|].
    destruct (decide (ready_list q = ready_list 31)) as [Heq|_]; [inversion Heq; lia|].
    reflexivity.
Defined.

(** ** Waiting for a mutex with a timeout *)

(** A tick changes no mutex. *)
Lemma schedule_pools k k' :
  schedule k = Ok k' ->
  g_mutex_pool k' = g_mutex_pool k /\ g_sem_pool k' = g_sem_pool k.
Proof. unfold schedule. intros H. by results. Qed.

Lemma zk_asm_systick_handler_pools k k' :
  kernel_wf k -> zk_asm_systick_handler k = Ok k' ->
  g_mutex_pool k' = g_mutex_pool k /\ g_sem_pool k' = g_sem_pool k.
Proof.
  intros (Hwf & Hcur & Hrun & Hnest & Hpend & Htime) Htick.
  unfold zk_asm_systick_handler in Htick.
  apply bind_Ok_inv in Htick as ([k1 need] & Htick & [= <-]).
  set (kt := increment_time (ZK_ENTER_CRITICAL k)).
  assert (Hwft : scheduler_wf kt) by exact Hwf.
  destruct (check_task_wakeup_wakes (g_current_time k) kt Hwft)
    as (kc & woken & Hscan & Hwfc & Hwc & _).
  assert (Hpools : g_mutex_pool kc = g_mutex_pool k /\ g_sem_pool kc = g_sem_pool k).
  { destruct Hwc as (-> & _). done. }
  unfold scheduler_increment_tick in Htick.
  change (is_scheduler_suspending (ZK_ENTER_CRITICAL k)) with (is_scheduler_suspending k)
    in Htick.
  rewrite Hrun in Htick. destruct (decide (0 <> 0)); [done|].
  change (get_current_time k) with (g_current_time k) in Htick. fold kt in Htick.
  rewrite Hscan in Htick. cbn [mbind result_bind] in Htick.
  clear Hscan.
  apply bind_Ok_inv in Htick as (next & _ & Htick).
  cbn [g_current_tcb tcbs lists with_g_switch_next_tcb] in Htick.
  destruct Hpools as [<- <-].
  repeat match type of Htick with
  | (if ?c then _ else _) = _ => destruct c
  | mbind _ _ = Ok _ =>
      let a := fresh "r" in let Ha := fresh "Hr" in
      apply bind_Ok_inv in Htick as (a & Ha & Htick)
  end;
  injection Htick as <- _;
  match goal with |- context [ZK_EXIT_CRITICAL ?kx] =>
    destruct (ZK_EXIT_CRITICAL_fields kx) as (_ & _ & -> & -> & _) end.
  all: try done.
  - apply schedule_pools in Hr. destruct Hr as [-> ->]. done.
  - apply schedule_pools in Hr2. destruct Hr2 as [-> ->]. done.
Qed.

Lemma ticks_pools (n : nat) : forall k kn,
  kernel_wf k -> ticks n k = Ok kn ->
  g_mutex_pool kn = g_mutex_pool k /\ g_sem_pool kn = g_sem_pool k.
Proof.
  induction n as [|n IH]; intros k kn Hwf Hticks; simpl in Hticks.
  - by injection Hticks as <-.
  - apply bind_Ok_inv in Hticks as (k1 & Htick & Hticks).
    destruct (zk_asm_systick_handler_wf k Hwf) as (k1' & _ & Htick' & Hwf1 & _).
    rewrite Htick in Htick'. injection Htick' as <-.
    destruct (zk_asm_systick_handler_pools k k1 Hwf Htick) as [<- <-].
    by apply IH.
Qed.

Section mutex_timeouts.

Context `{!zk_config}.

Lemma mutex_lock_timeout_blocks (k : kernel) (mutex_handle : nat) (timeout : Z)
  (m : mutex_t) (holder : tcb_ptr) :
  let tcb := g_current_tcb k in
  kernel_wf k ->
  0 < timeout < 2 ^ 31 ->
  (mutex_handle < MUTEX_MAX_NUM)%nat ->
  g_mutex_pool k !! mutex_handle = Some m ->
  mutex_is_used m = MUTEX_USED -> owner_hold_count m <> 0 ->
  owner m = Some holder -> holder <> tcb ->
  owner_priority m <= priority (tcbs k tcb) ->
  (forall n, n ∈ members (lists k) (sleep_list mutex_handle) ->
             exists t, n = event_sleep_list t) ->
  link (lists k) (event_sleep_list tcb) = None ->
  members (lists k) (ready_list (priority (tcbs k tcb))) = [state_node tcb] ->
  (exists p n, n ∈ members (lists k) (ready_list p) /\ n <> state_node tcb) ->
  timeouts_pending k ->
  exists k0,
    mutex_lock_timeout mutex_handle timeout k = Ok (k0, Return ZK_SUCCESS)
    /\ kernel_wf k0
    /\ g_current_time k0 = g_current_time k
    /\ g_mutex_pool k0 = g_mutex_pool k
    /\ holding_mutex (tcbs k0 tcb) = Some mutex_handle
    /\ blocked_until tcb (uint32 (g_current_time k + timeout)) k0.
Proof.
  intros T (Hwf & Hcur & Hrun & Hnest & Hpend & Htime) Hto Hh Hm Hused Hcount Howner Hholder
    Hprio Hwait Hev Halone (p0 & n0 & Hn0 & Hn0T) Hpending.
  fold T in Hcur.
  set (pT := priority (tcbs k T)) in *.
  set (wake := uint32 (g_current_time k + timeout)).
  set (kb := update_tcb T (with_holding_mutex (Some mutex_handle))
               (ZK_ENTER_CRITICAL
                  (update_tcb T (with_wake_up_time wake)
                     (update_tcb T (with_event_timeout_wakeup EVENT_NO_TIMEOUT)
                        (ZK_ENTER_CRITICAL k))))).
  assert (Hwfb : scheduler_wf kb).
  { apply scheduler_wf_update_tcb; [done|].
    change (scheduler_wf (update_tcb T (with_wake_up_time wake)
                            (update_tcb T (with_event_timeout_wakeup EVENT_NO_TIMEOUT)
                               (ZK_ENTER_CRITICAL k)))).
    apply scheduler_wf_update_tcb; [done|]. apply scheduler_wf_update_tcb; [done|]. exact Hwf. }
  assert (HtcbT : tcbs kb T = with_holding_mutex (Some mutex_handle)
                               (with_wake_up_time wake
                                  (with_event_timeout_wakeup EVENT_NO_TIMEOUT (tcbs k T)))).
  { unfold kb. cbn [tcbs ZK_ENTER_CRITICAL with_zk_critical_nesting].
    rewrite !tcbs_update_tcb. cbn [tcbs ZK_ENTER_CRITICAL with_zk_critical_nesting].
    rewrite !tcbs_update_tcb. destruct (decide (T = T)); done. }
  assert (Htcb : forall t, t <> T -> tcbs kb t = tcbs k t).
  { intros t Ht. unfold kb. rewrite !tcbs_update_tcb.
    cbn [tcbs ZK_ENTER_CRITICAL with_zk_critical_nesting].
    rewrite !tcbs_update_tcb. destruct (decide (T = t)); done. }
  assert (Hcurb : on_its_ready_list kb T).
  { unfold on_its_ready_list. rewrite HtcbT. exact Hcur. }
  destruct (remove_task_from_ready_list_wf kb T Hwfb Hcurb)
    as (kc & Hrem & Hwfc & Hec & Htc & Hmc & Hlc).
  rewrite HtcbT in Htc, Hmc.
  cbn [priority with_wake_up_time with_event_timeout_wakeup with_holding_mutex] in Hmc.
  fold pT in Hmc. change (members (lists kb)) with (members (lists k)) in Hmc.
  change (link (lists kb)) with (link (lists k)) in Hlc.
  rewrite Halone in Hmc. simpl in Hmc. destruct (decide (state_node T = state_node T)); [|done].
  destruct (add_task_to_endless_block_list_wf kc T (sleep_list mutex_handle))
    as (kd & l & Hadd & Hwfd & Hed & Htd & Hmd & Hld); try done.
  { rewrite Hlc. by lookups. }
  { rewrite Hlc. by lookups. }
  { rewrite Hmc. lookups. exact Hwait. }
  destruct (add_task_to_timeout_blocked_list_wf kd T)
    as (ke & l1 & l2 & Htb & Hwfe & Hee & Hte & Hsplit & Hme & Hle & Hbefore).
  { done. }
  { rewrite Hld, Hlc. by lookups. }
  { rewrite Hld. by lookups. }
  { rewrite Htd, Htc. lookups. exact (proj1 Hcur). }
  assert (Hke : ke = with_tcbs (tcbs ke) (with_lists (lists ke)
                        (with_priority_active (priority_active kc) kb))).
  { rewrite Hee at 1. rewrite Hed at 1. rewrite Hec at 1. reflexivity. }
  assert (HkeT : tcbs ke T
                 = with_state TASK_TIMEOUT_BLOCKED
                     (with_holding_mutex (Some mutex_handle)
                        (with_wake_up_time wake
                           (with_event_timeout_wakeup EVENT_NO_TIMEOUT (tcbs k T))))).
  { rewrite Hte, Htd, Htc. by lookups. }
  assert (Hke_other : forall t, t <> T -> tcbs ke t = tcbs k t).
  { intros t Ht. rewrite Hte, Htd, Htc. lookups. by apply Htcb. }
  assert (Hready : forall q, members (lists ke) (ready_list q)
                        = if decide (q = pT) then [] else members (lists k) (ready_list q)).
  { intros q. rewrite Hme, Hmd, Hmc. destruct (decide (q = pT)) as [->|]; by lookups. }
  assert (Htimeout : members (lists kd) block_timeout_list
                     = members (lists k) block_timeout_list).
  { rewrite Hmd, Hmc. by lookups. }
  assert (Hp0 : p0 <> pT).
  { intros ->. rewrite Halone in Hn0. by apply list_elem_of_singleton in Hn0. }
  destruct (get_highest_priority_task_spec ke p0) as (next & Hnext & Hhigh).
  { apply Hwfe. }
  { pose proof Hwf as (_ & Hr & _). by destruct (Hr _ _ Hn0). }
  { rewrite Hready. destruct (decide (p0 = pT)); [done|].
    intros Hnil. rewrite Hnil in Hn0. by apply elem_of_nil in Hn0. }
  pose proof (highest_ready_on_its_list ke next Hwfe Hhigh) as Hon.
  assert (Hdiff : priority (tcbs ke next) <> priority (tcbs ke T)).
  { intros Heq. destruct Hon as (_ & _ & Hin). rewrite Heq, HkeT in Hin.
    cbn [priority with_state with_wake_up_time with_event_timeout_wakeup with_holding_mutex]
      in Hin.
    fold pT in Hin. rewrite Hready in Hin. destruct (decide (pT = pT)); [|done].
    by apply elem_of_nil in Hin. }
  assert (HnextT : next <> T) by (by intros ->).
  assert (Hsched : schedule ke = Ok (zk_cpu_trigger_pendsv (with_g_switch_next_tcb next ke))).
  { unfold schedule.
    replace (is_scheduler_suspending ke) with 0 by (rewrite Hke; symmetry; exact Hrun).
    destruct (decide (0 <> 0)); [done|]. rewrite Hnext. cbn [mbind result_bind].
    replace (g_current_tcb (with_g_switch_next_tcb next ke)) with T by (by rewrite Hke).
    cbn [tcbs with_g_switch_next_tcb]. destruct (decide _); [done|]. done. }
  set (kx := zk_cpu_trigger_pendsv (with_g_switch_next_tcb next ke)).
  assert (Hnest_x : zk_critical_nesting kx = 2).
  { unfold kx. rewrite Hke. cbn. rewrite Hnest. reflexivity. }
  assert (Hexit1 : ZK_EXIT_CRITICAL kx = with_zk_critical_nesting 1 kx).
  { unfold ZK_EXIT_CRITICAL. rewrite Hnest_x. change (uint32 (2 - 1)) with 1. cbn.
    by destruct (decide (1 = 0)). }
  set (k0 := with_pendsv_pending false
               (with_g_current_tcb next (with_zk_critical_nesting 0 kx))).
  assert (Hexit2 : ZK_EXIT_CRITICAL (with_zk_critical_nesting 1 kx) = k0).
  { unfold ZK_EXIT_CRITICAL. cbn. by destruct (decide (0 = 0)). }
  assert (Hcall : mutex_lock_timeout mutex_handle timeout k = Ok (k0, Return ZK_SUCCESS)).
  { unfold mutex_lock_timeout, mutex_lock_internal.
    destruct (decide (MUTEX_MAX_NUM <= mutex_handle)%nat); [lia|].
    unfold mutex_at at 1. rewrite Hm. cbn [mbind result_bind]. rewrite Hused.
    destruct (decide (MUTEX_USED = MUTEX_UNUSED)); [done|].
    change (is_scheduler_suspending (ZK_ENTER_CRITICAL k)) with (is_scheduler_suspending k).
    rewrite Hrun. destruct (decide (0 <> 0)); [done|].
    destruct (decide (owner_hold_count m = 0)); [done|].
    rewrite Howner. destruct (decide (Some holder = Some (g_current_tcb k))) as [Heq|_].
    { injection Heq as ->. done. }
    destruct (decide (timeout = 0)); [lia|].
    unfold mutex_sleep. fold T.
    change (update_tcb T (with_holding_mutex (Some mutex_handle)) _) with kb.
    unfold mutex_at. change (g_mutex_pool kb) with (g_mutex_pool k). rewrite Hm.
    cbn [mbind result_bind]. rewrite HtcbT.
    cbn [priority with_wake_up_time with_event_timeout_wakeup with_holding_mutex].
    fold pT. destruct (decide (pT < owner_priority m)); [lia|].
    cbn [mbind result_bind].
    unfold task_ready_to_block. rewrite Hrem. cbn [mbind result_bind].
    rewrite Hadd. cbn [mbind result_bind].
    destruct (decide (BLOCK_TYPE_TIMEOUT = BLOCK_TYPE_TIMEOUT)); [|done].
    rewrite Htb. cbn [mbind result_bind]. rewrite Hsched. cbn [mbind result_bind].
    fold kx. rewrite Hexit1.
    replace (g_current_tcb (with_zk_critical_nesting 1 kx)) with T
      by (unfold kx; rewrite Hke; reflexivity).
    destruct (decide (T = T)); [|done].
    unfold mutex_lock_internal_resume.
    replace (tcbs (with_zk_critical_nesting 1 kx) T) with (tcbs ke T) by reflexivity.
    rewrite HkeT. cbn [event_timeout_wakeup with_state with_holding_mutex with_wake_up_time
                       with_event_timeout_wakeup].
    destruct (decide (EVENT_NO_TIMEOUT = EVENT_WAIT_TIMEOUT)); [done|].
    by rewrite Hexit2. }
  exists k0. split; [exact Hcall|].
  assert (Hkx : forall t, tcbs kd t = if decide (T = t)
                                      then with_state TASK_ENDLESS_BLOCKED
                                             (with_state TASK_UNKNOWN (tcbs kb T))
                                      else tcbs k t).
  { intros t. rewrite Htd, Htc. destruct (decide (T = t)) as [<-|Hne]; lookups.
    - by rewrite HtcbT.
    - apply Htcb. congruence. }
  split; [|split; [|split; [|split]]].
  - split; [exact Hwfe|]. split; [exact Hon|]. split.
    { unfold is_scheduler_suspending in *. cbn. rewrite Hke. exact Hrun. }
    split; [done|]. split; [done|]. cbn. rewrite Hke. exact Htime.
  - cbn. by rewrite Hke.
  - cbn. by rewrite Hke.
  - change (tcbs k0) with (tcbs ke). by rewrite HkeT.
  - unfold blocked_until. change (tcbs k0) with (tcbs ke). change (lists k0) with (lists ke).
    rewrite HkeT. split; [done|]. split; [done|]. split; [done|].
    exists l1, l2. split; [rewrite Hme; by lookups|].
    intros n Hn.
    assert (Hn' : n ∈ members (lists k) block_timeout_list).
    { rewrite <- Htimeout, Hsplit. apply elem_of_app. by left. }
    pose proof Hwf as (Hl & _ & _ & Ht & _).
    destruct (Ht n Hn') as (t & -> & _).
    assert (HtT : t <> T).
    { intros ->. apply Hl in Hn'. destruct Hcur as (_ & Hlk & _). congruence. }
    cbn [ZK_LIST_GET_OWNER]. rewrite Hke_other by done.
    specialize (Hbefore _ Hn). cbn [ZK_LIST_GET_OWNER] in Hbefore.
    rewrite !Hkx in Hbefore. destruct (decide (T = t)); [congruence|].
    destruct (decide (T = T)); [|done]. rewrite HtcbT in Hbefore. cbn in Hbefore.
    apply reached_after_insertion; [done| |done].
    apply (Hpending (state_node t) Hn').
Qed.

(** X23: [mutex_lock_timeout] chooses its return value before it waits.
    [mutex_lock_internal] enters the critical section a second time around
    [mutex_sleep] and [schedule], so the switch is held back until the
    timeout flag has been read.  A call with a timeout from 1 up to
    ZK_TSK_DLY_MAX - 1 by the running task on a mutex that another task
    holds, in a well-formed kernel where the caller is alone at its
    priority, is not more urgent than the recorded owner priority, and no
    timeout is overdue, gives ZK_SUCCESS with the caller switched out.
    While only tick interrupts follow the mutex keeps its holder; the
    caller stays blocked through the first [timeout] ticks and the next one
    sets its flag to EVENT_WAIT_TIMEOUT: the wait has timed out, and the
    call has returned ZK_SUCCESS. *)
Theorem mutex_lock_timeout_reports_success (k : kernel) (mutex_handle : nat) (timeout : Z)
  (m : mutex_t) (holder : tcb_ptr) :
  let tcb := g_current_tcb k in
  let now := g_current_time k in
  kernel_wf k -> timeouts_pending k ->
  0 < timeout < ZK_TSK_DLY_MAX ->
  (mutex_handle < MUTEX_MAX_NUM)%nat ->
  g_mutex_pool k !! mutex_handle = Some m ->
  mutex_is_used m = MUTEX_USED -> owner_hold_count m <> 0 ->
  owner m = Some holder -> holder <> tcb ->
  owner_priority m <= priority (tcbs k tcb) ->
  (forall n, n ∈ members (lists k) (sleep_list mutex_handle) ->
             exists t, n = event_sleep_list t) ->
  link (lists k) (event_sleep_list tcb) = None ->
  members (lists k) (ready_list (priority (tcbs k tcb))) = [state_node tcb] ->
  (exists p n, n ∈ members (lists k) (ready_list p) /\ n <> state_node tcb) ->
  exists k0,
    mutex_lock_timeout mutex_handle timeout k = Ok (k0, Return ZK_SUCCESS)
    /\ g_current_tcb k0 <> tcb
    /\ forall n : nat, exists kn,
         ticks n k0 = Ok kn
         /\ g_current_time kn = uint32 (now + Z.of_nat n)
         /\ g_mutex_pool kn !! mutex_handle = Some m
         /\ (Z.of_nat n <= timeout ->
             state (tcbs kn tcb) = TASK_TIMEOUT_BLOCKED
             /\ event_timeout_wakeup (tcbs kn tcb) = EVENT_NO_TIMEOUT)
         /\ (timeout < Z.of_nat n ->
             event_timeout_wakeup (tcbs kn tcb) = EVENT_WAIT_TIMEOUT).
Proof.
  intros tcb now Hwf Hpending Hto Hh Hm Hused Hcount Howner Hholder Hprio Hwait Hev Halone
    Hother.
  assert (Hto' : 0 < timeout < 2 ^ 31).
  { change ZK_TSK_DLY_MAX with 2147483647 in Hto. lia. }
  destruct (mutex_lock_timeout_blocks k mutex_handle timeout m holder)
    as (k0 & Hcall & Hwf0 & Htime0 & Hpool0 & _ & Hblocked); try done.
  exists k0. split; [exact Hcall|].
  split; [by apply (blocked_is_not_running k0 tcb (uint32 (now + timeout)))|].
  intros n.
  destruct (ticks_while_blocked tcb now timeout n 0 k0)
    as (kn & Hticks & Hwfn & Htimen & Hbn & Hfn); try done; try lia.
  { rewrite Htime0, Z.add_0_r. symmetry. apply uint32_small. apply Hwf. }
  exists kn. split; [done|]. split; [done|]. split.
  { destruct (ticks_pools n k0 kn Hwf0 Hticks) as [-> _]. by rewrite Hpool0. }
  split; [|exact Hfn].
  intros Hle. destruct (Hbn Hle) as (Hst & Hfl & _). done.
Qed.

End mutex_timeouts.

Lemma holder_delayed_lists_wf : lists_wf holder_delayed_lists.
Proof.
  split.
  - intros h. simpl. repeat case_decide; try apply NoDup_singleton; apply NoDup_nil_2.
  - intros n h. simpl.
    destruct (decide (n = state_node 2)) as [->|Hn2];
      [|destruct (decide (n = state_node 1)) as [->|Hn1];
        [|destruct (decide (n = state_node 0)) as [->|Hn0]]];
    (destruct (decide (h = delay_list)) as [->|Hh3];
      [|destruct (decide (h = ready_list 5)) as [->|Hh5];
        [|destruct (decide (h = ready_list 31)) as [->|Hh31]]]);
    rewrite ?list_elem_of_singleton, ?elem_of_nil;
    (split; [intros Hn|intros Hs]);
    try reflexivity; try solve [inversion Hn]; try solve [inversion Hs].
  all: try (inversion Hs; subst h; by destruct Hh3 + by destruct Hh5 + by destruct Hh31).
  all: subst n; by destruct Hn2 + by destruct Hn1 + by destruct Hn0.
Qed.

Lemma holder_delayed_written_out_wf : kernel_wf holder_delayed_written_out.
Proof.
  assert (Hp2 : priority (tcbs mutex_holder_delayed 2) = 3) by (vm_compute; reflexivity).
  assert (Hp1 : priority (tcbs mutex_holder_delayed 1) = 5) by (vm_compute; reflexivity).
  assert (Hp0 : priority (tcbs mutex_holder_delayed 0) = 31) by (vm_compute; reflexivity).
  assert (Hbits : priority_active mutex_holder_delayed = 2147483680)
    by (vm_compute; reflexivity).
  assert (Hcur : g_current_tcb mutex_holder_delayed = 1%nat) by (vm_compute; reflexivity).
  assert (Hnest : scheduler_suspend_nesting mutex_holder_delayed = 0)
    by (vm_compute; reflexivity).
  assert (Hcrit : zk_critical_nesting mutex_holder_delayed = 0) by (vm_compute; reflexivity).
  assert (Hpend : pendsv_pending mutex_holder_delayed = false) by (vm_compute; reflexivity).
  assert (Hnow : g_current_time mutex_holder_delayed = 0) by (vm_compute; reflexivity).
  unfold holder_delayed_written_out. generalize dependent mutex_holder_delayed. intros k.
  intros Hp2 Hp1 Hp0 Hbits Hcur Hnest Hcrit Hpend Hnow.
  split; [split; [|split; [|split; [|split]]]|].
  - exact holder_delayed_lists_wf.
  - intros p n. cbn [lists with_lists tcbs members holder_delayed_lists].
    destruct (decide (ready_list p = delay_list)) as [Hp|_]; [discriminate Hp|].
    destruct (decide (ready_list p = ready_list 5)) as [Hp|_];
      [|destruct (decide (ready_list p = ready_list 31)) as [Hp|_]];
    rewrite ?list_elem_of_singleton, ?elem_of_nil.
    + inversion Hp; subst p. intros ->. split; [done|]. by exists 1%nat.
    + inversion Hp; subst p. intros ->. split; [done|]. by exists 0%nat.
    + intros [].
  - intros n. cbn. intros ->%list_elem_of_singleton. exists 2%nat. split; [done|].
    rewrite Hp2. done.
  - intros n. cbn. by intros ?%elem_of_nil.
  - apply bitmap_check_sound. unfold bitmap_check.
    cbn [lists with_lists priority_active]. rewrite Hbits. vm_compute. reflexivity.
  - unfold on_its_ready_list, is_scheduler_suspending.
    cbn [lists with_lists tcbs g_current_tcb scheduler_suspend_nesting
         zk_critical_nesting pendsv_pending g_current_time].
    rewrite Hcur, Hp1, Hnest, Hcrit, Hpend, Hnow.
    split; [|done]. split; [done|]. split; [done|].
    apply list_elem_of_singleton. done.
Qed.

Lemma mutex_lock_timeout_reports_success_witness :
  exists k0,
    mutex_lock_timeout (H := board) 0 10 holder_delayed_written_out
    = Ok (k0, Return ZK_SUCCESS)
    /\ exists k11, ticks 11 k0 = Ok k11
                   /\ g_current_time k11 = 11
                   /\ owner <$> g_mutex_pool k11 !! 0%nat = Some (Some 2%nat)
                   /\ event_timeout_wakeup (tcbs k11 1) = EVENT_WAIT_TIMEOUT.
Proof.
  assert (Hc : g_current_tcb holder_delayed_written_out = 1%nat) by (vm_compute; reflexivity).
  assert (Hnow : g_current_time holder_delayed_written_out = 0) by (vm_compute; reflexivity).
  assert (Hp : priority (tcbs holder_delayed_written_out 1) = 5) by (vm_compute; reflexivity).
  assert (Hl : lists holder_delayed_written_out = holder_delayed_lists) by reflexivity.
  destruct (mutex_lock_timeout_reports_success (H := board) holder_delayed_written_out 0 10
              (mk_mutex (Some 2%nat) 1 3 MUTEX_USED None) 2)
    as (k0 & Hcall & _ & Hticks).
  - exact holder_delayed_written_out_wf.
  - intros n. rewrite Hl. intros Hn. apply elem_of_nil in Hn. destruct Hn.
  - vm_compute. split; reflexivity.
  - vm_compute. lia.
  - vm_compute. reflexivity.
  - reflexivity.
  - discriminate.
  - reflexivity.
  - rewrite Hc. discriminate.
  - rewrite Hc, Hp. vm_compute. discriminate.
  - intros n. rewrite Hl. intros Hn. apply elem_of_nil in Hn. destruct Hn.
  - rewrite Hc, Hl. reflexivity.
  - rewrite Hc, Hp, Hl. reflexivity.
  - exists 31, (state_node 0). rewrite Hc, Hl. split; [|discriminate].
    apply list_elem_of_singleton. reflexivity.
  - rewrite Hc, Hnow in Hticks. exists k0. split; [exact Hcall|].
    destruct (Hticks 11%nat) as (k11 & Hrun & Htime & Hpool & _ & Hout).
    exists k11. split; [exact Hrun|]. split; [exact Htime|]. split.
    + rewrite Hpool. reflexivity.
    + apply Hout. vm_compute. reflexivity.
Defined.

(** ** One-shot timers *)

Lemma idle_timers_tick (k : kernel) (ts : timer_module) :
  kernel_wf k -> timers_list ts = [] ->
  exists k' need,
    scheduler_increment_tick_with_timers k ts = Ok (k', ts, [], need)
    /\ kernel_wf k' /\ g_current_time k' = uint32 (g_current_time k + 1).
Proof.
  intros Hwf Hl.
  destruct (scheduler_increment_tick_wf k Hwf)
    as (k' & need & woken & Htick & Hwf' & Htime' & _).
  pose proof Hwf' as (_ & _ & _ & Hnest' & Hpend' & _).
  exists k', need. unfold scheduler_increment_tick_with_timers. rewrite Htick.
  cbn [mbind result_bind]. unfold timer_check. rewrite Hl.
  cbn [timer_check_expire mbind result_bind timer_check_run].
  rewrite critical_section_round_trip by done. done.
Qed.

Lemma idle_timers_ticks (n : nat) : forall (k : kernel) (ts : timer_module),
  kernel_wf k -> timers_list ts = [] ->
  exists kn, ticks_with_timers n k ts = Ok (kn, ts, []).
Proof.
  induction n as [|n IH]; intros k ts Hwf Hl.
  - by exists k.
  - destruct (idle_timers_tick k ts Hwf Hl) as (k1 & need & Htick & Hwf1 & _).
    destruct (IH k1 ts Hwf1 Hl) as (kn & Hticks).
    exists kn. cbn [ticks_with_timers]. rewrite Htick. cbn [mbind result_bind].
    rewrite Hticks. reflexivity.
Qed.

Lemma lone_one_shot_tick (k : kernel) (ts : timer_module) (h : nat) (t : timer_t) :
  let now := g_current_time k in
  let offset := uint32 (timer_wake_up_time t - now) in
  kernel_wf k -> timers_list ts = [h] -> g_timer_pool ts !! h = Some t ->
  timer_mode t = TIMER_ONESHOT -> timer_handler t <> ZK_NULL ->
  offset < 2 ^ 31 ->
  exists k' ts' t' need,
    scheduler_increment_tick_with_timers k ts
    = Ok (k', ts',
          (if decide (offset = 0) then [(timer_handler t, timer_param t)] else []), need)
    /\ kernel_wf k' /\ g_current_time k' = uint32 (now + 1)
    /\ g_timer_pool ts' !! h = Some t'
    /\ (if decide (offset = 0)
        then timers_list ts' = [] /\ timer_status t' = TIMER_STOP
        else ts' = ts).
Proof.
  intros now offset Hwf Hl Ht Hmode Hhandler Hoff.
  destruct (scheduler_increment_tick_wf k Hwf)
    as (k' & need & woken & Htick & Hwf' & Htime' & _).
  pose proof Hwf' as (_ & _ & _ & Hnest' & Hpend' & _).
  exists k'. unfold scheduler_increment_tick_with_timers. rewrite Htick.
  cbn [mbind result_bind]. change (get_current_time k) with now.
  unfold timer_check. rewrite Hl. cbn [timer_check_expire]. unfold timer_at at 1.
  rewrite Ht. cbn [mbind result_bind].
  destruct (decide (offset = 0)) as [Hdue|Hlater].
  - rewrite decide_True by (by apply due_at_offset_zero).
    unfold remove_timer_from_list, timer_at. rewrite Ht. cbn [mbind result_bind].
    rewrite Hl. rewrite decide_True by (apply list_elem_of_singleton; done).
    cbn [mbind result_bind timer_check_expire app].
    rewrite filter_cons, decide_False by (intros Hc; by apply Hc). rewrite filter_nil.
    rewrite critical_section_round_trip by done.
    cbn [timer_check_run]. unfold timer_at at 1. cbn [g_timer_pool].
    rewrite list_lookup_alter, decide_True by done. rewrite Ht.
    cbn [fmap option_fmap option_map mbind result_bind].
    change (timer_handler (with_timer_list TIMER_NODE_NULL t)) with (timer_handler t).
    change (timer_param (with_timer_list TIMER_NODE_NULL t)) with (timer_param t).
    change (timer_mode (with_timer_list TIMER_NODE_NULL t)) with (timer_mode t).
    rewrite decide_True by done. rewrite Hmode.
    destruct (decide (TIMER_ONESHOT = TIMER_AUTO_RELOAD)); [done|].
    cbn [mbind result_bind timer_check_run].
    rewrite critical_section_round_trip by done.
    eexists _, _, need. split; [reflexivity|]. split; [done|]. split; [done|].
    unfold update_timer. cbn [g_timer_pool timers_list]. split.
    { rewrite !list_lookup_alter, !decide_True by done. rewrite Ht. reflexivity. }
    done.
  - rewrite decide_False by (by rewrite due_at_offset_zero).
    cbn [mbind result_bind timer_check_run].
    rewrite critical_section_round_trip by done.
    exists ts, t, need. done.
Qed.

Lemma lone_one_shot_quiet (h : nat) (n : nat) :
  forall (k : kernel) (ts : timer_module) (t : timer_t),
    kernel_wf k -> timers_list ts = [h] -> g_timer_pool ts !! h = Some t ->
    timer_mode t = TIMER_ONESHOT -> timer_handler t <> ZK_NULL ->
    Z.of_nat n <= uint32 (timer_wake_up_time t - g_current_time k) < 2 ^ 31 ->
    exists k',
      ticks_with_timers n k ts = Ok (k', ts, [])
      /\ kernel_wf k' /\ g_current_time k' = uint32 (g_current_time k + Z.of_nat n).
Proof.
  induction n as [|n IH]; intros k ts t Hwf Hl Ht Hmode Hhandler Hoff.
  - exists k. split; [done|]. split; [done|].
    rewrite Z.add_0_r. symmetry. apply uint32_small. apply Hwf.
  - destruct (lone_one_shot_tick k ts h t Hwf Hl Ht Hmode Hhandler ltac:(lia))
      as (k1 & ts1 & t1 & need & Htick & Hwf1 & Htime1 & Ht1 & Hcase).
    rewrite decide_False in Htick by lia. rewrite decide_False in Hcase by lia. subst ts1.
    assert (Hoff1 : uint32 (timer_wake_up_time t - g_current_time k1)
                    = uint32 (timer_wake_up_time t - g_current_time k) - 1).
    { rewrite Htime1. revert Hoff. unfold uint32. intros Hoff.
      Z.to_euclidean_division_equations. lia. }
    destruct (IH k1 ts t Hwf1 Hl Ht Hmode Hhandler) as (k' & Hticks & Hwf' & Htime'); [lia|].
    exists k'. split.
    { cbn [ticks_with_timers]. rewrite Htick. cbn [mbind result_bind]. rewrite Hticks.
      reflexivity. }
    split; [done|].
    rewrite Htime', Htime1. unfold uint32. rewrite Zplus_mod_idemp_l. f_equal. lia.
Qed.

(** X24: a one-shot timer calls its handler once.  With ZK_USING_TIMER, in
    a well-formed kernel whose only running timer is a one-shot timer that
    is [offset] ticks from its expiry, less than 2^31: the first [offset]
    ticks call no handler and leave the timer on the list; tick
    [offset + 1], which reads the expiry time, calls the handler, takes
    the timer off the list and stops it; no later tick calls it again. *)
Theorem one_shot_timer_fires_once (k : kernel) (ts : timer_module) (h : nat) (t : timer_t)
  (n : nat) :
  let offset := uint32 (timer_wake_up_time t - g_current_time k) in
  kernel_wf k -> timers_list ts = [h] -> g_timer_pool ts !! h = Some t ->
  timer_mode t = TIMER_ONESHOT -> timer_handler t <> ZK_NULL ->
  offset < 2 ^ 31 ->
  exists kn tsn tn,
    ticks_with_timers n k ts
    = Ok (kn, tsn,
          if decide (offset < Z.of_nat n) then [(timer_handler t, timer_param t)] else [])
    /\ g_timer_pool tsn !! h = Some tn
    /\ (Z.of_nat n <= offset -> tsn = ts)
    /\ (offset < Z.of_nat n -> timers_list tsn = [] /\ timer_status tn = TIMER_STOP).
Proof.
  intros offset Hwf Hl Ht Hmode Hhandler Hoff.
  assert (Hoff0 : 0 <= offset) by (unfold offset, uint32; apply Z.mod_pos_bound; lia).
  destruct (decide (offset < Z.of_nat n)) as [Hlt|Hge].
  - replace n with (Z.to_nat offset + (1 + (n - Z.to_nat offset - 1)))%nat by lia.
    destruct (lone_one_shot_quiet h (Z.to_nat offset) k ts t Hwf Hl Ht Hmode Hhandler)
      as (k1 & Hquiet & Hwf1 & Htime1); [fold offset; lia|].
    assert (Hdue : uint32 (timer_wake_up_time t - g_current_time k1) = 0).
    { rewrite Htime1, Z2Nat.id by done. unfold offset, uint32.
      Z.to_euclidean_division_equations. lia. }
    destruct (lone_one_shot_tick k1 ts h t Hwf1 Hl Ht Hmode Hhandler ltac:(rewrite Hdue; lia))
      as (k2 & ts2 & t2 & need & Htick & Hwf2 & Htime2 & Ht2 & Hcase).
    rewrite decide_True in Htick by done. rewrite decide_True in Hcase by done.
    destruct Hcase as [Hl2 Hstop].
    destruct (idle_timers_ticks (n - Z.to_nat offset - 1) k2 ts2 Hwf2 Hl2) as (kn & Hidle).
    exists kn, ts2, t2. split.
    { rewrite ticks_with_timers_app, Hquiet. cbn [mbind result_bind].
      rewrite ticks_with_timers_app. cbn [ticks_with_timers]. rewrite Htick.
      cbn [mbind result_bind]. rewrite Hidle. reflexivity. }
    split; [done|]. split; [lia|done].
  - destruct (lone_one_shot_quiet h n k ts t Hwf Hl Ht Hmode Hhandler)
      as (kn & Hquiet & _); [fold offset; lia|].
    exists kn, ts, t. split; [done|]. split; [done|]. split; [done|lia].
Qed.

Lemma one_shot_timer_fires_once_witness :
  exists kn tsn,
    ticks_with_timers 10 board_with_semaphore (board_timer_started TIMER_ONESHOT)
    = Ok (kn, tsn, [(77, 5)])
    /\ timers_list tsn = [].
Proof.
  assert (Hnow : g_current_time board_with_semaphore = 0) by (vm_compute; reflexivity).
  destruct (one_shot_timer_fires_once board_with_semaphore (board_timer_started TIMER_ONESHOT)
              0 (mk_timer TIMER_NODE_SELF TIMER_RUNNING TIMER_ONESHOT 3 77 3 1 5) 10)
    as (kn & tsn & tn & Hticks & _ & _ & Hstop).
  - apply board_with_semaphore_wf.
  - reflexivity.
  - reflexivity.
  - reflexivity.
  - discriminate.
  - rewrite Hnow. vm_compute. reflexivity.
  - rewrite Hnow in Hticks, Hstop. exists kn, tsn. split; [exact Hticks|].
    apply Hstop. vm_compute. reflexivity.
Defined.

(** ** Releasing a semaphore to a waiting task *)

Lemma remove_task_from_blocked_list_endless k x he :
  scheduler_wf k -> state (tcbs k x) <> TASK_TIMEOUT_BLOCKED ->
  link (lists k) (event_sleep_list x) = Some he ->
  exists k', remove_task_from_blocked_list x k = Ok k'
    /\ scheduler_wf k'
    /\ k' = with_tcbs (tcbs k') (with_lists (lists k') k)
    /\ tcbs k' = <[x := with_state TASK_UNKNOWN (tcbs k x)]> (tcbs k)
    /\ members (lists k')
       = <[he := remove_node (event_sleep_list x) (members (lists k) he)]> (members (lists k))
    /\ link (lists k') = <[event_sleep_list x := None]> (link (lists k)).
Proof.
  intros Hwf Hst Hhe. pose proof Hwf as (Hl & Hr & Hd & Ht & Hb).
  destruct (event_list_of_timeout_blocked k x he Hwf Hhe) as (Hne1 & Hne2 & Hne3).
  unfold remove_task_from_blocked_list, zk_list_delete.
  destruct (decide (state (tcbs k x) = TASK_TIMEOUT_BLOCKED)) as [|_]; [done|].
  cbn [mbind result_bind]. rewrite Hhe. cbn [mbind result_bind].
  eexists. split; [reflexivity|]. split; [|done].
  assert (Hprio : forall t, priority (<[x := with_state TASK_UNKNOWN (tcbs k x)]> (tcbs k) t)
                       = priority (tcbs k t)).
  { intros t. destruct (decide (x = t)) as [->|]; by lookups. }
  split; [|split; [|split; [|split]]].
  - by apply lists_wf_delete.
  - intros q n. cbn. rewrite fn_lookup_insert_ne by apply Hne3. intros Hn.
    destruct (Hr q n Hn) as (Hq & t & -> & Hp). split; [done|]. exists t.
    split; [done|]. by rewrite Hprio.
  - intros n. cbn. rewrite fn_lookup_insert_ne by done. intros Hn.
    destruct (Hd n Hn) as (t & -> & Hp). exists t. split; [done|]. by rewrite Hprio.
  - intros n. cbn. rewrite fn_lookup_insert_ne by done. intros Hn.
    destruct (Ht n Hn) as (t & -> & Hst' & Hev' & Hp). exists t. split; [done|].
    assert (x <> t) by congruence. by lookups.
  - intros q Hq. cbn. rewrite fn_lookup_insert_ne by apply Hne3. by apply Hb.
Qed.

Lemma add_task_to_ready_list_members x k k' :
  add_task_to_ready_list x k = Ok k' ->
  members (lists k')
  = <[ready_list (priority (tcbs k x))
        := state_node x :: members (lists k) (ready_list (priority (tcbs k x)))]>
      (members (lists k)).
Proof.
  unfold add_task_to_ready_list. intros H. results.
  apply ready_list_at_is_ready in Hr. subst r.
  revert Hr0. unfold zk_list_add_after. destruct (link (lists k) (state_node x)); [done|].
  intros [= <-]. reflexivity.
Qed.

Section release.

Context `{!zk_config}.

(** X25: [sem_release] hands the semaphore to the first waiter.  In a
    well-formed kernel where the running task has the most urgent priority
    among the ready tasks, releasing a created semaphore whose count is
    below SEM_COUNT_MAX while the first task of its wait list waits without
    a timeout and is more urgent than the caller: the call returns
    ZK_SUCCESS, the count is not incremented, the waiter leaves the wait
    list, is ready on the ready list of its priority and runs, the kernel
    is well formed again, and the rest of the waiter's [sem_get] returns
    ZK_SUCCESS if its timeout flag was clear. *)
Theorem sem_release_wakes_the_first_waiter (k : kernel) (sem_handle : nat) (sem : semaphore_t)
  (waiter : tcb_ptr) (rest : list list_member) :
  let tcb := g_current_tcb k in
  kernel_wf k ->
  (sem_handle < SEM_MAX_NUM)%nat ->
  g_sem_pool k !! sem_handle = Some sem ->
  sem_is_used sem = SEM_USED -> count sem <> SEM_COUNT_MAX ->
  members (lists k) (wait_list sem_handle) = event_sleep_list waiter :: rest ->
  state (tcbs k waiter) = TASK_ENDLESS_BLOCKED ->
  link (lists k) (state_node waiter) = None ->
  0 <= priority (tcbs k waiter) < priority (tcbs k tcb) ->
  (forall q, 0 <= q < priority (tcbs k tcb) -> members (lists k) (ready_list q) = []) ->
  exists k',
    sem_release sem_handle k = Ok (k', ZK_SUCCESS)
    /\ kernel_wf k'
    /\ g_sem_pool k' !! sem_handle = Some sem
    /\ members (lists k') (wait_list sem_handle) = rest
    /\ state (tcbs k' waiter) = TASK_READY
    /\ members (lists k') (ready_list (priority (tcbs k waiter))) = [state_node waiter]
    /\ g_current_tcb k' = waiter
    /\ (event_timeout_wakeup (tcbs k waiter) = EVENT_NO_TIMEOUT ->
        snd (sem_get_internal_resume waiter k') = ZK_SUCCESS).
Proof.
  intros T (Hwf & Hcur & Hrun & Hnest & Hpend & Htime) Hh Hsem Hused Hcount Hwait Hstate Hlink
    Hprio Hurgent.
  fold T in Hcur.
  set (pT := priority (tcbs k T)) in *. set (pw := priority (tcbs k waiter)) in *.
  set (ka := ZK_ENTER_CRITICAL k).
  assert (Hwfa : scheduler_wf ka) by exact Hwf.
  pose proof Hwf as (Hl & Hr & _).
  assert (Hev : link (lists ka) (event_sleep_list waiter) = Some (wait_list sem_handle)).
  { apply Hl. change (lists ka) with (lists k). rewrite Hwait. apply elem_of_cons. by left. }
  destruct (remove_task_from_blocked_list_endless ka waiter (wait_list sem_handle) Hwfa) as
    (kb & Hrem & Hwfb & Heb & Htb & Hmb & Hlb);
    [change (tcbs ka) with (tcbs k); by rewrite Hstate|exact Hev|].
  change (members (lists ka)) with (members (lists k)) in Hmb.
  change (link (lists ka)) with (link (lists k)) in Hlb.
  change (tcbs ka) with (tcbs k) in Htb.
  rewrite Hwait in Hmb. simpl in Hmb.
  destruct (decide (event_sleep_list waiter = event_sleep_list waiter)); [|done].
  assert (Hpb : priority (tcbs kb waiter) = pw) by (rewrite Htb; by lookups).
  destruct (add_task_to_ready_list_wakes kb Hwfb waiter)
    as (kc & Hadd & Hwfc & Hwc & _ & _ & Hflag & Hin).
  { rewrite Hlb. by lookups. }
  { rewrite Hpb. unfold ZK_PRIORITY_NUM. destruct Hcur as (HpT & _).
    fold pT in HpT. unfold ZK_PRIORITY_NUM in HpT. lia. }
  destruct (add_task_to_ready_list_frame waiter kb kc Hadd) as (Hmc & Htc & Hstc).
  rewrite Hpb in Hin.
  (* the ready lists *)
  assert (Hempty : members (lists k) (ready_list pw) = []) by (apply Hurgent; lia).
  pose proof (add_task_to_ready_list_members waiter kb kc Hadd) as Hmembers.
  rewrite Hpb, Hmb in Hmembers.
  assert (Hreadyc : members (lists kc) (ready_list pw) = [state_node waiter]).
  { rewrite Hmembers. lookups. by rewrite Hempty. }
  assert (Hlowc : forall q, 0 <= q < pw -> members (lists kc) (ready_list q) = []).
  { intros q Hq. rewrite Hmembers. rewrite fn_lookup_insert_ne by (intros [=]; lia).
    lookups. apply Hurgent. lia. }
  (* the waiter is the most urgent ready task *)
  destruct (get_highest_priority_task_spec kc pw) as (next & Hnext & Hhigh).
  { apply Hwfc. }
  { destruct Hcur as (HpT & _). fold pT in HpT. unfold ZK_PRIORITY_NUM in *. lia. }
  { by rewrite Hreadyc. }
  assert (Hnext_w : next = waiter).
  { destruct Hhigh as (q & n & Hq & Hhead & Hown & Hlow).
    destruct (decide (q = pw)) as [->|Hne].
    - rewrite Hreadyc in Hhead. injection Hhead as <-. by rewrite <- Hown.
    - exfalso. destruct (decide (q < pw)) as [Hlt|Hge].
      + rewrite Hlowc in Hhead by lia. done.
      + specialize (Hlow pw ltac:(lia)). by rewrite Hreadyc in Hlow. }
  subst next.
  assert (Hkc : kc = with_tcbs (tcbs kc) (with_lists (lists kc)
                        (with_priority_active (priority_active kc) ka))).
  { destruct Hwc as (Hec & _). rewrite Hec at 1. rewrite Heb at 1. reflexivity. }
  assert (HwaiterT : waiter <> T).
  { intros Heq. unfold pw in Hprio. rewrite Heq in Hprio. fold pT in Hprio. lia. }
  assert (HtcT : tcbs kc T = tcbs k T).
  { rewrite Htc by done. rewrite Htb. by lookups. }
  assert (Htcw : priority (tcbs kc waiter) = pw).
  { destruct Hwc as (_ & Hf & _). destruct (Hf waiter) as (-> & _). exact Hpb. }
  assert (Hsched : schedule kc = Ok (zk_cpu_trigger_pendsv (with_g_switch_next_tcb waiter kc))).
  { unfold schedule.
    replace (is_scheduler_suspending kc) with 0 by (rewrite Hkc; symmetry; exact Hrun).
    destruct (decide (0 <> 0)); [done|]. rewrite Hnext. cbn [mbind result_bind].
    replace (g_current_tcb (with_g_switch_next_tcb waiter kc)) with T by (by rewrite Hkc).
    cbn [tcbs with_g_switch_next_tcb]. rewrite HtcT, Htcw. fold pT.
    destruct (decide (pw <> pT)); [done|lia]. }
  set (kx := zk_cpu_trigger_pendsv (with_g_switch_next_tcb waiter kc)).
  assert (Hexit : ZK_EXIT_CRITICAL kx
                  = with_pendsv_pending false
                      (with_g_current_tcb waiter (with_zk_critical_nesting 0 kx))).
  { unfold ZK_EXIT_CRITICAL.
    replace (zk_critical_nesting kx) with 1
      by (unfold kx; rewrite Hkc; cbn; by rewrite Hnest).
    change (uint32 (1 - 1)) with 0. cbn. by destruct (decide (0 = 0)). }
  exists (with_pendsv_pending false
            (with_g_current_tcb waiter (with_zk_critical_nesting 0 kx))).
  split.
  { unfold sem_release. destruct (decide (SEM_MAX_NUM <= sem_handle)%nat); [lia|].
    unfold sem_at. rewrite Hsem. cbn [mbind result_bind]. rewrite Hused.
    destruct (decide (SEM_USED = SEM_UNUSED)); [done|].
    destruct (decide (count sem = SEM_COUNT_MAX)); [done|].
    fold ka. rewrite zk_list_is_empty_spec. change (lists ka) with (lists k). rewrite Hwait.
    rewrite bool_decide_eq_false_2 by done. cbn [negb].
    unfold ZK_LIST_GET_FIRST_ENTRY, head_next. rewrite Hwait.
    cbn [mbind result_bind ZK_LIST_GET_OWNER].
    unfold task_block_to_ready. rewrite Hrem. cbn [mbind result_bind]. rewrite Hadd.
    cbn [mbind result_bind]. rewrite Hsched. cbn [mbind result_bind]. fold kx.
    by rewrite Hexit. }
  cbn [g_current_tcb tcbs lists g_sem_pool with_pendsv_pending with_g_current_tcb
       with_zk_critical_nesting kx zk_cpu_trigger_pendsv with_g_switch_next_tcb].
  split.
  { split; [exact Hwfc|]. split.
    { cbn [g_current_tcb tcbs lists with_pendsv_pending with_g_current_tcb
           with_zk_critical_nesting kx zk_cpu_trigger_pendsv with_g_switch_next_tcb].
      unfold on_its_ready_list.
      cbn [g_current_tcb tcbs lists with_pendsv_pending with_g_current_tcb
           with_zk_critical_nesting kx zk_cpu_trigger_pendsv with_g_switch_next_tcb].
      rewrite Htcw. split.
      { destruct Hcur as (HpT & _). fold pT in HpT. unfold ZK_PRIORITY_NUM in *. lia. }
      split; [|exact Hin]. by apply Hwfc. }
    split.
    { unfold is_scheduler_suspending in *. cbn. rewrite Hkc. exact Hrun. }
    split; [done|]. split; [done|]. cbn. rewrite Hkc. exact Htime. }
  split; [rewrite Hkc; exact Hsem|].
  split.
  { rewrite Hmc by done. rewrite Hmb. by lookups. }
  split; [exact Hstc|]. split; [exact Hreadyc|]. split; [done|].
  intros Hclear. unfold sem_get_internal_resume. cbn.
  rewrite Hflag, Htb. lookups. cbn. rewrite Hclear.
  by destruct (decide (EVENT_NO_TIMEOUT = EVENT_WAIT_TIMEOUT)).
Qed.

End release.

Lemma waiting_lists_wf : lists_wf waiting_lists.
Proof.
  split.
  - intros h. simpl. repeat case_decide; try apply NoDup_singleton; apply NoDup_nil_2.
  - intros n h. simpl.
    destruct (decide (n = event_sleep_list 2)) as [->|Hn2];
      [|destruct (decide (n = state_node 1)) as [->|Hn1];
        [|destruct (decide (n = state_node 0)) as [->|Hn0]]];
    (destruct (decide (h = wait_list 0)) as [->|Hh3];
      [|destruct (decide (h = ready_list 5)) as [->|Hh5];
        [|destruct (decide (h = ready_list 31)) as [->|Hh31]]]);
    rewrite ?list_elem_of_singleton, ?elem_of_nil;
    (split; [intros Hn|intros Hs]);
    try reflexivity; try solve [inversion Hn]; try solve [inversion Hs].
  all: try (inversion Hs; subst h; by destruct Hh3 + by destruct Hh5 + by destruct Hh31).
  all: subst n; by destruct Hn2 + by destruct Hn1 + by destruct Hn0.
Qed.

Lemma task_2_waiting_written_out_wf : kernel_wf task_2_waiting_written_out.
Proof.
  assert (Hp1 : priority (tcbs task_2_waiting 1) = 5) by (vm_compute; reflexivity).
  assert (Hp0 : priority (tcbs task_2_waiting 0) = 31) by (vm_compute; reflexivity).
  assert (Hbits : priority_active task_2_waiting = 2147483680) by (vm_compute; reflexivity).
  assert (Hcur : g_current_tcb task_2_waiting = 1%nat) by (vm_compute; reflexivity).
  assert (Hnest : scheduler_suspend_nesting task_2_waiting = 0) by (vm_compute; reflexivity).
  assert (Hcrit : zk_critical_nesting task_2_waiting = 0) by (vm_compute; reflexivity).
  assert (Hpend : pendsv_pending task_2_waiting = false) by (vm_compute; reflexivity).
  assert (Hnow : g_current_time task_2_waiting = 0) by (vm_compute; reflexivity).
  unfold task_2_waiting_written_out. generalize dependent task_2_waiting. intros k.
  intros Hp1 Hp0 Hbits Hcur Hnest Hcrit Hpend Hnow.
  split; [split; [|split; [|split; [|split]]]|].
  - exact waiting_lists_wf.
  - intros p n. cbn [lists with_lists tcbs members waiting_lists].
    destruct (decide (ready_list p = wait_list 0)) as [Hp|_]; [discriminate Hp|].
    destruct (decide (ready_list p = ready_list 5)) as [Hp|_];
      [|destruct (decide (ready_list p = ready_list 31)) as [Hp|_]];
    rewrite ?list_elem_of_singleton, ?elem_of_nil.
    + inversion Hp; subst p. intros ->. split; [done|]. by exists 1%nat.
    + inversion Hp; subst p. intros ->. split; [done|]. by exists 0%nat.
    + intros [].
  - intros n. cbn. by intros ?%elem_of_nil.
  - intros n. cbn. by intros ?%elem_of_nil.
  - apply bitmap_check_sound. unfold bitmap_check.
    cbn [lists with_lists priority_active]. rewrite Hbits. vm_compute. reflexivity.
  - unfold on_its_ready_list, is_scheduler_suspending.
    cbn [lists with_lists tcbs g_current_tcb scheduler_suspend_nesting
         zk_critical_nesting pendsv_pending g_current_time].
    rewrite Hcur, Hp1, Hnest, Hcrit, Hpend, Hnow.
    split; [|done]. split; [done|]. split; [done|].
    apply list_elem_of_singleton. done.
Qed.

Lemma sem_release_wakes_the_first_waiter_witness :
  exists k',
    sem_release (H := board) 0 task_2_waiting_written_out = Ok (k', ZK_SUCCESS)
    /\ count <$> g_sem_pool k' !! 0%nat = Some 0
    /\ members (lists k') (wait_list 0) = []
    /\ state (tcbs k' 2) = TASK_READY
    /\ g_current_tcb k' = 2%nat
    /\ snd (sem_get_internal_resume 2 k') = ZK_SUCCESS.
Proof.
  assert (Hc : g_current_tcb task_2_waiting_written_out = 1%nat) by (vm_compute; reflexivity).
  assert (Hp : priority (tcbs task_2_waiting_written_out 1) = 5) by (vm_compute; reflexivity).
  assert (Hp2 : priority (tcbs task_2_waiting_written_out 2) = 3) by (vm_compute; reflexivity).
  assert (Hl : lists task_2_waiting_written_out = waiting_lists) by reflexivity.
  destruct (sem_release_wakes_the_first_waiter (H := board) task_2_waiting_written_out 0
              (mk_sem 0 SEM_USED) 2 [])
    as (k' & Hcall & _ & Hpool & Hwait & Hstate & _ & Hcur & Hresume).
  - exact task_2_waiting_written_out_wf.
  - vm_compute. lia.
  - vm_compute. reflexivity.
  - reflexivity.
  - vm_compute. discriminate.
  - rewrite Hl. reflexivity.
  - vm_compute. reflexivity.
  - rewrite Hl. reflexivity.
  - rewrite Hc, Hp, Hp2. lia.
  - intros q Hq. rewrite Hc, Hp in Hq. rewrite Hl. cbn [members waiting_lists].
    destruct (decide (ready_list q = wait_list 0)) as [Heq|_]; [discriminate Heq|].
    destruct (decide (ready_list q = ready_list 5)) as [Heq|_]; [inversion Heq; lia|].
    destruct (decide (ready_list q = ready_list 31)) as [Heq|_]; [inversion Heq; lia|].
    reflexivity.
  - exists k'. split; [exact Hcall|]. split; [by rewrite Hpool|]. split; [exact Hwait|].
    split; [exact Hstate|]. split; [exact Hcur|]. apply Hresume. vm_compute. reflexivity.
Defined.

(** ** Priority inheritance with a ready owner *)

(** [remove_task_from_ready_list] when the ready list indexed by the
    priority field of the task keeps a member: the bitmap is not touched. *)
Lemma remove_task_from_ready_list_keeps_bit x k h0 p :
  link (lists k) (state_node x) = Some h0 ->
  priority (tcbs k x) = p -> 0 <= p < ZK_PRIORITY_NUM ->
  (<[h0 := remove_node (state_node x) (members (lists k) h0)]> (members (lists k)))
    (ready_list p) <> [] ->
  remove_task_from_ready_list x k
  = Ok (update_tcb x (with_state TASK_UNKNOWN)
          (with_lists
             (mk_lists (<[h0 := remove_node (state_node x) (members (lists k) h0)]>
                          (members (lists k)))
                       (<[state_node x := None]> (link (lists k)))) k)).
Proof.
  intros Hlk Hpx Hp Hne. unfold remove_task_from_ready_list, zk_list_delete. rewrite Hlk.
  cbn [mbind result_bind]. cbn [tcbs with_lists]. rewrite Hpx. unfold ready_list_at.
  destruct (decide (0 <= p < ZK_PRIORITY_NUM)); [|done].
  cbn [mbind result_bind]. rewrite zk_list_is_empty_spec. cbn [lists with_lists members].
  by rewrite bool_decide_eq_false_2.
Qed.

Lemma add_task_to_ready_list_exact x k p :
  link (lists k) (state_node x) = None ->
  priority (tcbs k x) = p -> 0 <= p < ZK_PRIORITY_NUM ->
  add_task_to_ready_list x k
  = Ok (update_tcb x (with_state TASK_READY)
          (set_priority_active p
             (with_lists
                (mk_lists (<[ready_list p := state_node x :: members (lists k) (ready_list p)]>
                             (members (lists k)))
                          (<[state_node x := Some (ready_list p)]> (link (lists k)))) k))).
Proof.
  intros Hlk Hpx Hp. unfold add_task_to_ready_list, ready_list_at. rewrite Hpx.
  destruct (decide (0 <= p < ZK_PRIORITY_NUM)); [|done]. cbn [mbind result_bind].
  unfold zk_list_add_after. rewrite Hlk. cbn [mbind result_bind tcbs with_lists].
  by rewrite Hpx.
Qed.

Lemma add_task_to_endless_block_list_exact k x wait :
  link (lists k) (event_sleep_list x) = None ->
  (forall n, n ∈ members (lists k) wait ->
             (exists t, n = event_sleep_list t) /\ link (lists k) n = Some wait) ->
  exists l,
    add_task_to_endless_block_list x wait BLOCK_SORT_PRIO k
    = Ok (update_tcb x (with_state TASK_ENDLESS_BLOCKED)
            (with_lists
               (mk_lists (<[wait := l]> (members (lists k)))
                         (<[event_sleep_list x := Some wait]> (link (lists k)))) k)).
Proof.
  intros Hev Hwait. unfold add_task_to_endless_block_list.
  rewrite zk_list_is_empty_spec. case_bool_decide as Hempty.
  - unfold zk_list_add_after. rewrite Hev. by eexists.
  - destruct (endless_block_scan_last k x wait (members (lists k) wait)
                (members (lists k) wait) None) as (it & Hit & Hin); [done| |by right|].
    { intros n Hn. split; [done|]. by apply Hwait. }
    apply Hwait in Hin as [_ Hlk].
    destruct (endless_block_scan k x wait None (members (lists k) wait)) as [pos acc].
    simpl in Hit. subst acc. destruct pos.
    + unfold zk_list_add_after. rewrite Hev, Hlk. by eexists.
    + unfold zk_list_add_before. rewrite Hev, Hlk. by eexists.
Qed.

Section inheritance.

Context `{!zk_config}.

(** X26: [mutex_lock] on a mutex held by a less urgent ready task.  In a
    well-formed kernel where the running task is the most urgent ready
    task, a call on a mutex whose holder is ready, less urgent than the
    caller and has this mutex as [holding_mutex] raises the holder to the
    caller's priority and then dereferences a null pointer:
    [mutex_priority_inheritance_chain] puts the holder at the head of the
    caller's ready list, [task_ready_to_block] unlinks the caller's
    [state_node], and [schedule], finding the priorities of the caller and
    of the first ready task equal, calls [zk_list_move_to_tail] on that
    node, whose [pre] and [next] are LIST_NODE_NULL. *)
Theorem mutex_lock_raises_a_ready_holder (k : kernel) (mutex_handle : nat) (m : mutex_t)
  (holder : tcb_ptr) :
  let tcb := g_current_tcb k in
  let p := priority (tcbs k tcb) in
  kernel_wf k ->
  (mutex_handle < MUTEX_MAX_NUM)%nat ->
  g_mutex_pool k !! mutex_handle = Some m ->
  mutex_is_used m = MUTEX_USED -> owner_hold_count m <> 0 ->
  owner m = Some holder -> holder <> tcb ->
  p < owner_priority m -> p < priority (tcbs k holder) ->
  state (tcbs k holder) = TASK_READY -> on_its_ready_list k holder ->
  holding_mutex (tcbs k holder) = Some mutex_handle ->
  (forall n, n ∈ members (lists k) (sleep_list mutex_handle) ->
             exists t, n = event_sleep_list t) ->
  link (lists k) (event_sleep_list tcb) = None ->
  (forall q, 0 <= q < p -> members (lists k) (ready_list q) = []) ->
  mutex_lock mutex_handle k = Fault NULL_DEREFERENCE.
Proof.
  intros T pT (Hwf & Hcur & Hrun & Hnest & Hpend & Htime) Hh Hm Hused Hcount Howner Hholder
    Hprio_m Hprio_o Hstate Hon Hholding Hwait Hev Hurgent.
  fold T in Hcur. pose proof Hwf as (Hl & Hr & _ & _ & Hbits).
  pose proof Hcur as (HpT & HlkT & HinT). fold pT in HpT, HlkT, HinT.
  destruct Hon as (HpO & HlkO & HinO). set (pO := priority (tcbs k holder)) in *.
  assert (HOT : state_node holder <> state_node T) by congruence.
  assert (HpOT : ready_list pO <> ready_list pT) by (intros [=]; lia).
  set (wake := uint32 (g_current_time k + 0xFF)).
  (* the caller records the mutex it waits for *)
  set (kb := update_tcb T (with_holding_mutex (Some mutex_handle))
               (ZK_ENTER_CRITICAL
                  (update_tcb T (with_wake_up_time wake)
                     (update_tcb T (with_event_timeout_wakeup EVENT_NO_TIMEOUT)
                        (ZK_ENTER_CRITICAL k))))).
  assert (HtcbT : priority (tcbs kb T) = pT).
  { unfold kb. rewrite !tcbs_update_tcb. cbn [tcbs ZK_ENTER_CRITICAL with_zk_critical_nesting].
    rewrite !tcbs_update_tcb. destruct (decide (T = T)); done. }
  assert (Htcb : forall t, t <> T -> tcbs kb t = tcbs k t).
  { intros t Ht. unfold kb. rewrite !tcbs_update_tcb.
    cbn [tcbs ZK_ENTER_CRITICAL with_zk_critical_nesting].
    rewrite !tcbs_update_tcb. destruct (decide (T = t)); done. }
  (* the holder moves to the head of the caller's ready list *)
  set (kc := update_tcb holder (with_priority pT) kb).
  set (ls1 := mk_lists (<[ready_list pO := remove_node (state_node holder)
                                             (members (lists k) (ready_list pO))]>
                          (members (lists k)))
                       (<[state_node holder := None]> (link (lists k)))).
  set (kd := update_tcb holder (with_state TASK_UNKNOWN) (with_lists ls1 kc)).
  assert (Hpc : priority (tcbs kc holder) = pT).
  { unfold kc. rewrite tcbs_update_tcb. by destruct (decide (holder = holder)). }
  assert (Hrem : remove_task_from_ready_list holder kc = Ok kd).
  { apply (remove_task_from_ready_list_keeps_bit holder kc (ready_list pO) pT);
      [exact HlkO|exact Hpc|exact HpT|].
    change (members (lists kc)) with (members (lists k)). lookups.
    intros Hnil. rewrite Hnil in HinT. by apply elem_of_nil in HinT. }
  set (ls2 := mk_lists (<[ready_list pT := state_node holder :: members ls1 (ready_list pT)]>
                          (members ls1))
                       (<[state_node holder := Some (ready_list pT)]> (link ls1))).
  set (ke := update_tcb holder (with_state TASK_READY)
               (set_priority_active pT (with_lists ls2 kd))).
  assert (Hpd : priority (tcbs kd holder) = pT).
  { unfold kd. rewrite tcbs_update_tcb. destruct (decide (holder = holder)); [|done].
    exact Hpc. }
  assert (Hadd : add_task_to_ready_list holder kd = Ok ke).
  { apply (add_task_to_ready_list_exact holder kd pT); [|exact Hpd|exact HpT].
    unfold kd. cbn [lists with_lists update_tcb with_tcbs link ls1]. by lookups. }
  assert (Hchange : task_change_priority_temp holder pT kb = Ok ke).
  { unfold task_change_priority_temp. fold kc.
    replace (state (tcbs kc holder)) with TASK_READY.
    2:{ unfold kc. rewrite tcbs_update_tcb. destruct (decide (holder = holder)); [|done].
        cbn [state with_priority]. rewrite (Htcb holder Hholder). by rewrite Hstate. }
    destruct (decide (TASK_READY = TASK_READY)); [|done].
    rewrite Hrem. cbn [mbind result_bind]. exact Hadd. }
  set (kf := update_mutex mutex_handle (with_owner_priority pT) ke).
  assert (Htcbs_f : forall t, tcbs kf t
            = if decide (holder = t)
              then with_state TASK_READY
                     (with_state TASK_UNKNOWN (with_priority pT (tcbs k holder)))
              else tcbs kb t).
  { intros t. unfold kf, ke, kd, kc. cbn [tcbs update_mutex with_g_mutex_pool].
    rewrite !tcbs_update_tcb. cbn [tcbs set_priority_active with_priority_active with_lists].
    rewrite !tcbs_update_tcb. cbn [tcbs with_lists]. rewrite !tcbs_update_tcb.
    repeat case_decide; try congruence. subst t. by rewrite (Htcb holder Hholder). }
  assert (Hpool_f : g_mutex_pool kf !! mutex_handle = Some (with_owner_priority pT m)).
  { unfold kf, update_mutex. cbn [g_mutex_pool with_g_mutex_pool].
    rewrite list_lookup_alter, decide_True by done.
    change (g_mutex_pool ke) with (g_mutex_pool k). by rewrite Hm. }
  assert (Hchain : mutex_priority_inheritance_chain T mutex_handle kb = Ok kf).
  { unfold mutex_priority_inheritance_chain, mutex_at.
    change (g_mutex_pool kb) with (g_mutex_pool k). rewrite Hm. cbn [mbind result_bind].
    rewrite Howner, HtcbT. cbn [mutex_priority_inheritance_chain_loop].
    rewrite (Htcb holder Hholder). fold pO.
    destruct (decide (pO <= pT)); [lia|].
    rewrite Hchange. cbn [mbind result_bind]. fold kf.
    rewrite (Htcbs_f holder). destruct (decide (holder = holder)); [|done].
    cbn [holding_mutex with_state with_priority]. rewrite Hholding.
    unfold mutex_at. rewrite Hpool_f. cbn [mbind result_bind owner with_owner_priority].
    rewrite Howner. rewrite (Htcbs_f holder). destruct (decide (holder = holder)); [|done].
    cbn [priority with_state with_priority].
    destruct (decide (pT <= pT)); [done|lia]. }
  (* the caller leaves its ready list *)
  assert (HlkT_f : link (lists kf) (state_node T) = Some (ready_list pT)).
  { unfold kf, ke, kd. cbn [lists update_mutex with_g_mutex_pool update_tcb with_tcbs
      set_priority_active with_priority_active with_lists link ls2 ls1]. by lookups. }
  assert (Hmembers_f : members (lists kf) (ready_list pT)
                       = state_node holder :: members (lists k) (ready_list pT)).
  { unfold kf, ke, kd. cbn [lists update_mutex with_g_mutex_pool update_tcb with_tcbs
      set_priority_active with_priority_active with_lists members ls2 ls1]. by lookups. }
  assert (HprioT_f : priority (tcbs kf T) = pT).
  { rewrite Htcbs_f. destruct (decide (holder = T)); [done|]. exact HtcbT. }
  set (ls3 := mk_lists (<[ready_list pT := remove_node (state_node T)
                                             (members (lists kf) (ready_list pT))]>
                          (members (lists kf)))
                       (<[state_node T := None]> (link (lists kf)))).
  set (kg := update_tcb T (with_state TASK_UNKNOWN) (with_lists ls3 kf)).
  assert (Hrem_T : remove_task_from_ready_list T kf = Ok kg).
  { apply (remove_task_from_ready_list_keeps_bit T kf (ready_list pT) pT);
      [exact HlkT_f|exact HprioT_f|exact HpT|].
    lookups. rewrite Hmembers_f. simpl.
    destruct (decide (state_node holder = state_node T)); done. }
  destruct (add_task_to_endless_block_list_exact kg T (sleep_list mutex_handle))
    as (l & Hblock).
  { unfold kg, kf, ke, kd. cbn [lists update_mutex with_g_mutex_pool update_tcb with_tcbs
      set_priority_active with_priority_active with_lists link ls3 ls2 ls1]. by lookups. }
  { intros n. unfold kg, kf, ke, kd. cbn [lists update_mutex with_g_mutex_pool update_tcb
      with_tcbs set_priority_active with_priority_active with_lists link members ls3 ls2 ls1].
    lookups. intros Hn. destruct (Hwait n Hn) as (t & ->). split; [by exists t|].
    lookups. by apply Hl. }
  set (kh := update_tcb T (with_state TASK_ENDLESS_BLOCKED)
               (with_lists
                  (mk_lists (<[sleep_list mutex_handle := l]> (members (lists kg)))
                            (<[event_sleep_list T := Some (sleep_list mutex_handle)]>
                               (link (lists kg)))) kg)) in *.
  assert (Hsleep : mutex_sleep T mutex_handle BLOCK_TYPE_ENDLESS
                     (ZK_ENTER_CRITICAL
                        (update_tcb T (with_wake_up_time wake)
                           (update_tcb T (with_event_timeout_wakeup EVENT_NO_TIMEOUT)
                              (ZK_ENTER_CRITICAL k)))) = Ok kh).
  { unfold mutex_sleep. fold kb. unfold mutex_at.
    change (g_mutex_pool kb) with (g_mutex_pool k). rewrite Hm. cbn [mbind result_bind].
    rewrite HtcbT. destruct (decide (pT < owner_priority m)); [|lia].
    rewrite Hchain. cbn [mbind result_bind].
    unfold task_ready_to_block. rewrite Hrem_T. cbn [mbind result_bind]. rewrite Hblock.
    cbn [mbind result_bind]. by destruct (decide (BLOCK_TYPE_ENDLESS = BLOCK_TYPE_TIMEOUT)). }
  (* [schedule] *)
  assert (Hmembers_h : members (lists kh) (ready_list pT)
                       = state_node holder
                         :: remove_node (state_node T) (members (lists k) (ready_list pT))).
  { unfold kh, kg. cbn [lists update_tcb with_tcbs with_lists members ls3]. lookups.
    rewrite Hmembers_f. simpl. destruct (decide (state_node holder = state_node T)); done. }
  assert (Hbits_h : priority_active kh = priority_active (set_priority_active pT k)) by done.
  assert (Hclz : zk_cpu_clz (priority_active kh) = pT).
  { rewrite Hbits_h. unfold ZK_PRIORITY_NUM in HpT.
    destruct (zk_cpu_clz_lowest_set_bit (priority_active (set_priority_active pT k)) pT HpT)
      as (Hc & Hset & _).
    { rewrite testbit_set_priority_active by lia. rewrite bool_decide_eq_true_2 by done.
      apply orb_true_r. }
    set (c := zk_cpu_clz _) in *. destruct (decide (c = pT)) as [|Hne]; [done|]. exfalso.
    rewrite testbit_set_priority_active in Hset by lia.
    rewrite bool_decide_eq_false_2, orb_false_r in Hset by done.
    apply Hbits in Hset; [|unfold ZK_PRIORITY_NUM; lia]. apply Hset. apply Hurgent. lia. }
  assert (Hnext : get_highest_priority_task kh = Ok holder).
  { unfold get_highest_priority_task. rewrite Hclz. unfold ready_list_at.
    destruct (decide (0 <= pT < ZK_PRIORITY_NUM)); [|done]. cbn [mbind result_bind].
    unfold ZK_LIST_GET_FIRST_ENTRY, head_next. by rewrite Hmembers_h. }
  assert (Htcbs_h : forall t, priority (tcbs kh t) = priority (tcbs kf t)).
  { intros t. unfold kh, kg. rewrite !tcbs_update_tcb. cbn [tcbs with_lists].
    rewrite !tcbs_update_tcb. repeat case_decide; try congruence; subst; done. }
  assert (Hsched : schedule kh = Fault NULL_DEREFERENCE).
  { apply (schedule_beside_a_peer_unlinked kh holder).
    - exact Hrun.
    - exact Hnext.
    - change (g_current_tcb kh) with T. rewrite !Htcbs_h, HprioT_f, Htcbs_f.
      by destruct (decide (holder = holder)).
    - change (g_current_tcb kh) with T. by rewrite Htcbs_h, HprioT_f.
    - change (g_current_tcb kh) with T. unfold kh, kg.
      cbn [lists update_tcb with_tcbs with_lists link ls3]. by lookups. }
  unfold mutex_lock, mutex_lock_internal.
  destruct (decide (MUTEX_MAX_NUM <= mutex_handle)%nat); [lia|].
  unfold mutex_at at 1. rewrite Hm. cbn [mbind result_bind]. rewrite Hused.
  destruct (decide (MUTEX_USED = MUTEX_UNUSED)); [done|].
  change (is_scheduler_suspending (ZK_ENTER_CRITICAL k)) with (is_scheduler_suspending k).
  rewrite Hrun. destruct (decide (0 <> 0)); [done|].
  destruct (decide (owner_hold_count m = 0)); [done|].
  rewrite Howner. destruct (decide (Some holder = Some (g_current_tcb k))) as [Heq|_].
  { injection Heq as ->. done. }
  destruct (decide (255 = 0)); [lia|].
  fold T. set (ms := mutex_sleep _ _ _ _). assert (Hms : ms = Ok kh) by exact Hsleep.
  rewrite Hms. cbn [mbind result_bind]. rewrite Hsched. reflexivity.
Qed.

End inheritance.

Lemma holder_preempted_written_out_wf : kernel_wf holder_preempted_written_out.
Proof. apply with_board_lists_wf; vm_compute; reflexivity. Qed.

Lemma mutex_lock_raises_a_ready_holder_witness :
  mutex_lock (H := board) 0 holder_preempted_written_out = Fault NULL_DEREFERENCE.
Proof.
  assert (Hc : g_current_tcb holder_preempted_written_out = 2%nat) by (vm_compute; reflexivity).
  assert (Hp : priority (tcbs holder_preempted_written_out 2) = 3) by (vm_compute; reflexivity).
  assert (Hp1 : priority (tcbs holder_preempted_written_out 1) = 5)
    by (vm_compute; reflexivity).
  assert (Hl : lists holder_preempted_written_out = board_lists) by reflexivity.
  apply (mutex_lock_raises_a_ready_holder (H := board) holder_preempted_written_out 0
           (mk_mutex (Some 1%nat) 1 5 MUTEX_USED None) 1).
  - exact holder_preempted_written_out_wf.
  - vm_compute. lia.
  - vm_compute. reflexivity.
  - reflexivity.
  - discriminate.
  - reflexivity.
  - rewrite Hc. discriminate.
  - rewrite Hc, Hp. vm_compute. reflexivity.
  - rewrite Hc, Hp, Hp1. lia.
  - vm_compute. reflexivity.
  - unfold on_its_ready_list. rewrite Hp1, Hl. split; [unfold ZK_PRIORITY_NUM; lia|].
    split; [reflexivity|].
    apply list_elem_of_singleton. reflexivity.
  - vm_compute. reflexivity.
  - intros n. rewrite Hl. intros Hn. apply elem_of_nil in Hn. destruct Hn.
  - rewrite Hc, Hl. reflexivity.
  - intros q Hq. rewrite Hc, Hp in Hq. rewrite Hl. cbn [members board_lists].
    destruct (decide (ready_list q = ready_list 3)) as [Heq|_]; [inversion Heq; lia|].
    destruct (decide (ready_list q = ready_list 5)) as [Heq|_]; [inversion Heq; lia|].
    destruct (decide (ready_list q = ready_list 31)) as [Heq|_]; [inversion Heq; lia|].
    reflexivity.
Defined.

(** ** Freeing the block above the free blocks *)

Lemma split_by_addr_all_below (addr : Z) (free : list mem_block_t) :
  forall before,
    Forall (fun f => block_addr f <= addr) free ->
    split_by_addr addr before free = (before ++ free, []).
Proof.
  induction free as [|f r IH]; intros before Hall; simpl.
  - by rewrite app_nil_r.
  - apply list.Forall_cons in Hall as [Hf Hr].
    destruct (decide (block_addr f > addr)); [lia|].
    rewrite IH by done. by rewrite <- app_assoc.
Qed.

Lemma mem_merge_free_blocks_above (b : mem_block_t) (free : list mem_block_t) :
  free <> [] -> Forall (fun f => block_addr f <= block_addr b) free ->
  mem_merge_free_blocks b free = free ++ [b].
Proof.
  intros Hne Hall. unfold mem_merge_free_blocks.
  destruct (decide (free = [])); [done|].
  rewrite split_by_addr_all_below by done. reflexivity.
Qed.

Section free_at_the_end.

Context `{!zk_config}.

(** X27: [mem_free] does not merge a block with the free block below it
    when no free block lies above it.  For an initialised heap whose free
    list is not empty and holds only blocks at lower addresses, freeing a
    used block inside the heap appends the block to the free list as it is,
    whatever the address at which the last free block ends:
    [mem_merge_free_blocks] looks for the block below only when its search
    has stopped at a block above. *)
Theorem mem_free_above_the_free_blocks (m : mem_manager_t) (user_addr : Z) (i : nat)
  (b : mem_block_t) :
  let addr := uint32 (user_addr - MEM_BLOCK_ALIGNMENT) in
  is_initialized m = true -> user_addr <> ZK_NULL ->
  base_address m <= addr < uint32 (base_address m + total_size m) ->
  list_find (fun x => block_addr x = addr) (used_list m) = Some (i, b) ->
  MEM_BLOCK_MIN_SIZE <= block_size b <= total_size m ->
  free_list m <> [] ->
  Forall (fun f => block_addr f <= addr) (free_list m) ->
  exists m',
    mem_free user_addr m = Ok m'
    /\ free_list m' = free_list m ++ [b]
    /\ used_list m' = remove_block addr (used_list m)
    /\ available_size m' = uint32 (available_size m + block_size b).
Proof.
  intros addr Hinit Hnull Hrange Hfind Hsize Hne Hall.
  assert (Haddr : block_addr b = addr).
  { apply list_find_Some in Hfind as (_ & Hb & _). exact Hb. }
  unfold mem_free. destruct (decide (user_addr = ZK_NULL)); [done|].
  rewrite Hinit, ZK_ASSERT_true. cbn [mbind result_bind]. fold addr.
  rewrite (bool_decide_eq_true_2 (addr >= base_address m)) by lia.
  rewrite ZK_ASSERT_true. cbn [mbind result_bind].
  rewrite (bool_decide_eq_true_2 (addr < uint32 (base_address m + total_size m))) by lia.
  rewrite ZK_ASSERT_true. cbn [mbind result_bind]. rewrite Hfind.
  rewrite (bool_decide_eq_true_2 (block_size b >= MEM_BLOCK_MIN_SIZE)) by lia.
  rewrite ZK_ASSERT_true. cbn [mbind result_bind].
  rewrite (bool_decide_eq_true_2 (block_size b <= total_size m)) by lia.
  rewrite ZK_ASSERT_true. cbn [mbind result_bind].
  eexists. split; [reflexivity|]. cbn.
  split; [|done]. apply mem_merge_free_blocks_above; [done|]. by rewrite Haddr.
Qed.

End free_at_the_end.

Lemma mem_free_above_the_free_blocks_witness :
  free_list heap_first_block_freed = [mk_block 0x20000000 120]
  /\ exists m',
       mem_free (H := board) 0x20000088 heap_first_block_freed = Ok m'
       /\ free_list m' = [mk_block 0x20000000 120; mk_block 0x20000078 10120]
       /\ available_size m' = 10240.
Proof.
  assert (Hf : free_list heap_first_block_freed = [mk_block 0x20000000 120])
    by (vm_compute; reflexivity).
  split; [exact Hf|].
  destruct (mem_free_above_the_free_blocks (H := board) heap_first_block_freed 0x20000088 0
              (mk_block 0x20000078 10120))
    as (m' & Hfree & Hlist & _ & Havail).
  - vm_compute. reflexivity.
  - vm_compute. discriminate.
  - vm_compute. split; [discriminate|reflexivity].
  - vm_compute. reflexivity.
  - vm_compute. split; discriminate.
  - vm_compute. discriminate.
  - rewrite Hf. constructor; [|constructor]. vm_compute. discriminate.
  - exists m'. split; [exact Hfree|]. split; [rewrite Hlist; vm_compute; reflexivity|].
    rewrite Havail. vm_compute. reflexivity.
Defined.

(** ** Unlocking a mutex after priority inheritance *)

(** [remove_task_from_ready_list], written out: the bit that is cleared is
    the bit of the priority field of the task, and it is cleared when the
    ready list of that priority is empty after the removal. *)
Lemma remove_task_from_ready_list_exact x k h0 p :
  link (lists k) (state_node x) = Some h0 ->
  priority (tcbs k x) = p -> 0 <= p < ZK_PRIORITY_NUM ->
  remove_task_from_ready_list x k
  = Ok (with_priority_active
          (if bool_decide
                ((<[h0 := remove_node (state_node x) (members (lists k) h0)]>
                    (members (lists k))) (ready_list p) = [])
           then priority_active (clear_priority_active p k) else priority_active k)
          (update_tcb x (with_state TASK_UNKNOWN)
             (with_lists
                (mk_lists (<[h0 := remove_node (state_node x) (members (lists k) h0)]>
                             (members (lists k)))
                          (<[state_node x := None]> (link (lists k)))) k))).
Proof.
  intros Hlk Hpx Hp. unfold remove_task_from_ready_list, zk_list_delete. rewrite Hlk.
  cbn [mbind result_bind]. cbn [tcbs with_lists]. rewrite Hpx. unfold ready_list_at.
  destruct (decide (0 <= p < ZK_PRIORITY_NUM)); [|done].
  cbn [mbind result_bind]. rewrite zk_list_is_empty_spec. cbn [lists with_lists members].
  by case_bool_decide.
Qed.

Section hand_over.

Context `{!zk_config}.

(** X28: [mutex_unlock] after priority inheritance.  In a well-formed
    kernel, the running task holds the mutex once, is ready at a priority
    more urgent than its base priority, and is the most urgent ready task;
    the first task on the sleep list of the mutex has the same priority and
    waits without a timeout.  Then [mutex_unlock] returns ZK_SUCCESS, the
    caller is back at its base priority on the ready list of that
    priority, the waiter has left the sleep list, owns the mutex with a
    hold count of 1 and runs, and the kernel is well formed again. *)
Theorem mutex_unlock_restores_the_base_priority (k : kernel) (mutex_handle : nat)
  (m : mutex_t) (waiter : tcb_ptr) (rest : list list_member) :
  let tcb := g_current_tcb k in
  let p := priority (tcbs k tcb) in
  let base := base_priority (tcbs k tcb) in
  kernel_wf k ->
  (mutex_handle < MUTEX_MAX_NUM)%nat ->
  g_mutex_pool k !! mutex_handle = Some m ->
  mutex_is_used m = MUTEX_USED -> owner m = Some tcb -> owner_hold_count m = 1 ->
  holding_mutex (tcbs k tcb) = Some mutex_handle ->
  state (tcbs k tcb) = TASK_READY ->
  p < base < ZK_PRIORITY_NUM -> base <> owner_priority m ->
  members (lists k) (sleep_list mutex_handle) = event_sleep_list waiter :: rest ->
  state (tcbs k waiter) = TASK_ENDLESS_BLOCKED ->
  link (lists k) (state_node waiter) = None ->
  priority (tcbs k waiter) = p ->
  (forall q, 0 <= q < p -> members (lists k) (ready_list q) = []) ->
  exists k',
    mutex_unlock mutex_handle k = Ok (k', ZK_SUCCESS)
    /\ kernel_wf k'
    /\ priority (tcbs k' tcb) = base
    /\ state (tcbs k' tcb) = TASK_READY
    /\ on_its_ready_list k' tcb
    /\ holding_mutex (tcbs k' tcb) = next_mutex m
    /\ g_mutex_pool k' !! mutex_handle = Some (mk_mutex (Some waiter) 1 p MUTEX_USED None)
    /\ members (lists k') (sleep_list mutex_handle) = rest
    /\ state (tcbs k' waiter) = TASK_READY
    /\ holding_mutex (tcbs k' waiter) = Some mutex_handle
    /\ g_current_tcb k' = waiter.
Proof.
  intros T pT pB (Hwf & Hcur & Hrun & Hnest & Hpend & Htime) Hh Hm Hused Howner Hcount
    Hholding HstateT Hbase Hne Hsleep Hstatew Hlinkw Hpw Hurgent.
  fold T in Hcur. pose proof Hwf as (Hl & Hr & Hd & Ht & Hbits).
  pose proof Hcur as (HpT & HlkT & HinT). fold pT in HpT, HlkT, HinT.
  assert (HwT : waiter <> T) by (intros ->; congruence).
  assert (HnwT : state_node waiter <> state_node T) by congruence.
  assert (HpBT : ready_list pB <> ready_list pT) by (intros [=]; lia).
  assert (Hev : link (lists k) (event_sleep_list waiter) = Some (sleep_list mutex_handle)).
  { apply Hl. rewrite Hsleep. apply elem_of_cons. by left. }
  (* the hold count reaches 0 *)
  set (ka := update_mutex mutex_handle (with_owner_hold_count 0) (ZK_ENTER_CRITICAL k)).
  set (m0 := with_owner_hold_count 0 m).
  assert (Hma : mutex_at mutex_handle ka = Ok m0).
  { unfold mutex_at, ka, update_mutex. cbn [g_mutex_pool with_g_mutex_pool].
    rewrite list_lookup_alter, decide_True by done.
    change (g_mutex_pool (ZK_ENTER_CRITICAL k)) with (g_mutex_pool k). by rewrite Hm. }
  (* the caller goes back to its base priority *)
  set (kb := update_tcb T (with_holding_mutex (next_mutex m0)) ka).
  set (kc := update_tcb T (with_priority pB) kb).
  set (ls1 := mk_lists (<[ready_list pT := remove_node (state_node T)
                                             (members (lists k) (ready_list pT))]>
                          (members (lists k)))
                       (<[state_node T := None]> (link (lists k)))).
  set (bits1 := if bool_decide (members ls1 (ready_list pB) = [])
                then priority_active (clear_priority_active pB kc)
                else priority_active kc).
  set (kd := with_priority_active bits1
               (update_tcb T (with_state TASK_UNKNOWN) (with_lists ls1 kc))).
  assert (Hpc : priority (tcbs kc T) = pB).
  { unfold kc. rewrite tcbs_update_tcb. by destruct (decide (T = T)). }
  assert (Hrem : remove_task_from_ready_list T kc = Ok kd).
  { apply (remove_task_from_ready_list_exact T kc (ready_list pT) pB);
      [exact HlkT|exact Hpc|lia]. }
  assert (Hbits1 : forall q, 0 <= q < 32 ->
            Z.testbit bits1 q = Z.testbit (priority_active k) q).
  { intros q Hq. unfold bits1. case_bool_decide as Hempty; [|done].
    rewrite testbit_clear_priority_active by (unfold ZK_PRIORITY_NUM in *; lia).
    change (priority_active kc) with (priority_active k).
    case_bool_decide as Hqp; [|apply andb_true_r]. subst q. cbn [negb].
    rewrite andb_false_r. symmetry. apply not_true_is_false. intros Hset.
    apply Hbits in Hset; [|lia]. apply Hset.
    revert Hempty. unfold ls1. cbn [members]. by lookups. }
  set (ls2 := mk_lists (<[ready_list pB := state_node T :: members ls1 (ready_list pB)]>
                          (members ls1))
                       (<[state_node T := Some (ready_list pB)]> (link ls1))).
  set (ke := update_tcb T (with_state TASK_READY)
               (set_priority_active pB (with_lists ls2 kd))).
  assert (Hadd : add_task_to_ready_list T kd = Ok ke).
  { apply (add_task_to_ready_list_exact T kd pB).
    - unfold kd. cbn [lists with_lists update_tcb with_tcbs with_priority_active link ls1].
      by lookups.
    - unfold kd. cbn [tcbs with_priority_active]. rewrite tcbs_update_tcb.
      destruct (decide (T = T)); [|done]. exact Hpc.
    - lia. }
  assert (Hresume : task_resume_priority T kb = Ok ke).
  { unfold task_resume_priority.
    replace (base_priority (tcbs kb T)) with pB.
    2:{ unfold kb. rewrite tcbs_update_tcb. by destruct (decide (T = T)). }
    fold kc.
    replace (state (tcbs kc T)) with TASK_READY.
    2:{ unfold kc, kb. rewrite !tcbs_update_tcb. destruct (decide (T = T)); [|done].
        cbn [state with_priority with_holding_mutex]. by rewrite <- HstateT. }
    destruct (decide (TASK_READY = TASK_READY)); [|done].
    rewrite Hrem. cbn [mbind result_bind]. exact Hadd. }
  (* the first waiter becomes ready and takes the mutex *)
  assert (Hsleep_e : members (lists ke) (sleep_list mutex_handle)
                     = event_sleep_list waiter :: rest).
  { unfold ke, kd. cbn [lists with_lists update_tcb with_tcbs with_priority_active
      set_priority_active members ls2 ls1]. by lookups. }
  set (kf := update_tcb waiter (with_holding_mutex None) ke).
  set (ls3 := mk_lists (<[sleep_list mutex_handle := rest]> (members ls2))
                       (<[event_sleep_list waiter := None]> (link ls2))).
  set (kg := update_tcb waiter (with_state TASK_UNKNOWN) (with_lists ls3 kf)).
  assert (Htcbs_w : forall k0 f, tcbs (update_tcb waiter f k0) waiter = f (tcbs k0 waiter)).
  { intros k0 f. rewrite tcbs_update_tcb. by destruct (decide (waiter = waiter)). }
  assert (Htcbs_e : tcbs ke waiter = tcbs k waiter).
  { unfold ke, kd, kc, kb, ka.
    rewrite !tcbs_update_tcb. cbn [tcbs set_priority_active with_priority_active with_lists].
    rewrite !tcbs_update_tcb. cbn [tcbs with_lists]. rewrite !tcbs_update_tcb.
    by destruct (decide (T = waiter)). }
  assert (Hremw : remove_task_from_blocked_list waiter kf = Ok kg).
  { unfold remove_task_from_blocked_list, zk_list_delete.
    replace (state (tcbs kf waiter)) with TASK_ENDLESS_BLOCKED.
    2:{ unfold kf. rewrite Htcbs_w, Htcbs_e. cbn [state with_holding_mutex].
        by rewrite Hstatew. }
    destruct (decide (TASK_ENDLESS_BLOCKED = TASK_TIMEOUT_BLOCKED)); [done|].
    cbn [mbind result_bind].
    assert (Hev_f : link (lists kf) (event_sleep_list waiter)
                    = Some (sleep_list mutex_handle)).
    { unfold kf, ke, kd. cbn [lists with_lists update_tcb with_tcbs with_priority_active
        set_priority_active link ls2 ls1]. by lookups. }
    rewrite Hev_f.
    cbn [mbind result_bind].
    change (lists kf) with (lists ke). rewrite Hsleep_e. simpl remove_node.
    destruct (decide (event_sleep_list waiter = event_sleep_list waiter)); [|done].
    reflexivity. }
  set (ls4 := mk_lists (<[ready_list pT := state_node waiter :: members ls3 (ready_list pT)]>
                          (members ls3))
                       (<[state_node waiter := Some (ready_list pT)]> (link ls3))).
  set (kh := update_tcb waiter (with_state TASK_READY)
               (set_priority_active pT (with_lists ls4 kg))).
  assert (Haddw : add_task_to_ready_list waiter kg = Ok kh).
  { apply (add_task_to_ready_list_exact waiter kg pT).
    - unfold kg. cbn [lists with_lists update_tcb with_tcbs link ls3 ls2 ls1]. by lookups.
    - unfold kg, kf. rewrite !Htcbs_w. cbn [tcbs with_lists]. rewrite Htcbs_w, Htcbs_e.
      exact Hpw.
    - exact HpT. }
  set (ki := update_mutex mutex_handle
               (fun m => with_owner_hold_count 1
                           (with_owner_priority (priority (tcbs kh waiter))
                              (with_owner (Some waiter) m))) kh).
  set (kj := update_mutex mutex_handle
               (with_next_mutex (holding_mutex (tcbs ki waiter))) ki).
  set (kl := update_tcb waiter (with_holding_mutex (Some mutex_handle)) kj).
  assert (Hwake : mutex_wakeup T mutex_handle ka = Ok (kl, true)).
  { unfold mutex_wakeup. rewrite Hma. cbn [mbind result_bind].
    replace (holding_mutex (tcbs ka T)) with (Some mutex_handle) by (symmetry; exact Hholding).
    destruct (decide (Some mutex_handle = Some mutex_handle)); [|done].
    fold kb.
    replace (base_priority (tcbs kb T)) with pB.
    2:{ unfold kb. rewrite tcbs_update_tcb. by destruct (decide (T = T)). }
    destruct (decide (pB <> owner_priority m0)); [|done].
    rewrite Hresume. cbn [mbind result_bind].
    rewrite zk_list_is_empty_spec, Hsleep_e. rewrite bool_decide_eq_false_2 by done.
    cbn [negb]. unfold ZK_LIST_GET_FIRST_ENTRY, head_next. rewrite Hsleep_e.
    cbn [mbind result_bind ZK_LIST_GET_OWNER]. fold kf.
    unfold task_block_to_ready. rewrite Hremw. cbn [mbind result_bind]. rewrite Haddw.
    cbn [mbind result_bind]. reflexivity. }
  (* what the kernel holds after the call to [mutex_wakeup] *)
  assert (Htcb_w : tcbs kl waiter
                   = with_holding_mutex (Some mutex_handle)
                       (with_state TASK_READY
                          (with_state TASK_UNKNOWN
                             (with_holding_mutex None (tcbs k waiter))))).
  { unfold kl, kj, ki, kh, kg, kf. rewrite Htcbs_w.
    cbn [tcbs update_mutex with_g_mutex_pool]. rewrite Htcbs_w.
    cbn [tcbs set_priority_active with_priority_active with_lists]. rewrite Htcbs_w.
    cbn [tcbs with_lists]. rewrite Htcbs_w. by rewrite Htcbs_e. }
  assert (Htcb_T : tcbs kl T
                   = with_state TASK_READY
                       (with_state TASK_UNKNOWN
                          (with_priority pB (with_holding_mutex (next_mutex m) (tcbs k T))))).
  { unfold kl, kj, ki, kh, kg, kf, ke, kd, kc, kb, ka.
    rewrite !tcbs_update_tcb. cbn [tcbs update_mutex with_g_mutex_pool].
    rewrite !tcbs_update_tcb. cbn [tcbs set_priority_active with_priority_active with_lists].
    rewrite !tcbs_update_tcb. cbn [tcbs with_lists].
    rewrite !tcbs_update_tcb. cbn [tcbs set_priority_active with_priority_active with_lists].
    rewrite !tcbs_update_tcb. cbn [tcbs with_lists]. rewrite !tcbs_update_tcb.
    destruct (decide (waiter = T)); [done|]. by destruct (decide (T = T)). }
  assert (Htcb_o : forall t, t <> waiter -> t <> T -> tcbs kl t = tcbs k t).
  { intros t Htw HtT. unfold kl, kj, ki, kh, kg, kf, ke, kd, kc, kb, ka.
    rewrite !tcbs_update_tcb. cbn [tcbs update_mutex with_g_mutex_pool].
    rewrite !tcbs_update_tcb. cbn [tcbs set_priority_active with_priority_active with_lists].
    rewrite !tcbs_update_tcb. cbn [tcbs with_lists].
    rewrite !tcbs_update_tcb. cbn [tcbs set_priority_active with_priority_active with_lists].
    rewrite !tcbs_update_tcb. cbn [tcbs with_lists]. rewrite !tcbs_update_tcb.
    destruct (decide (waiter = t)); [done|]. by destruct (decide (T = t)). }
  assert (Hprio : forall t, t <> T -> priority (tcbs kl t) = priority (tcbs k t)).
  { intros t HtT. destruct (decide (t = waiter)) as [->|Htw].
    - by rewrite Htcb_w.
    - by rewrite Htcb_o. }
  assert (Hlists : lists kl = ls4) by reflexivity.
  assert (Hready_T : members ls4 (ready_list pT)
                     = state_node waiter
                       :: remove_node (state_node T) (members (lists k) (ready_list pT))).
  { unfold ls4, ls3, ls2, ls1. cbn [members]. by lookups. }
  assert (Hready_B : members ls4 (ready_list pB)
                     = state_node T :: members (lists k) (ready_list pB)).
  { unfold ls4, ls3, ls2, ls1. cbn [members]. by lookups. }
  assert (Hready_o : forall q, q <> pT -> q <> pB ->
            members ls4 (ready_list q) = members (lists k) (ready_list q)).
  { intros q HqT HqB. unfold ls4, ls3, ls2, ls1. cbn [members]. by lookups. }
  assert (Hmembers_o : forall h, (forall q, h <> ready_list q) ->
            h <> sleep_list mutex_handle -> members ls4 h = members (lists k) h).
  { intros h Hq Hs. unfold ls4, ls3, ls2, ls1. cbn [members].
    rewrite !fn_lookup_insert_ne by (done || (intros Heq; by apply (Hq _))). done. }
  assert (Hlink_o : forall n, n <> state_node T -> n <> state_node waiter ->
            n <> event_sleep_list waiter -> link ls4 n = link (lists k) n).
  { intros n H1 H2 H3. unfold ls4, ls3, ls2, ls1. cbn [link]. by lookups. }
  assert (Hbits_l : forall q, 0 <= q < 32 ->
            Z.testbit (priority_active kl) q
            = Z.testbit (priority_active k) q || bool_decide (q = pB) || bool_decide (q = pT)).
  { intros q Hq. unfold ZK_PRIORITY_NUM in *.
    change (priority_active kl)
      with (priority_active
              (set_priority_active pT (set_priority_active pB (with_priority_active bits1 k)))).
    rewrite !testbit_set_priority_active by lia. cbn [priority_active with_priority_active].
    by rewrite Hbits1. }
  (* [schedule] *)
  assert (Hclz : zk_cpu_clz (priority_active kl) = pT).
  { unfold ZK_PRIORITY_NUM in HpT.
    destruct (zk_cpu_clz_lowest_set_bit (priority_active kl) pT HpT) as (Hc & Hset & _).
    { rewrite Hbits_l by lia. rewrite (bool_decide_eq_true_2 (pT = pT)) by done.
      apply orb_true_r. }
    set (c := zk_cpu_clz _) in *. destruct (decide (c = pT)) as [|Hcne]; [done|]. exfalso.
    rewrite Hbits_l in Hset by lia.
    rewrite (bool_decide_eq_false_2 (c = pT)), (bool_decide_eq_false_2 (c = pB)) in Hset
      by lia.
    rewrite !orb_false_r in Hset.
    apply Hbits in Hset; [|unfold ZK_PRIORITY_NUM; lia]. apply Hset. apply Hurgent. lia. }
  assert (Hnext : get_highest_priority_task kl = Ok waiter).
  { unfold get_highest_priority_task. rewrite Hclz. unfold ready_list_at.
    destruct (decide (0 <= pT < ZK_PRIORITY_NUM)); [|done]. cbn [mbind result_bind].
    unfold ZK_LIST_GET_FIRST_ENTRY, head_next. by rewrite Hlists, Hready_T. }
  assert (Hsched : schedule kl = Ok (zk_cpu_trigger_pendsv (with_g_switch_next_tcb waiter kl))).
  { unfold schedule.
    change (is_scheduler_suspending kl) with (is_scheduler_suspending k). rewrite Hrun.
    destruct (decide (0 <> 0)); [done|]. rewrite Hnext. cbn [mbind result_bind].
    change (g_current_tcb (with_g_switch_next_tcb waiter kl)) with T.
    cbn [tcbs with_g_switch_next_tcb]. rewrite Htcb_w, Htcb_T.
    cbn [priority with_holding_mutex with_state with_priority]. rewrite Hpw.
    destruct (decide (pT <> pB)); [done|lia]. }
  set (kx := zk_cpu_trigger_pendsv (with_g_switch_next_tcb waiter kl)).
  assert (Hexit : ZK_EXIT_CRITICAL kx
                  = with_pendsv_pending false
                      (with_g_current_tcb waiter (with_zk_critical_nesting 0 kx))).
  { unfold ZK_EXIT_CRITICAL.
    replace (zk_critical_nesting kx) with 1 by (cbn; by rewrite Hnest).
    change (uint32 (1 - 1)) with 0. cbn. by destruct (decide (0 = 0)). }
  exists (with_pendsv_pending false
            (with_g_current_tcb waiter (with_zk_critical_nesting 0 kx))).
  split.
  { unfold mutex_unlock. destruct (decide (MUTEX_MAX_NUM <= mutex_handle)%nat); [lia|].
    unfold mutex_at at 1. rewrite Hm. cbn [mbind result_bind]. rewrite Hused.
    destruct (decide (MUTEX_USED = MUTEX_UNUSED)); [done|].
    change (is_scheduler_suspending (ZK_ENTER_CRITICAL k)) with (is_scheduler_suspending k).
    rewrite Hrun. destruct (decide (0 <> 0)); [done|]. rewrite Hcount.
    destruct (decide (1 = 0)); [done|]. rewrite Howner.
    destruct (decide (Some T <> Some (g_current_tcb k))); [done|].
    change (uint32 (1 - 1)) with 0. destruct (decide (0 <> 0)); [done|].
    fold T ka. rewrite Hwake. cbn [mbind result_bind fst snd]. rewrite Hsched.
    cbn [mbind result_bind]. fold kx. by rewrite Hexit. }
  cbn [g_current_tcb tcbs lists g_mutex_pool with_pendsv_pending with_g_current_tcb
       with_zk_critical_nesting kx zk_cpu_trigger_pendsv with_g_switch_next_tcb].
  assert (Hon_T : on_its_ready_list kl T).
  { unfold on_its_ready_list. rewrite Htcb_T, Hlists.
    cbn [priority with_holding_mutex with_state with_priority].
    split; [lia|]. split.
    - unfold ls4, ls3, ls2. cbn [link]. by lookups.
    - rewrite Hready_B. apply elem_of_cons. by left. }
  split; [|split; [by rewrite Htcb_T|split; [by rewrite Htcb_T|split; [exact Hon_T|
    split; [by rewrite Htcb_T|split; [|split; [|split; [by rewrite Htcb_w|
    split; [by rewrite Htcb_w|done]]]]]]]]].
  - (* the kernel is well formed *)
    assert (Hlw : lists_wf ls4).
    { apply lists_wf_add; [| |done].
      - replace ls3 with
          (mk_lists (<[sleep_list mutex_handle
                        := remove_node (event_sleep_list waiter)
                             (members ls2 (sleep_list mutex_handle))]> (members ls2))
                    (<[event_sleep_list waiter := None]> (link ls2))).
        2:{ unfold ls3. f_equal. f_equal.
            change (members ls2 (sleep_list mutex_handle))
              with (members (lists ke) (sleep_list mutex_handle)).
            rewrite Hsleep_e. simpl.
            by destruct (decide (event_sleep_list waiter = event_sleep_list waiter)). }
        apply lists_wf_delete.
        + apply lists_wf_add; [| |done].
          * by apply lists_wf_delete.
          * unfold ls1. cbn [link]. by lookups.
        + unfold ls2, ls1. cbn [link]. by lookups.
      - unfold ls3, ls2, ls1. cbn [link]. by lookups. }
    assert (Hnot_T : forall h t, state_node t ∈ members (lists k) h ->
              h <> ready_list pT -> t <> T).
    { intros h t Hin Hh' ->. apply Hl in Hin. congruence. }
    assert (Hnot_w : forall h t, state_node t ∈ members (lists k) h -> t <> waiter).
    { intros h t Hin ->. apply Hl in Hin. congruence. }
    split; [split; [|split; [|split; [|split]]]|];
      unfold ready_lists_wf, delay_list_wf, timeout_list_wf, bitmap_consistent;
      cbn [tcbs lists priority_active with_pendsv_pending with_g_current_tcb
           with_zk_critical_nesting kx zk_cpu_trigger_pendsv with_g_switch_next_tcb].
    + exact Hlw.
    + intros q n. rewrite Hlists. destruct (decide (q = pT)) as [->|HqT];
        [|destruct (decide (q = pB)) as [->|HqB]].
      * rewrite Hready_T. intros [->|Hin]%elem_of_cons.
        { split; [done|]. exists waiter. split; [done|]. by rewrite Hprio. }
        assert (Hn : n <> state_node T).
        { intros ->. revert Hin. apply remove_node_not_elem. apply Hl. }
        apply remove_node_elem in Hin. destruct (Hr _ _ Hin) as (Hq & t & -> & Hp).
        split; [done|]. exists t. split; [done|]. rewrite Hprio by congruence. exact Hp.
      * rewrite Hready_B. intros [->|Hin]%elem_of_cons.
        { split; [lia|]. exists T. split; [done|]. by rewrite Htcb_T. }
        destruct (Hr _ _ Hin) as (Hq & t & -> & Hp).
        split; [done|]. exists t. split; [done|].
        rewrite Hprio by (by apply (Hnot_T (ready_list pB))). exact Hp.
      * rewrite Hready_o by done. intros Hin.
        destruct (Hr _ _ Hin) as (Hq & t & -> & Hp).
        split; [done|]. exists t. split; [done|].
        rewrite Hprio; [done|]. apply (Hnot_T (ready_list q)); [done|]. intros [=]. lia.
    + intros n. rewrite Hlists, Hmembers_o by done. intros Hin.
      destruct (Hd _ Hin) as (t & -> & Hp). exists t. split; [done|].
      rewrite Hprio by (by apply (Hnot_T delay_list)). exact Hp.
    + intros n. rewrite Hlists, Hmembers_o by done. intros Hin.
      destruct (Ht _ Hin) as (t & -> & Hst & Hlk & Hp). exists t. split; [done|].
      assert (HtT : t <> T) by (by apply (Hnot_T block_timeout_list)).
      assert (Htw : t <> waiter) by (by apply (Hnot_w block_timeout_list)).
      rewrite Htcb_o by done. split; [done|]. split; [|done].
      rewrite Hlink_o by congruence. exact Hlk.
    + intros q Hq. unfold ZK_PRIORITY_NUM in Hq. rewrite Hbits_l by lia. rewrite Hlists.
      destruct (decide (q = pT)) as [->|HqT]; [|destruct (decide (q = pB)) as [->|HqB]].
      * rewrite Hready_T, (bool_decide_eq_true_2 (pT = pT)), orb_true_r by done. done.
      * rewrite Hready_B, (bool_decide_eq_true_2 (pB = pB)), orb_true_r by done. done.
      * rewrite Hready_o by done.
        rewrite (bool_decide_eq_false_2 (q = pT)), (bool_decide_eq_false_2 (q = pB)) by done.
        rewrite !orb_false_r. apply Hbits. unfold ZK_PRIORITY_NUM. lia.
    + cbn [g_current_tcb tcbs lists with_pendsv_pending with_g_current_tcb
           with_zk_critical_nesting kx zk_cpu_trigger_pendsv with_g_switch_next_tcb].
      split.
      { unfold on_its_ready_list.
        cbn [g_current_tcb tcbs lists with_pendsv_pending with_g_current_tcb
             with_zk_critical_nesting kx zk_cpu_trigger_pendsv with_g_switch_next_tcb].
        rewrite Htcb_w, Hlists.
        cbn [priority with_holding_mutex with_state]. rewrite Hpw.
        split; [done|]. split.
        - unfold ls4. cbn [link]. by lookups.
        - rewrite Hready_T. apply elem_of_cons. by left. }
      split; [exact Hrun|]. split; [done|]. split; [done|]. exact Htime.
  - (* the mutex *)
    unfold kl, kj, ki, update_mutex. cbn [g_mutex_pool update_tcb with_tcbs with_g_mutex_pool].
    rewrite !list_lookup_alter, !decide_True by done.
    change (g_mutex_pool kh) with (g_mutex_pool ka).
    unfold ka, update_mutex. cbn [g_mutex_pool with_g_mutex_pool].
    rewrite list_lookup_alter, decide_True by done.
    change (g_mutex_pool (ZK_ENTER_CRITICAL k)) with (g_mutex_pool k). rewrite Hm.
    cbn [fmap option_fmap option_map]. f_equal.
    unfold with_next_mutex, with_owner_hold_count, with_owner_priority, with_owner.
    cbn [owner owner_hold_count owner_priority mutex_is_used next_mutex].
    rewrite Hused. f_equal.
    + unfold kh, kg, kf. rewrite Htcbs_w. cbn [tcbs set_priority_active with_priority_active
        with_lists]. rewrite Htcbs_w. cbn [tcbs with_lists]. rewrite Htcbs_w, Htcbs_e.
      exact Hpw.
    + cbn [tcbs update_mutex with_g_mutex_pool]. unfold kh, kg, kf. rewrite Htcbs_w.
      cbn [tcbs set_priority_active with_priority_active with_lists]. rewrite Htcbs_w.
      cbn [tcbs with_lists]. by rewrite Htcbs_w.
  - (* the sleep list *)
    rewrite Hlists. unfold ls4, ls3. cbn [members]. by lookups.
Qed.

End hand_over.

Lemma raised_lists_wf : lists_wf raised_lists.
Proof.
  split.
  - intros h. simpl. repeat case_decide; try apply NoDup_singleton; apply NoDup_nil_2.
  - intros n h. simpl.
    destruct (decide (n = event_sleep_list 2)) as [->|Hn2];
      [|destruct (decide (n = state_node 1)) as [->|Hn1];
        [|destruct (decide (n = state_node 0)) as [->|Hn0]]];
    (destruct (decide (h = sleep_list 0)) as [->|Hh3];
      [|destruct (decide (h = ready_list 3)) as [->|Hh5];
        [|destruct (decide (h = ready_list 31)) as [->|Hh31]]]);
    rewrite ?list_elem_of_singleton, ?elem_of_nil;
    (split; [intros Hn|intros Hs]);
    try reflexivity; try solve [inversion Hn]; try solve [inversion Hs].
  all: try (inversion Hs; subst h; by destruct Hh3 + by destruct Hh5 + by destruct Hh31).
  all: subst n; by destruct Hn2 + by destruct Hn1 + by destruct Hn0.
Qed.

Lemma holder_raised_written_out_wf : kernel_wf holder_raised_written_out.
Proof.
  assert (Hp1 : priority (tcbs holder_raised 1) = 3) by (vm_compute; reflexivity).
  assert (Hp0 : priority (tcbs holder_raised 0) = 31) by (vm_compute; reflexivity).
  assert (Hbits : priority_active holder_raised = 2147483656) by (vm_compute; reflexivity).
  assert (Hcur : g_current_tcb holder_raised = 1%nat) by (vm_compute; reflexivity).
  assert (Hnest : scheduler_suspend_nesting holder_raised = 0) by (vm_compute; reflexivity).
  assert (Hcrit : zk_critical_nesting holder_raised = 0) by (vm_compute; reflexivity).
  assert (Hpend : pendsv_pending holder_raised = false) by (vm_compute; reflexivity).
  assert (Hnow : g_current_time holder_raised = 21) by (vm_compute; reflexivity).
  unfold holder_raised_written_out. generalize dependent holder_raised. intros k.
  intros Hp1 Hp0 Hbits Hcur Hnest Hcrit Hpend Hnow.
  split; [split; [|split; [|split; [|split]]]|].
  - exact raised_lists_wf.
  - intros p n. cbn [lists with_lists tcbs members raised_lists].
    destruct (decide (ready_list p = sleep_list 0)) as [Hp|_]; [discriminate Hp|].
    destruct (decide (ready_list p = ready_list 3)) as [Hp|_];
      [|destruct (decide (ready_list p = ready_list 31)) as [Hp|_]];
    rewrite ?list_elem_of_singleton, ?elem_of_nil.
    + inversion Hp; subst p. intros ->. split; [done|]. by exists 1%nat.
    + inversion Hp; subst p. intros ->. split; [done|]. by exists 0%nat.
    + intros [].
  - intros n. cbn. by intros ?%elem_of_nil.
  - intros n. cbn. by intros ?%elem_of_nil.
  - apply bitmap_check_sound. unfold bitmap_check.
    cbn [lists with_lists priority_active]. rewrite Hbits. vm_compute. reflexivity.
  - unfold on_its_ready_list, is_scheduler_suspending.
    cbn [lists with_lists tcbs g_current_tcb scheduler_suspend_nesting
         zk_critical_nesting pendsv_pending g_current_time].
    rewrite Hcur, Hp1, Hnest, Hcrit, Hpend, Hnow.
    split; [|split; [done|split; [done|split; [done|lia]]]].
    split; [done|]. split; [done|].
    apply list_elem_of_singleton. done.
Qed.

Lemma mutex_unlock_restores_the_base_priority_witness :
  exists k',
    mutex_unlock (H := board) 0 holder_raised_written_out = Ok (k', ZK_SUCCESS)
    /\ priority (tcbs k' 1) = 5
    /\ g_mutex_pool k' !! 0%nat = Some (mk_mutex (Some 2%nat) 1 3 MUTEX_USED None)
    /\ members (lists k') (sleep_list 0) = []
    /\ g_current_tcb k' = 2%nat.
Proof.
  assert (Hc : g_current_tcb holder_raised_written_out = 1%nat) by (vm_compute; reflexivity).
  assert (Hp : priority (tcbs holder_raised_written_out 1) = 3) by (vm_compute; reflexivity).
  assert (Hb : base_priority (tcbs holder_raised_written_out 1) = 5)
    by (vm_compute; reflexivity).
  assert (Hl : lists holder_raised_written_out = raised_lists) by reflexivity.
  destruct (mutex_unlock_restores_the_base_priority (H := board) holder_raised_written_out 0
              (mk_mutex (Some 1%nat) 1 3 MUTEX_USED None) 2 [])
    as (k' & Hcall & _ & Hprio & _ & _ & _ & Hpool & Hsleep & _ & _ & Hcur).
  - exact holder_raised_written_out_wf.
  - vm_compute. lia.
  - vm_compute. reflexivity.
  - reflexivity.
  - rewrite Hc. reflexivity.
  - reflexivity.
  - rewrite Hc. vm_compute. reflexivity.
  - rewrite Hc. vm_compute. reflexivity.
  - rewrite Hc, Hp, Hb. unfold ZK_PRIORITY_NUM. lia.
  - rewrite Hc, Hb. cbn. lia.
  - rewrite Hl. reflexivity.
  - vm_compute. reflexivity.
  - rewrite Hl. reflexivity.
  - rewrite Hc, Hp. vm_compute. reflexivity.
  - intros q Hq. rewrite Hc, Hp in Hq. rewrite Hl. cbn [members raised_lists].
    destruct (decide (ready_list q = sleep_list 0)) as [Heq|_]; [discriminate Heq|].
    destruct (decide (ready_list q = ready_list 3)) as [Heq|_]; [inversion Heq; lia|].
    destruct (decide (ready_list q = ready_list 31)) as [Heq|_]; [inversion Heq; lia|].
    reflexivity.
  - exists k'. rewrite Hc, Hb in Hprio. rewrite Hc, Hp in Hpool.
    split; [exact Hcall|]. split; [exact Hprio|]. split; [exact Hpool|].
    split; [exact Hsleep|]. exact Hcur.
Defined.

(** ** Unlocking a mutex nobody waits for, after priority inheritance *)

(** [task_resume_priority] on a ready task: the task moves from the ready
    list it is on to the head of the ready list of its base priority, whose
    bit is set; no other bit of the bitmap changes, the bit of the list it
    leaves included. *)
Lemma task_resume_priority_ready k T pT pB :
  link (lists k) (state_node T) = Some (ready_list pT) ->
  state (tcbs k T) = TASK_READY -> base_priority (tcbs k T) = pB ->
  0 <= pB < ZK_PRIORITY_NUM -> pB <> pT ->
  (Z.testbit (priority_active k) pB = true -> members (lists k) (ready_list pB) <> []) ->
  exists k',
    task_resume_priority T k = Ok k'
    /\ tcbs k' T = with_state TASK_READY
                     (with_state TASK_UNKNOWN (with_priority pB (tcbs k T)))
    /\ (forall t, t <> T -> tcbs k' t = tcbs k t)
    /\ members (lists k') (ready_list pB)
       = state_node T :: members (lists k) (ready_list pB)
    /\ members (lists k') (ready_list pT)
       = remove_node (state_node T) (members (lists k) (ready_list pT))
    /\ (forall h, h <> ready_list pB -> h <> ready_list pT ->
                  members (lists k') h = members (lists k) h)
    /\ link (lists k') (state_node T) = Some (ready_list pB)
    /\ (forall n, n <> state_node T -> link (lists k') n = link (lists k) n)
    /\ (forall q, 0 <= q < 32 ->
          Z.testbit (priority_active k') q
          = Z.testbit (priority_active k) q || bool_decide (q = pB))
    /\ k' = with_priority_active (priority_active k')
              (with_tcbs (tcbs k') (with_lists (lists k') k)).
Proof.
  intros Hlk Hstate Hbase HpB Hne Hbit.
  assert (HpBT : ready_list pB <> ready_list pT) by congruence.
  set (kc := update_tcb T (with_priority pB) k).
  set (ls1 := mk_lists (<[ready_list pT := remove_node (state_node T)
                                             (members (lists k) (ready_list pT))]>
                          (members (lists k)))
                       (<[state_node T := None]> (link (lists k)))).
  set (bits1 := if bool_decide (members ls1 (ready_list pB) = [])
                then priority_active (clear_priority_active pB kc)
                else priority_active kc).
  set (kd := with_priority_active bits1
               (update_tcb T (with_state TASK_UNKNOWN) (with_lists ls1 kc))).
  assert (Hpc : priority (tcbs kc T) = pB).
  { unfold kc. rewrite tcbs_update_tcb. by destruct (decide (T = T)). }
  assert (Hrem : remove_task_from_ready_list T kc = Ok kd).
  { by apply (remove_task_from_ready_list_exact T kc (ready_list pT) pB). }
  assert (Hbits1 : forall q, 0 <= q < 32 ->
            Z.testbit bits1 q = Z.testbit (priority_active k) q).
  { intros q Hq. unfold bits1. case_bool_decide as Hempty; [|done].
    rewrite testbit_clear_priority_active by (unfold ZK_PRIORITY_NUM in *; lia).
    change (priority_active kc) with (priority_active k).
    case_bool_decide as Hqp; [|apply andb_true_r]. subst q. cbn [negb].
    rewrite andb_false_r. symmetry. apply not_true_is_false. intros Hset.
    apply Hbit in Hset. apply Hset.
    revert Hempty. unfold ls1. cbn [members]. by lookups. }
  set (ls2 := mk_lists (<[ready_list pB := state_node T :: members ls1 (ready_list pB)]>
                          (members ls1))
                       (<[state_node T := Some (ready_list pB)]> (link ls1))).
  set (ke := update_tcb T (with_state TASK_READY)
               (set_priority_active pB (with_lists ls2 kd))).
  assert (Hadd : add_task_to_ready_list T kd = Ok ke).
  { apply (add_task_to_ready_list_exact T kd pB).
    - unfold kd. cbn [lists with_lists update_tcb with_tcbs with_priority_active link ls1].
      by lookups.
    - unfold kd. cbn [tcbs with_priority_active]. rewrite tcbs_update_tcb.
      destruct (decide (T = T)); [|done]. exact Hpc.
    - exact HpB. }
  exists ke. split.
  { unfold task_resume_priority. rewrite Hbase. fold kc.
    replace (state (tcbs kc T)) with TASK_READY.
    2:{ unfold kc. rewrite tcbs_update_tcb. destruct (decide (T = T)); [|done].
        cbn [state with_priority]. by rewrite Hstate. }
    destruct (decide (TASK_READY = TASK_READY)); [|done].
    rewrite Hrem. cbn [mbind result_bind]. exact Hadd. }
  split.
  { unfold ke, kd, kc. rewrite !tcbs_update_tcb.
    cbn [tcbs set_priority_active with_priority_active with_lists].
    rewrite !tcbs_update_tcb. cbn [tcbs with_lists]. rewrite !tcbs_update_tcb.
    by destruct (decide (T = T)). }
  split.
  { intros t HtT. unfold ke, kd, kc. rewrite !tcbs_update_tcb.
    cbn [tcbs set_priority_active with_priority_active with_lists].
    rewrite !tcbs_update_tcb. cbn [tcbs with_lists]. rewrite !tcbs_update_tcb.
    by destruct (decide (T = t)). }
  split; [cbn; unfold ls1; cbn [members]; by lookups|].
  split; [cbn; by lookups|].
  split; [intros h H1 H2; cbn; by lookups|].
  split; [cbn; by lookups|].
  split; [intros n Hn; cbn; by lookups|].
  split; [|reflexivity].
  intros q Hq. unfold ZK_PRIORITY_NUM in *.
  change (priority_active ke)
    with (priority_active (set_priority_active pB (with_priority_active bits1 k))).
  rewrite testbit_set_priority_active by lia. cbn [priority_active with_priority_active].
  by rewrite Hbits1.
Qed.

Section stale_bit.

Context `{!zk_config}.

(** X29: [mutex_unlock] after priority inheritance, with nobody waiting.
    In a well-formed kernel, the running task holds the mutex once, is
    ready at a priority more urgent than its base priority, alone on the
    ready list of that priority and the most urgent ready task, and the
    sleep list of the mutex is empty.  Then [mutex_unlock] returns
    ZK_SUCCESS with the caller running at its base priority, on the ready
    list of that priority; the ready list it has left is empty while its
    bit of [priority_active] is still set, because
    [remove_task_from_ready_list] tests the list of the priority
    [task_resume_priority] has just restored.  The next call of [schedule]
    takes the head of that empty list for the [state_node] of a task. *)
Theorem mutex_unlock_leaves_a_priority_bit_set (k : kernel) (mutex_handle : nat)
  (m : mutex_t) :
  let tcb := g_current_tcb k in
  let p := priority (tcbs k tcb) in
  let base := base_priority (tcbs k tcb) in
  kernel_wf k ->
  (mutex_handle < MUTEX_MAX_NUM)%nat ->
  g_mutex_pool k !! mutex_handle = Some m ->
  mutex_is_used m = MUTEX_USED -> owner m = Some tcb -> owner_hold_count m = 1 ->
  holding_mutex (tcbs k tcb) = Some mutex_handle ->
  state (tcbs k tcb) = TASK_READY ->
  p < base < ZK_PRIORITY_NUM -> base <> owner_priority m ->
  members (lists k) (sleep_list mutex_handle) = [] ->
  members (lists k) (ready_list p) = [state_node tcb] ->
  (forall q, 0 <= q < p -> members (lists k) (ready_list q) = []) ->
  exists k',
    mutex_unlock mutex_handle k = Ok (k', ZK_SUCCESS)
    /\ g_current_tcb k' = tcb
    /\ priority (tcbs k' tcb) = base
    /\ on_its_ready_list k' tcb
    /\ owner <$> g_mutex_pool k' !! mutex_handle = Some None
    /\ members (lists k') (ready_list p) = []
    /\ Z.testbit (priority_active k') p = true
    /\ schedule k' = Fault NOT_A_TCB.
Proof.
  intros T pT pB (Hwf & Hcur & Hrun & Hnest & Hpend & Htime) Hh Hm Hused Howner Hcount
    Hholding HstateT Hbase Hne Hsleep Hready Hurgent.
  fold T in Hcur. pose proof Hwf as (Hl & Hr & Hd & Ht & Hbits).
  pose proof Hcur as (HpT & HlkT & HinT). fold pT in HpT, HlkT, HinT.
  set (ka := update_mutex mutex_handle (with_owner_hold_count 0) (ZK_ENTER_CRITICAL k)).
  set (m0 := with_owner_hold_count 0 m).
  assert (Hma : mutex_at mutex_handle ka = Ok m0).
  { unfold mutex_at, ka, update_mutex. cbn [g_mutex_pool with_g_mutex_pool].
    rewrite list_lookup_alter, decide_True by done.
    change (g_mutex_pool (ZK_ENTER_CRITICAL k)) with (g_mutex_pool k). by rewrite Hm. }
  set (kb := update_tcb T (with_holding_mutex (next_mutex m0)) ka).
  assert (HtcbT : tcbs kb T = with_holding_mutex (next_mutex m0) (tcbs k T)).
  { unfold kb. rewrite tcbs_update_tcb. by destruct (decide (T = T)). }
  destruct (task_resume_priority_ready kb T pT pB)
    as (ke & Hresume & Htcb_T & Htcb_o & Hmem_B & Hmem_T & Hmem_o & Hlink_T & Hlink_o
        & Hbits_e & Hke).
  { exact HlkT. }
  { rewrite HtcbT. exact HstateT. }
  { by rewrite HtcbT. }
  { lia. }
  { lia. }
  { change (priority_active kb) with (priority_active k).
    change (lists kb) with (lists k). apply Hbits. lia. }
  change (lists kb) with (lists k) in Hmem_B, Hmem_T, Hmem_o, Hlink_o.
  change (priority_active kb) with (priority_active k) in Hbits_e.
  assert (Hsleep_e : members (lists ke) (sleep_list mutex_handle) = []).
  { rewrite Hmem_o by done. exact Hsleep. }
  set (kz := update_mutex mutex_handle
               (fun m => with_next_mutex None
                           (with_owner None (with_owner_priority ZK_MIN_PRIORITY m))) ke).
  assert (Hwake : mutex_wakeup T mutex_handle ka = Ok (kz, false)).
  { unfold mutex_wakeup. rewrite Hma. cbn [mbind result_bind].
    replace (holding_mutex (tcbs ka T)) with (Some mutex_handle) by (symmetry; exact Hholding).
    destruct (decide (Some mutex_handle = Some mutex_handle)); [|done].
    fold kb. rewrite HtcbT. cbn [base_priority with_holding_mutex]. fold pB.
    destruct (decide (pB <> owner_priority m0)) as [_|Hn]; [|exfalso; apply Hn; exact Hne].
    rewrite Hresume. cbn [mbind result_bind].
    rewrite zk_list_is_empty_spec, Hsleep_e. rewrite bool_decide_eq_true_2 by done.
    reflexivity. }
  assert (Hfields : zk_critical_nesting kz = 1 /\ pendsv_pending kz = false
                    /\ is_scheduler_suspending kz = 0 /\ g_current_tcb kz = T).
  { unfold kz, is_scheduler_suspending.
    cbn [zk_critical_nesting pendsv_pending scheduler_suspend_nesting g_current_tcb
         update_mutex with_g_mutex_pool].
    rewrite Hke. cbn. rewrite Hnest. done. }
  destruct Hfields as (Hnest_z & Hpend_z & Hrun_z & Hcur_z).
  assert (Hexit : ZK_EXIT_CRITICAL kz = with_zk_critical_nesting 0 kz).
  { unfold ZK_EXIT_CRITICAL. rewrite Hnest_z. change (uint32 (1 - 1)) with 0.
    cbn [zk_critical_nesting with_zk_critical_nesting pendsv_pending].
    destruct (decide (0 = 0)); [|done]. by rewrite Hpend_z. }
  exists (with_zk_critical_nesting 0 kz).
  split.
  { unfold mutex_unlock. destruct (decide (MUTEX_MAX_NUM <= mutex_handle)%nat); [lia|].
    unfold mutex_at at 1. rewrite Hm. cbn [mbind result_bind]. rewrite Hused.
    destruct (decide (MUTEX_USED = MUTEX_UNUSED)); [done|].
    change (is_scheduler_suspending (ZK_ENTER_CRITICAL k)) with (is_scheduler_suspending k).
    rewrite Hrun. destruct (decide (0 <> 0)); [done|]. rewrite Hcount.
    destruct (decide (1 = 0)); [done|]. rewrite Howner.
    destruct (decide (Some T <> Some (g_current_tcb k))); [done|].
    change (uint32 (1 - 1)) with 0. destruct (decide (0 <> 0)); [done|].
    fold T ka. rewrite Hwake. cbn [mbind result_bind fst snd]. by rewrite Hexit. }
  assert (Hready_e : members (lists ke) (ready_list pT) = []).
  { rewrite Hmem_T, Hready. simpl. by destruct (decide (state_node T = state_node T)). }
  assert (Hbit_T : Z.testbit (priority_active ke) pT = true).
  { unfold ZK_PRIORITY_NUM in HpT. rewrite Hbits_e by lia. apply orb_true_iff. left.
    apply Hbits; [done|]. by rewrite Hready. }
  cbn [g_current_tcb tcbs lists g_mutex_pool priority_active with_zk_critical_nesting kz
       update_mutex with_g_mutex_pool].
  split; [exact Hcur_z|]. split; [by rewrite Htcb_T|].
  split.
  { unfold on_its_ready_list.
    cbn [tcbs lists with_zk_critical_nesting kz update_mutex with_g_mutex_pool].
    rewrite Htcb_T. cbn [priority with_state with_priority].
    split; [lia|]. split; [exact Hlink_T|]. rewrite Hmem_B. apply elem_of_cons. by left. }
  split.
  { rewrite list_lookup_alter, decide_True by done.
    assert (Hpool_e : g_mutex_pool ke = g_mutex_pool ka) by (rewrite Hke; reflexivity).
    rewrite Hpool_e. unfold ka, update_mutex. cbn [g_mutex_pool with_g_mutex_pool].
    rewrite list_lookup_alter, decide_True by done.
    change (g_mutex_pool (ZK_ENTER_CRITICAL k)) with (g_mutex_pool k). by rewrite Hm. }
  split; [exact Hready_e|]. split; [exact Hbit_T|].
  assert (Hclz : zk_cpu_clz (priority_active ke) = pT).
  { unfold ZK_PRIORITY_NUM in HpT.
    destruct (zk_cpu_clz_lowest_set_bit (priority_active ke) pT HpT Hbit_T)
      as (Hc & Hset & _).
    set (c := zk_cpu_clz _) in *. destruct (decide (c = pT)) as [|Hcne]; [done|]. exfalso.
    rewrite Hbits_e in Hset by lia.
    rewrite (bool_decide_eq_false_2 (c = pB)), orb_false_r in Hset by lia.
    apply Hbits in Hset; [|unfold ZK_PRIORITY_NUM; lia]. apply Hset. apply Hurgent. lia. }
  unfold schedule.
  change (is_scheduler_suspending (with_zk_critical_nesting 0 kz))
    with (is_scheduler_suspending kz).
  rewrite Hrun_z. destruct (decide (0 <> 0)); [done|].
  unfold get_highest_priority_task.
  cbn [priority_active lists with_zk_critical_nesting kz update_mutex with_g_mutex_pool].
  rewrite Hclz. unfold ready_list_at.
  destruct (decide (0 <= pT < ZK_PRIORITY_NUM)); [|done]. cbn [mbind result_bind].
  unfold ZK_LIST_GET_FIRST_ENTRY, head_next. by rewrite Hready_e.
Qed.

End stale_bit.

Lemma lone_holder_lists_wf : lists_wf lone_holder_lists.
Proof.
  split.
  - intros h. simpl. repeat case_decide; try apply NoDup_singleton; apply NoDup_nil_2.
  - intros n h. simpl.
    destruct (decide (n = state_node 2)) as [->|Hn2];
      [|destruct (decide (n = state_node 1)) as [->|Hn1];
        [|destruct (decide (n = state_node 0)) as [->|Hn0]]];
    (destruct (decide (h = delay_list)) as [->|Hh3];
      [|destruct (decide (h = ready_list 3)) as [->|Hh5];
        [|destruct (decide (h = ready_list 31)) as [->|Hh31]]]);
    rewrite ?list_elem_of_singleton, ?elem_of_nil;
    (split; [intros Hn|intros Hs]);
    try reflexivity; try solve [inversion Hn]; try solve [inversion Hs].
  all: try (inversion Hs; subst h; by destruct Hh3 + by destruct Hh5 + by destruct Hh31).
  all: subst n; by destruct Hn2 + by destruct Hn1 + by destruct Hn0.
Qed.

Lemma holder_raised_alone_written_out_wf : kernel_wf holder_raised_alone_written_out.
Proof.
  assert (Hp2 : priority (tcbs holder_raised_alone 2) = 3) by (vm_compute; reflexivity).
  assert (Hp1 : priority (tcbs holder_raised_alone 1) = 3) by (vm_compute; reflexivity).
  assert (Hp0 : priority (tcbs holder_raised_alone 0) = 31) by (vm_compute; reflexivity).
  assert (Hbits : priority_active holder_raised_alone = 2147483656)
    by (vm_compute; reflexivity).
  assert (Hcur : g_current_tcb holder_raised_alone = 1%nat) by (vm_compute; reflexivity).
  assert (Hnest : scheduler_suspend_nesting holder_raised_alone = 0)
    by (vm_compute; reflexivity).
  assert (Hcrit : zk_critical_nesting holder_raised_alone = 0) by (vm_compute; reflexivity).
  assert (Hpend : pendsv_pending holder_raised_alone = false) by (vm_compute; reflexivity).
  assert (Hnow : g_current_time holder_raised_alone = 22) by (vm_compute; reflexivity).
  unfold holder_raised_alone_written_out. generalize dependent holder_raised_alone.
  intros k Hp2 Hp1 Hp0 Hbits Hcur Hnest Hcrit Hpend Hnow.
  split; [split; [|split; [|split; [|split]]]|].
  - exact lone_holder_lists_wf.
  - intros p n. cbn [lists with_lists tcbs members lone_holder_lists].
    destruct (decide (ready_list p = delay_list)) as [Hp|_]; [discriminate Hp|].
    destruct (decide (ready_list p = ready_list 3)) as [Hp|_];
      [|destruct (decide (ready_list p = ready_list 31)) as [Hp|_]];
    rewrite ?list_elem_of_singleton, ?elem_of_nil.
    + inversion Hp; subst p. intros ->. split; [done|]. by exists 1%nat.
    + inversion Hp; subst p. intros ->. split; [done|]. by exists 0%nat.
    + intros [].
  - intros n. cbn. intros ->%list_elem_of_singleton. exists 2%nat. split; [done|].
    rewrite Hp2. done.
  - intros n. cbn. by intros ?%elem_of_nil.
  - apply bitmap_check_sound. unfold bitmap_check.
    cbn [lists with_lists priority_active]. rewrite Hbits. vm_compute. reflexivity.
  - unfold on_its_ready_list, is_scheduler_suspending.
    cbn [lists with_lists tcbs g_current_tcb scheduler_suspend_nesting
         zk_critical_nesting pendsv_pending g_current_time].
    rewrite Hcur, Hp1, Hnest, Hcrit, Hpend, Hnow.
    split; [|split; [done|split; [done|split; [done|lia]]]].
    split; [done|]. split; [done|].
    apply list_elem_of_singleton. done.
Qed.

Lemma mutex_unlock_leaves_a_priority_bit_set_witness :
  exists k',
    mutex_unlock (H := board) 0 holder_raised_alone_written_out = Ok (k', ZK_SUCCESS)
    /\ g_current_tcb k' = 1%nat
    /\ priority (tcbs k' 1) = 5
    /\ members (lists k') (ready_list 3) = []
    /\ Z.testbit (priority_active k') 3 = true
    /\ schedule k' = Fault NOT_A_TCB.
Proof.
  assert (Hc : g_current_tcb holder_raised_alone_written_out = 1%nat)
    by (vm_compute; reflexivity).
  assert (Hp : priority (tcbs holder_raised_alone_written_out 1) = 3)
    by (vm_compute; reflexivity).
  assert (Hb : base_priority (tcbs holder_raised_alone_written_out 1) = 5)
    by (vm_compute; reflexivity).
  assert (Hl : lists holder_raised_alone_written_out = lone_holder_lists) by reflexivity.
  destruct (mutex_unlock_leaves_a_priority_bit_set (H := board)
              holder_raised_alone_written_out 0 (mk_mutex (Some 1%nat) 1 3 MUTEX_USED None))
    as (k' & Hcall & Hcur & Hprio & _ & _ & Hempty & Hbit & Hsched).
  - exact holder_raised_alone_written_out_wf.
  - vm_compute. lia.
  - vm_compute. reflexivity.
  - reflexivity.
  - rewrite Hc. reflexivity.
  - reflexivity.
  - rewrite Hc. vm_compute. reflexivity.
  - rewrite Hc. vm_compute. reflexivity.
  - rewrite Hc, Hp, Hb. unfold ZK_PRIORITY_NUM. lia.
  - rewrite Hc, Hb. cbn. lia.
  - rewrite Hl. reflexivity.
  - rewrite Hc, Hp, Hl. reflexivity.
  - intros q Hq. rewrite Hc, Hp in Hq. rewrite Hl. cbn [members lone_holder_lists].
    destruct (decide (ready_list q = delay_list)) as [Heq|_]; [discriminate Heq|].
    destruct (decide (ready_list q = ready_list 3)) as [Heq|_]; [inversion Heq; lia|].
    destruct (decide (ready_list q = ready_list 31)) as [Heq|_]; [inversion Heq; lia|].
    reflexivity.
  - exists k'. rewrite Hc in Hcur. rewrite Hc, Hb in Hprio. rewrite Hc, Hp in Hempty, Hbit.
    split; [exact Hcall|]. split; [exact Hcur|]. split; [exact Hprio|].
    split; [exact Hempty|]. split; [exact Hbit|]. exact Hsched.
Defined.

(** ** The timeout of [sem_get_timeout] *)






